(** * NEXRAD Level-II decoder ([src/python/nexrad_l2.py]): shallow embedding

    Python values are embedded as follows.
    - [int] is [Z]; [bytes] is [list byte]; [str] is [string].
    - A [dict] built by [dict(zip(names, values))] or by a literal is an
      association list in insertion order ([attrs]); the record [dic] of a
      message is an association list from key to sub-dictionary ([record]).
    - A numpy array obtained with [np.frombuffer] is its dtype and the list
      of its elements.
    - An exception is a value of [exn]; a function that may raise returns
      [result].  [warnings.warn] is a logged effect, and so are the
      floating-point warnings of numpy.
    - A [float] and the elements of a float array are IEEE-754 binary64
      and binary32 numbers ([spec_float]), with the rounding of each
      operation.
    - The process-wide structure cache of [_unpack_from_buf] lives in an
      object store ([gmap loc attrs]), so that object identity is visible. *)

From stdpp Require Import gmap.
From Stdlib Require Import ZArith List String Strings.Byte Ascii Bool Lia Sorted.
From Stdlib Require Import SpecFloat.
Import ListNotations.
Open Scope Z_scope.

Local Abbreviation length := List.length.

(** ** Exceptions, results and warnings *)

Inductive exn :=
| StructError          (* struct.error *)
| TypeError
| AttributeError
| ValueError
| KeyError
| IndexError
| OverflowError
| UnicodeDecodeError
| NoRadialsFound.      (* ValueError("No MSG31 records found, cannot read file") *)

Inductive result (A : Type) :=
| Ok (a : A)
| Raise (e : exn).
Arguments Ok {A} a.
Arguments Raise {A} e.

Definition rbind {A B} (m : result A) (k : A -> result B) : result B :=
  match m with
  | Ok a => k a
  | Raise e => Raise e
  end.

(** The floating-point errors that numpy reports with its default
    [np.seterr] (underflow is ignored), and the ufuncs of this module that
    can report one. *)
Inductive fp_error := FpDivideByZero | FpOverflow | FpInvalid.
Inductive ufunc := UfSubtract | UfDivide.

Inductive warning :=
| WIncompleteMsg5        (* "Encountered incomplete MSG5. File may be corrupt." *)
| WMsg29                 (* "Message 29 encountered, not parsing." *)
| WUnsupportedBitSize    (* 'Unsupported bit size: %s. Returning array dtype "B"' *)
| WNoMsg5                (* "No MSG5 detected. Setting to meaningless data. ..." *)
| WRuntime (e : fp_error) (u : ufunc).
    (* numpy's RuntimeWarning, e.g. "divide by zero encountered in divide" *)

(** The parser monad: a computation logs warnings and returns or raises.
    Warnings logged before an exception stay logged. *)
Definition M (A : Type) : Type := list warning * result A.

Definition ret {A} (a : A) : M A := ([], Ok a).
Definition raise {A} (e : exn) : M A := ([], Raise e).
Definition lift {A} (r : result A) : M A := ([], r).
Definition bind {A B} (m : M A) (k : A -> M B) : M B :=
  match m with
  | (w, Ok a) => let '(w', r) := k a in (w ++ w', r)
  | (w, Raise e) => (w, Raise e)
  end.

Notation "x <~ m ;; k" := (bind m (fun x => k))
  (at level 90, m at level 89, right associativity).

(** ** Byte strings *)

Definition bytes := list byte.

Definition byte_val (b : byte) : Z := Z.of_N (Byte.to_N b).

Definition byte_of_Z (z : Z) : byte :=
  match Byte.of_N (Z.to_N z) with
  | Some b => b
  | None => x00
  end.

Definition b_ (s : string) : bytes := list_byte_of_string s.

Definition len {A} (l : list A) : Z := Z.of_nat (length l).

(** Python slice bound: a negative bound counts from the end, and every
    bound is clamped to [0, len]. *)
Definition slice_bound (n i : Z) : Z :=
  if i <? 0 then Z.max 0 (n + i) else Z.min i n.

(** [b[i:j]] *)
Definition slice {A} (b : list A) (i j : Z) : list A :=
  let s := slice_bound (len b) i in
  let e := slice_bound (len b) j in
  firstn (Z.to_nat (e - s)) (skipn (Z.to_nat s) b).

(** [b[i:]] *)
Definition slice_from {A} (b : list A) (i : Z) : list A :=
  skipn (Z.to_nat (slice_bound (len b) i)) b.

(** [l[i]] on a Python list: negative indices count from the end. *)
Definition py_getitem {A} (l : list A) (i : Z) : result A :=
  let j := if i <? 0 then len l + i else i in
  if (j <? 0) || (len l <=? j) then Raise IndexError
  else match nth_error l (Z.to_nat j) with
       | Some a => Ok a
       | None => Raise IndexError
       end.

Definition byte_eqb (a b : byte) : bool := Byte.eqb a b.

Fixpoint bytes_eqb (x y : bytes) : bool :=
  match x, y with
  | [], [] => true
  | a :: x', b :: y' => byte_eqb a b && bytes_eqb x' y'
  | _, _ => false
  end.

(** [b.startswith(p)] *)
Fixpoint starts_with (p b : bytes) : bool :=
  match p, b with
  | [], _ => true
  | a :: p', c :: b' => byte_eqb a c && starts_with p' b'
  | _ :: _, [] => false
  end.

(** [x in y] for two [bytes] objects: [x] occurs in [y] as a contiguous
    run (the empty string occurs in every string). *)
Fixpoint bytes_in (x y : bytes) : bool :=
  starts_with x y ||
  match y with
  | [] => false
  | _ :: y' => bytes_in x y'
  end.

(** ** Values and dictionaries *)

Inductive dtype := U1 | U2.   (* numpy ">u1", ">u2" *)

Definition itemsize (d : dtype) : Z :=
  match d with U1 => 1 | U2 => 2 end.

(** A floating-point number is kept as the term that produced it: the
    IEEE-754 bit pattern read from the file, a Python literal with an
    integral value, and the two 32-bit operations that [get_data] applies.
    [float_value] below gives the number that a term stands for. *)
Inductive pyfloat :=
| FBits32 (bits : Z)            (* struct code "f": value of the binary32 pattern *)
| FBits64 (bits : Z)            (* struct code "d": value of the binary64 pattern *)
| FLit (z : Z)                  (* literals 1.0, 2.0, 66.0, 129.0 *)
| FOfInt (z : Z)                (* an integer array element converted to float32 *)
| FCast32 (a : pyfloat)         (* np.float32(a) *)
| FSub32 (a b : pyfloat)        (* float32 subtraction *)
| FDiv32 (a b : pyfloat).       (* float32 division *)

Inductive val :=
| PInt (z : Z)
| PBytes (b : bytes)
| PFloat (f : pyfloat)
| PArr (d : dtype) (data : list Z)   (* np.frombuffer(..., d) *)
| PEmptyList.                        (* the Python list [] *)

Abbreviation attrs := (list (string * val)).

(** ** Floating-point arithmetic

    A Python [float] and an [np.float64] are binary64 numbers ([prec = 53],
    [emax = 1024]), an [np.float32] is a binary32 number ([prec = 24],
    [emax = 128]).  The operations are those of [SpecFloat], which round to
    nearest, ties to even.  A NaN has no payload and is quiet. *)

(** int to float64, as in [int_array / 1000.0] and [float_array - int] *)
Definition f64_of_Z (z : Z) : spec_float := binary_normalize 53 1024 z 0 false.
Definition f64_div : spec_float -> spec_float -> spec_float := SFdiv 53 1024.
Definition f64_sub : spec_float -> spec_float -> spec_float := SFsub 53 1024.
Definition f64_add : spec_float -> spec_float -> spec_float := SFadd 53 1024.

(** unsigned-integer array element to float32 *)
Definition f32_of_Z (z : Z) : spec_float := binary_normalize 24 128 z 0 false.
Definition f32_sub : spec_float -> spec_float -> spec_float := SFsub 24 128.
Definition f32_div : spec_float -> spec_float -> spec_float := SFdiv 24 128.

(** [np.float32(x)] for a Python float [x] *)
Definition f32_of_f64 (x : spec_float) : spec_float :=
  match x with
  | S754_finite s m e => binary_round 24 128 s m e
  | _ => x
  end.

(** The number that a pattern of [1 + ebits + mbits] bits stands for. *)
Definition float_of_bits (mbits ebits bits : Z) : spec_float :=
  let frac := bits mod 2 ^ mbits in
  let ex := (bits / 2 ^ mbits) mod 2 ^ ebits in
  let s := Z.odd (bits / 2 ^ (mbits + ebits)) in
  let bias := 2 ^ (ebits - 1) - 1 in
  if ex =? 0 then
    match frac with
    | Z.pos m => S754_finite s m (1 - bias - mbits)
    | _ => S754_zero s
    end
  else if ex =? 2 ^ ebits - 1 then
    if frac =? 0 then S754_infinity s else S754_nan
  else
    match frac + 2 ^ mbits with
    | Z.pos m => S754_finite s m (ex - bias - mbits)
    | _ => S754_nan
    end.

(** The number that a float term stands for. *)
Fixpoint float_value (f : pyfloat) : spec_float :=
  match f with
  | FBits32 bits => float_of_bits 23 8 bits
  | FBits64 bits => float_of_bits 52 11 bits
  | FLit z => f64_of_Z z
  | FOfInt z => f32_of_Z z
  | FCast32 a => f32_of_f64 (float_value a)
  | FSub32 a b => f32_sub (float_value a) (float_value b)
  | FDiv32 a b => f32_div (float_value a) (float_value b)
  end.

Definition is_nan (x : spec_float) : bool :=
  match x with S754_nan => true | _ => false end.
Definition is_inf (x : spec_float) : bool :=
  match x with S754_infinity _ => true | _ => false end.
Definition is_zero (x : spec_float) : bool :=
  match x with S754_zero _ => true | _ => false end.
Definition is_finite (x : spec_float) : bool :=
  match x with S754_zero _ | S754_finite _ _ _ => true | _ => false end.

(** The IEEE-754 exceptions that the float32 operation [u] signals on the
    operands [x] and [y], among those that numpy reports: a finite non-zero
    number divided by zero; a result too large to be finite; [0 / 0],
    [inf / inf] and [inf - inf]. *)
Definition fp_signals (u : ufunc) (x y : spec_float) : list fp_error :=
  let r := match u with
           | UfSubtract => f32_sub x y
           | UfDivide => f32_div x y
           end in
  (if is_zero y && is_finite x && negb (is_zero x) && is_inf r
   then [FpDivideByZero] else []) ++
  (if is_finite x && is_finite y && negb (is_zero y) && is_inf r
   then [FpOverflow] else []) ++
  (if is_nan r && negb (is_nan x) && negb (is_nan y)
   then [FpInvalid] else []).

Definition fp_error_eqb (a b : fp_error) : bool :=
  match a, b with
  | FpDivideByZero, FpDivideByZero | FpOverflow, FpOverflow
  | FpInvalid, FpInvalid => true
  | _, _ => false
  end.

(** The warnings of one call of the ufunc [u] on arrays: numpy looks at
    the floating-point status once the loop over the elements is done, and
    issues one [RuntimeWarning] for each kind of error that was signalled,
    in the order divide by zero, overflow, invalid value. *)
Definition ufunc_warnings (u : ufunc) (operands : list (spec_float * spec_float))
  : list warning :=
  let signalled := flat_map (fun xy => fp_signals u (fst xy) (snd xy)) operands in
  map (fun e => WRuntime e u)
      (filter (fun e => existsb (fp_error_eqb e) signalled)
              [FpDivideByZero; FpOverflow; FpInvalid]).

Fixpoint dict_get {V} (d : list (string * V)) (k : string) : option V :=
  match d with
  | [] => None
  | (k', v) :: d' => if String.eqb k' k then Some v else dict_get d' k
  end.

(** [d[k] = v]: replaces in place when the key exists, else appends. *)
Fixpoint dict_set {V} (d : list (string * V)) (k : string) (v : V)
  : list (string * V) :=
  match d with
  | [] => [(k, v)]
  | (k', v') :: d' =>
      if String.eqb k' k then (k', v) :: d' else (k', v') :: dict_set d' k v
  end.

Definition dict_has {V} (d : list (string * V)) (k : string) : bool :=
  match dict_get d k with Some _ => true | None => false end.

Definition dict_values {V} (d : list (string * V)) : list V := map snd d.

(** [d[k]] where an [int] is expected. *)
Definition get_int (d : attrs) (k : string) : result Z :=
  match dict_get d k with
  | Some (PInt z) => Ok z
  | Some _ => Raise TypeError
  | None => Raise KeyError
  end.

(** ** Structure codec *)

(** Format codes of [struct]; with the [">"] prefix there is no padding. *)
Inductive fmt :=
| FB | FH | FI           (* unsigned 1, 2, 4 bytes *)
| Fb | Fh | Fi           (* signed 1, 2, 4 bytes *)
| Ff | Fd                (* float, double *)
| Fs (n : nat).          (* "<n>s" *)

Definition CODE1 := FB.
Definition CODE2 := FH.
Definition INT1 := FB.
Definition INT2 := FH.
Definition INT4 := FI.
Definition REAL4 := Ff.
Definition REAL8 := Fd.
Definition SINT1 := Fb.
Definition SINT2 := Fh.
Definition SINT4 := Fi.

Definition fmt_size (f : fmt) : nat :=
  match f with
  | FB | Fb => 1
  | FH | Fh => 2
  | FI | Fi | Ff => 4
  | Fd => 8
  | Fs n => n
  end.

(** Big-endian unsigned value of a byte string. *)
Definition be_uint (bs : bytes) : Z :=
  fold_left (fun acc b => acc * 256 + byte_val b) bs 0.

Definition to_signed (nbytes : nat) (u : Z) : Z :=
  let m := 2 ^ (8 * Z.of_nat nbytes) in
  if u <? m / 2 then u else u - m.

Definition unpack_field (f : fmt) (bs : bytes) : val :=
  match f with
  | FB | FH | FI => PInt (be_uint bs)
  | Fb | Fh | Fi => PInt (to_signed (fmt_size f) (be_uint bs))
  | Ff => PFloat (FBits32 (be_uint bs))
  | Fd => PFloat (FBits64 (be_uint bs))
  | Fs _ => PBytes bs
  end.

Fixpoint unpack_fields (fs : list fmt) (s : bytes) : list val :=
  match fs with
  | [] => []
  | f :: fs' =>
      unpack_field f (firstn (fmt_size f) s)
        :: unpack_fields fs' (skipn (fmt_size f) s)
  end.

(** [struct.calcsize] *)
Definition calcsize (fs : list fmt) : nat :=
  fold_right (fun f n => (fmt_size f + n)%nat) 0%nat fs.

(** [struct.unpack(fmt, string)]: the string must have exactly the size of
    the format. *)
Definition struct_unpack (fs : list fmt) (s : bytes) : result (list val) :=
  if Nat.eqb (length s) (calcsize fs) then Ok (unpack_fields fs s)
  else Raise StructError.

Definition schema := list (string * fmt).

Definition VOLUME_HEADER : schema :=
  [ ("tape", Fs 9); ("extension", Fs 3); ("date", FI); ("time", FI);
    ("icao", Fs 4) ]%string.

Definition MSG_HEADER : schema :=
  [ ("size", INT2); ("channels", INT1); ("type", INT1); ("seq_id", INT2);
    ("date", INT2); ("ms", INT4); ("segments", INT2); ("seg_num", INT2)
  ]%string.

Definition MSG_31 : schema :=
  [ ("id", Fs 4); ("collect_ms", INT4); ("collect_date", INT2);
    ("azimuth_number", INT2); ("azimuth_angle", REAL4);
    ("compress_flag", CODE1); ("spare_0", INT1); ("radial_length", INT2);
    ("azimuth_resolution", CODE1); ("radial_spacing", CODE1);
    ("elevation_number", INT1); ("cut_sector", INT1);
    ("elevation_angle", REAL4); ("radial_blanking", CODE1);
    ("azimuth_mode", SINT1); ("block_count", INT2);
    ("block_pointer_1", INT4); ("block_pointer_2", INT4);
    ("block_pointer_3", INT4); ("block_pointer_4", INT4);
    ("block_pointer_5", INT4); ("block_pointer_6", INT4);
    ("block_pointer_7", INT4); ("block_pointer_8", INT4);
    ("block_pointer_9", INT4); ("block_pointer_10", INT4) ]%string.

Definition MSG_1 : schema :=
  [ ("collect_ms", INT4); ("collect_date", INT2); ("unambig_range", SINT2);
    ("azimuth_angle", CODE2); ("azimuth_number", INT2);
    ("radial_status", CODE2); ("elevation_angle", INT2);
    ("elevation_number", INT2); ("sur_range_first", CODE2);
    ("doppler_range_first", CODE2); ("sur_range_step", CODE2);
    ("doppler_range_step", CODE2); ("sur_nbins", INT2);
    ("doppler_nbins", INT2); ("cut_sector_num", INT2);
    ("calib_const", REAL4); ("sur_pointer", INT2); ("vel_pointer", INT2);
    ("width_pointer", INT2); ("doppler_resolution", CODE2); ("vcp", INT2);
    ("spare_1", Fs 8); ("spare_2", Fs 2); ("spare_3", Fs 2);
    ("spare_4", Fs 2); ("nyquist_vel", SINT2);
    ("atmos_attenuation", SINT2); ("threshold", SINT2);
    ("spot_blank_status", INT2); ("spare_5", Fs 32) ]%string.

Definition MSG_5 : schema :=
  [ ("msg_size", INT2); ("pattern_type", CODE2); ("pattern_number", INT2);
    ("num_cuts", INT2); ("clutter_map_group", INT2);
    ("doppler_vel_res", CODE1); ("pulse_width", CODE1); ("spare", Fs 10)
  ]%string.

Definition MSG_5_ELEV : schema :=
  [ ("elevation_angle", CODE2); ("channel_config", CODE1);
    ("waveform_type", CODE1); ("super_resolution", CODE1);
    ("prf_number", INT1); ("prf_pulse_count", INT2);
    ("azimuth_rate", CODE2); ("ref_thresh", SINT2); ("vel_thresh", SINT2);
    ("sw_thresh", SINT2); ("zdr_thres", SINT2); ("phi_thres", SINT2);
    ("rho_thres", SINT2); ("edge_angle_1", CODE2); ("dop_prf_num_1", INT2);
    ("dop_prf_pulse_count_1", INT2); ("spare_1", Fs 2);
    ("edge_angle_2", CODE2); ("dop_prf_num_2", INT2);
    ("dop_prf_pulse_count_2", INT2); ("spare_2", Fs 2);
    ("edge_angle_3", CODE2); ("dop_prf_num_3", INT2);
    ("dop_prf_pulse_count_3", INT2); ("spare_3", Fs 2) ]%string.

Definition GENERIC_DATA_BLOCK : schema :=
  [ ("block_type", Fs 1); ("data_name", Fs 3); ("reserved", INT4);
    ("ngates", INT2); ("first_gate", SINT2); ("gate_spacing", SINT2);
    ("thresh", SINT2); ("snr_thres", SINT2); ("flags", CODE1);
    ("word_size", INT1); ("scale", REAL4); ("offset", REAL4) ]%string.

Definition VOLUME_DATA_BLOCK : schema :=
  [ ("block_type", Fs 1); ("data_name", Fs 3); ("lrtup", INT2);
    ("version_major", INT1); ("version_minor", INT1); ("lat", REAL4);
    ("lon", REAL4); ("height", SINT2); ("feedhorn_height", INT2);
    ("refl_calib", REAL4); ("power_h", REAL4); ("power_v", REAL4);
    ("diff_refl_calib", REAL4); ("init_phase", REAL4); ("vcp", INT2);
    ("spare", Fs 2) ]%string.

Definition ELEVATION_DATA_BLOCK : schema :=
  [ ("block_type", Fs 1); ("data_name", Fs 3); ("lrtup", INT2);
    ("atmos", SINT2); ("refl_calib", REAL4) ]%string.

Definition RADIAL_DATA_BLOCK : schema :=
  [ ("block_type", Fs 1); ("data_name", Fs 3); ("lrtup", INT2);
    ("unambig_range", SINT2); ("noise_h", REAL4); ("noise_v", REAL4);
    ("nyquist_vel", SINT2); ("spare", Fs 2) ]%string.

(** [_structure_names] *)
Inductive sname :=
| SVOLUME_HEADER | SMSG_HEADER | SMSG_31 | SMSG_1 | SMSG_5 | SMSG_5_ELEV
| SGENERIC_DATA_BLOCK | SVOLUME_DATA_BLOCK | SELEVATION_DATA_BLOCK
| SRADIAL_DATA_BLOCK.

Global Instance sname_eq_dec : EqDecision sname.
Proof. solve_decision. Defined.

Definition structure (n : sname) : schema :=
  match n with
  | SVOLUME_HEADER => VOLUME_HEADER
  | SMSG_HEADER => MSG_HEADER
  | SMSG_31 => MSG_31
  | SMSG_1 => MSG_1
  | SMSG_5 => MSG_5
  | SMSG_5_ELEV => MSG_5_ELEV
  | SGENERIC_DATA_BLOCK => GENERIC_DATA_BLOCK
  | SVOLUME_DATA_BLOCK => VOLUME_DATA_BLOCK
  | SELEVATION_DATA_BLOCK => ELEVATION_DATA_BLOCK
  | SRADIAL_DATA_BLOCK => RADIAL_DATA_BLOCK
  end.

Definition _structure_content (n : sname) : list string := map fst (structure n).
Definition _structure_format (n : sname) : list fmt := map snd (structure n).
Definition _structure_size (n : sname) : Z :=
  Z.of_nat (calcsize (_structure_format n)).

Definition RECORD_SIZE : Z := 2432.
Definition COMPRESSION_RECORD_SIZE : Z := 12.
Definition CONTROL_WORD_SIZE : Z := 4.

(** [_unpack_structure(string, structure_name)] *)
Definition _unpack_structure (s : bytes) (n : sname) : result attrs :=
  rbind (struct_unpack (_structure_format n) s)
        (fun lst => Ok (combine (_structure_content n) lst)).

(** ** Record parser *)

(** Contents-level view of [_unpack_from_buf(buf, pos, structure_name)]:
    the structure decoded from [buf[pos : pos + size]].  The memoised
    function with its object store is [Cache._unpack_from_buf] below;
    [unpack_from_buf_contents] shows that, on a consistent cache, it
    returns an object with exactly these contents. *)
Definition unpack_from_buf (buf : bytes) (pos : Z) (n : sname) : result attrs :=
  _unpack_structure (slice buf pos (pos + _structure_size n)) n.

(** The sub-dictionaries stored in a message record. *)
Inductive entry :=
| EAttrs (a : attrs)
| ECuts (l : list attrs).     (* dic["cut_parameters"] *)

Definition record := list (string * entry).

(** [msg[k]] where a sub-dictionary is expected. *)
Definition get_attrs (r : record) (k : string) : result attrs :=
  match dict_get r k with
  | Some (EAttrs a) => Ok a
  | Some (ECuts _) => Raise TypeError
  | None => Raise KeyError
  end.

(** The [moments] argument: [None], a single string or a list of strings. *)
Inductive moments_arg :=
| MomNone
| MomStr (s : string)
| MomList (l : list string).

(** Truth value of [moments]: [None], [""] and [[]] are false. *)
Definition moments_truthy (m : moments_arg) : bool :=
  match m with
  | MomNone => false
  | MomStr s => negb (String.eqb s "")
  | MomList l => match l with [] => false | _ => true end
  end.

(** [name in moments].  On a string this is the substring test; it is only
    evaluated when [moments] is true, so never on [None]. *)
Definition in_moments (name : string) (m : moments_arg) : bool :=
  match m with
  | MomNone => false
  | MomStr s => bytes_in (list_byte_of_string name) (list_byte_of_string s)
  | MomList l => existsb (String.eqb name) l
  end.

(** [str.isspace] on the ASCII code points. *)
Definition is_space (b : byte) : bool :=
  let v := byte_val b in
  ((9 <=? v) && (v <=? 13)) || ((28 <=? v) && (v <=? 32)).

Fixpoint lstrip (bs : bytes) : bytes :=
  match bs with
  | b :: bs' => if is_space b then lstrip bs' else bs
  | [] => []
  end.

(** [bs.decode("ascii").strip()] *)
Definition decode_ascii_strip (bs : bytes) : result string :=
  if forallb (fun b => byte_val b <? 128) bs
  then Ok (string_of_list_byte (rev (lstrip (rev (lstrip bs)))))
  else Raise UnicodeDecodeError.

(** Big-endian 16-bit words of a byte string of even length. *)
Fixpoint be_words (bs : bytes) : list Z :=
  match bs with
  | hi :: lo :: bs' => (byte_val hi * 256 + byte_val lo) :: be_words bs'
  | _ => []
  end.

(** [np.frombuffer(bs, dtype)] *)
Definition np_frombuffer (bs : bytes) (d : dtype) : result val :=
  match d with
  | U1 => Ok (PArr U1 (map byte_val bs))
  | U2 => if Nat.even (length bs) then Ok (PArr U2 (be_words bs))
          else Raise ValueError
  end.

(** The second positional argument of [warnings.warn] is the category: it
    must be absent or a subclass of [Warning], otherwise [TypeError] is
    raised and nothing is logged. *)
Inductive category_arg :=
| CatDefault
| CatRuntimeWarning
| CatInt (z : Z).

Definition warnings_warn (w : warning) (c : category_arg) : M unit :=
  match c with
  | CatDefault | CatRuntimeWarning => ([w], Ok tt)
  | CatInt _ => raise TypeError
  end.

Definition moment_names : list string :=
  ["REF"; "VEL"; "SW"; "ZDR"; "PHI"; "RHO"; "CFP"]%string.

(** [_get_msg31_data_block(buf, ptr, moments)] *)
Definition _get_msg31_data_block (buf : bytes) (ptr : Z) (moments : moments_arg)
  : M (string * attrs) :=
  block_name <~ lift (decode_ascii_strip (slice buf (ptr + 1) (ptr + 4))) ;;
  if String.eqb block_name "VOL" then
    dic <~ lift (unpack_from_buf buf ptr SVOLUME_DATA_BLOCK) ;;
    ret (block_name, dic)
  else if String.eqb block_name "ELV" then
    dic <~ lift (unpack_from_buf buf ptr SELEVATION_DATA_BLOCK) ;;
    ret (block_name, dic)
  else if String.eqb block_name "RAD" then
    dic <~ lift (unpack_from_buf buf ptr SRADIAL_DATA_BLOCK) ;;
    ret (block_name, dic)
  else if existsb (String.eqb block_name) moment_names then
    if moments_truthy moments && negb (in_moments block_name moments)
    then ret ("None"%string, [])
    else
      dic <~ lift (unpack_from_buf buf ptr SGENERIC_DATA_BLOCK) ;;
      ngates <~ lift (get_int dic "ngates") ;;
      let ptr2 := ptr + _structure_size SGENERIC_DATA_BLOCK in
      word_size <~ lift (get_int dic "word_size") ;;
      data <~ (if word_size =? 16 then
                 lift (np_frombuffer (slice buf ptr2 (ptr2 + ngates * 2)) U2)
               else if word_size =? 8 then
                 lift (np_frombuffer (slice buf ptr2 (ptr2 + ngates)) U1)
               else
                 _ <~ warnings_warn WUnsupportedBitSize (CatInt word_size) ;;
                 ret PEmptyList) ;;
      ret (block_name, dict_set dic "data" data)
  else ret (block_name, []).

Definition block_pointers : list string :=
  [ "block_pointer_1"; "block_pointer_2"; "block_pointer_3";
    "block_pointer_4"; "block_pointer_5"; "block_pointer_6";
    "block_pointer_7"; "block_pointer_8"; "block_pointer_9";
    "block_pointer_10" ]%string.

(** [d.get(k, 0)] on an integer field *)
Definition get_int_default (d : attrs) (k : string) (dflt : Z) : result Z :=
  match dict_get d k with
  | Some (PInt z) => Ok z
  | Some _ => Raise TypeError
  | None => Ok dflt
  end.

(** The loop over [block_pointers] in [_get_msg31_from_buf]. *)
Fixpoint msg31_blocks (mbuf : bytes) (hdr : attrs) (moments : moments_arg)
  (ps : list string) (dic : record) : M record :=
  match ps with
  | [] => ret dic
  | p :: ps' =>
      v <~ lift (get_int_default hdr p 0) ;;
      if 0 <? v then
        nb <~ _get_msg31_data_block mbuf v moments ;;
        msg31_blocks mbuf hdr moments ps' (dict_set dic (fst nb) (EAttrs (snd nb)))
      else msg31_blocks mbuf hdr moments ps' dic
  end.

(** [_get_msg31_from_buf(buf, pos, dic, moments)]; returns the new cursor
    and the record as mutated. *)
Definition _get_msg31_from_buf (buf : bytes) (pos : Z) (dic : record)
  (moments : moments_arg) : M (Z * record) :=
  header <~ lift (get_attrs dic "header") ;;
  size <~ lift (get_int header "size") ;;
  let msg_size := size * 2 - 4 in
  let msg_header_size := _structure_size SMSG_HEADER in
  let new_pos := pos + msg_header_size + msg_size in
  let mbuf := slice buf (pos + msg_header_size) new_pos in
  msg_31_header <~ lift (unpack_from_buf mbuf 0 SMSG_31) ;;
  dic1 <~ msg31_blocks mbuf msg_31_header moments block_pointers dic ;;
  ret (new_pos, dict_set dic1 "msg_header" (EAttrs msg_31_header)).

(** [_get_msg29_from_buf(pos, dic)] *)
Definition _get_msg29_from_buf (pos : Z) (dic : record) : result Z :=
  rbind (get_attrs dic "header") (fun header =>
  rbind (get_int header "size") (fun msg_size =>
  rbind (if msg_size =? 65535 then
           rbind (get_int header "segments") (fun segments =>
           rbind (get_int header "seg_num") (fun seg_num =>
           Ok (Z.lor (Z.shiftl segments 16) seg_num)))
         else Ok msg_size) (fun msg_size =>
  let msg_header_size := _structure_size SMSG_HEADER in
  Ok (pos + msg_header_size + msg_size)))).

(** Truth value of an integer header field. *)
Definition truthy (z : Z) : bool := negb (z =? 0).

(** [_get_msg1_from_buf(buf, pos, dic, moments=None)] *)
Definition _get_msg1_from_buf (buf : bytes) (pos : Z) (dic : record)
  (moments : moments_arg) : result (Z * record) :=
  let msg_header_size := _structure_size SMSG_HEADER in
  rbind (unpack_from_buf buf (pos + msg_header_size) SMSG_1) (fun msg1_header =>
  let dic := dict_set dic "msg_header" (EAttrs msg1_header) in
  rbind (get_int msg1_header "sur_nbins") (fun sur_nbins =>
  rbind (get_int msg1_header "doppler_nbins") (fun doppler_nbins =>
  rbind (get_int msg1_header "sur_range_step") (fun sur_step =>
  rbind (get_int msg1_header "doppler_range_step") (fun doppler_step =>
  rbind (get_int msg1_header "sur_range_first") (fun sur_first =>
  rbind (get_int msg1_header "doppler_range_first") (fun doppler_first =>
  let doppler_first :=
    if 2 ^ 15 <? doppler_first then doppler_first - 2 ^ 16 else doppler_first in
  rbind (get_int msg1_header "sur_pointer") (fun sur_pointer =>
  rbind (get_int msg1_header "vel_pointer") (fun vel_pointer =>
  rbind (get_int msg1_header "width_pointer") (fun width_pointer =>
  rbind (get_int msg1_header "doppler_resolution") (fun doppler_resolution =>
  rbind
    (if truthy sur_pointer
        && (negb (moments_truthy moments) || in_moments "REF" moments)
     then
       let offset := pos + msg_header_size + sur_pointer in
       rbind (np_frombuffer (slice buf offset (offset + sur_nbins)) U1)
         (fun data =>
            Ok (dict_set dic "REF"
                  (EAttrs [ ("ngates", PInt sur_nbins);
                            ("gate_spacing", PInt sur_step);
                            ("first_gate", PInt sur_first);
                            ("data", data);
                            ("scale", PFloat (FLit 2));
                            ("offset", PFloat (FLit 66)) ]%string)))
     else Ok dic) (fun dic =>
  rbind
    (if truthy vel_pointer
        && (negb (moments_truthy moments) || in_moments "VEL" moments)
     then
       let offset := pos + msg_header_size + vel_pointer in
       rbind (np_frombuffer (slice buf offset (offset + doppler_nbins)) U1)
         (fun data =>
            Ok (dict_set dic "VEL"
                  (EAttrs [ ("ngates", PInt doppler_nbins);
                            ("gate_spacing", PInt doppler_step);
                            ("first_gate", PInt doppler_first);
                            ("data", data);
                            ("scale",
                              PFloat (FLit (if (doppler_resolution =? 4)%Z
                                            then 1%Z else 2%Z)));
                            ("offset", PFloat (FLit 129)) ]%string)))
     else Ok dic) (fun dic =>
  rbind
    (if truthy width_pointer
        && (negb (moments_truthy moments) || in_moments "REF" moments)
     then
       let offset := pos + msg_header_size + width_pointer in
       rbind (np_frombuffer (slice buf offset (offset + doppler_nbins)) U1)
         (fun data =>
            Ok (dict_set dic "SW"
                  (EAttrs [ ("ngates", PInt doppler_nbins);
                            ("gate_spacing", PInt doppler_step);
                            ("first_gate", PInt doppler_first);
                            ("data", data);
                            ("scale", PFloat (FLit 2));
                            ("offset", PFloat (FLit 129)) ]%string)))
     else Ok dic) (fun dic =>
  Ok (pos + RECORD_SIZE, dic))))))))))))))).

(** The loop over the elevation cuts in [_get_msg5_from_buf]: the cuts
    decoded so far are kept when a later one cannot be unpacked. *)
Fixpoint msg5_cuts (buf : bytes) (base : Z) (ixs : list nat) (acc : list attrs)
  : list attrs * result unit :=
  match ixs with
  | [] => (acc, Ok tt)
  | i :: ixs' =>
      let pos2 := base + _structure_size SMSG_5_ELEV * Z.of_nat i in
      match unpack_from_buf buf pos2 SMSG_5_ELEV with
      | Ok c => msg5_cuts buf base ixs' (acc ++ [c])
      | Raise e => (acc, Raise e)
      end
  end.

(** [_get_msg5_from_buf(buf, pos, dic)].  The record is mutated in place, so
    it is returned also when the function raises. *)
Definition _get_msg5_from_buf (buf : bytes) (pos : Z) (dic : record)
  : record * result Z :=
  let msg_header_size := _structure_size SMSG_HEADER in
  let msg5_header_size := _structure_size SMSG_5 in
  match unpack_from_buf buf (pos + msg_header_size) SMSG_5 with
  | Raise e => (dic, Raise e)
  | Ok msg5_header =>
      let dic := dict_set dic "msg5_header" (EAttrs msg5_header) in
      match get_int msg5_header "num_cuts" with
      | Raise e => (dict_set dic "cut_parameters" (ECuts []), Raise e)
      | Ok num_cuts =>
          let '(cuts, r) :=
            msg5_cuts buf (pos + msg_header_size + msg5_header_size)
                      (seq 0 (Z.to_nat num_cuts)) [] in
          (dict_set dic "cut_parameters" (ECuts cuts),
           rbind r (fun _ => Ok (pos + RECORD_SIZE)))
      end
  end.

(** [_get_record_from_buf(buf, pos, moments)].  The call for a type-1
    message does not pass [moments] on, so [_get_msg1_from_buf] runs with
    its default [None]. *)
Definition _get_record_from_buf (buf : bytes) (pos : Z) (moments : moments_arg)
  : M (Z * record) :=
  header <~ lift (unpack_from_buf buf pos SMSG_HEADER) ;;
  let dic : record := [("header"%string, EAttrs header)] in
  msg_type <~ lift (get_int header "type") ;;
  if msg_type =? 31 then
    _get_msg31_from_buf buf pos dic moments
  else if msg_type =? 5 then
    match _get_msg5_from_buf buf pos dic with
    | (dic', Ok new_pos) => ret (new_pos, dic')
    | (dic', Raise StructError) =>
        _ <~ warnings_warn WIncompleteMsg5 CatRuntimeWarning ;;
        ret (pos + RECORD_SIZE, dic')
    | (_, Raise e) => raise e
    end
  else if msg_type =? 29 then
    new_pos <~ lift (_get_msg29_from_buf pos dic) ;;
    _ <~ warnings_warn WMsg29 CatRuntimeWarning ;;
    ret (new_pos, dic)
  else if msg_type =? 1 then
    lift (_get_msg1_from_buf buf pos dic MomNone)
  else
    ret (pos + RECORD_SIZE, dic).

(** ** Container layer: bzip2 stream discovery *)

(** [[m.start() for m in re.finditer(pat, cbuf)]] for a literal pattern:
    the scan goes left to right, and after a match it resumes at the end of
    the match, so matches do not overlap.  [skip] counts the bytes of the
    last match that are still to be passed over. *)
Fixpoint finditer_from (pat : bytes) (skip : nat) (i : Z) (b : bytes) : list Z :=
  match b with
  | [] => []
  | _ :: b' =>
      match skip with
      | S k => finditer_from pat k (i + 1) b'
      | O =>
          if starts_with pat b
          then i :: finditer_from pat (length pat - 1) (i + 1) b'
          else finditer_from pat 0 (i + 1) b'
      end
  end.

Definition finditer_starts (pat cbuf : bytes) : list Z :=
  finditer_from pat 0 0 cbuf.

(** [_get_bzip2_start_indices(cbuf)] *)
Definition _get_bzip2_start_indices (cbuf : bytes) : list Z :=
  let bzip2_start_pos := finditer_starts (b_ "BZh") cbuf in
  filter (fun i => bytes_in (slice cbuf (i + 5) (i + 10)) (b_ "AY&SY"))
         bzip2_start_pos.

(** [np.diff] *)
Fixpoint np_diff (l : list Z) : list Z :=
  match l with
  | a :: (b :: _) as t => (b - a) :: np_diff t
  | _ => []
  end.

(** [enumerate(l)] *)
Definition enumerate {A} (l : list A) : list (nat * A) :=
  combine (seq 0 (length l)) l.

(** The removal of undersized streams in [decode_file]:
    [diffs = np.diff(np.array(start_pos + [len(cbuf)]))] and
    [[j for i, j in enumerate(start_pos) if diffs[i] > 1000]].
    [diffs] has one element per start position, so [diffs[i]] is always in
    range. *)
Definition drop_small_streams (cbuf : bytes) (start_pos : list Z) : list Z :=
  let diffs := np_diff (start_pos ++ [len cbuf]) in
  map snd
      (filter (fun ij => match nth_error diffs (fst ij) with
                         | Some d => 1000 <? d
                         | None => false
                         end)
              (enumerate start_pos)).

(** [self._bzip2_start_pos] as [decode_file] sets it in metadata mode. *)
Definition decode_bzip2_start_pos (cbuf : bytes) : list Z :=
  drop_small_streams cbuf (_get_bzip2_start_indices cbuf).

(** The two magic strings of a stream start, as the specification words
    them: bytes [P..P+3] are ["BZh"] and bytes [P+5..P+10] are ["AY&SY"]. *)
Definition is_stream_start (cbuf : bytes) (P : Z) : bool :=
  bytes_eqb (slice cbuf P (P + 3)) (b_ "BZh")
  && bytes_eqb (slice cbuf (P + 5) (P + 10)) (b_ "AY&SY").

(** Stream discovery as the specification words it: every position with
    the two magic strings, minus every start whose distance to the next
    start (the buffer length for the last) is less than 1000. *)
Definition spec_stream_starts (cbuf : bytes) : list Z :=
  filter (is_stream_start cbuf) (map Z.of_nat (seq 0 (length cbuf))).

Definition spec_discard_small (cbuf : bytes) (starts : list Z) : list Z :=
  map fst
      (filter (fun sn => negb (snd sn - fst sn <? 1000))
              (combine starts (List.tl starts ++ [len cbuf]))).

Definition spec_bzip2_start_pos (cbuf : bytes) : list Z :=
  spec_discard_small cbuf (spec_stream_starts cbuf).

(** ** Structure cache of [_unpack_from_buf], with object identity *)

Module Cache.

(** A dictionary object is named by its location in the store. *)
Abbreviation loc := positive.

(** The module-level state: the store of dictionary objects and the two
    globals [dic_before] and [s_before].  For every structure but
    GENERIC_DATA_BLOCK the entry is the last object (last slice), [None]
    standing for the initial [''].  The GENERIC_DATA_BLOCK entry is a
    dictionary keyed by [product] (which defaults to [None]). *)
Record state := mkState {
  heap : gmap loc attrs;
  dic_before : sname -> option loc;
  dic_before_generic : gmap (option string) loc;
  s_before : sname -> option bytes;
  s_before_generic : gmap (option string) bytes
}.

Definition initial : state :=
  {| heap := ∅;
     dic_before := fun _ => None;
     dic_before_generic := ∅;
     s_before := fun _ => None;
     s_before_generic := ∅ |}.

(** Creation of a new dictionary object. *)
Definition alloc (d : attrs) (h : gmap loc attrs) : loc * gmap loc attrs :=
  let l := fresh (dom h) in (l, <[l := d]> h).

Definition upd {V} (f : sname -> option V) (n : sname) (v : V)
  : sname -> option V :=
  fun m => if decide (m = n) then Some v else f m.

Definition is_generic (n : sname) : bool :=
  if decide (n = SGENERIC_DATA_BLOCK) then true else false.

(** [s_b]: the slice cached for this structure (and product). *)
Definition cached_slice (σ : state) (n : sname) (product : option string)
  : option bytes :=
  if is_generic n then s_before_generic σ !! product else s_before σ n.

(** The dictionary object cached for this structure (and product). *)
Definition cached_dict (σ : state) (n : sname) (product : option string)
  : option loc :=
  if is_generic n then dic_before_generic σ !! product else dic_before σ n.

(** [s != s_b]; a [bytes] object always differs from the initial [''] *)
Definition slice_differs (s : bytes) (s_b : option bytes) : bool :=
  match s_b with
  | Some b => negb (bytes_eqb s b)
  | None => true
  end.

(** [_unpack_from_buf(buf, pos, structure_name, product=None)]: returns
    the location of the resulting dictionary object.  On a hit whose
    cached object is missing the Python code would fail on the lookup;
    this cannot happen in a state reached from [initial]. *)
Definition _unpack_from_buf (buf : bytes) (pos : Z) (n : sname)
  (product : option string) (σ : state) : result loc * state :=
  let size := _structure_size n in
  let s := slice buf pos (pos + size) in
  let s_b := cached_slice σ n product in
  if slice_differs s s_b then
    match _unpack_structure s n with
    | Raise e => (Raise e, σ)
    | Ok d =>
        let '(dic, h1) := alloc d (heap σ) in
        if is_generic n then
          let '(cp, h2) := alloc d h1 in           (* dic.copy() *)
          (Ok dic,
           {| heap := h2;
              dic_before := dic_before σ;
              dic_before_generic := <[product := cp]> (dic_before_generic σ);
              s_before := s_before σ;
              s_before_generic := <[product := s]> (s_before_generic σ) |})
        else
          (Ok dic,
           {| heap := h1;
              dic_before := upd (dic_before σ) n dic;
              dic_before_generic := dic_before_generic σ;
              s_before := upd (s_before σ) n s;
              s_before_generic := s_before_generic σ |})
    end
  else
    if is_generic n then
      match dic_before_generic σ !! product with
      | Some lc =>
          match heap σ !! lc with
          | Some d =>
              let '(dic, h1) := alloc d (heap σ) in   (* .copy() *)
              (Ok dic,
               {| heap := h1;
                  dic_before := dic_before σ;
                  dic_before_generic := dic_before_generic σ;
                  s_before := s_before σ;
                  s_before_generic := s_before_generic σ |})
          | None => (Raise KeyError, σ)
          end
      | None => (Raise KeyError, σ)
      end
    else
      match dic_before σ n with
      | Some lc => (Ok lc, σ)
      | None => (Raise TypeError, σ)
      end.

(** A later mutation [d[k] = v] of the object at [l]. *)
Definition setitem (l : loc) (k : string) (v : val) (σ : state) : state :=
  {| heap := match heap σ !! l with
             | Some d => <[l := dict_set d k v]> (heap σ)
             | None => heap σ
             end;
     dic_before := dic_before σ;
     dic_before_generic := dic_before_generic σ;
     s_before := s_before σ;
     s_before_generic := s_before_generic σ |}.

(** The cache is consistent: a cached slice comes with a cached object
    that is in the store and holds the decoding of that slice. *)
Definition consistent (σ : state) : Prop :=
  forall n product s,
    cached_slice σ n product = Some s ->
    exists lc d,
      cached_dict σ n product = Some lc /\
      heap σ !! lc = Some d /\
      _unpack_structure s n = Ok d.

(** The request at [(buf, pos)] is a cache hit. *)
Definition hit (buf : bytes) (pos : Z) (n : sname)
  (product : option string) (σ : state) : Prop :=
  cached_slice σ n product = Some (slice buf pos (pos + _structure_size n)).

(** The cached-copy property as the specification words it: the hit
    returns a map equal in contents to the cached one but a different
    object. *)
Definition returns_copy (buf : bytes) (pos : Z) (n : sname)
  (product : option string) (σ : state) : Prop :=
  exists l lc d σ',
    _unpack_from_buf buf pos n product σ = (Ok l, σ') /\
    cached_dict σ n product = Some lc /\
    heap σ !! lc = Some d /\
    heap σ' !! l = Some d /\
    l <> lc.

End Cache.

(** The type-specific size rule of the record parser, as the specification
    words it. *)
Definition advance_rule (pos type size segments seg_num : Z) : Z :=
  if type =? 31 then pos + _structure_size SMSG_HEADER + (size * 2 - 4)
  else if type =? 29 then
    let effective_size :=
      if size =? 65535 then Z.lor (Z.shiftl segments 16) seg_num else size in
    pos + _structure_size SMSG_HEADER + effective_size
  else pos + RECORD_SIZE.

(** ** The pre-scan of a gzip file in "min-meta" mode *)

(** One iteration of the loop [while i < len(buf)] that records the offset
    of every radial message: whether [i] is appended to [self.indices], and
    the [size] added to [i]. *)
Definition index_step (buf : bytes) (i : Z) : result (bool * Z) :=
  rbind (unpack_from_buf buf i SMSG_HEADER) (fun header =>
  rbind (get_int header "size") (fun msg_size =>
  rbind (get_int header "type") (fun msg_type =>
  if msg_type =? 31 then
    Ok (true, msg_size * 2 - 4 + _structure_size SMSG_HEADER)
  else if msg_type =? 29 then
    rbind (if msg_size =? 65535 then
             rbind (get_int header "segments") (fun segments =>
             rbind (get_int header "seg_num") (fun seg_num =>
             Ok (Z.lor (Z.shiftl segments 16) seg_num)))
           else Ok msg_size) (fun msg_size =>
    Ok (false, msg_size + _structure_size SMSG_HEADER))
  else Ok (msg_type =? 1, RECORD_SIZE)))).

(** The loop itself; [fuel] bounds the number of iterations, and [None]
    means that the bound was reached. *)
Fixpoint index_loop (fuel : nat) (buf : bytes) (i : Z) (indices : list Z)
  : option (result (list Z)) :=
  if i <? len buf then
    match fuel with
    | O => None
    | S fuel' =>
        match index_step buf i with
        | Raise e => Some (Raise e)
        | Ok (add, size) =>
            index_loop fuel' buf (i + size)
                       (if add then indices ++ [i] else indices)
        end
    end
  else Some (Ok indices).

(** ** [decode_file]: selection of the radial records and scan grouping *)

(** [read_mode]: ["all"], ["all-meta"], ["min-meta"] or a list of
    [[start, end]] positions. *)
Inductive read_mode :=
| RMAll
| RMAllMeta
| RMMinMeta
| RMRanges (l : list (Z * option Z)).

Definition is_min_meta (rm : read_mode) : bool :=
  match rm with RMMinMeta => true | _ => false end.

(** [self._decode_meta] *)
Definition decode_meta (rm : read_mode) : bool :=
  match rm with RMAllMeta | RMMinMeta => true | _ => false end.

(** [type(self._read_mode) == str] *)
Definition read_mode_is_str (rm : read_mode) : bool :=
  match rm with RMRanges _ => false | _ => true end.

(** What the first part of [decode_file] (opening the file, decompression,
    [_read_records]) leaves on the decoder.  Decompression is done by
    [bz2] and [gzip]; it is not modelled, and the outcome of this stage is a
    parameter of [decode_file] below. *)
Record read_stage := {
  _records : list record;
  _records_start_pos : list Z;
  _bzip2_read_indices : list Z;
  _bzip2_start_pos : list Z;
  indices : list Z;                 (* gzip, "min-meta" *)
  indices_select : list Z;          (* gzip, "min-meta" *)
  vcp_read : option record          (* [self.vcp] when [_get_vcp] ran in this stage *)
}.

(** The attributes that [decode_file] sets. *)
Record decoder := {
  _msg_type : Z;
  radial_records : list record;
  scan_msgs : list (list Z);
  nscans : Z;
  scan_startend_pos : option (list (Z * option Z));
  vcp : record
}.

Inductive event :=
| EvWarn (w : warning)
| EvPrint (s : string).

Fixpoint mapM {A B} (f : A -> result B) (l : list A) : result (list B) :=
  match l with
  | [] => Ok []
  | x :: l' => rbind (f x) (fun y => rbind (mapM f l') (fun ys => Ok (y :: ys)))
  end.

(** [any(f(x) for x in l)], which stops at the first true element. *)
Fixpoint anyM {A} (f : A -> result bool) (l : list A) : result bool :=
  match l with
  | [] => Ok false
  | x :: l' => rbind (f x) (fun b => if b then Ok true else anyM f l')
  end.

(** [r["header"]["type"]] *)
Definition record_type (r : record) : result Z :=
  rbind (get_attrs r "header") (fun h => get_int h "type").

(** [m["msg_header"][key]] *)
Definition msg_header_field (key : string) (m : record) : result Z :=
  rbind (get_attrs m "msg_header") (fun h => get_int h key).

(** [l.count(x)] *)
Definition count_of (x : Z) (l : list Z) : Z := len (filter (Z.eqb x) l).

(** [max(msg_types_counts, key=msg_types_counts.get)] over the keys 1 and
    31, in this order: the first key with the greatest count. *)
Definition choose_msg_type (msg_types : list Z) : Z :=
  if count_of 1 msg_types <? count_of 31 msg_types then 31 else 1.

(** The loop that fills [radial_records] and [radial_records_start_pos];
    [start_list] is [_bzip2_read_indices] or [_records_start_pos]. *)
Fixpoint collect_radials (msg_type : Z) (start_list : list Z)
  (irs : list (nat * (record * Z))) : result (list record * list Z) :=
  match irs with
  | [] => Ok ([], [])
  | (i, (r, t)) :: irs' =>
      if t =? msg_type then
        rbind (py_getitem start_list (Z.of_nat i)) (fun p =>
        rbind (collect_radials msg_type start_list irs') (fun rp =>
        Ok (r :: fst rp, p :: snd rp)))
      else collect_radials msg_type start_list irs'
  end.

(** [np.where(l == x)[0]] *)
Definition np_where_eq (l : list Z) (x : Z) : list Z :=
  map (fun ix => Z.of_nat (fst ix)) (filter (fun ix => snd ix =? x) (enumerate l)).

(** [range(a, b)] *)
Definition py_range (a b : Z) : list Z :=
  map (fun k => a + Z.of_nat k) (seq 0 (Z.to_nat (b - a))).

Definition list_min (x : Z) (l : list Z) : Z := fold_left Z.min l x.
Definition list_max (x : Z) (l : list Z) : Z := fold_left Z.max l x.

(** [[np.where(elev_nums == i)[0] for i in range(elev_nums.min(),
    elev_nums.max() + 1)]], for a non-empty [elev_nums]. *)
Definition group_scans (elev_nums : list Z) : list (list Z) :=
  match elev_nums with
  | [] => []
  | e :: es =>
      map (np_where_eq elev_nums)
          (py_range (list_min e es) (list_max e es + 1))
  end.

(** [any(azi_i - azi_numbers[i-1] > 0 and azi_i - azi_numbers[i-1] != step
    for i, azi_i in enumerate(azi_numbers))]; at [i = 0] the index [-1]
    designates the last element. *)
Definition any_wrong_step (azi_numbers : list Z) (step : Z) : result bool :=
  anyM (fun ia =>
          rbind (py_getitem azi_numbers (Z.of_nat (fst ia) - 1)) (fun prev =>
          Ok ((0 <? snd ia - prev) && negb (snd ia - prev =? step))))
       (enumerate azi_numbers).

(** [any(i.get('ngates', -1) == 0 for i in r.values())] *)
Definition any_zero_ngates (r : record) : result bool :=
  anyM (fun e =>
          match e with
          | EAttrs a =>
              match dict_get a "ngates" with
              | Some (PInt z) => Ok (z =? 0)
              | _ => Ok false
              end
          | ECuts _ => Raise AttributeError   (* a list has no [get] *)
          end)
       (dict_values r).

(** The validity check of the "min-meta" pass (the part after
    [read_mode == 'min-meta' and]). *)
Definition min_meta_invalid (bzip2 : bool) (msg_types : list Z)
  (wrong_indices_step : bool) (radial_records : list record)
  (scan_msgs : list (list Z)) : result bool :=
  if 0 <? Z.min (count_of 1 msg_types) (count_of 31 msg_types) then Ok true
  else if wrong_indices_step then Ok true
  else if bzip2 then
    if existsb (fun j => negb (len j =? 1)) scan_msgs then Ok true
    else
      anyM (fun j =>
              rbind (py_getitem j 0) (fun j0 =>
              rbind (py_getitem radial_records j0) any_zero_ngates))
           scan_msgs
  else Ok false.

(** [np.all(np.diff(l) == 1.)] *)
Definition all_unit_steps (l : list Z) : bool := forallb (Z.eqb 1) (np_diff l).

(** The repair of one scan:
    [[msgs[-1]] + [j for i, j in enumerate(msgs[:-1][::-1])
                   if np.all(np.diff(msgs[-(i+2):]) == 1.)]], reversed. *)
Definition repair_scan (msgs : list Z) : result (list Z) :=
  rbind (py_getitem msgs (-1)) (fun last =>
  let kept :=
    map snd
        (filter (fun ij =>
                   all_unit_steps
                     (slice_from msgs (- (Z.of_nat (fst ij) + 2))))
                (enumerate (rev (slice msgs 0 (-1))))) in
  Ok (rev (last :: kept))).

(** The longest trailing run of consecutive integers, as the specification
    words it: walk the list from end to start and stop as soon as a
    non-unit step appears. *)
Fixpoint walk_back (prev : Z) (rest_rev : list Z) : list Z :=
  match rest_rev with
  | [] => []
  | x :: r => if prev - x =? 1 then x :: walk_back x r else []
  end.

Definition trailing_run (msgs : list Z) : list Z :=
  match rev msgs with
  | [] => []
  | last :: r => rev (last :: walk_back last r)
  end.

(** [scan_msgs[j if 0 <= j < len(scan_msgs) else i][0]] *)
Definition first_msg_of (scan_msgs : list (list Z)) (i j : Z) : result Z :=
  let k := if (0 <=? j) && (j <? len scan_msgs) then j else i in
  rbind (py_getitem scan_msgs k) (fun m => py_getitem m 0).

(** One iteration of the loop that fills [scan_startend_pos]. *)
Definition scan_startend (bzip2 : bool) (rm : read_mode) (rs : read_stage)
  (radial_records : list record) (radial_records_start_pos : list Z)
  (scan_msgs : list (list Z)) (i : Z) : result (Z * option Z) :=
  rbind (first_msg_of scan_msgs i (i - 1)) (fun idx_m1 =>
  rbind (first_msg_of scan_msgs i i) (fun idx =>
  rbind (first_msg_of scan_msgs i (i + 1)) (fun idx_p1 =>
  rbind (py_getitem radial_records_start_pos idx_m1) (fun pos_m1 =>
  rbind (py_getitem radial_records_start_pos idx) (fun pos =>
  rbind (py_getitem radial_records_start_pos idx_p1) (fun pos_p1 =>
  if bzip2 then
    if is_min_meta rm then
      rbind (if negb (idx =? idx_m1)
             then py_getitem (_bzip2_start_pos rs) (pos_m1 + 1)
             else py_getitem (_bzip2_start_pos rs) 1) (fun start_pos =>
      rbind (if negb (idx =? idx_p1)
             then rbind (py_getitem (_bzip2_start_pos rs) (pos + 1))
                        (fun e => Ok (Some e))
             else Ok None) (fun end_pos =>
      Ok (start_pos, end_pos)))
    else
      rbind (py_getitem (_bzip2_start_pos rs) pos) (fun start_pos =>
      rbind (if negb (idx =? idx_p1)
             then rbind (py_getitem (_bzip2_start_pos rs) pos_p1)
                        (fun e => Ok (Some e))
             else Ok None) (fun end_pos =>
      Ok (start_pos, end_pos)))
  else
    if is_min_meta rm then
      rbind (py_getitem radial_records idx) (fun r =>
      rbind (msg_header_field "azimuth_number" r) (fun azi_num =>
      rbind (py_getitem (indices_select rs) idx) (fun sel =>
      rbind (py_getitem (indices rs) (Z.max 0 (sel - azi_num + 1)))
            (fun start_pos =>
      rbind (py_getitem radial_records idx_p1) (fun r_p1 =>
      rbind (msg_header_field "azimuth_number" r_p1) (fun azi_num =>
      rbind (if negb (idx =? idx_p1)
             then rbind (py_getitem (indices_select rs) idx_p1) (fun sel_p1 =>
                  rbind (py_getitem (indices rs) (sel_p1 - azi_num + 1))
                        (fun e => Ok (Some e)))
             else Ok None) (fun end_pos =>
      Ok (start_pos, end_pos))))))))
    else
      Ok (pos, if negb (idx =? idx_p1) then Some pos_p1 else None))))))).

(** [_get_vcp]: the first type-5 record, or [{}] with a warning when the
    read mode is a string. *)
Definition _get_vcp (rm : read_mode) (records : list (record * Z))
  : list event * record :=
  match filter (fun rt => snd rt =? 5) records with
  | rt :: _ => ([], fst rt)
  | [] => (if read_mode_is_str rm then [EvWarn WNoMsg5] else [], [])
  end.

Inductive pass_result :=
| Finished (d : decoder) (ev : list event)
| Reopen.          (* print('reopen'); self.decode_file(self._fh, read_mode='all-meta') *)

(** The stride of the gzip "min-meta" sampling. *)
Definition gzip_indices_step : Z := 30.

(** The second half of a decoding pass: scan grouping, the "min-meta"
    validity check, and in metadata mode the repair of the scans and their
    byte ranges. *)
Definition group_and_locate (bzip2 : bool) (rm : read_mode)
  (vcp0 : option record) (rs : read_stage) (msg_types : list Z) (msg_type : Z)
  (radial_records : list record) (radial_records_start_pos : list Z)
  : result pass_result :=
  rbind (mapM (msg_header_field "elevation_number") radial_records)
        (fun elev_nums =>
  let scan_msgs := group_scans elev_nums in
  rbind (mapM (msg_header_field "azimuth_number") radial_records)
        (fun azi_numbers =>
  rbind (if is_min_meta rm && negb bzip2
         then any_wrong_step azi_numbers gzip_indices_step
         else Ok false) (fun wrong_indices_step =>
  rbind (if is_min_meta rm
         then min_meta_invalid bzip2 msg_types wrong_indices_step
                               radial_records scan_msgs
         else Ok false) (fun invalid =>
  if invalid then Ok Reopen else
  let scan_msgs := filter (fun j => negb (len j =? 0)) scan_msgs in
  let nscans := len scan_msgs in
  rbind (if decode_meta rm then
           rbind (mapM repair_scan scan_msgs) (fun repaired =>
           rbind (mapM (scan_startend bzip2 rm rs radial_records
                                      radial_records_start_pos repaired)
                       (py_range 0 (len repaired))) (fun se =>
           Ok (Some se,
               map (fun _ => EvPrint "removing scan msgs")
                   (filter (fun mr => negb (len (fst mr) =? len (snd mr)))
                           (combine repaired scan_msgs)))))
         else Ok (None, [])) (fun se_ev =>
  let ev_vcp :=
    match vcp_read rs, vcp0 with
    | Some v, _ => ([], v)
    | None, Some v => ([], v)
    | None, None => _get_vcp rm (combine (_records rs) msg_types)
    end in
  Ok (Finished {| _msg_type := msg_type;
                  radial_records := radial_records;
                  scan_msgs := scan_msgs;
                  nscans := nscans;
                  scan_startend_pos := fst se_ev;
                  vcp := snd ev_vcp |}
               (snd se_ev ++ fst ev_vcp))))))).

(** The part of [decode_file] that follows [self._read_records(buf)], up
    to the decision to decode again.  [vcp0] is the [vcp] attribute that an
    earlier call left on the object, if any. *)
Definition decode_pass (bzip2 : bool) (rm : read_mode) (vcp0 : option record)
  (rs : read_stage) : result pass_result :=
  rbind (mapM record_type (_records rs)) (fun msg_types =>
  let msg_type := choose_msg_type msg_types in
  let start_list :=
    if decode_meta rm && bzip2 then _bzip2_read_indices rs
    else _records_start_pos rs in
  rbind (collect_radials msg_type start_list
           (enumerate (combine (_records rs) msg_types))) (fun rp =>
  if len (fst rp) =? 0 then Raise NoRadialsFound
  else group_and_locate bzip2 rm vcp0 rs msg_types msg_type (fst rp) (snd rp))).

Inductive outcome :=
| Done (d : decoder)
| Raised (e : exn)
| OutOfFuel.

(** [decode_file], from the point where the file is read.  [read] gives
    the outcome of the read stage for a read mode; the list of read modes
    that is returned has one entry per decoding pass that was started. *)
Fixpoint decode_file (fuel : nat) (bzip2 : bool)
  (read : read_mode -> result read_stage) (vcp0 : option record)
  (rm : read_mode) : list read_mode * list event * outcome :=
  match fuel with
  | O => ([], [], OutOfFuel)
  | S fuel' =>
      match read rm with
      | Raise e => ([rm], [], Raised e)
      | Ok rs =>
          match decode_pass bzip2 rm vcp0 rs with
          | Raise e => ([rm], [], Raised e)
          | Ok (Finished d ev) => ([rm], ev, Done d)
          | Ok Reopen =>
              let vcp1 := match vcp_read rs with
                          | Some v => Some v
                          | None => vcp0
                          end in
              let '(passes, ev, o) :=
                decode_file fuel' bzip2 read vcp1 RMAllMeta in
              (rm :: passes, EvPrint "reopen" :: ev, o)
          end
      end
  end.

(** ** Query surface *)

(** [self._msg_nums(scans)]: [np.concatenate] refuses an empty list. *)
Definition _msg_nums (d : decoder) (scans : list Z) : result (list Z) :=
  rbind (mapM (py_getitem (scan_msgs d)) scans) (fun arrs =>
  match arrs with
  | [] => Raise ValueError
  | _ => Ok (List.concat arrs)
  end).

(** [scans] defaults to [range(self.nscans)]. *)
Definition scans_or_all (d : decoder) (scans : option (list Z)) : list Z :=
  match scans with
  | Some l => l
  | None => py_range 0 (nscans d)
  end.

(** [self._radial_array(scans, key)] *)
Definition _radial_array (d : decoder) (scans : list Z) (key : string)
  : result (list Z) :=
  rbind (_msg_nums d scans) (fun msg_nums =>
  mapM (fun i => rbind (py_getitem (radial_records d) i)
                       (msg_header_field key)) msg_nums).

(** [int(x)] on a float: truncation toward zero; [int(nan)] and
    [int(inf)] raise. *)
Definition py_int (x : spec_float) : result Z :=
  match x with
  | S754_zero _ => Ok 0
  | S754_finite s m e => Ok (cond_Zopp s (Z.shiftl (Z.pos m) e))
  | S754_infinity _ => Raise OverflowError
  | S754_nan => Raise ValueError
  end.

(** A [datetime] is the number of microseconds since 1970-01-01 00:00:00,
    so that [datetime(1970, 1, 1)] is 0. *)
Definition timedelta (days seconds : Z) : Z :=
  (days * 86400 + seconds) * 1000000.

(** [get_times(scans)].  [days] and [collect_ms] are integer arrays;
    [secs] and the offsets that are returned are float64 arrays, and every
    operation on them rounds: the division by [1000.0], the subtraction of
    [int(secs[0])] and the addition of the integers
    [(days - days[0]) * 86400], which are converted to float64 first.  (The
    header fields are unsigned 16- and 32-bit numbers and the integers of
    the arrays have 64 bits, so the integer arithmetic does not wrap.) *)
Definition get_times (d : decoder) (scans : option (list Z))
  : result (Z * list spec_float) :=
  let scans := scans_or_all d scans in
  rbind (_radial_array d scans "collect_date") (fun days =>
  rbind (_radial_array d scans "collect_ms") (fun ms =>
  let secs := map (fun m => f64_div (f64_of_Z m) (f64_of_Z 1000)) ms in
  rbind (py_getitem days 0) (fun days0 =>
  rbind (py_getitem secs 0) (fun secs0 =>
  rbind (py_int secs0) (fun isecs0 =>
  let offset := timedelta (days0 - 1) isecs0 in
  let time_start := 0 + offset in
  let time :=
    map (fun ds => f64_add (f64_sub (snd ds) (f64_of_Z isecs0))
                           (f64_of_Z ((fst ds - days0) * 86400)))
        (combine days secs) in
  Ok (time_start, time)))))).

(** The start time as the specification words it: the epoch plus
    [days[0] - 1] days plus [collect_ms[0] / 1000] seconds, fractional part
    included; in microseconds. *)
Definition spec_time_start (days0 ms0 : Z) : Z :=
  ((days0 - 1) * 86400 * 1000 + ms0) * 1000.

(** The value that [get_data] returns. *)
Inductive data_result :=
| RawData (d : dtype) (rows : list (list Z))
    (* the integer array, for [raw_data=True] *)
| ScaledData (rows : list (list pyfloat)) (mask : list (list bool))
    (* [np.ma.array(scaled_data, mask=mask)], float32; each element is the
       term of its computation, of which [float_value] is the number *)
| MaskedData (d : dtype) (rows : list (list Z)) (mask : list (list bool)).
    (* [np.ma.masked_less_equal(data, 1)], the integers themselves *)

(** [_bits_to_code(msg, moment)], as the dtype that the code stands for.
    The warning is issued with a tuple as its message and the default
    category. *)
Definition _bits_to_code (msg : record) (moment : string) : M dtype :=
  type <~ lift (record_type msg) ;;
  blk <~ lift (get_attrs msg moment) ;;
  if type =? 1 then
    match dict_get blk "data" with
    | Some (PArr U2 _) => ret U2
    | Some (PArr U1 _) => ret U1
    | Some _ => raise AttributeError     (* no [dtype] attribute *)
    | None => raise KeyError
    end
  else if type =? 31 then
    word_size <~ lift (get_int blk "word_size") ;;
    if word_size =? 16 then ret U2
    else if word_size =? 8 then ret U1
    else _ <~ warnings_warn WUnsupportedBitSize CatDefault ;; ret U1
  else raise TypeError.

(** [msg[moment]["data"]] as a sequence of integers. *)
Definition block_data (blk : attrs) : result (list Z) :=
  match dict_get blk "data" with
  | Some (PArr _ l) => Ok l
  | Some PEmptyList => Ok []
  | Some _ => Raise TypeError
  | None => Raise KeyError
  end.

(** Storing a value in an array of unsigned integers wraps it. *)
Definition wrap (d : dtype) (v : Z) : Z := v mod 2 ^ (8 * itemsize d).

Definition min3 (a b c : Z) : Z := Z.min (Z.min a b) c.

(** The loop of [get_data] over the rays.  [rows_done] are the rows already
    visited and [rows] the rows still to visit, one per message number. *)
Fixpoint fill_rows (d : decoder) (moment : string) (max_ngates : Z)
  (msg_nums : list Z) (set_datatype : bool) (dt : dtype)
  (rows_done rows : list (list Z)) : M (dtype * list (list Z)) :=
  match msg_nums, rows with
  | msg_num :: msg_nums', row :: rows' =>
      msg <~ lift (py_getitem (radial_records d) msg_num) ;;
      if negb (dict_has msg moment) then
        fill_rows d moment max_ngates msg_nums' set_datatype dt
                  (rows_done ++ [row]) rows'
      else
        dt' <~ (if set_datatype then ret dt else _bits_to_code msg moment) ;;
        blk <~ lift (get_attrs msg moment) ;;
        n <~ lift (get_int blk "ngates") ;;
        data_m <~ lift (block_data blk) ;;
        let ngates := Z.to_nat (min3 n max_ngates (len data_m)) in
        let row' := map (wrap dt') (firstn ngates data_m) ++ skipn ngates row in
        fill_rows d moment max_ngates msg_nums' true dt'
                  (rows_done ++ [row']) rows'
  | _, _ => ret (dt, rows_done ++ rows)
  end.

(** [msg[moment][key]] where a float is expected, through [np.float32]. *)
Definition get_float32 (blk : attrs) (key : string) : result pyfloat :=
  match dict_get blk key with
  | Some (PFloat f) => Ok (FCast32 f)
  | Some (PInt z) => Ok (FCast32 (FLit z))
  | Some _ => Raise TypeError
  | None => Raise KeyError
  end.

(** The loop of [get_data] over the scans, which looks at the first ray of
    each scan; [None] when no first ray has the moment. *)
Fixpoint find_scale_offset (d : decoder) (moment : string) (scans : list Z)
  : result (option (pyfloat * pyfloat)) :=
  match scans with
  | [] => Ok None
  | scan :: scans' =>
      rbind (py_getitem (scan_msgs d) scan) (fun msgs =>
      rbind (py_getitem msgs 0) (fun msg_num =>
      rbind (py_getitem (radial_records d) msg_num) (fun msg =>
      if dict_has msg moment then
        rbind (get_attrs msg moment) (fun blk =>
        rbind (get_float32 blk "offset") (fun offset =>
        rbind (get_float32 blk "scale") (fun scale =>
        Ok (Some (offset, scale)))))
      else find_scale_offset d moment scans')))
  end.

(** The warnings that a numpy operation issues. *)
Definition np_warn (ws : list warning) : M unit := (ws, Ok tt).

(** [get_data(moment, max_ngates, scans, raw_data)].  The scaled array is
    [(data - offset) / scale], computed gate by gate in float32 on the
    whole array, masked gates included; each of the two operations reports
    the floating-point errors of its gates. *)
Definition get_data (d : decoder) (moment : string) (max_ngates : Z)
  (scans : option (list Z)) (raw_data : bool) : M data_result :=
  let scans := scans_or_all d scans in
  msg_nums <~ lift (_msg_nums d scans) ;;
  let nrays := length msg_nums in
  if max_ngates <? 0 then raise ValueError    (* np.ones: negative dimension *)
  else
    let ones := repeat (repeat 1 (Z.to_nat max_ngates)) nrays in
    dr <~ fill_rows d moment max_ngates msg_nums false U1 [] ones ;;
    let dt := fst dr in
    let data := snd dr in
    if raw_data then ret (RawData dt data)
    else
      so <~ lift (find_scale_offset d moment scans) ;;
      let mask := map (map (fun v => v <=? 1)) data in
      match so with
      | Some (offset, scale) =>
          let gates := List.concat data in
          _ <~ np_warn (ufunc_warnings UfSubtract
                 (map (fun v => (f32_of_Z v, float_value offset)) gates)) ;;
          _ <~ np_warn (ufunc_warnings UfDivide
                 (map (fun v => (float_value (FSub32 (FOfInt v) offset),
                                 float_value scale)) gates)) ;;
          ret (ScaledData
                 (map (map (fun v => FDiv32 (FSub32 (FOfInt v) offset) scale))
                      data)
                 mask)
      | None => ret (MaskedData dt data mask)
      end.

(** A ray that lacks the moment: [moment not in msg.keys()]. *)
Definition ray_lacks (d : decoder) (moment : string) (msg_num : Z) : Prop :=
  exists msg, py_getitem (radial_records d) msg_num = Ok msg /\
              dict_has msg moment = false.

(** [[r for r in records if r["header"]["type"] == t]], the types of the
    records being [msg_types]. *)
Definition records_of_type (t : Z) (records : list record) (msg_types : list Z)
  : list record :=
  map fst (filter (fun rt => snd rt =? t) (combine records msg_types)).

(** ** Test vectors

    Byte strings built field by field, used to run the definitions. *)

Definition u8 (z : Z) : bytes := [byte_of_Z z].
Definition u16 (z : Z) : bytes := [byte_of_Z (z / 256); byte_of_Z (z mod 256)].
Definition u32 (z : Z) : bytes := u16 (z / 65536) ++ u16 (z mod 65536).
Definition zeros (n : nat) : bytes := repeat x00 n.

(** A MSG_HEADER with the given [size], [type], [segments] and [seg_num]. *)
Definition mk_msg_header (size type segments seg_num : Z) : bytes :=
  u16 size ++ u8 0 ++ u8 type ++ u16 0 ++ u16 0 ++ u32 0
    ++ u16 segments ++ u16 seg_num.

(** A MSG_1 header with two surveillance and two Doppler bins and the given
    payload pointers, followed by four payload bytes (at offsets 100..103 of
    the message). *)
Definition mk_msg1 (sur_pointer vel_pointer width_pointer : Z) : bytes :=
  zeros 26 ++ u16 2 ++ u16 2 ++ zeros 6
    ++ u16 sur_pointer ++ u16 vel_pointer ++ u16 width_pointer
    ++ zeros 58 ++ [x05; x06; x07; x08].

(** A MSG_31 header with the given collection time, azimuth number,
    elevation number and ten block pointers. *)
Definition mk_msg31 (collect_ms collect_date azimuth_number elevation_number : Z)
  (ptrs : list Z) : bytes :=
  zeros 4 ++ u32 collect_ms ++ u16 collect_date ++ u16 azimuth_number
    ++ zeros 10 ++ u8 elevation_number ++ zeros 9
    ++ List.concat (map u32 ptrs).

(** A generic moment block: descriptor and payload. *)
Definition mk_generic_block (name : string) (ngates word_size : Z)
  (payload : bytes) : bytes :=
  b_ "D" ++ b_ name ++ u32 0 ++ u16 ngates ++ zeros 9 ++ u8 word_size
    ++ zeros 8 ++ payload.

(** A type-1 record whose surveillance and width pointers are set. *)
Definition msg1_record_bytes : bytes :=
  mk_msg_header 10 1 0 0 ++ mk_msg1 100 0 102.

(** A type-31 record with one SW block of two 8-bit gates. *)
Definition msg31_record_bytes : bytes :=
  mk_msg_header 53 31 0 0
    ++ mk_msg31 0 0 0 0 [72; 0; 0; 0; 0; 0; 0; 0; 0; 0]
    ++ mk_generic_block "SW " 2 8 [x05; x06].

(** A REF block of two gates that declares a word size of 4 bits. *)
Definition ref_block_word_size_4 : bytes :=
  mk_generic_block "REF" 2 4 [x05; x06].

(** The cache after one MSG_HEADER has been unpacked from the start of
    [msg1_record_bytes]. *)
Definition state_after_header : Cache.state :=
  snd (Cache._unpack_from_buf msg1_record_bytes 0 SMSG_HEADER None Cache.initial).

(** A buffer of exactly 1000 bytes that starts with a bzip2 stream header. *)
Definition one_stream_1000 : bytes := b_ "BZh91AY&SY" ++ zeros 990.


(** The record decoded from a byte string that holds one message. *)
Definition parse_record (b : bytes) : record :=
  match _get_record_from_buf b 0 MomNone with
  | (_, Ok (_, r)) => r
  | _ => []
  end.

(** A type-31 ray without any data block. *)
Definition ray_bytes (collect_ms collect_date azimuth_number elevation_number : Z)
  : bytes :=
  mk_msg_header 38 31 0 0
    ++ mk_msg31 collect_ms collect_date azimuth_number elevation_number
                [0; 0; 0; 0; 0; 0; 0; 0; 0; 0].

(** A type-31 ray with one REF block of two 8-bit gates, 5 and 6. *)
Definition ray_with_ref_bytes
  (collect_ms collect_date azimuth_number elevation_number : Z) : bytes :=
  mk_msg_header 53 31 0 0
    ++ mk_msg31 collect_ms collect_date azimuth_number elevation_number
                [72; 0; 0; 0; 0; 0; 0; 0; 0; 0]
    ++ mk_generic_block "REF" 2 8 [x05; x06].

Definition read_stage_of (records : list record) (starts : list Z) : read_stage :=
  {| _records := records;
     _records_start_pos := starts;
     _bzip2_read_indices := [];
     _bzip2_start_pos := [];
     indices := [];
     indices_select := [];
     vcp_read := None |}.

(** A gzip file made of two concatenated volumes: four rays whose
    elevation numbers are 1, 2, 1, 2. *)
Definition dual_volume : read_stage :=
  read_stage_of
    [ parse_record (ray_bytes 0 1 1 1); parse_record (ray_bytes 0 1 1 2);
      parse_record (ray_bytes 0 1 1 1); parse_record (ray_bytes 0 1 1 2) ]
    [0; 88; 176; 264].

(** A gzip file with one scan of two rays, collected 1.5 s and 2.5 s after
    midnight of day 1; only the second ray has a REF block. *)
Definition ref_in_second_ray : read_stage :=
  read_stage_of
    [ parse_record (ray_bytes 1500 1 1 1);
      parse_record (ray_with_ref_bytes 2500 1 2 1) ]
    [0; 88].

(** A file in which both radial formats occur: one type-1 record and two
    type-31 rays. *)
Definition mixed_formats : read_stage :=
  read_stage_of
    [ parse_record msg1_record_bytes;
      parse_record (ray_bytes 0 1 1 1); parse_record (ray_bytes 0 1 31 1) ]
    [0; 2432; 2520].

(** ** Auxiliary predicates of the proofs *)

(** The pattern of [re.finditer] in [_get_bzip2_start_indices]. *)
Definition BZh : bytes := b_ "BZh".

(** What the scan of [finditer_from] knows about the bytes it is passing
    over after a match of ["BZh"]: with two bytes left to skip they are
    ["Zh"], with one byte left it is ["h"]. *)
Definition skip_ok (skip : nat) (b : bytes) : Prop :=
  match skip with
  | 0%nat => True
  | 1%nat => exists r, b = "h"%byte :: r
  | 2%nat => exists r, b = "Z"%byte :: "h"%byte :: r
  | _ => False
  end.

(** [desc r]: read from its last element to its first, [r] goes up in
    steps of one. *)
Definition desc (r : list Z) : bool := all_unit_steps (rev r).

(** [never_nrf r]: [r] does not raise the "no radial records" error. *)
Definition never_nrf {A} (r : result A) : Prop := r <> Raise NoRadialsFound.

(** The second half of [binary_round_aux]: the rounded mantissa is brought
    back to 53 digits. *)
Definition renormalize (s : bool) (m e : Z) : spec_float :=
  let '(mrs, e') := shr_fexp 53 1024 m e loc_Exact in
  match shr_m mrs with
  | 0 => S754_zero s
  | Z.pos m => if e' <=? 1024 - 53 then S754_finite s m e' else S754_infinity s
  | Z.neg _ => S754_nan
  end.


(** ** Further definitions: ranges of the format codes *)

(** The values that [struct.unpack] can produce for an integer format
    code. *)
Definition int_range (f : fmt) (z : Z) : Prop :=
  match f with
  | FB => 0 <= z < 2 ^ 8
  | FH => 0 <= z < 2 ^ 16
  | FI => 0 <= z < 2 ^ 32
  | Fb => - 2 ^ 7 <= z < 2 ^ 7
  | Fh => - 2 ^ 15 <= z < 2 ^ 15
  | Fi => - 2 ^ 31 <= z < 2 ^ 31
  | Ff | Fd | Fs _ => False
  end.

(** ** Sequences of calls of [_unpack_from_buf] *)

(** The arguments of one call of [_unpack_from_buf]. *)
Record request := {
  rq_buf : bytes;
  rq_pos : Z;
  rq_name : sname;
  rq_product : option string
}.

(** The module state after a sequence of calls, the callers leaving the
    returned objects as they are. *)
Definition after_calls (rqs : list request) (σ : Cache.state) : Cache.state :=
  fold_left
    (fun σ rq =>
       snd (Cache._unpack_from_buf (rq_buf rq) (rq_pos rq) (rq_name rq)
                                   (rq_product rq) σ))
    rqs σ.

(** ** The pre-scan of a gzip file *)

(** A message header can be unpacked at offset [i] of [buf], and its type
    is that of a radial message. *)
Definition radial_header_at (buf : bytes) (i : Z) : Prop :=
  exists header type,
    unpack_from_buf buf i SMSG_HEADER = Ok header /\
    get_int header "type" = Ok type /\ (type = 31 \/ type = 1).

(** ** Shape and range of the arrays of [get_data] *)

(** A two-dimensional array of [nrays] rows and [ngates] columns. *)
Definition has_shape {A} (nrays : nat) (ngates : Z) (rows : list (list A)) : Prop :=
  length rows = nrays /\ Forall (fun row => len row = ngates) rows.

(** [v] is a value of the unsigned integer type [d]. *)
Definition fits (d : dtype) (v : Z) : Prop := 0 <= v < 2 ^ (8 * itemsize d).

(** ** Further test vectors *)

(** What the read stage leaves for a gzip file read in "min-meta" mode
    whose only scan has 31 rays: the first and the thirty-first ray are
    sampled. *)
Definition sampled_gzip : read_stage :=
  {| _records := [ parse_record (ray_bytes 0 1 1 1);
                   parse_record (ray_bytes 0 1 31 1) ];
     _records_start_pos := [0; 0];
     _bzip2_read_indices := [];
     _bzip2_start_pos := [];
     indices := map (fun k => 88 * Z.of_nat k) (seq 0 31);
     indices_select := [0; 30];
     vcp_read := None |}.

(** ** Decompression of single bzip2 streams: [_decompress_records_meta] *)

(** [b[i:j]] where [j] may be [None]. *)
Definition slice_to {A} (b : list A) (i : Z) (j : option Z) : list A :=
  match j with
  | Some j => slice b i j
  | None => slice_from b i
  end.

(** [bzip2_start_pos[i+1]-4 if i+1 < n else None] *)
Definition stream_end (bzip2_start_pos : list Z) (i : Z) : result (option Z) :=
  if i + 1 <? len bzip2_start_pos
  then rbind (py_getitem bzip2_start_pos (i + 1)) (fun p => Ok (Some (p - 4)))
  else Ok None.

Section Decompression.

(** [bz2.BZ2Decompressor().decompress(data, max_length)]: the decompressed
    bytes, or [None] when the call raises.  The bzip2 algorithm itself is
    outside this development. *)
Variable bz2_decompress : bytes -> Z -> option bytes.

(** The loop of [_decompress_records_meta].  Beside the buffers it returns
    the indices at which the handler ran (and printed); the handler stores
    [b''] for such a stream.  An index outside [bzip2_start_pos] raises
    [IndexError] before the [try]. *)
Fixpoint decompress_each (cbuf : bytes) (bzip2_start_pos : list Z)
  (max_length : Z) (ixs : list Z) : result (list bytes * list Z) :=
  match ixs with
  | [] => Ok ([], [])
  | i :: ixs' =>
      rbind (py_getitem bzip2_start_pos i) (fun i1 =>
      rbind (stream_end bzip2_start_pos i) (fun i2 =>
      let r := bz2_decompress (slice_to cbuf i1 i2)
                              (if 0 <? i then max_length else -1) in
      rbind (decompress_each cbuf bzip2_start_pos max_length ixs') (fun rest =>
      match r with
      | Some b => Ok (b :: fst rest, snd rest)
      | None => Ok ([] :: fst rest, i :: snd rest)
      end)))
  end.

(** [_decompress_records_meta(cbuf, bzip2_start_pos, bzip2_read_indices,
    max_length)]; [None] stands for ['all']. *)
Definition _decompress_records_meta (cbuf : bytes) (bzip2_start_pos : list Z)
  (bzip2_read_indices : option (list Z)) (max_length : Z)
  : result (list bytes * list Z) :=
  let n := len bzip2_start_pos in
  let ixs := match bzip2_read_indices with
             | None => py_range 0 n
             | Some l => l
             end in
  decompress_each cbuf bzip2_start_pos max_length ixs.

(** ** [_read_records] *)

(** The record that stands for an empty buffer: [{'header': {'type': 0}}]. *)
Definition empty_record : record :=
  [("header", EAttrs [("type", PInt 0)])]%string.

(** The warnings of the steps already done come first. *)
Definition with_warnings {A} (w : list warning) (m : option (M A)) : option (M A) :=
  option_map (fun m => (w ++ fst m, snd m)) m.

Section ReadRecords.

Variable bzip2 : bool.                 (* self._bzip2_compression *)
Variable meta : bool.                  (* self._decode_meta *)
Variable moments : moments_arg.        (* self._moments *)
Variable cbuf : bytes.                 (* self._cbuf *)
Variable bzip2_start_pos : list Z.     (* self._bzip2_start_pos *)

(** The inner loop, over the stream decompressed a second time:
    [while pos < buf_length: pos, dic = ...; if 'RAD' in dic: break].
    It returns [dic] as the loop leaves it.  [fuel] bounds the number of
    iterations; [None] means that the bound was reached. *)
Fixpoint rescan_for_rad (fuel : nat) (b : bytes) (pos : Z) (dic : record)
  : option (M record) :=
  if pos <? len b then
    match fuel with
    | O => None
    | S fuel' =>
        match _get_record_from_buf b pos moments with
        | (w, Raise e) => Some (w, Raise e)
        | (w, Ok (pos', dic')) =>
            if dict_has dic' "RAD" then Some (w, Ok dic')
            else with_warnings w (rescan_for_rad fuel' b pos' dic')
        end
    end
  else Some ([], Ok dic).

(** [not dic["header"]["type"] in (1, 31, 5)] *)
Definition not_radial_or_vcp (dic : record) : result bool :=
  rbind (record_type dic) (fun t => Ok (negb ((t =? 1) || (t =? 31) || (t =? 5)))).

(** The loop [while pos < buf_length] over buffer number [i]; the state is
    the pair of [self._records] and [self._records_start_pos]. *)
Fixpoint read_buffer (fuel : nat) (i : Z) (b : bytes) (pos : Z)
  (st : list record * list Z) : option (M (list record * list Z)) :=
  if pos <? len b then
    match fuel with
    | O => None
    | S fuel' =>
        let starts := snd st ++ [pos] in
        match _get_record_from_buf b pos moments with
        | (w, Raise e) => Some (w, Raise e)
        | (w, Ok (pos', dic)) =>
            if bzip2 && meta && (0 <? i) && negb (dict_has dic "RAD") then
              match rbind (_decompress_records_meta cbuf bzip2_start_pos
                                                    (Some [i]) 10000)
                          (fun bs => py_getitem (fst bs) 0) with
              | Raise e => Some (w, Raise e)
              | Ok b2 =>
                  with_warnings w
                    match rescan_for_rad (length b2) b2 COMPRESSION_RECORD_SIZE dic with
                    | None => None
                    | Some (w2, Raise e) => Some (w2, Raise e)
                    | Some (w2, Ok dic2) => Some (w2, Ok (fst st ++ [dic2], starts))
                    end
              end
            else
              match (if bzip2 && meta && (i =? 0) then not_radial_or_vcp dic
                     else Ok false) with
              | Raise e => Some (w, Raise e)
              | Ok true =>                                     (* continue *)
                  with_warnings w (read_buffer fuel' i b pos' (fst st, starts))
              | Ok false =>
                  let st' := (fst st ++ [dic], starts) in
                  if bzip2 && meta then Some (w, Ok st')       (* break *)
                  else with_warnings w (read_buffer fuel' i b pos' st')
              end
        end
    end
  else Some ([], Ok st).

(** The loop [for i, b in enumerate(buf)]. *)
Fixpoint read_buffers (i : Z) (bufs : list bytes) (st : list record * list Z)
  : option (M (list record * list Z)) :=
  match bufs with
  | [] => Some ([], Ok st)
  | b :: bufs' =>
      if len b =? 0 then
        read_buffers (i + 1) bufs' (fst st ++ [empty_record], snd st ++ [-1])
      else
        match read_buffer (length b) i b
                          (if bzip2 then COMPRESSION_RECORD_SIZE else 0) st with
        | None => None
        | Some (w, Raise e) => Some (w, Raise e)
        | Some (w, Ok st') => with_warnings w (read_buffers (i + 1) bufs' st')
        end
  end.

(** [self._read_records(buf)], [buf] being a list of buffers (a single
    [bytes] object is wrapped in a list first); the result is the pair of
    [self._records] and [self._records_start_pos]. *)
Definition _read_records (bufs : list bytes) : option (M (list record * list Z)) :=
  read_buffers 0 bufs ([], []).

End ReadRecords.

End Decompression.

(** [tiles b moments pos rs ss]: from [pos] on, the records [rs] follow one
    another in [b] up to its end, [ss] being the offsets at which they
    start. *)
Fixpoint tiles (b : bytes) (moments : moments_arg) (pos : Z)
  (rs : list record) (ss : list Z) : Prop :=
  match rs, ss with
  | [], [] => len b <= pos
  | r :: rs', p :: ss' =>
      p = pos /\ pos < len b /\
      exists w q, _get_record_from_buf b pos moments = (w, Ok (q, r)) /\
                  tiles b moments q rs' ss'
  | _, _ => False
  end.

(** ** [_read_gzip] *)

(** The gzip file object and the buffer of what was read from it:
    [fh_rest] are the decompressed bytes that [self._fh] has not yet
    delivered, [_buf] is [self._buf]. *)
Record gzip_reader := {
  fh_rest : bytes;
  _buf : bytes
}.

(** [self._fh.read(size)]: the bytes delivered and the bytes that remain;
    [None] (no argument) and a negative size read to the end. *)
Definition fh_read (size : option Z) (fh : bytes) : bytes * bytes :=
  match size with
  | None => (fh, [])
  | Some k =>
      if k <? 0 then (fh, [])
      else (firstn (Z.to_nat k) fh, skipn (Z.to_nat k) fh)
  end.

(** [self._buf += self._fh.read(size)] *)
Definition buf_extend (size : option Z) (st : gzip_reader) : gzip_reader :=
  let '(d, fh) := fh_read size (fh_rest st) in
  {| fh_rest := fh; _buf := _buf st ++ d |}.

(** [not startend_pos[1]]: [None] and [0] are false values. *)
Definition falsy_end (e : option Z) : bool :=
  match e with
  | None => true
  | Some e => e =? 0
  end.

(** [self._read_gzip(startend_pos)]; the argument is [None] or a pair
    [[start, end]] whose end may be [None]. *)
Definition _read_gzip (startend_pos : option (Z * option Z)) (st : gzip_reader)
  : bytes * gzip_reader :=
  match startend_pos with
  | Some (a, b) =>
      let l := len (_buf st) in
      let st' :=
        if falsy_end b then buf_extend None st
        else match b with
             | Some e => if l <? e then buf_extend (Some (e - l)) st else st
             | None => st
             end in
      (slice_to (_buf st') a b, st')
  | None =>
      let st' := buf_extend None st in
      (_buf st', st')
  end.

(** ** [get_vcp_pattern] *)

(** [get_vcp_pattern()]: [None] when [self.vcp] is empty. *)
Definition get_vcp_pattern (d : decoder) : result (option val) :=
  match vcp d with
  | [] => Ok None
  | _ =>
      rbind (get_attrs (vcp d) "msg5_header") (fun h =>
      match dict_get h "pattern_number" with
      | Some v => Ok (Some v)
      | None => Raise KeyError
      end)
  end.

(** ** The streams that a "min-meta" pass over a bzip2 file decompresses *)

(** [range(a, b, s)] for a positive step [s] *)
Definition py_range_step (a b s : Z) : list Z :=
  map (fun k => a + s * Z.of_nat k)
      (seq 0 (Z.to_nat ((b - a + s - 1) / s))).

(** [self.vcp.get('cut_parameters', [])], as the list that the loop
    iterates over; a dictionary under that key would hand its keys to
    [scan['super_resolution']]. *)
Definition vcp_cut_parameters (vcp : record) : result (list attrs) :=
  match dict_get vcp "cut_parameters" with
  | Some (ECuts l) => Ok l
  | Some (EAttrs []) => Ok []
  | Some (EAttrs _) => Raise TypeError
  | None => Ok []
  end.

(** [scan['super_resolution'] in (11, 7)] *)
Definition is_super_resolution (scan : attrs) : result bool :=
  match dict_get scan "super_resolution" with
  | Some (PInt sr) => Ok ((sr =? 11) || (sr =? 7))
  | Some _ => Ok false
  | None => Raise KeyError
  end.

(** The loop over [cut_params]: [acc] is [expected_last_bzip2_index], the
    result is what the loop appends to [bzip2_read_indices]. *)
Fixpoint expected_indices (n acc : Z) (cuts : list attrs) : result (list Z) :=
  match cuts with
  | [] => Ok []
  | scan :: cuts' =>
      rbind (is_super_resolution scan) (fun sr =>
      let acc' := acc + (3 + 3 * (if sr then 1 else 0)) in
      rbind (expected_indices n acc' cuts') (fun rest =>
      Ok (if acc' <? n then acc' :: rest else rest)))
  end.

(** [bzip2_read_indices] as [decode_file] computes it for "min-meta" from
    [self.vcp] and [n = len(self._bzip2_start_pos)]; the boolean tells
    whether the last index was added (and the message printed). *)
Definition min_meta_read_indices (vcp : record) (n : Z) : result (list Z * bool) :=
  rbind (match vcp with
         | [] => Ok (py_range_step 2 n 3)
         | _ =>
             rbind (vcp_cut_parameters vcp) (fun cut_params =>
             rbind (expected_indices n 0 cut_params) (fun l => Ok (0 :: l)))
         end) (fun ixs =>
  rbind (py_getitem ixs (-1)) (fun last =>
  if negb (last + 1 =? n) then Ok (ixs ++ [n - 1], true) else Ok (ixs, false))).

(** ** Where the records of the decoder come from *)

(** [r] is a record that [_get_record_from_buf] returned. *)
Definition parsed (moments : moments_arg) (r : record) : Prop :=
  exists b pos w q, _get_record_from_buf b pos moments = (w, Ok (q, r)).

(** [r] is a record that [_read_records] may store. *)
Definition stored (moments : moments_arg) (r : record) : Prop :=
  r = empty_record \/ parsed moments r.

(** ** The rows of [get_data] *)

(** [row] is what [get_data] stores for the ray [msg_num]: ones when the
    ray lacks the moment, else the leading values of the ray's data, stored
    in the type [dt], followed by ones up to [max_ngates]. *)
Definition ray_row (d : decoder) (moment : string) (max_ngates : Z) (dt : dtype)
  (msg_num : Z) (row : list Z) : Prop :=
  exists msg,
    py_getitem (radial_records d) msg_num = Ok msg /\
    if dict_has msg moment then
      exists blk n data,
        get_attrs msg moment = Ok blk /\
        get_int blk "ngates" = Ok n /\
        block_data blk = Ok data /\
        let k := Z.to_nat (min3 n max_ngates (len data)) in
        row = map (wrap dt) (firstn k data)
                ++ repeat 1 (Z.to_nat max_ngates - k)
    else row = repeat 1 (Z.to_nat max_ngates).

(** A gzip file with one scan of two rays; only the first ray has a REF
    block. *)
Definition ref_in_first_ray : read_stage :=
  read_stage_of
    [ parse_record (ray_with_ref_bytes 1500 1 1 1);
      parse_record (ray_bytes 2500 1 2 1) ]
    [0; 118].

(** ** [scan_info] *)

(** One dictionary of the list that [scan_info] returns. *)
Record scan_info_entry := {
  si_ngates : list val;
  si_gate_spacing : list val;
  si_first_gate : list val;
  si_moments : list string
}.

(** [msg[f][key]] *)
Definition block_field (msg : record) (key f : string) : result val :=
  match dict_get msg f with
  | Some (EAttrs a) =>
      match dict_get a key with
      | Some v => Ok v
      | None => Raise KeyError
      end
  | Some (ECuts _) => Raise TypeError      (* a list is indexed by integers *)
  | None => Raise KeyError
  end.

(** The body of the loop of [scan_info] for one scan. *)
Definition scan_info_of (d : decoder) (scan : Z) : result scan_info_entry :=
  rbind (py_getitem (scan_msgs d) scan) (fun msgs =>
  rbind (py_getitem msgs 0) (fun msg31_number =>
  rbind (py_getitem (radial_records d) msg31_number) (fun msg =>
  let moments := filter (fun f => dict_has msg f) moment_names in
  rbind (mapM (block_field msg "ngates") moments) (fun ngates =>
  rbind (mapM (block_field msg "gate_spacing") moments) (fun gate_spacing =>
  rbind (mapM (block_field msg "first_gate") moments) (fun first_gate =>
  Ok {| si_ngates := ngates;
        si_gate_spacing := gate_spacing;
        si_first_gate := first_gate;
        si_moments := moments |})))))).

(** [scan_info(scans)] *)
Definition scan_info (d : decoder) (scans : option (list Z))
  : result (list scan_info_entry) :=
  mapM (scan_info_of d) (scans_or_all d scans).

(** A block with the three gate fields that [scan_info] reads. *)
Definition has_gate_fields (a : attrs) : Prop :=
  exists n s f,
    dict_get a "ngates" = Some n /\ dict_get a "gate_spacing" = Some s /\
    dict_get a "first_gate" = Some f.

(** Every moment of the record comes with its gate fields. *)
Definition moment_blocks_ok (r : record) : Prop :=
  forall k, In k moment_names ->
    match dict_get r k with
    | Some (EAttrs a) => has_gate_fields a
    | Some (ECuts _) => False
    | None => True
    end.

(** ** What [get_data] needs of a moment block *)

(** A moment block of a record of type [t] has the fields that [get_data]
    reads: an integer gate count, an array, an offset and a scale, and for
    type 31 a word size of 8 or 16. *)
Definition block_ready (t : Z) (a : attrs) : Prop :=
  exists n dt data o s,
    dict_get a "ngates" = Some (PInt n) /\
    dict_get a "data" = Some (PArr dt data) /\
    get_float32 a "offset" = Ok o /\
    get_float32 a "scale" = Ok s /\
    (t = 31 -> exists ws, get_int a "word_size" = Ok ws /\ (ws = 8 \/ ws = 16)).

Definition moments_ready (t : Z) (r : record) : Prop :=
  forall k, In k moment_names ->
    match dict_get r k with
    | Some (EAttrs a) => block_ready t a
    | Some (ECuts _) => False
    | None => True
    end.

(** The ray [n] of the decoder is a record of type [t] whose moment blocks
    are ready. *)
Definition ready_ray (d : decoder) (t : Z) (n : Z) : Prop :=
  exists msg,
    py_getitem (radial_records d) n = Ok msg /\
    record_type msg = Ok t /\ moments_ready t msg.

(** What [get_times] reads of a ray. *)
Definition has_times (r : record) : Prop :=
  exists day ms,
    msg_header_field "collect_date" r = Ok day /\
    msg_header_field "collect_ms" r = Ok ms /\
    0 <= day < 2 ^ 16 /\ 0 <= ms < 2 ^ 32.

(** * Proofs *)

(** ** Structure codec *)

Example structure_sizes :
  map _structure_size
      [SVOLUME_HEADER; SMSG_HEADER; SMSG_31; SMSG_1; SMSG_5; SMSG_5_ELEV;
       SGENERIC_DATA_BLOCK; SVOLUME_DATA_BLOCK; SELEVATION_DATA_BLOCK;
       SRADIAL_DATA_BLOCK]
  = [24; 16; 72; 100; 22; 46; 28; 44; 12; 20].
Proof. reflexivity. Qed.

(** ** Byte strings and stream discovery *)

Lemma byte_eqb_eq a b : byte_eqb a b = true <-> a = b.
Proof.
  unfold byte_eqb. split.
  - apply Byte.byte_dec_bl.
  - apply Byte.byte_dec_lb.
Qed.

Lemma bytes_eqb_eq x : forall y, bytes_eqb x y = true <-> x = y.
Proof.
  induction x as [|a x IH]; intros [|b y]; simpl; try (split; congruence).
  rewrite andb_true_iff, byte_eqb_eq, IH. split.
  - intros [-> ->]; reflexivity.
  - intros [= -> ->]; auto.
Qed.

Lemma starts_with_firstn p : forall b,
  starts_with p b = true <-> firstn (length p) b = p.
Proof.
  induction p as [|a p IH]; intros [|c b]; simpl; try (split; congruence).
  rewrite andb_true_iff, byte_eqb_eq, IH. split.
  - intros [-> ->]; reflexivity.
  - intros [= -> ->]; auto.
Qed.

Lemma starts_with_length p b : starts_with p b = true -> (length p <= length b)%nat.
Proof.
  revert b; induction p as [|a p IH]; intros [|c b]; simpl; try lia; try congruence.
  rewrite andb_true_iff. intros [_ H]. apply IH in H. lia.
Qed.

Lemma bytes_in_length x : forall y, bytes_in x y = true -> (length x <= length y)%nat.
Proof.
  induction y as [|c y IH]; simpl; rewrite orb_true_iff.
  - intros [H|H]; [|congruence]. apply starts_with_length in H. exact H.
  - intros [H|H]; [apply starts_with_length in H; exact H|].
    apply IH in H. lia.
Qed.

Lemma bytes_in_same_length x y :
  bytes_in x y = true -> length x = length y -> x = y.
Proof.
  destruct y as [|c y]; simpl; rewrite orb_true_iff; intros [H|H] Hl.
  - destruct x; simpl in *; congruence.
  - congruence.
  - apply starts_with_firstn in H. rewrite Hl in H.
    change (firstn (length (c :: y)) (c :: y) = x) in H.
    rewrite firstn_all in H. auto.
  - apply bytes_in_length in H. simpl in Hl. lia.
Qed.

Lemma BZh_inv b :
  starts_with BZh b = true <-> exists r, b = "B"%byte :: "Z"%byte :: "h"%byte :: r.
Proof.
  rewrite starts_with_firstn. change (length BZh) with 3%nat.
  change BZh with ["B"%byte; "Z"%byte; "h"%byte]. split.
  - destruct b as [|x [|y [|z r]]]; simpl; try congruence.
    intros [= -> -> ->]. eauto.
  - intros [r ->]. reflexivity.
Qed.

Lemma finditer_BZh_In b : forall skip i, skip_ok skip b ->
  forall P, In P (finditer_from BZh skip i b) <->
            exists k : nat, P = i + Z.of_nat k /\ starts_with BZh (skipn k b) = true.
Proof.
  induction b as [|c b IH]; intros skip i Hok P.
  - simpl. split; [tauto|]. intros [k [_ H]]. destruct k; discriminate H.
  - cbn [finditer_from]. destruct skip as [|[|[|skip]]].
    + destruct (starts_with BZh (c :: b)) eqn:E.
      * change (length BZh - 1)%nat with 2%nat.
        pose proof E as E'. apply BZh_inv in E' as [r Hr].
        injection Hr as -> ->.
        cbn [In]. rewrite (IH 2%nat); [|simpl; eauto]. split.
        -- intros [<-|[k [-> Hk]]].
           ++ exists 0%nat. split; [lia|exact E].
           ++ exists (S k). split; [lia|exact Hk].
        -- intros [[|k] [-> Hk]].
           ++ left. lia.
           ++ right. exists k. split; [lia|exact Hk].
      * rewrite (IH 0%nat); [|exact I]. split.
        -- intros [k [-> Hk]]. exists (S k). split; [lia|exact Hk].
        -- intros [[|k] [-> Hk]].
           ++ change (skipn 0 (c :: b)) with (c :: b) in Hk. congruence.
           ++ exists k. split; [lia|exact Hk].
    + destruct Hok as [r [= -> ->]].
      rewrite (IH 0%nat); [|exact I]. split.
      * intros [k [-> Hk]]. exists (S k). split; [lia|exact Hk].
      * intros [[|k] [-> Hk]].
        -- apply BZh_inv in Hk as [r' Hr']. discriminate Hr'.
        -- exists k. split; [lia|exact Hk].
    + destruct Hok as [r [= -> ->]].
      rewrite (IH 1%nat); [|simpl; eauto]. split.
      * intros [k [-> Hk]]. exists (S k). split; [lia|exact Hk].
      * intros [[|k] [-> Hk]].
        -- apply BZh_inv in Hk as [r' Hr']. discriminate Hr'.
        -- exists k. split; [lia|exact Hk].
    + destruct Hok.
Qed.

Lemma finditer_from_sorted pat b : forall skip i,
  StronglySorted Z.lt (finditer_from pat skip i b) /\
  Forall (fun P => i <= P < i + len b) (finditer_from pat skip i b).
Proof.
  unfold len.
  induction b as [|c b IH]; intros skip i; cbn [finditer_from].
  - split; constructor.
  - assert (Hstep : forall k,
      StronglySorted Z.lt (finditer_from pat k (i + 1) b) /\
      Forall (fun P => i + 1 <= P < i + Z.of_nat (length (c :: b)))
             (finditer_from pat k (i + 1) b)).
    { intros k. destruct (IH k (i + 1)) as [Hs Hf]. split; [exact Hs|].
      eapply Forall_impl; [|exact Hf]. simpl. intros; cbn beta in *. lia. }
    destruct skip as [|k].
    + destruct (starts_with pat (c :: b)).
      * destruct (Hstep (length pat - 1)%nat) as [Hs Hf]. split.
        -- constructor; [exact Hs|].
           eapply Forall_impl; [|exact Hf]. intros; cbn beta in *. lia.
        -- constructor; [simpl; lia|].
           eapply Forall_impl; [|exact Hf]. intros; cbn beta in *. lia.
      * destruct (Hstep 0%nat) as [Hs Hf]. split; [exact Hs|].
        eapply Forall_impl; [|exact Hf]. intros; cbn beta in *. lia.
    + destruct (Hstep k) as [Hs Hf]. split; [exact Hs|].
      eapply Forall_impl; [|exact Hf]. intros; cbn beta in *. lia.
Qed.

Lemma len_nonneg {A} (l : list A) : 0 <= len l.
Proof. unfold len. lia. Qed.

Lemma slice_nonneg {A} (b : list A) i j :
  0 <= i <= j ->
  slice b i j = firstn (Z.to_nat (j - i)) (skipn (Z.to_nat i) b).
Proof.
  intros Hij. unfold slice, slice_bound, len.
  destruct (Z.ltb_spec i 0); [lia|]. destruct (Z.ltb_spec j 0); [lia|].
  set (n := length b).
  destruct (Z_le_gt_dec i (Z.of_nat n)) as [Hi|Hi].
  - rewrite (Z.min_l i) by lia.
    destruct (Z_le_gt_dec j (Z.of_nat n)) as [Hj|Hj].
    + rewrite (Z.min_l j) by lia. reflexivity.
    + rewrite (Z.min_r j) by lia.
      rewrite !firstn_all2; [reflexivity| |]; rewrite length_skipn; fold n; lia.
  - rewrite !Z.min_r by lia. rewrite Z.sub_diag.
    rewrite !skipn_all2 by (fold n; lia). rewrite !firstn_nil. reflexivity.
Qed.

Lemma slice_length_full {A} (b : list A) i n :
  0 <= i -> 0 <= n -> i + n <= len b -> length (slice b i (i + n)) = Z.to_nat n.
Proof.
  intros Hi Hn Hle. rewrite slice_nonneg by lia.
  rewrite length_firstn, length_skipn. unfold len in Hle. lia.
Qed.

Lemma starts_with_refl x : starts_with x x = true.
Proof. apply starts_with_firstn. apply firstn_all. Qed.

Lemma bytes_in_refl x : bytes_in x x = true.
Proof. destruct x; simpl; [reflexivity|]. 
  change (starts_with (b :: x) (b :: x) || bytes_in (b :: x) x = true).
  rewrite starts_with_refl. reflexivity.
Qed.

Lemma enumerate_In_from {A} (l : list A) : forall a i x,
  In (i, x) (combine (seq a (length l)) l) <->
  (a <= i)%nat /\ nth_error l (i - a) = Some x.
Proof.
  induction l as [|y l IH]; intros a i x; simpl.
  - split; [tauto|]. intros [_ H]. destruct (i - a)%nat; discriminate.
  - rewrite IH. split.
    + intros [[= <- <-]|[Hle Hn]].
      * split; [lia|]. rewrite Nat.sub_diag. reflexivity.
      * split; [lia|]. replace (i - a)%nat with (S (i - S a)) by lia. exact Hn.
    + intros [Hle Hn]. destruct (i - a)%nat as [|k] eqn:E.
      * left. injection Hn as ->. f_equal. lia.
      * right. split; [lia|]. replace (i - S a)%nat with k by lia. exact Hn.
Qed.

Lemma enumerate_In {A} (l : list A) i x :
  In (i, x) (enumerate l) <-> nth_error l i = Some x.
Proof.
  unfold enumerate. rewrite enumerate_In_from, Nat.sub_0_r.
  split; [tauto|]. split; [lia|assumption].
Qed.

Lemma np_diff_nth l : forall i d,
  nth_error (np_diff l) i = Some d <->
  exists a b, nth_error l i = Some a /\ nth_error l (S i) = Some b /\ d = b - a.
Proof.
  induction l as [|a l IH]; intros i d.
  - simpl. split; [destruct i; discriminate|]. intros (x & y & H & _). destruct i; discriminate.
  - destruct l as [|b l].
    + simpl. split; [destruct i; discriminate|].
      intros (x & y & _ & H & _). destruct i; discriminate.
    + change (np_diff (a :: b :: l)) with ((b - a) :: np_diff (b :: l)).
      destruct i as [|i].
      * simpl. split.
        -- intros [= <-]. eauto.
        -- intros (x & y & [= <-] & [= <-] & ->). reflexivity.
      * change (nth_error ((b - a) :: np_diff (b :: l)) (S i))
          with (nth_error (np_diff (b :: l)) i).
        rewrite IH. reflexivity.
Qed.

Lemma StronglySorted_filter_Z (f : Z -> bool) l :
  StronglySorted Z.lt l -> StronglySorted Z.lt (filter f l).
Proof.
  induction 1 as [|a l Hs IH Hf]; simpl; [constructor|].
  destruct (f a); [|exact IH]. constructor; [exact IH|].
  apply Forall_forall. intros x Hx. apply filter_In in Hx as [Hx _].
  rewrite Forall_forall in Hf. auto.
Qed.

Lemma start_indices_In cbuf P :
  In P (_get_bzip2_start_indices cbuf) <->
  0 <= P /\ starts_with BZh (skipn (Z.to_nat P) cbuf) = true /\
  bytes_in (slice cbuf (P + 5) (P + 10)) (b_ "AY&SY") = true.
Proof.
  unfold _get_bzip2_start_indices, finditer_starts. rewrite filter_In.
  fold BZh. rewrite (finditer_BZh_In cbuf 0%nat 0 I). split.
  - intros [[k [-> Hk]] Hin]. rewrite Z.add_0_l in *. rewrite Nat2Z.id.
    split; [lia|]. split; assumption.
  - intros (H0 & Hk & Hin). split; [|exact Hin].
    exists (Z.to_nat P). split; [lia|exact Hk].
Qed.

Lemma start_indices_sorted cbuf :
  StronglySorted Z.lt (_get_bzip2_start_indices cbuf) /\
  Forall (fun P => 0 <= P < len cbuf) (_get_bzip2_start_indices cbuf).
Proof.
  unfold _get_bzip2_start_indices, finditer_starts.
  destruct (finditer_from_sorted (b_ "BZh") cbuf 0%nat 0) as [Hs Hf]. split.
  - apply StronglySorted_filter_Z. exact Hs.
  - apply Forall_forall. intros x Hx. apply filter_In in Hx as [Hx _].
    rewrite Forall_forall in Hf. specialize (Hf x Hx). cbn beta in Hf. lia.
Qed.

Lemma is_stream_start_iff cbuf P :
  0 <= P ->
  is_stream_start cbuf P = true <->
  starts_with BZh (skipn (Z.to_nat P) cbuf) = true /\
  slice cbuf (P + 5) (P + 10) = b_ "AY&SY".
Proof.
  intros HP. unfold is_stream_start.
  rewrite andb_true_iff, !bytes_eqb_eq, starts_with_firstn.
  rewrite (slice_nonneg cbuf P (P + 3)) by lia.
  replace (Z.to_nat (P + 3 - P)) with 3%nat by lia.
  reflexivity.
Qed.

Lemma drop_small_streams_In cbuf starts P :
  In P (drop_small_streams cbuf starts) <->
  exists (i : nat) (nxt : Z),
    nth_error starts i = Some P /\
    nth_error (starts ++ [len cbuf]) (S i) = Some nxt /\
    1000 < nxt - P.
Proof.
  unfold drop_small_streams. rewrite in_map_iff. split.
  - intros [[i x] [Hx Hin]]. simpl in Hx. subst x.
    apply filter_In in Hin as [Hin Hf]. apply enumerate_In in Hin.
    cbn [fst] in Hf.
    destruct (nth_error (np_diff (starts ++ [len cbuf])) i) as [d|] eqn:Ed;
      [|discriminate].
    apply np_diff_nth in Ed as (a & b & Ha & Hb & ->).
    rewrite nth_error_app1 in Ha by (apply nth_error_Some; congruence).
    assert (a = P) by congruence. subst a.
    exists i, b. repeat split; try assumption. apply Z.ltb_lt. exact Hf.
  - intros (i & nxt & Hi & Hn & Hd). exists (i, P). split; [reflexivity|].
    apply filter_In. split; [apply enumerate_In; exact Hi|].
    cbn [fst].
    assert (Ed : nth_error (np_diff (starts ++ [len cbuf])) i = Some (nxt - P)).
    { apply np_diff_nth. exists P, nxt. repeat split; try assumption.
      rewrite nth_error_app1 by (apply nth_error_Some; congruence). exact Hi. }
    rewrite Ed. apply Z.ltb_lt. exact Hd.
Qed.

(** C2 (amended): the discovered list is increasing and contains every
    position that carries both magic strings; a discovered start is kept
    exactly when its distance to the next discovered start (the buffer
    length for the last one) is greater than 1000, so that a distance of
    exactly 1000 is discarded too; and every start that is kept carries
    both magic strings in full. *)
Theorem decode_bzip2_start_pos_spec (cbuf : bytes) :
  (forall P, 0 <= P -> is_stream_start cbuf P = true ->
             In P (_get_bzip2_start_indices cbuf)) /\
  StronglySorted Z.lt (_get_bzip2_start_indices cbuf) /\
  (forall P, In P (decode_bzip2_start_pos cbuf) <->
             exists (i : nat) (nxt : Z),
               nth_error (_get_bzip2_start_indices cbuf) i = Some P /\
               nth_error (_get_bzip2_start_indices cbuf ++ [len cbuf]) (S i)
               = Some nxt /\
               1000 < nxt - P) /\
  (forall P, In P (decode_bzip2_start_pos cbuf) ->
             0 <= P /\ is_stream_start cbuf P = true) /\
  StronglySorted Z.lt (decode_bzip2_start_pos cbuf).
Proof.
  repeat split.
  - intros P HP Hs. apply is_stream_start_iff in Hs as [Hb Hm]; [|exact HP].
    apply start_indices_In. repeat split; try assumption.
    rewrite Hm. apply bytes_in_refl.
  - apply start_indices_sorted.
  - apply drop_small_streams_In.
  - apply drop_small_streams_In.
  - apply drop_small_streams_In in H as (i & nxt & Hi & Hn & Hd).
    apply nth_error_In in Hi. apply start_indices_In in Hi. tauto.
  - apply drop_small_streams_In in H as (i & nxt & Hi & Hn & Hd).
    destruct (start_indices_sorted cbuf) as [_ Hf].
    assert (Hnxt : nxt <= len cbuf).
    { apply nth_error_In in Hn. apply in_app_or in Hn as [Hn|[<-|[]]]; [|lia].
      rewrite Forall_forall in Hf. specialize (Hf _ Hn). cbn beta in Hf. lia. }
    apply nth_error_In in Hi. apply start_indices_In in Hi as (H0 & Hb & Hm).
    apply is_stream_start_iff; [exact H0|]. split; [exact Hb|].
    apply bytes_in_same_length; [exact Hm|].
    replace (P + 10) with (P + 5 + 5) by lia.
    rewrite slice_length_full; [reflexivity|lia|lia|lia].
  - unfold decode_bzip2_start_pos, drop_small_streams.
    destruct (start_indices_sorted cbuf) as [Hs _].
    revert Hs. generalize (_get_bzip2_start_indices cbuf) as starts.
    intros starts Hs. generalize (np_diff (starts ++ [len cbuf])) as diffs. intros diffs.
    unfold enumerate. generalize 0%nat as a.
    induction Hs as [|x starts Hs IH Hf]; intros a; simpl; [constructor|].
    destruct (nth_error diffs a) as [d|]; [destruct (1000 <? d)|]; simpl;
      try apply IH.
    constructor; [apply IH|].
    apply Forall_forall. intros y Hy. apply in_map_iff in Hy as [[j y'] [Hy Hin]].
    simpl in Hy. subst y'. apply filter_In in Hin as [Hin _].
    apply in_combine_r in Hin. rewrite Forall_forall in Hf. auto.
Qed.

(** ** The structure cache *)

Section CacheFacts.
Import Cache.

Lemma slice_differs_false s s_b :
  slice_differs s s_b = false <-> s_b = Some s.
Proof.
  destruct s_b as [b|]; simpl.
  - rewrite negb_false_iff, bytes_eqb_eq. split; congruence.
  - split; discriminate.
Qed.

Lemma alloc_spec d (h : gmap loc attrs) :
  h !! (alloc d h).1 = None /\
  (alloc d h).2 = <[(alloc d h).1 := d]> h.
Proof.
  unfold alloc. cbn [fst snd]. split; [|reflexivity].
  apply not_elem_of_dom. apply is_fresh.
Qed.

Lemma lookup_two_allocs (h h1 h2 : gmap loc attrs) l cp d lc d' :
  h !! l = None -> h1 = <[l := d]> h ->
  h1 !! cp = None -> h2 = <[cp := d]> h1 ->
  h !! lc = Some d' -> h2 !! lc = Some d'.
Proof.
  intros Hf1 -> Hf2 -> H.
  assert (l <> lc) by (intros ->; congruence).
  assert (H1 : <[l := d]> h !! lc = Some d')
    by (rewrite lookup_insert_ne; assumption).
  assert (cp <> lc) by (intros ->; congruence).
  rewrite lookup_insert_ne; assumption.
Qed.

Lemma hit_unfold buf pos n product σ :
  hit buf pos n product σ ->
  slice_differs (slice buf pos (pos + _structure_size n))
                (cached_slice σ n product) = false.
Proof. intros H. apply slice_differs_false. exact H. Qed.

(** On a consistent cache the memoised function returns an object whose
    contents are the decoding of the requested slice, raises exactly when
    the decoding raises, and keeps the cache consistent. *)
Lemma unpack_from_buf_contents buf pos n product σ :
  consistent σ ->
  match _unpack_from_buf buf pos n product σ with
  | (Ok l, σ') =>
      exists d, heap σ' !! l = Some d /\
                unpack_from_buf buf pos n = Ok d /\
                consistent σ'
  | (Raise e, σ') => unpack_from_buf buf pos n = Raise e /\ σ' = σ
  end.
Proof.
  intros Hc. unfold _unpack_from_buf, unpack_from_buf.
  set (s := slice buf pos (pos + _structure_size n)).
  destruct (slice_differs s (cached_slice σ n product)) eqn:Hd.
  - destruct (_unpack_structure s n) as [d|e] eqn:Hu; [|split; reflexivity].
    destruct (alloc_spec d (heap σ)) as [Hf1 Hh1].
    destruct (alloc d (heap σ)) as [l h1] eqn:Ea. cbn [fst snd] in Hf1, Hh1.
    destruct (is_generic n) eqn:Hg.
    + destruct (alloc_spec d h1) as [Hf2 Hh2].
      destruct (alloc d h1) as [cp h2] eqn:Ea2. cbn [fst snd] in Hf2, Hh2.
      assert (Hlcp : l <> cp).
      { intros ->. rewrite Hh1, lookup_insert_eq in Hf2. discriminate. }
      exists d. cbn [heap]. split; [|split; [reflexivity|]].
      * rewrite Hh2, lookup_insert_ne by congruence.
        rewrite Hh1. apply lookup_insert_eq.
      * intros m p s' Hs'. unfold cached_slice, cached_dict in *.
        cbn [heap dic_before dic_before_generic s_before s_before_generic] in *.
        destruct (is_generic m) eqn:Hm.
        -- destruct (decide (p = product)) as [->|Hne].
           ++ rewrite lookup_insert_eq in Hs'. injection Hs' as <-.
              exists cp, d. rewrite lookup_insert_eq.
              split; [reflexivity|]. split.
              ** rewrite Hh2. apply lookup_insert_eq.
              ** unfold is_generic in Hg, Hm.
                 destruct (decide (n = SGENERIC_DATA_BLOCK)); [|discriminate].
                 destruct (decide (m = SGENERIC_DATA_BLOCK)); [|discriminate].
                 congruence.
           ++ rewrite lookup_insert_ne in Hs' by congruence.
              specialize (Hc m p s'). unfold cached_slice, cached_dict in Hc.
              rewrite Hm in Hc. destruct (Hc Hs') as (lc & d' & H1 & H2 & H3).
              exists lc, d'. rewrite lookup_insert_ne by congruence.
              split; [exact H1|]. split; [|exact H3].
              apply (lookup_two_allocs _ _ _ _ _ _ _ _ Hf1 Hh1 Hf2 Hh2 H2).
        -- specialize (Hc m p s'). unfold cached_slice, cached_dict in Hc.
           rewrite Hm in Hc. destruct (Hc Hs') as (lc & d' & H1 & H2 & H3).
           exists lc, d'. split; [exact H1|]. split; [|exact H3].
           apply (lookup_two_allocs _ _ _ _ _ _ _ _ Hf1 Hh1 Hf2 Hh2 H2).
    + exists d. cbn [heap]. split; [|split; [reflexivity|]].
      * rewrite Hh1. apply lookup_insert_eq.
      * intros m p s' Hs'. unfold cached_slice, cached_dict in *.
        cbn [heap dic_before dic_before_generic s_before s_before_generic] in *.
        destruct (is_generic m) eqn:Hm.
        -- specialize (Hc m p s'). unfold cached_slice, cached_dict in Hc.
           rewrite Hm in Hc. destruct (Hc Hs') as (lc & d' & H1 & H2 & H3).
           exists lc, d'. split; [exact H1|]. split; [|exact H3].
           rewrite Hh1, lookup_insert_ne; [exact H2|]. intros ->; congruence.
        -- unfold upd in *. destruct (decide (m = n)) as [->|Hne].
           ++ injection Hs' as <-. exists l, d. split; [reflexivity|].
              split; [|exact Hu]. rewrite Hh1. apply lookup_insert_eq.
           ++ specialize (Hc m p s'). unfold cached_slice, cached_dict in Hc.
              rewrite Hm in Hc. destruct (Hc Hs') as (lc & d' & H1 & H2 & H3).
              exists lc, d'. split; [exact H1|]. split; [|exact H3].
              rewrite Hh1, lookup_insert_ne; [exact H2|]. intros ->; congruence.
  - apply slice_differs_false in Hd.
    destruct (Hc n product s Hd) as (lc & d & H1 & H2 & H3).
    unfold cached_dict in H1. destruct (is_generic n) eqn:Hg.
    + rewrite H1, H2.
      destruct (alloc_spec d (heap σ)) as [Hf1 Hh1].
      destruct (alloc d (heap σ)) as [l h1] eqn:Ea. cbn [fst snd] in Hf1, Hh1.
      exists d. cbn [heap]. split; [|split; [exact H3|]].
      * rewrite Hh1. apply lookup_insert_eq.
      * intros m p s' Hs'. unfold cached_slice, cached_dict in *.
        cbn [heap dic_before dic_before_generic s_before s_before_generic] in *.
        specialize (Hc m p s'). unfold cached_slice, cached_dict in Hc.
        destruct (Hc Hs') as (lc' & d' & H1' & H2' & H3').
        exists lc', d'. split; [exact H1'|]. split; [|exact H3'].
        rewrite Hh1, lookup_insert_ne; [exact H2'|]. intros ->; congruence.
    + rewrite H1. exists d. split; [exact H2|]. split; [exact H3|exact Hc].
Qed.

Lemma initial_consistent : consistent initial.
Proof.
  intros n product s H. unfold cached_slice, initial in H. cbn in H.
  destruct (is_generic n); [rewrite lookup_empty in H|]; discriminate.
Qed.

Lemma unpack_hit_generic buf pos product σ lc d :
  hit buf pos SGENERIC_DATA_BLOCK product σ ->
  dic_before_generic σ !! product = Some lc ->
  heap σ !! lc = Some d ->
  _unpack_from_buf buf pos SGENERIC_DATA_BLOCK product σ =
    (Ok (fresh (dom (heap σ))),
     mkState (<[fresh (dom (heap σ)) := d]> (heap σ)) (dic_before σ)
             (dic_before_generic σ) (s_before σ) (s_before_generic σ)).
Proof.
  intros Hh H1 H2. unfold _unpack_from_buf.
  rewrite (hit_unfold _ _ _ _ _ Hh).
  change (is_generic SGENERIC_DATA_BLOCK) with true. cbv iota.
  rewrite H1, H2. reflexivity.
Qed.

Lemma unpack_hit_other buf pos n product σ lc :
  is_generic n = false ->
  hit buf pos n product σ ->
  dic_before σ n = Some lc ->
  _unpack_from_buf buf pos n product σ = (Ok lc, σ).
Proof.
  intros Hg Hh H1. unfold _unpack_from_buf.
  rewrite (hit_unfold _ _ _ _ _ Hh), Hg, H1. reflexivity.
Qed.

(** C5 (amended): on a cache hit a GENERIC_DATA_BLOCK request returns a
    fresh copy of the cached map, so that a later mutation of the
    returned map leaves later hits unchanged; a request for any other
    structure returns the cached object itself, so that a mutation of
    the returned map is what later hits return. *)
Theorem unpack_from_buf_on_hit buf pos n product σ :
  consistent σ ->
  hit buf pos n product σ ->
  exists lc d,
    cached_dict σ n product = Some lc /\
    heap σ !! lc = Some d /\
    if is_generic n then
      exists l σ',
        _unpack_from_buf buf pos n product σ = (Ok l, σ') /\
        heap σ !! l = None /\ l <> lc /\
        heap σ' !! l = Some d /\ heap σ' !! lc = Some d /\
        forall k v, exists l2 σ2,
          _unpack_from_buf buf pos n product (setitem l k v σ') = (Ok l2, σ2) /\
          heap σ2 !! l2 = Some d
    else
      _unpack_from_buf buf pos n product σ = (Ok lc, σ) /\
      forall k v, exists σ2,
        _unpack_from_buf buf pos n product (setitem lc k v σ) = (Ok lc, σ2) /\
        heap σ2 !! lc = Some (dict_set d k v).
Proof.
  intros Hc Hh. destruct (Hc _ _ _ Hh) as (lc & d & H1 & H2 & H3).
  exists lc, d. split; [exact H1|]. split; [exact H2|].
  unfold cached_dict in H1. destruct (is_generic n) eqn:Hg.
  - assert (n = SGENERIC_DATA_BLOCK) as ->.
    { unfold is_generic in Hg. destruct (decide (n = SGENERIC_DATA_BLOCK));
        [assumption|discriminate]. }
    set (l := fresh (dom (heap σ))).
    assert (Hf : heap σ !! l = None)
      by (apply not_elem_of_dom; apply is_fresh).
    assert (Hne : l <> lc) by (intros ->; congruence).
    eexists l, _. split; [exact (unpack_hit_generic buf pos product σ lc d Hh H1 H2)|].
    cbn [heap]. split; [exact Hf|]. split; [exact Hne|].
    split; [apply lookup_insert_eq|].
    split; [rewrite lookup_insert_ne by exact Hne; exact H2|].
    intros k v. eexists _, _. split.
    + apply unpack_hit_generic with (lc := lc).
      * exact Hh.
      * exact H1.
      * unfold setitem. cbn [heap]. rewrite lookup_insert_eq.
        rewrite lookup_insert_ne by exact Hne.
        rewrite lookup_insert_ne by exact Hne. exact H2.
    + cbn [heap]. apply lookup_insert_eq.
  - split; [apply unpack_hit_other; assumption|].
    intros k v. eexists. split.
    + apply unpack_hit_other; [exact Hg| |exact H1].
      unfold hit, cached_slice in *. rewrite Hg in *. exact Hh.
    + unfold setitem. cbn [heap]. rewrite H2. apply lookup_insert_eq.
Qed.
End CacheFacts.

(** C5, witness: the second MSG_HEADER request on the same bytes. *)
Lemma state_after_header_consistent : Cache.consistent state_after_header.
Proof.
  pose proof (unpack_from_buf_contents msg1_record_bytes 0 SMSG_HEADER None
                Cache.initial initial_consistent) as H.
  unfold state_after_header.
  destruct (Cache._unpack_from_buf msg1_record_bytes 0 SMSG_HEADER None
              Cache.initial) as [[l|e] σ'] eqn:E.
  - destruct H as (d & _ & _ & Hc). exact Hc.
  - vm_compute in E. discriminate E.
Qed.

Lemma unpack_from_buf_on_hit_witness :
  Cache.consistent state_after_header /\
  Cache.hit msg1_record_bytes 0 SMSG_HEADER None state_after_header /\
  exists lc d,
    Cache.cached_dict state_after_header SMSG_HEADER None = Some lc /\
    Cache.heap state_after_header !! lc = Some d /\
    Cache._unpack_from_buf msg1_record_bytes 0 SMSG_HEADER None
      state_after_header = (Ok lc, state_after_header).
Proof.
  assert (Hh : Cache.hit msg1_record_bytes 0 SMSG_HEADER None state_after_header)
    by (vm_compute; reflexivity).
  split; [exact state_after_header_consistent|]. split; [exact Hh|].
  destruct (unpack_from_buf_on_hit msg1_record_bytes 0 SMSG_HEADER None
              state_after_header state_after_header_consistent Hh)
    as (lc & d & H1 & H2 & H3).
  exists lc, d. split; [exact H1|]. split; [exact H2|].
  change (Cache.is_generic SMSG_HEADER) with false in H3. cbv iota in H3.
  exact (proj1 H3).
Defined.

(** C5, counterexample: a MSG_HEADER hit returns the cached object itself. *)
Lemma msg_header_hit_returns_cached_object :
  Cache.hit msg1_record_bytes 0 SMSG_HEADER None state_after_header /\
  ~ Cache.returns_copy msg1_record_bytes 0 SMSG_HEADER None state_after_header.
Proof.
  assert (Hh : Cache.hit msg1_record_bytes 0 SMSG_HEADER None state_after_header)
    by (vm_compute; reflexivity).
  split; [exact Hh|].
  intros (l & lc & d & σ' & H1 & H2 & _ & _ & Hne).
  change (Cache.cached_dict state_after_header SMSG_HEADER None)
    with (Cache.dic_before state_after_header SMSG_HEADER) in H2.
  rewrite (unpack_hit_other msg1_record_bytes 0 SMSG_HEADER None
             state_after_header lc eq_refl Hh H2) in H1.
  injection H1 as <- _. apply Hne. reflexivity.
Qed.

(** C2, counterexample: a stream of exactly 1000 bytes is removed by the
    code, but kept by the rule "discard when the distance is less than
    1000". *)
Lemma stream_of_1000_bytes_is_dropped :
  spec_bzip2_start_pos one_stream_1000 = [0] /\
  decode_bzip2_start_pos one_stream_1000 = [] /\
  decode_bzip2_start_pos one_stream_1000 <> spec_bzip2_start_pos one_stream_1000.
Proof.
  assert (H1 : spec_bzip2_start_pos one_stream_1000 = [0])
    by (vm_compute; reflexivity).
  assert (H2 : decode_bzip2_start_pos one_stream_1000 = [])
    by (vm_compute; reflexivity).
  split; [exact H1|]. split; [exact H2|]. rewrite H1, H2. discriminate.
Qed.



(** ** The record parser *)

Lemma bind_Ok_inv {A B} (m : M A) (k : A -> M B) w b :
  bind m k = (w, Ok b) ->
  exists w1 a w2, m = (w1, Ok a) /\ k a = (w2, Ok b) /\ w = w1 ++ w2.
Proof.
  unfold bind. destruct m as [w1 [a|e]]; [|discriminate].
  destruct (k a) as [w2 r] eqn:E. intros [= <- ->]. eauto 6.
Qed.

Lemma lift_Ok_inv {A} (r : result A) w a : lift r = (w, Ok a) -> r = Ok a /\ w = [].
Proof. unfold lift. intros [= <- ->]. auto. Qed.

Lemma unpack_shape buf pos n d :
  unpack_from_buf buf pos n = Ok d ->
  d = combine (_structure_content n)
        (unpack_fields (_structure_format n)
                       (slice buf pos (pos + _structure_size n))).
Proof.
  unfold unpack_from_buf, _unpack_structure, struct_unpack.
  destruct (Nat.eqb _ _); simpl; [|discriminate]. intros [= <-]. reflexivity.
Qed.

Lemma unpack_raises buf pos n e :
  unpack_from_buf buf pos n = Raise e -> e = StructError.
Proof.
  unfold unpack_from_buf, _unpack_structure, struct_unpack.
  destruct (Nat.eqb _ _); simpl; [discriminate|]. intros [= <-]. reflexivity.
Qed.

Lemma unpack_msg_header_shape buf pos header :
  unpack_from_buf buf pos SMSG_HEADER = Ok header ->
  exists size channels type seq_id date ms segments seg_num,
    header = [ ("size", PInt size); ("channels", PInt channels);
               ("type", PInt type); ("seq_id", PInt seq_id);
               ("date", PInt date); ("ms", PInt ms);
               ("segments", PInt segments); ("seg_num", PInt seg_num) ]%string.
Proof.
  intros H. apply unpack_shape in H. subst header.
  generalize (slice buf pos (pos + _structure_size SMSG_HEADER)). intros s.
  cbv [_structure_content _structure_format structure MSG_HEADER map fst snd
       INT1 INT2 INT4 unpack_fields unpack_field combine].
  repeat eexists.
Qed.

Lemma unpack_msg5_num_cuts buf pos h :
  unpack_from_buf buf pos SMSG_5 = Ok h -> exists n, get_int h "num_cuts" = Ok n.
Proof.
  intros H. apply unpack_shape in H. subst h.
  generalize (slice buf pos (pos + _structure_size SMSG_5)). intros s.
  cbv [_structure_content _structure_format structure MSG_5 map fst snd
       INT1 INT2 INT4 CODE1 CODE2 unpack_fields unpack_field combine].
  eexists. reflexivity.
Qed.

Lemma msg5_cuts_raises buf base ixs : forall acc cuts e,
  msg5_cuts buf base ixs acc = (cuts, Raise e) -> e = StructError.
Proof.
  induction ixs as [|i ixs IH]; intros acc cuts e; cbn [msg5_cuts].
  - discriminate.
  - destruct (unpack_from_buf _ _ _) as [c|e'] eqn:E.
    + apply IH.
    + intros [= _ <-]. eapply unpack_raises. exact E.
Qed.

(** [_get_msg5_from_buf] returns [pos + RECORD_SIZE] or raises
    [struct.error]. *)
Lemma msg5_outcome buf pos dic :
  exists dic',
    _get_msg5_from_buf buf pos dic = (dic', Ok (pos + RECORD_SIZE)) \/
    _get_msg5_from_buf buf pos dic = (dic', Raise StructError).
Proof.
  unfold _get_msg5_from_buf.
  destruct (unpack_from_buf buf _ SMSG_5) as [h|e] eqn:E.
  - destruct (unpack_msg5_num_cuts _ _ _ E) as [n ->].
    destruct (msg5_cuts _ _ _ _) as [cuts [[]|e]] eqn:Ec; eexists.
    + left. reflexivity.
    + right. apply msg5_cuts_raises in Ec. subst e. reflexivity.
  - apply unpack_raises in E. subst e. eexists. right. reflexivity.
Qed.

Lemma dict_get_set {V} (d : list (string * V)) k v k' :
  dict_get (dict_set d k v) k' =
  if String.eqb k k' then Some v else dict_get d k'.
Proof.
  induction d as [|[k0 v0] d IH]; cbn [dict_set dict_get].
  - reflexivity.
  - destruct (String.eqb k0 k) eqn:E0; cbn [dict_get].
    + apply String.eqb_eq in E0. subst k0.
      destruct (String.eqb k k'); reflexivity.
    + destruct (String.eqb k0 k') eqn:E1.
      * apply String.eqb_eq in E1. subst k0.
        rewrite String.eqb_sym, E0. reflexivity.
      * exact IH.
Qed.

Lemma dict_has_set {V} (d : list (string * V)) k v k' :
  dict_has (dict_set d k v) k' = String.eqb k k' || dict_has d k'.
Proof.
  unfold dict_has. rewrite dict_get_set. destruct (String.eqb k k'); reflexivity.
Qed.

Lemma unpack_msg1_ints buf pos h :
  unpack_from_buf buf pos SMSG_1 = Ok h ->
  exists sur_nbins doppler_nbins sur_step doppler_step sur_first doppler_first
         sur_pointer vel_pointer width_pointer doppler_resolution,
    get_int h "sur_nbins" = Ok sur_nbins /\
    get_int h "doppler_nbins" = Ok doppler_nbins /\
    get_int h "sur_range_step" = Ok sur_step /\
    get_int h "doppler_range_step" = Ok doppler_step /\
    get_int h "sur_range_first" = Ok sur_first /\
    get_int h "doppler_range_first" = Ok doppler_first /\
    get_int h "sur_pointer" = Ok sur_pointer /\
    get_int h "vel_pointer" = Ok vel_pointer /\
    get_int h "width_pointer" = Ok width_pointer /\
    get_int h "doppler_resolution" = Ok doppler_resolution.
Proof.
  intros H. apply unpack_shape in H. subst h.
  generalize (slice buf pos (pos + _structure_size SMSG_1)). intros s.
  cbv [_structure_content _structure_format structure MSG_1 map fst snd
       INT1 INT2 INT4 SINT2 REAL4 CODE1 CODE2 unpack_fields unpack_field combine].
  repeat eexists.
Qed.

(** What [_get_msg1_from_buf] does once the MSG_1 header is unpacked: it
    returns [pos + RECORD_SIZE], and each moment block is attached exactly
    when the condition of its [if] statement holds. *)
Lemma msg1_outcome buf pos dic moments h1 :
  unpack_from_buf buf (pos + _structure_size SMSG_HEADER) SMSG_1 = Ok h1 ->
  exists sur_pointer vel_pointer width_pointer dic',
    get_int h1 "sur_pointer" = Ok sur_pointer /\
    get_int h1 "vel_pointer" = Ok vel_pointer /\
    get_int h1 "width_pointer" = Ok width_pointer /\
    _get_msg1_from_buf buf pos dic moments = Ok (pos + RECORD_SIZE, dic') /\
    dict_has dic' "REF" =
      (truthy sur_pointer
       && (negb (moments_truthy moments) || in_moments "REF" moments))
      || dict_has dic "REF" /\
    dict_has dic' "VEL" =
      (truthy vel_pointer
       && (negb (moments_truthy moments) || in_moments "VEL" moments))
      || dict_has dic "VEL" /\
    dict_has dic' "SW" =
      (truthy width_pointer
       && (negb (moments_truthy moments) || in_moments "REF" moments))
      || dict_has dic "SW".
Proof.
  intros H.
  destruct (unpack_msg1_ints _ _ _ H)
    as (sn & dn & ss & ds & sf & df & sp & vp & wp & dr &
        E1 & E2 & E3 & E4 & E5 & E6 & E7 & E8 & E9 & E10).
  exists sp, vp, wp. unfold _get_msg1_from_buf.
  rewrite H. cbn [rbind]. rewrite E1, E2, E3, E4, E5, E6, E7, E8, E9, E10.
  cbn [rbind np_frombuffer].
  set (cR := truthy sp && (negb (moments_truthy moments) || in_moments "REF" moments)).
  set (cV := truthy vp && (negb (moments_truthy moments) || in_moments "VEL" moments)).
  set (cW := truthy wp && (negb (moments_truthy moments) || in_moments "REF" moments)).
  destruct cR, cV, cW; cbn [rbind]; eexists;
    (split; [reflexivity|]); (split; [reflexivity|]); (split; [reflexivity|]);
    (split; [reflexivity|]);
    rewrite ?dict_has_set; cbn [String.eqb Ascii.eqb Bool.eqb andb orb];
    repeat split; reflexivity.
Qed.

Lemma msg1_raises buf pos dic moments e :
  unpack_from_buf buf (pos + _structure_size SMSG_HEADER) SMSG_1 = Raise e ->
  _get_msg1_from_buf buf pos dic moments = Raise e.
Proof. intros H. unfold _get_msg1_from_buf. rewrite H. reflexivity. Qed.

(** The new cursor, whenever [_get_record_from_buf] returns. *)
Lemma get_record_new_pos buf pos moments header w new_pos dic :
  unpack_from_buf buf pos SMSG_HEADER = Ok header ->
  _get_record_from_buf buf pos moments = (w, Ok (new_pos, dic)) ->
  exists type size segments seg_num,
    get_int header "type" = Ok type /\
    get_int header "size" = Ok size /\
    get_int header "segments" = Ok segments /\
    get_int header "seg_num" = Ok seg_num /\
    new_pos = advance_rule pos type size segments seg_num.
Proof.
  intros H Hr.
  destruct (unpack_msg_header_shape _ _ _ H)
    as (size & channels & type & seq_id & date & ms & segments & seg_num & ->).
  exists type, size, segments, seg_num.
  do 4 (split; [reflexivity|]).
  revert Hr. unfold _get_record_from_buf. rewrite H.
  cbn [lift bind get_int dict_get String.eqb Ascii.eqb Bool.eqb app].
  unfold advance_rule.
  destruct (type =? 31) eqn:E31; [|destruct (type =? 5) eqn:E5;
    [|destruct (type =? 29) eqn:E29; [|destruct (type =? 1) eqn:E1]]].
  - unfold _get_msg31_from_buf.
    cbn [lift bind get_attrs get_int dict_get String.eqb Ascii.eqb Bool.eqb app].
    intros Hr.
    destruct (unpack_from_buf _ 0 SMSG_31) as [h31|e]; [|discriminate].
    cbn [lift bind app] in Hr.
    destruct (msg31_blocks _ _ _ _ _) as [w1 [dic1|e]]; [|discriminate].
    cbn [ret app] in Hr. injection Hr as _ <- _. reflexivity.
  - apply Z.eqb_eq in E5. subst type. cbn [Z.eqb Pos.eqb].
    match goal with
    | |- context [_get_msg5_from_buf ?b ?p ?d] =>
        destruct (msg5_outcome b p d) as [dic' [E|E]]; rewrite E
    end; cbn [warnings_warn bind ret app]; intros [= _ <- _]; reflexivity.
  - unfold _get_msg29_from_buf.
    cbn [rbind get_attrs get_int dict_get String.eqb Ascii.eqb Bool.eqb].
    destruct (size =? 65535); cbn [rbind lift bind warnings_warn ret app];
      intros [= _ <- _]; reflexivity.
  - unfold lift. intros Hr.
    destruct (unpack_from_buf buf (pos + _structure_size SMSG_HEADER) SMSG_1)
      as [h1|e] eqn:E.
    + match type of Hr with
      | context [_get_msg1_from_buf ?b ?p ?d ?m] =>
          destruct (msg1_outcome b p d m h1 E)
            as (sp & vp & wp & dic' & _ & _ & _ & Hm & _)
      end.
      rewrite Hm in Hr. injection Hr as _ <- _. reflexivity.
    + rewrite (msg1_raises _ _ _ _ _ E) in Hr. discriminate.
  - intros [= _ <- _]. reflexivity.
Qed.

(** C3: the cursor after a record is given by the size rule of its message
    type.  Whenever [_get_record_from_buf] returns, the new position is
    [advance_rule]; it does return for every type other than 1 and 31, for
    type 1 as soon as the MSG_1 header can be unpacked, and for type 31 as
    soon as the MSG_31 header and its blocks can be decoded. *)
Theorem record_cursor_advance buf pos moments header :
  unpack_from_buf buf pos SMSG_HEADER = Ok header ->
  exists type size segments seg_num,
    get_int header "type" = Ok type /\
    get_int header "size" = Ok size /\
    get_int header "segments" = Ok segments /\
    get_int header "seg_num" = Ok seg_num /\
    (forall w new_pos dic,
        _get_record_from_buf buf pos moments = (w, Ok (new_pos, dic)) ->
        new_pos = advance_rule pos type size segments seg_num) /\
    (type <> 31 -> type <> 1 ->
     exists w dic,
       _get_record_from_buf buf pos moments
       = (w, Ok (advance_rule pos type size segments seg_num, dic))) /\
    (type = 1 ->
     forall h1,
       unpack_from_buf buf (pos + _structure_size SMSG_HEADER) SMSG_1 = Ok h1 ->
       exists dic,
         _get_record_from_buf buf pos moments
         = ([], Ok (advance_rule pos type size segments seg_num, dic))) /\
    (type = 31 ->
     forall mbuf h31 w dic1,
       mbuf = slice buf (pos + _structure_size SMSG_HEADER)
                    (advance_rule pos type size segments seg_num) ->
       unpack_from_buf mbuf 0 SMSG_31 = Ok h31 ->
       msg31_blocks mbuf h31 moments block_pointers
                    [("header"%string, EAttrs header)] = (w, Ok dic1) ->
       _get_record_from_buf buf pos moments
       = (w, Ok (advance_rule pos type size segments seg_num,
                 dict_set dic1 "msg_header" (EAttrs h31)))).
Proof.
  intros H.
  destruct (unpack_msg_header_shape _ _ _ H)
    as (size & channels & type & seq_id & date & ms & segments & seg_num & ->).
  exists type, size, segments, seg_num.
  do 4 (split; [reflexivity|]).
  unfold _get_record_from_buf. rewrite H.
  cbn [lift bind get_int dict_get String.eqb Ascii.eqb Bool.eqb app].
  unfold advance_rule.
  destruct (type =? 31) eqn:E31; [|destruct (type =? 5) eqn:E5;
    [|destruct (type =? 29) eqn:E29; [|destruct (type =? 1) eqn:E1]]].
  - (* type 31 *)
    unfold _get_msg31_from_buf.
    cbn [lift bind get_attrs get_int dict_get String.eqb Ascii.eqb Bool.eqb app].
    repeat split.
    + intros w new_pos dic Hr.
      destruct (unpack_from_buf _ 0 SMSG_31) as [h31|e]; [|discriminate].
      cbn [lift bind app] in Hr.
      destruct (msg31_blocks _ _ _ _ _) as [w1 [dic1|e]]; [|discriminate].
      cbn [ret app] in Hr. injection Hr as _ <- _. reflexivity.
    + intros Hne. apply Z.eqb_eq in E31. contradiction.
    + intros ->. discriminate.
    + intros _ mbuf h31 w dic1 -> Hu Hb. rewrite Hu. cbn [lift bind app].
      rewrite Hb. cbv [bind ret]. rewrite app_nil_r. reflexivity.
  - (* type 5 *)
    destruct (msg5_outcome buf pos [("header"%string,
                EAttrs [ ("size", PInt size); ("channels", PInt channels);
                         ("type", PInt type); ("seq_id", PInt seq_id);
                         ("date", PInt date); ("ms", PInt ms);
                         ("segments", PInt segments);
                         ("seg_num", PInt seg_num) ]%string)])
      as [dic' [E|E]]; rewrite E; cbn [warnings_warn bind ret app].
    all: apply Z.eqb_eq in E5; subst type; cbn [Z.eqb Pos.eqb].
    all: repeat split; try discriminate; try (intros ? ? ? [= _ <- _]; reflexivity);
         intros _ _; eauto.
  - (* type 29 *)
    unfold _get_msg29_from_buf.
    cbn [rbind get_attrs get_int dict_get String.eqb Ascii.eqb Bool.eqb].
    apply Z.eqb_eq in E29; subst type; cbn [Z.eqb Pos.eqb].
    destruct (size =? 65535); cbn [rbind lift bind warnings_warn ret app].
    all: repeat split; try discriminate; try (intros ? ? ? [= _ <- _]; reflexivity);
         intros _ _; eauto.
  - (* type 1 *)
    apply Z.eqb_eq in E1; subst type.
    repeat split.
    + intros w new_pos dic Hr. unfold lift in Hr.
      destruct (unpack_from_buf buf (pos + _structure_size SMSG_HEADER) SMSG_1)
        as [h1|e] eqn:E.
      * destruct (msg1_outcome buf pos [("header"%string,
                EAttrs [ ("size", PInt size); ("channels", PInt channels);
                         ("type", PInt 1); ("seq_id", PInt seq_id);
                         ("date", PInt date); ("ms", PInt ms);
                         ("segments", PInt segments);
                         ("seg_num", PInt seg_num) ]%string)] MomNone h1 E)
          as (sp & vp & wp & dic' & _ & _ & _ & Hm & _).
        rewrite Hm in Hr. injection Hr as _ <- _. reflexivity.
      * rewrite (msg1_raises _ _ _ _ _ E) in Hr. discriminate.
    + intros _ Hne. contradiction.
    + intros _ h1 E.
      destruct (msg1_outcome buf pos [("header"%string,
                EAttrs [ ("size", PInt size); ("channels", PInt channels);
                         ("type", PInt 1); ("seq_id", PInt seq_id);
                         ("date", PInt date); ("ms", PInt ms);
                         ("segments", PInt segments);
                         ("seg_num", PInt seg_num) ]%string)] MomNone h1 E)
          as (sp & vp & wp & dic' & _ & _ & _ & Hm & _).
      rewrite Hm. exists dic'. reflexivity.
    + discriminate.
  - (* any other type *)
    repeat split.
    + intros w new_pos dic [= _ <- _]. reflexivity.
    + cbn [ret]. eauto.
    + intros ->. discriminate.
    + intros ->. discriminate.
Qed.

Lemma byte_val_nonneg b : 0 <= byte_val b.
Proof. unfold byte_val. lia. Qed.

Lemma be_uint_nonneg bs : 0 <= be_uint bs.
Proof.
  unfold be_uint. assert (H : forall acc, 0 <= acc ->
    0 <= fold_left (fun acc b => acc * 256 + byte_val b) bs acc).
  { induction bs as [|b bs IH]; intros acc Hacc; cbn [fold_left]; [exact Hacc|].
    apply IH. pose proof (byte_val_nonneg b). lia. }
  apply H. lia.
Qed.

Lemma unpack_msg_header_nonneg buf pos header :
  unpack_from_buf buf pos SMSG_HEADER = Ok header ->
  exists size segments seg_num,
    get_int header "size" = Ok size /\
    get_int header "segments" = Ok segments /\
    get_int header "seg_num" = Ok seg_num /\
    0 <= size /\ 0 <= segments /\ 0 <= seg_num.
Proof.
  intros H. apply unpack_shape in H. subst header.
  generalize (slice buf pos (pos + _structure_size SMSG_HEADER)). intros s.
  cbv [_structure_content _structure_format structure MSG_HEADER map fst snd
       INT1 INT2 INT4 unpack_fields unpack_field combine].
  eexists _, _, _. repeat (split; [reflexivity|]).
  repeat split; apply be_uint_nonneg.
Qed.

(** Every record moves the cursor forward, by at least 12 bytes: the
    loops that walk a buffer record by record terminate. *)
Lemma record_cursor_strictly_advances buf pos moments w new_pos dic :
  _get_record_from_buf buf pos moments = (w, Ok (new_pos, dic)) ->
  pos + 12 <= new_pos.
Proof.
  intros Hr.
  destruct (unpack_from_buf buf pos SMSG_HEADER) as [header|e] eqn:H.
  - destruct (unpack_msg_header_nonneg _ _ _ H)
      as (size & segments & seg_num & Hs & Hg & Hn & H0 & H1 & H2).
    destruct (get_record_new_pos buf pos moments header w new_pos dic H Hr)
      as (type & size' & segments' & seg_num' & _ & Hs' & Hg' & Hn' & ->).
    rewrite Hs in Hs'. rewrite Hg in Hg'. rewrite Hn in Hn'.
    injection Hs' as <-. injection Hg' as <-. injection Hn' as <-.
    unfold advance_rule.
    change (_structure_size SMSG_HEADER) with 16. unfold RECORD_SIZE.
    assert (0 <= Z.lor (Z.shiftl segments 16) seg_num).
    { apply Z.lor_nonneg. split; [apply Z.shiftl_nonneg|]; assumption. }
    destruct (type =? 31); [lia|]. destruct (type =? 29); [|lia].
    destruct (size =? 65535); lia.
  - unfold _get_record_from_buf in Hr. rewrite H in Hr. discriminate Hr.
Qed.

(** The pre-scan of a gzip file applies the same size rule, and so moves
    forward by at least 12 bytes. *)
Lemma index_step_advance buf i add size :
  index_step buf i = Ok (add, size) ->
  12 <= size /\
  exists header type msg_size segments seg_num,
    unpack_from_buf buf i SMSG_HEADER = Ok header /\
    get_int header "type" = Ok type /\
    get_int header "size" = Ok msg_size /\
    get_int header "segments" = Ok segments /\
    get_int header "seg_num" = Ok seg_num /\
    i + size = advance_rule i type msg_size segments seg_num /\
    add = (type =? 31) || (type =? 1).
Proof.
  unfold index_step. intros Hs.
  destruct (unpack_from_buf buf i SMSG_HEADER) as [header|e] eqn:H;
    [|discriminate Hs].
  destruct (unpack_msg_header_nonneg _ _ _ H)
    as (sz & sg & sn & Hsz & Hsg & Hsn & H0 & H1 & H2).
  destruct (unpack_msg_header_shape _ _ _ H)
    as (size' & channels & type & seq_id & date & ms & segments & seg_num & ->).
  cbn [get_int dict_get String.eqb Ascii.eqb Bool.eqb] in Hsz, Hsg, Hsn.
  injection Hsz as <-. injection Hsg as <-. injection Hsn as <-.
  cbn [rbind get_int dict_get String.eqb Ascii.eqb Bool.eqb] in Hs.
  assert (0 <= Z.lor (Z.shiftl segments 16) seg_num).
  { apply Z.lor_nonneg. split; [apply Z.shiftl_nonneg|]; assumption. }
  assert (Hres : 12 <= size /\
                 i + size = advance_rule i type size' segments seg_num /\
                 add = (type =? 31) || (type =? 1)).
  { unfold advance_rule. revert Hs.
    change (_structure_size SMSG_HEADER) with 16. unfold RECORD_SIZE.
    destruct (Z.eqb_spec type 31) as [->|N31].
    - intros [= <- <-]. repeat split; lia.
    - destruct (Z.eqb_spec type 29) as [->|N29].
      + destruct (size' =? 65535); cbn [rbind]; intros [= <- <-];
          repeat split; lia.
      + intros [= <- <-]. repeat split; lia. }
  destruct Hres as (Ha & Hb & Hc). split; [exact Ha|].
  eexists _, type, size', segments, seg_num.
  split; [reflexivity|]. repeat (split; [reflexivity|]). split; assumption.
Qed.

(** The pre-scan terminates: one unit of fuel per byte left is enough. *)
Lemma index_loop_terminates buf : forall fuel i indices,
  len buf - i <= Z.of_nat fuel ->
  index_loop fuel buf i indices <> None.
Proof.
  induction fuel as [|fuel IH]; intros i indices Hf; cbn [index_loop];
    (destruct (Z.ltb_spec i (len buf)); [|discriminate]).
  - lia.
  - destruct (index_step buf i) as [[add size]|e] eqn:Hs; [|discriminate].
    apply index_step_advance in Hs as [Hsz _]. apply IH. lia.
Qed.

Example index_loop_two_rays :
  index_loop 2 (ray_bytes 0 1 1 1 ++ ray_bytes 0 1 2 1) 0 [] = Some (Ok [0; 88]).
Proof. vm_compute. reflexivity. Qed.

(** C3, witness: the type-31 record of the test vectors, whose header
    announces 53 halfwords: the cursor goes from 0 to 16 + (53 * 2 - 4). *)
Lemma record_cursor_advance_witness :
  (exists header, unpack_from_buf msg31_record_bytes 0 SMSG_HEADER = Ok header) /\
  (exists w dic,
      _get_record_from_buf msg31_record_bytes 0 MomNone = (w, Ok (118, dic))) /\
  (forall w new_pos dic,
      _get_record_from_buf msg31_record_bytes 0 MomNone = (w, Ok (new_pos, dic)) ->
      new_pos = 118).
Proof.
  destruct (unpack_from_buf msg31_record_bytes 0 SMSG_HEADER) as [header|e] eqn:H;
    [|vm_compute in H; discriminate H].
  split; [exists header; reflexivity|].
  split; [eexists _, _; vm_compute; reflexivity|].
  destruct (record_cursor_advance msg31_record_bytes 0 MomNone header H)
    as (type & size & segments & seg_num & Ht & Hs & Hg & Hn & Hadv & _).
  vm_compute in H. injection H as <-.
  vm_compute in Ht, Hs, Hg, Hn.
  injection Ht as <-. injection Hs as <-. injection Hg as <-. injection Hn as <-.
  intros w new_pos dic Hr. rewrite (Hadv w new_pos dic Hr). reflexivity.
Defined.

Example record_type29_oversized :
  fst (_get_record_from_buf (mk_msg_header 65535 29 1 2) 0 MomNone) = [WMsg29] /\
  exists dic, snd (_get_record_from_buf (mk_msg_header 65535 29 1 2) 0 MomNone)
              = Ok (16 + 65538, dic).
Proof. split; [reflexivity|]. eexists. vm_compute. reflexivity. Qed.

Example record_type5_truncated :
  exists dic, _get_record_from_buf (mk_msg_header 10 5 0 0) 0 MomNone
              = ([WIncompleteMsg5], Ok (2432, dic)).
Proof. eexists. vm_compute. reflexivity. Qed.

(** The type-1 branch of [_get_record_from_buf]: whatever the filter, each
    block is attached exactly when its payload pointer is nonzero. *)
Lemma record_msg1_ignores_filter buf pos moments header h1 :
  unpack_from_buf buf pos SMSG_HEADER = Ok header ->
  get_int header "type" = Ok 1 ->
  unpack_from_buf buf (pos + _structure_size SMSG_HEADER) SMSG_1 = Ok h1 ->
  exists sur_pointer vel_pointer width_pointer dic,
    get_int h1 "sur_pointer" = Ok sur_pointer /\
    get_int h1 "vel_pointer" = Ok vel_pointer /\
    get_int h1 "width_pointer" = Ok width_pointer /\
    _get_record_from_buf buf pos moments = ([], Ok (pos + RECORD_SIZE, dic)) /\
    dict_has dic "REF" = truthy sur_pointer /\
    dict_has dic "VEL" = truthy vel_pointer /\
    dict_has dic "SW" = truthy width_pointer.
Proof.
  intros H Ht H1. unfold _get_record_from_buf. rewrite H.
  cbn [lift bind app]. rewrite Ht. cbn [lift bind app Z.eqb Pos.eqb].
  destruct (msg1_outcome buf pos [("header"%string, EAttrs header)] MomNone h1 H1)
    as (sp & vp & wp & dic' & E1 & E2 & E3 & Hm & HR & HV & HW).
  exists sp, vp, wp, dic'. rewrite Hm. cbn [lift].
  repeat (split; [assumption || reflexivity|]).
  rewrite HR, HV, HW.
  cbn [moments_truthy negb orb dict_has dict_get String.eqb Ascii.eqb Bool.eqb].
  rewrite !andb_true_r, !orb_false_r. auto.
Qed.

(** C1: a type-1 record whose surveillance and width pointers are set.
    Decoded through [_get_record_from_buf] with the filter [["VEL"]], it gets
    its REF and SW blocks although neither tag is in the filter.  Decoded by
    [_get_msg1_from_buf] itself, the SW block is attached under the filter
    [["REF"]] and left out under the filter [["SW"]]. *)
Theorem msg1_moment_filter_not_applied :
  (exists w new_pos dic,
      _get_record_from_buf msg1_record_bytes 0 (MomList ["VEL"%string])
      = (w, Ok (new_pos, dic)) /\
      dict_has dic "REF" = true /\ dict_has dic "SW" = true /\
      dict_has dic "VEL" = false) /\
  (exists new_pos dic,
      _get_msg1_from_buf msg1_record_bytes 0 [] (MomList ["REF"%string])
      = Ok (new_pos, dic) /\
      dict_has dic "SW" = true) /\
  (exists new_pos dic,
      _get_msg1_from_buf msg1_record_bytes 0 [] (MomList ["SW"%string])
      = Ok (new_pos, dic) /\
      dict_has dic "SW" = false).
Proof.
  split; [|split].
  - eexists _, _, _. split; [vm_compute; reflexivity|].
    repeat split; vm_compute; reflexivity.
  - eexists _, _. split; [vm_compute; reflexivity|]. vm_compute; reflexivity.
  - eexists _, _. split; [vm_compute; reflexivity|]. vm_compute; reflexivity.
Qed.

Lemma unpack_generic_ngates buf pos h :
  unpack_from_buf buf pos SGENERIC_DATA_BLOCK = Ok h ->
  exists n, get_int h "ngates" = Ok n.
Proof.
  intros H. apply unpack_shape in H. subst h.
  generalize (slice buf pos (pos + _structure_size SGENERIC_DATA_BLOCK)). intros s.
  cbv [_structure_content _structure_format structure GENERIC_DATA_BLOCK map
       fst snd INT1 INT2 INT4 SINT2 REAL4 CODE1 CODE2 unpack_fields
       unpack_field combine].
  eexists. reflexivity.
Qed.

(** C8: for a generic moment block whose word size is neither 8 nor 16,
    [_get_msg31_data_block] attaches nothing and logs nothing: the call of
    [warnings.warn] receives the word size as its category and raises
    [TypeError]. *)
Theorem unsupported_word_size_raises buf ptr moments name dic word_size :
  decode_ascii_strip (slice buf (ptr + 1) (ptr + 4)) = Ok name ->
  existsb (String.eqb name) moment_names = true ->
  moments_truthy moments && negb (in_moments name moments) = false ->
  unpack_from_buf buf ptr SGENERIC_DATA_BLOCK = Ok dic ->
  get_int dic "word_size" = Ok word_size ->
  word_size <> 8 -> word_size <> 16 ->
  _get_msg31_data_block buf ptr moments = ([], Raise TypeError).
Proof.
  intros Hn Hm Hf Hu Hw H8 H16. unfold _get_msg31_data_block.
  rewrite Hn. cbn [lift bind app].
  assert (Hcase : String.eqb name "VOL" = false /\ String.eqb name "ELV" = false
                  /\ String.eqb name "RAD" = false).
  { unfold moment_names in Hm. cbn [existsb] in Hm.
    repeat (apply orb_true_iff in Hm as [Hm|Hm];
            [apply String.eqb_eq in Hm; subst name; repeat split; reflexivity|]).
    discriminate. }
  destruct Hcase as (-> & -> & ->). rewrite Hm, Hf, Hu. cbn [lift bind app].
  destruct (unpack_generic_ngates _ _ _ Hu) as [n ->]. rewrite Hw.
  cbn [lift bind app].
  destruct (Z.eqb_spec word_size 16); [contradiction|].
  destruct (Z.eqb_spec word_size 8); [contradiction|].
  reflexivity.
Qed.

(** C8, witness: a REF block that declares a word size of 4. *)
Lemma unsupported_word_size_raises_witness :
  _get_msg31_data_block ref_block_word_size_4 0 MomNone = ([], Raise TypeError).
Proof.
  destruct (unpack_from_buf ref_block_word_size_4 0 SGENERIC_DATA_BLOCK)
    as [dic|e] eqn:Hu; [|vm_compute in Hu; discriminate Hu].
  apply (unsupported_word_size_raises ref_block_word_size_4 0 MomNone "REF" dic 4).
  - vm_compute. reflexivity.
  - reflexivity.
  - reflexivity.
  - exact Hu.
  - vm_compute in Hu. injection Hu as <-. reflexivity.
  - lia.
  - lia.
Defined.



(** ** Repair of a scan's index list *)

Lemma np_diff_snoc l x y : np_diff (l ++ [x; y]) = np_diff (l ++ [x]) ++ [y - x].
Proof.
  induction l as [|a l IH]; [reflexivity|].
  destruct l as [|b l]; [reflexivity|].
  change (np_diff ((a :: b :: l) ++ [x; y]))
    with ((b - a) :: np_diff ((b :: l) ++ [x; y])).
  change (np_diff ((a :: b :: l) ++ [x]))
    with ((b - a) :: np_diff ((b :: l) ++ [x])).
  rewrite IH. reflexivity.
Qed.

Lemma desc_cons2 a b t : desc (a :: b :: t) = (a - b =? 1) && desc (b :: t).
Proof.
  unfold desc, all_unit_steps. cbn [rev]. rewrite <- app_assoc. cbn [app].
  rewrite np_diff_snoc, forallb_app. cbn [forallb].
  rewrite andb_true_r, andb_comm, (Z.eqb_sym 1). reflexivity.
Qed.

Lemma desc_two a b : desc [a; b] = (a - b =? 1).
Proof. rewrite desc_cons2. unfold desc. cbn. apply andb_true_r. Qed.

Lemma filter_all_false {A} (f : A -> bool) l :
  (forall x, In x l -> f x = false) -> filter f l = [].
Proof.
  induction l as [|x l IH]; intros H; [reflexivity|]. cbn [filter].
  rewrite (H x (or_introl eq_refl)). apply IH. intros y Hy. apply H. right. exact Hy.
Qed.

Lemma walk_back_filter r : forall last a,
  map snd
      (filter (fun ij => desc (firstn (fst ij - a + 2) (last :: r)))
              (combine (seq a (length r)) r))
  = walk_back last r.
Proof.
  induction r as [|x r IH]; intros last a; [reflexivity|].
  cbn [length seq combine filter fst walk_back].
  replace (a - a + 2)%nat with 2%nat by lia.
  cbn [firstn]. rewrite desc_two.
  destruct (last - x =? 1) eqn:E.
  - cbn [map snd]. f_equal. rewrite <- (IH x (S a)). f_equal.
    apply filter_ext_in. intros [i y] Hin. cbn [fst].
    apply in_combine_l in Hin. apply in_seq in Hin.
    replace (i - a + 2)%nat with (S (S (S (i - S a)))) by lia.
    replace (i - S a + 2)%nat with (S (S (i - S a))) by lia.
    cbn [firstn]. rewrite desc_cons2, E. reflexivity.
  - rewrite filter_all_false; [reflexivity|].
    intros [i y] Hin. cbn [fst].
    apply in_combine_l in Hin. apply in_seq in Hin.
    replace (i - a + 2)%nat with (S (S (S (i - S a)))) by lia.
    cbn [firstn]. rewrite desc_cons2, E. reflexivity.
Qed.

Lemma py_getitem_last {A} (l : list A) x : py_getitem (l ++ [x]) (-1) = Ok x.
Proof.
  unfold py_getitem, len. rewrite length_app. cbn [length Z.ltb Z.compare].
  replace (Z.of_nat (length l + 1) + -1) with (Z.of_nat (length l)) by lia.
  destruct (Z.ltb_spec (Z.of_nat (length l)) 0); [lia|].
  destruct (Z.leb_spec (Z.of_nat (length l + 1)) (Z.of_nat (length l))); [lia|].
  cbn [orb]. rewrite Nat2Z.id, nth_error_app2 by lia.
  rewrite Nat.sub_diag. reflexivity.
Qed.

Lemma slice_init {A} (l : list A) x : slice (l ++ [x]) 0 (-1) = l.
Proof.
  unfold slice, slice_bound, len. rewrite length_app. cbn [length Z.ltb Z.compare].
  rewrite Z.min_l by lia. rewrite Z.max_r by lia.
  change (skipn (Z.to_nat 0) (l ++ [x])) with (l ++ [x]).
  replace (Z.to_nat (Z.of_nat (length l + 1) + -1 - 0)) with (length l) by lia.
  rewrite firstn_app, Nat.sub_diag, firstn_all. cbn [firstn]. apply app_nil_r.
Qed.

Lemma slice_from_neg {A} (l : list A) (k : nat) :
  (1 <= k <= length l)%nat ->
  slice_from l (- Z.of_nat k) = skipn (length l - k) l.
Proof.
  intros Hk. unfold slice_from, slice_bound, len.
  destruct (Z.ltb_spec (- Z.of_nat k) 0); [|lia].
  f_equal. lia.
Qed.

(** The comprehension of [decode_file] computes the longest trailing run
    of consecutive indices. *)
Lemma repair_scan_trailing_run msgs :
  msgs <> [] -> repair_scan msgs = Ok (trailing_run msgs).
Proof.
  intros Hne. unfold repair_scan, trailing_run.
  destruct (rev msgs) as [|last r] eqn:E.
  - apply (f_equal (@rev Z)) in E. rewrite rev_involutive in E. contradiction.
  - assert (Hm : msgs = rev r ++ [last]).
    { apply (f_equal (@rev Z)) in E. rewrite rev_involutive in E. exact E. }
    rewrite Hm at 1. rewrite py_getitem_last. cbn [rbind]. do 3 f_equal.
    rewrite Hm at 1. rewrite slice_init, rev_involutive.
    unfold enumerate. rewrite <- (walk_back_filter r last 0%nat). f_equal.
    apply filter_ext_in. intros [i y] Hin. cbn [fst].
    apply in_combine_l in Hin. apply in_seq in Hin.
    replace (- (Z.of_nat i + 2)) with (- Z.of_nat (i + 2)) by lia.
    assert (Hlen : length msgs = S (length r)).
    { rewrite Hm, length_app, length_rev. cbn. lia. }
    rewrite slice_from_neg by lia.
    unfold desc. f_equal.
    rewrite <- E, firstn_rev, rev_involutive. f_equal. lia.
Qed.

(** ** One decoding pass *)

Lemma nrf_Ok {A} (a : A) : never_nrf (Ok a).
Proof. discriminate. Qed.

Lemma nrf_rbind {A B} (m : result A) (k : A -> result B) :
  never_nrf m -> (forall a, never_nrf (k a)) -> never_nrf (rbind m k).
Proof.
  destruct m as [a|e]; cbn [rbind]; intros H1 H2; [apply H2|].
  intros [= ->]. apply H1. reflexivity.
Qed.

Lemma nrf_mapM {A B} (f : A -> result B) l :
  (forall x, never_nrf (f x)) -> never_nrf (mapM f l).
Proof.
  intros Hf. induction l as [|x l IH]; cbn [mapM]; [apply nrf_Ok|].
  apply nrf_rbind; [apply Hf|]. intros y.
  apply nrf_rbind; [exact IH|]. intros ys. apply nrf_Ok.
Qed.

Lemma nrf_anyM {A} (f : A -> result bool) l :
  (forall x, never_nrf (f x)) -> never_nrf (anyM f l).
Proof.
  intros Hf. induction l as [|x l IH]; cbn [anyM]; [apply nrf_Ok|].
  apply nrf_rbind; [apply Hf|]. intros [|]; [apply nrf_Ok|exact IH].
Qed.

Lemma nrf_py_getitem {A} (l : list A) i : never_nrf (py_getitem l i).
Proof.
  unfold py_getitem, never_nrf.
  destruct (_ || _); [discriminate|]. destruct (nth_error _ _); discriminate.
Qed.

Lemma nrf_get_int d k : never_nrf (get_int d k).
Proof. unfold get_int, never_nrf. destruct (dict_get d k) as [[]|]; discriminate. Qed.

Lemma nrf_get_attrs r k : never_nrf (get_attrs r k).
Proof. unfold get_attrs, never_nrf. destruct (dict_get r k) as [[]|]; discriminate. Qed.

Lemma nrf_msg_header_field k m : never_nrf (msg_header_field k m).
Proof.
  unfold msg_header_field. apply nrf_rbind; [apply nrf_get_attrs|].
  intros h. apply nrf_get_int.
Qed.

Ltac nrf :=
  repeat first
    [ apply nrf_Ok | discriminate | apply nrf_py_getitem | apply nrf_get_int
    | apply nrf_get_attrs | apply nrf_msg_header_field
    | apply nrf_rbind; [|intro] | apply nrf_mapM; intro | apply nrf_anyM; intro
    | match goal with
      | |- never_nrf (if ?c then _ else _) => destruct c
      | |- never_nrf (match ?x with _ => _ end) => destruct x
      end ].

Lemma nrf_repair_scan msgs : never_nrf (repair_scan msgs).
Proof. unfold repair_scan. nrf. Qed.

Lemma nrf_first_msg_of sm i j : never_nrf (first_msg_of sm i j).
Proof. unfold first_msg_of. nrf. Qed.

Lemma nrf_scan_startend bzip2 rm rs rr starts sm i :
  never_nrf (scan_startend bzip2 rm rs rr starts sm i).
Proof. unfold scan_startend. repeat (apply nrf_rbind; [apply nrf_first_msg_of|intro]). nrf. Qed.

Lemma nrf_any_zero_ngates r : never_nrf (any_zero_ngates r).
Proof. unfold any_zero_ngates. nrf. Qed.

Lemma nrf_min_meta_invalid bzip2 ts w rr sm :
  never_nrf (min_meta_invalid bzip2 ts w rr sm).
Proof.
  unfold min_meta_invalid. nrf.
Qed.

Lemma nrf_group_and_locate bzip2 rm vcp0 rs ts t rr starts :
  never_nrf (group_and_locate bzip2 rm vcp0 rs ts t rr starts).
Proof.
  unfold group_and_locate, any_wrong_step.
  apply nrf_rbind; [nrf|intro]. apply nrf_rbind; [nrf|intro].
  apply nrf_rbind; [nrf|intro].
  apply nrf_rbind; [destruct (is_min_meta rm); [apply nrf_min_meta_invalid|nrf]|intro].
  destruct a2; [nrf|].
  apply nrf_rbind; [|intro; nrf].
  destruct (decode_meta rm); [|nrf].
  apply nrf_rbind; [apply nrf_mapM; intro; apply nrf_repair_scan|intro].
  apply nrf_rbind; [apply nrf_mapM; intro; apply nrf_scan_startend|intro]. nrf.
Qed.

Lemma enumerate_map_snd {A} (l : list A) : map snd (enumerate l) = l.
Proof.
  unfold enumerate. generalize 0%nat.
  induction l as [|x l IH]; intros a; cbn [length seq combine map snd];
    [reflexivity|]. f_equal. apply IH.
Qed.

Lemma filter_map_swap {A B} (g : A -> B) (P : B -> bool) l :
  filter P (map g l) = map g (filter (fun x => P (g x)) l).
Proof.
  induction l as [|x l IH]; cbn [map filter]; [reflexivity|].
  destruct (P (g x)); cbn [map]; rewrite IH; reflexivity.
Qed.

Lemma collect_radials_spec t sl irs :
  match collect_radials t sl irs with
  | Ok rp =>
      fst rp = map (fun x => fst (snd x))
                   (filter (fun x => snd (snd x) =? t) irs)
  | Raise e =>
      e = IndexError /\ filter (fun x => snd (snd x) =? t) irs <> []
  end.
Proof.
  induction irs as [|[i [r ty]] irs IH]; cbn [collect_radials filter snd fst];
    [reflexivity|].
  destruct (ty =? t); [|exact IH].
  destruct (py_getitem sl (Z.of_nat i)) as [p|e] eqn:Ep; cbn [rbind].
  - destruct (collect_radials t sl irs) as [rp|e]; cbn [rbind].
    + cbn [fst map snd]. f_equal. exact IH.
    + split; [apply IH|discriminate].
  - split; [|discriminate]. unfold py_getitem in Ep.
    destruct (_ || _); [congruence|]. destruct (nth_error _ _); congruence.
Qed.

Lemma collect_radials_enumerate t sl records msg_types :
  match collect_radials t sl (enumerate (combine records msg_types)) with
  | Ok rp => fst rp = records_of_type t records msg_types
  | Raise e => e = IndexError /\ records_of_type t records msg_types <> []
  end.
Proof.
  pose proof (collect_radials_spec t sl (enumerate (combine records msg_types))) as H.
  assert (Heq :
    map (fun x : nat * (record * Z) => fst (snd x))
        (filter (fun x => snd (snd x) =? t)
                (enumerate (combine records msg_types)))
    = records_of_type t records msg_types).
  { unfold records_of_type.
    rewrite <- (enumerate_map_snd (combine records msg_types)) at 2.
    rewrite (filter_map_swap snd (fun rt => snd rt =? t)), map_map. reflexivity. }
  destruct (collect_radials _ _ _) as [rp|e].
  - rewrite H. exact Heq.
  - destruct H as [He Hne]. split; [exact He|].
    intros Hnil. rewrite <- Heq in Hnil. apply map_eq_nil in Hnil. contradiction.
Qed.

Lemma len_zero_nil {A} (l : list A) : (len l =? 0) = true <-> l = [].
Proof.
  unfold len. rewrite Z.eqb_eq. destruct l; cbn [length]; split;
    try reflexivity; try discriminate; lia.
Qed.

Ltac rbind_inv H :=
  repeat match type of H with
         | rbind ?m _ = Ok _ =>
             let E := fresh "E" in
             let a := fresh "a" in
             destruct m as [a|] eqn:E; cbn [rbind] in H; [|discriminate H]
         end.

(** What a finished pass leaves on the decoder. *)
Lemma group_and_locate_finished bzip2 rm vcp0 rs ts t rr starts d ev :
  group_and_locate bzip2 rm vcp0 rs ts t rr starts = Ok (Finished d ev) ->
  _msg_type d = t /\ radial_records d = rr /\
  exists elev_nums,
    mapM (msg_header_field "elevation_number") rr = Ok elev_nums /\
    scan_msgs d = filter (fun j => negb (len j =? 0)) (group_scans elev_nums) /\
    nscans d = len (scan_msgs d) /\
    if decode_meta rm then
      exists repaired se,
        mapM repair_scan (scan_msgs d) = Ok repaired /\
        mapM (scan_startend bzip2 rm rs rr starts repaired)
             (py_range 0 (len repaired)) = Ok se /\
        scan_startend_pos d = Some se
    else scan_startend_pos d = None.
Proof.
  unfold group_and_locate. intros H. rbind_inv H.
  destruct a2; [discriminate H|]. rbind_inv H.
  injection H as <- _. cbn [_msg_type radial_records scan_msgs nscans scan_startend_pos].
  split; [reflexivity|]. split; [reflexivity|].
  exists a. split; [reflexivity|]. split; [reflexivity|]. split; [reflexivity|].
  destruct (decode_meta rm).
  - rbind_inv E3. injection E3 as <-. cbn [fst]. eauto.
  - injection E3 as <-. reflexivity.
Qed.

Lemma group_and_locate_reopen bzip2 rm vcp0 rs ts t rr starts :
  group_and_locate bzip2 rm vcp0 rs ts t rr starts = Ok Reopen ->
  rm = RMMinMeta.
Proof.
  unfold group_and_locate. intros H. rbind_inv H.
  destruct rm; try reflexivity; cbn [is_min_meta] in E2; injection E2 as <-;
    rbind_inv H; discriminate H.
Qed.

Lemma decode_pass_reopen bzip2 rm vcp0 rs :
  decode_pass bzip2 rm vcp0 rs = Ok Reopen -> rm = RMMinMeta.
Proof.
  unfold decode_pass. intros H. rbind_inv H.
  destruct (len (fst a0) =? 0); [discriminate H|].
  eapply group_and_locate_reopen. exact H.
Qed.

(** C9: the radial type is the one of 1 and 31 with the greater count of
    records (1 on a tie), [radial_records] are exactly the records of that
    type, and the pass raises "no radial records" if and only if there is
    none. *)
Theorem decode_pass_selects_radials bzip2 rm vcp0 rs msg_types :
  mapM record_type (_records rs) = Ok msg_types ->
  (choose_msg_type msg_types = 1 \/ choose_msg_type msg_types = 31) /\
  count_of 1 msg_types <= count_of (choose_msg_type msg_types) msg_types /\
  count_of 31 msg_types <= count_of (choose_msg_type msg_types) msg_types /\
  (forall d ev,
      decode_pass bzip2 rm vcp0 rs = Ok (Finished d ev) ->
      _msg_type d = choose_msg_type msg_types /\
      radial_records d
      = records_of_type (choose_msg_type msg_types) (_records rs) msg_types) /\
  (decode_pass bzip2 rm vcp0 rs = Raise NoRadialsFound <->
   records_of_type (choose_msg_type msg_types) (_records rs) msg_types = []).
Proof.
  intros Hty.
  assert (Hc : (choose_msg_type msg_types = 1 \/ choose_msg_type msg_types = 31) /\
    count_of 1 msg_types <= count_of (choose_msg_type msg_types) msg_types /\
    count_of 31 msg_types <= count_of (choose_msg_type msg_types) msg_types).
  { unfold choose_msg_type.
    destruct (Z.ltb_spec (count_of 1 msg_types) (count_of 31 msg_types));
      repeat split; auto; lia. }
  destruct Hc as (H1 & H2 & H3).
  split; [exact H1|]. split; [exact H2|]. split; [exact H3|].
  set (t := choose_msg_type msg_types) in *.
  unfold decode_pass. rewrite Hty. cbn [rbind]. fold t.
  set (sl := if decode_meta rm && bzip2 then _ else _).
  pose proof (collect_radials_enumerate t sl (_records rs) msg_types) as Hcr.
  destruct (collect_radials t sl _) as [rp|e]; cbn [rbind].
  - rewrite <- Hcr. destruct (len (fst rp) =? 0) eqn:El.
    + split; [discriminate|]. split; [intros _|reflexivity].
      apply len_zero_nil. exact El.
    + split.
      * intros d ev H. apply group_and_locate_finished in H as (Ha & Hb & _).
        auto.
      * split.
        -- intros H. exfalso. revert H. apply nrf_group_and_locate.
        -- intros Hnil. apply len_zero_nil in Hnil. congruence.
  - destruct Hcr as [-> Hne]. split; [discriminate|].
    split; [discriminate|contradiction].
Qed.

(** C9, witness: the file in which both radial formats occur. *)
Lemma decode_pass_selects_radials_witness :
  exists d ev,
    decode_pass false RMAll None mixed_formats = Ok (Finished d ev) /\
    _msg_type d = 31 /\ len (radial_records d) = 2.
Proof.
  destruct (mapM record_type (_records mixed_formats)) as [msg_types|e] eqn:Hty;
    [|vm_compute in Hty; discriminate Hty].
  destruct (decode_pass_selects_radials false RMAll None mixed_formats msg_types Hty)
    as (_ & _ & _ & Hfin & _).
  vm_compute in Hty. injection Hty as <-.
  destruct (decode_pass false RMAll None mixed_formats) as [[d ev|]|e] eqn:Hp;
    try (vm_compute in Hp; discriminate Hp).
  exists d, ev. split; [reflexivity|].
  destruct (Hfin d ev eq_refl) as [Ht Hr]. rewrite Ht, Hr.
  split; vm_compute; reflexivity.
Defined.

(** A "min-meta" pass that reaches the validity check and fails it ends in
    the branch that decodes again: both radial formats present, a wrong
    step between the sampled rays of a gzip file, or, for a bzip2 file, a
    scan that has not exactly one ray or a first ray with a block of zero
    gates. *)
Lemma decode_pass_failed_check (bzip2 : bool) vcp0 rs msg_types rp elev_nums azi_numbers
  wrong_indices_step :
  mapM record_type (_records rs) = Ok msg_types ->
  collect_radials (choose_msg_type msg_types)
    (if bzip2 then _bzip2_read_indices rs else _records_start_pos rs)
    (enumerate (combine (_records rs) msg_types)) = Ok rp ->
  len (fst rp) <> 0 ->
  mapM (msg_header_field "elevation_number") (fst rp) = Ok elev_nums ->
  mapM (msg_header_field "azimuth_number") (fst rp) = Ok azi_numbers ->
  (if negb bzip2 then any_wrong_step azi_numbers gzip_indices_step else Ok false)
  = Ok wrong_indices_step ->
  min_meta_invalid bzip2 msg_types wrong_indices_step (fst rp)
                   (group_scans elev_nums) = Ok true ->
  decode_pass bzip2 RMMinMeta vcp0 rs = Ok Reopen.
Proof.
  intros Hty Hcr Hne Hel Haz Hw Hinv.
  unfold decode_pass. rewrite Hty. cbn [rbind decode_meta andb].
  rewrite Hcr. cbn [rbind].
  destruct (Z.eqb_spec (len (fst rp)) 0) as [E|_]; [contradiction|].
  unfold group_and_locate. rewrite Hel. cbn [rbind]. rewrite Haz. cbn [rbind].
  cbn [is_min_meta andb]. rewrite Hw. cbn [rbind]. rewrite Hinv. reflexivity.
Qed.

Lemma decode_file_step fuel bzip2 read vcp0 rm :
  decode_file (S fuel) bzip2 read vcp0 rm =
  match read rm with
  | Raise e => ([rm], [], Raised e)
  | Ok rs =>
      match decode_pass bzip2 rm vcp0 rs with
      | Raise e => ([rm], [], Raised e)
      | Ok (Finished d ev) => ([rm], ev, Done d)
      | Ok Reopen =>
          let vcp1 := match vcp_read rs with
                      | Some v => Some v
                      | None => vcp0
                      end in
          let '(passes, ev, o) :=
            decode_file fuel bzip2 read vcp1 RMAllMeta in
          (rm :: passes, EvPrint "reopen" :: ev, o)
      end
  end.
Proof. reflexivity. Qed.

(** A pass in "all-meta" mode is the last one. *)
Lemma decode_file_all_meta k bzip2 read vcp1 :
  decode_file (S k) bzip2 read vcp1 RMAllMeta
  = decode_file 1 bzip2 read vcp1 RMAllMeta /\
  snd (decode_file 1 bzip2 read vcp1 RMAllMeta) <> OutOfFuel /\
  fst (fst (decode_file 1 bzip2 read vcp1 RMAllMeta)) = [RMAllMeta].
Proof.
  rewrite !decode_file_step.
  destruct (read RMAllMeta) as [rs|e]; [|repeat split; discriminate].
  destruct (decode_pass bzip2 RMAllMeta vcp1 rs) as [[d ev|]|e] eqn:Hp;
    try (repeat split; discriminate).
  apply decode_pass_reopen in Hp. discriminate Hp.
Qed.

(** C10: a decode runs one pass, or two when it was started in "min-meta"
    mode and the validity check failed; the second pass is in "all-meta"
    mode and cannot ask for a third.  Two units of fuel are always enough,
    and more fuel changes nothing.  When the pass over what was read ends
    in the branch of the failed check ([Reopen]), the mode was "min-meta"
    and [decode_file] does call itself in "all-meta" mode: the passes are
    ["min-meta"; "all-meta"], "reopen" is printed, and the decode ends as
    that second call ends, which is a single pass.  In every other case
    there is one pass only. *)
Theorem decode_file_at_most_one_redecode bzip2 read vcp0 rm n :
  decode_file (S (S n)) bzip2 read vcp0 rm = decode_file 2 bzip2 read vcp0 rm /\
  snd (decode_file 2 bzip2 read vcp0 rm) <> OutOfFuel /\
  (fst (fst (decode_file 2 bzip2 read vcp0 rm)) = [rm] \/
   rm = RMMinMeta /\
   fst (fst (decode_file 2 bzip2 read vcp0 rm)) = [RMMinMeta; RMAllMeta]) /\
  (forall rs,
     read rm = Ok rs -> decode_pass bzip2 rm vcp0 rs = Ok Reopen ->
     rm = RMMinMeta /\
     exists ev o,
       decode_file 1 bzip2 read
         (match vcp_read rs with Some v => Some v | None => vcp0 end) RMAllMeta
       = ([RMAllMeta], ev, o) /\
       decode_file 2 bzip2 read vcp0 rm
       = ([RMMinMeta; RMAllMeta], EvPrint "reopen" :: ev, o)) /\
  ((forall rs, read rm = Ok rs -> decode_pass bzip2 rm vcp0 rs <> Ok Reopen) ->
   fst (fst (decode_file 2 bzip2 read vcp0 rm)) = [rm]).
Proof.
  assert (Hone : forall x : list event * outcome,
    snd x <> OutOfFuel ->
    (forall rs, read rm = Ok rs -> decode_pass bzip2 rm vcp0 rs <> Ok Reopen) ->
    ([rm], fst x, snd x) = ([rm], fst x, snd x) /\
    snd ([rm], fst x, snd x) <> OutOfFuel /\
    (fst (fst ([rm], fst x, snd x)) = [rm] \/
     rm = RMMinMeta /\ fst (fst ([rm], fst x, snd x)) = [RMMinMeta; RMAllMeta]) /\
    (forall rs,
       read rm = Ok rs -> decode_pass bzip2 rm vcp0 rs = Ok Reopen ->
       rm = RMMinMeta /\
       exists ev o,
         decode_file 1 bzip2 read
           (match vcp_read rs with Some v => Some v | None => vcp0 end) RMAllMeta
         = ([RMAllMeta], ev, o) /\
         ([rm], fst x, snd x)
         = ([RMMinMeta; RMAllMeta], EvPrint "reopen" :: ev, o)) /\
    ((forall rs, read rm = Ok rs -> decode_pass bzip2 rm vcp0 rs <> Ok Reopen) ->
     fst (fst ([rm], fst x, snd x)) = [rm])).
  { intros x Hx Hno. split; [reflexivity|]. split; [exact Hx|].
    split; [left; reflexivity|]. split; [|reflexivity].
    intros rs Hrs Hr. exfalso. exact (Hno rs Hrs Hr). }
  rewrite (decode_file_step (S n)), (decode_file_step 1).
  destruct (read rm) as [rs|e].
  2:{ apply (Hone ([], Raised e)); [discriminate|]. intros rs Hrs. discriminate Hrs. }
  destruct (decode_pass bzip2 rm vcp0 rs) as [[d ev|]|e] eqn:Hp.
  - apply (Hone (ev, Done d)); [discriminate|].
    intros rs' [= <-]. rewrite Hp. discriminate.
  - pose proof (decode_pass_reopen _ _ _ _ Hp) as ->.
    cbv zeta.
    set (vcp1 := match vcp_read rs with Some v => Some v | None => vcp0 end).
    destruct (decode_file_all_meta n bzip2 read vcp1) as (H1 & H2 & H3).
    rewrite H1.
    destruct (decode_file 1 bzip2 read vcp1 RMAllMeta) as [[passes ev] o] eqn:H4.
    cbn [fst snd] in *. subst passes.
    split; [reflexivity|]. split; [exact H2|].
    split; [right; split; reflexivity|]. split.
    + intros rs' [= <-] _. split; [reflexivity|].
      exists ev, o. fold vcp1. rewrite H4. split; reflexivity.
    + intros Hno. exfalso. exact (Hno rs eq_refl Hp).
  - apply (Hone ([], Raised e)); [discriminate|].
    intros rs' [= <-]. rewrite Hp. discriminate.
Qed.

(** C10, witness: a gzip file in which both radial formats occur is read in
    "min-meta" mode; the check fails and the file is decoded once more, in
    "all-meta" mode. *)
Lemma decode_file_at_most_one_redecode_witness :
  decode_pass false RMMinMeta None mixed_formats = Ok Reopen /\
  exists ev d,
    decode_file 2 false (fun _ => Ok mixed_formats) None RMMinMeta
    = ([RMMinMeta; RMAllMeta], EvPrint "reopen" :: ev, Done d).
Proof.
  assert (Hp : decode_pass false RMMinMeta None mixed_formats = Ok Reopen)
    by (vm_compute; reflexivity).
  split; [exact Hp|].
  destruct (decode_file_at_most_one_redecode false (fun _ => Ok mixed_formats)
              None RMMinMeta 0) as (_ & _ & _ & H & _).
  destruct (H mixed_formats eq_refl Hp) as (_ & ev & o & H1 & H2).
  destruct o as [d|e|];
    [exists ev, d; exact H2
    |exfalso; vm_compute in H1; discriminate H1
    |exfalso; vm_compute in H1; discriminate H1].
Defined.

Example decode_min_meta_reopens_once :
  exists ev d,
    decode_file 2 false (fun _ => Ok mixed_formats) None RMMinMeta
    = ([RMMinMeta; RMAllMeta], EvPrint "reopen" :: ev, Done d).
Proof. eexists _, _. vm_compute. reflexivity. Qed.

Lemma mapM_repair_scan sm :
  Forall (fun j => j <> []) sm ->
  mapM repair_scan sm = Ok (map trailing_run sm).
Proof.
  induction 1 as [|j sm Hj _ IH]; cbn [mapM map]; [reflexivity|].
  rewrite (repair_scan_trailing_run j Hj), IH. reflexivity.
Qed.

(** C4 (amended): in metadata mode the [scan_msgs] attribute keeps every
    index of every scan; it is the copy used to compute
    [scan_startend_pos] that holds, for each scan, only the longest
    trailing run of consecutive indices. *)
Theorem scan_msgs_attribute_untrimmed bzip2 rm vcp0 rs d ev :
  decode_pass bzip2 rm vcp0 rs = Ok (Finished d ev) ->
  decode_meta rm = true ->
  exists elev_nums starts se,
    mapM (msg_header_field "elevation_number") (radial_records d) = Ok elev_nums /\
    scan_msgs d = filter (fun j => negb (len j =? 0)) (group_scans elev_nums) /\
    mapM repair_scan (scan_msgs d) = Ok (map trailing_run (scan_msgs d)) /\
    mapM (scan_startend bzip2 rm rs (radial_records d) starts
                        (map trailing_run (scan_msgs d)))
         (py_range 0 (len (scan_msgs d))) = Ok se /\
    scan_startend_pos d = Some se.
Proof.
  unfold decode_pass. intros H Hm. rbind_inv H.
  destruct (len (fst a0) =? 0); [discriminate H|].
  apply group_and_locate_finished in H
    as (_ & Hr & elev_nums & He & Hs & _ & Hrep).
  rewrite Hm in Hrep. destruct Hrep as (repaired & se & H1 & H2 & H3).
  assert (Hrun : mapM repair_scan (scan_msgs d) = Ok (map trailing_run (scan_msgs d))).
  { apply mapM_repair_scan. rewrite Hs. apply Forall_forall. intros j Hj.
    apply filter_In in Hj as [_ Hj]. intros ->. discriminate Hj. }
  rewrite Hrun in H1. injection H1 as <-.
  exists elev_nums, (snd a0), se. rewrite Hr.
  split; [exact He|]. split; [exact Hs|]. split; [exact Hrun|].
  split; [|exact H3].
  unfold len in H2 |- *. rewrite length_map in H2. exact H2.
Qed.

(** C4, witness: the two concatenated volumes, read in "all-meta" mode. *)
Lemma scan_msgs_attribute_untrimmed_witness :
  exists d ev,
    decode_pass false RMAllMeta None dual_volume = Ok (Finished d ev) /\
    mapM repair_scan (scan_msgs d) = Ok (map trailing_run (scan_msgs d)).
Proof.
  destruct (decode_pass false RMAllMeta None dual_volume) as [[d ev|]|e] eqn:Hp;
    try (vm_compute in Hp; discriminate Hp).
  exists d, ev. split; [reflexivity|].
  destruct (scan_msgs_attribute_untrimmed false RMAllMeta None dual_volume d ev
              Hp eq_refl) as (elev_nums & starts & se & _ & _ & Hrun & _).
  exact Hrun.
Defined.

(** C4, counterexample: after the two concatenated volumes are decoded,
    [scan_msgs] still holds the indices of the first volume. *)
Lemma dual_volume_scan_msgs_keep_first_volume :
  exists d ev,
    decode_pass false RMAllMeta None dual_volume = Ok (Finished d ev) /\
    scan_msgs d = [[0; 2]; [1; 3]] /\
    map trailing_run (scan_msgs d) = [[2]; [3]] /\
    scan_startend_pos d = Some [(176, Some 264); (264, None)] /\
    scan_msgs d <> map trailing_run (scan_msgs d).
Proof.
  eexists _, _. split; [vm_compute; reflexivity|].
  cbn [scan_msgs scan_startend_pos].
  split; [reflexivity|]. split; [reflexivity|]. split; [reflexivity|].
  discriminate.
Qed.



(** ** Query surface *)

Lemma py_getitem_0 {A} (x : A) l : py_getitem (x :: l) 0 = Ok x.
Proof.
  unfold py_getitem, len. cbn [Z.ltb Z.compare length].
  destruct (Z.leb_spec (Z.of_nat (S (length l))) 0); [lia|]. reflexivity.
Qed.

(** *** Rounding of binary64 numbers *)

Lemma digits2_pos_size p : digits2_pos p = Pos.size p.
Proof. induction p as [p IH|p IH|]; cbn [digits2_pos Pos.size]; congruence. Qed.

Lemma digits2_pos_spec p n :
  2 ^ (n - 1) <= Z.pos p < 2 ^ n -> Z.pos (digits2_pos p) = n.
Proof.
  intros H. assert (Hn : 0 < n).
  { destruct (Z_lt_le_dec 0 n) as [|Hn]; [assumption|].
    destruct (Z.eq_dec n 0) as [->|]; [cbn in H; lia|].
    rewrite (Z.pow_neg_r 2 n) in H by lia. lia. }
  rewrite digits2_pos_size.
  change (Z.pos (Pos.size p)) with (Z.log2 (Z.pos p~0)).
  apply Z.log2_unique; [lia|].
  replace (n + 1) with (Z.succ n) by lia. rewrite Z.pow_succ_r by lia.
  replace n with (Z.succ (n - 1)) at 1 by lia. rewrite Z.pow_succ_r by lia.
  lia.
Qed.

Lemma digits2_pos_bounds p :
  2 ^ (Z.pos (digits2_pos p) - 1) <= Z.pos p < 2 ^ Z.pos (digits2_pos p).
Proof.
  rewrite digits2_pos_size.
  pose proof (Pos.size_gt p) as H1. pose proof (Pos.size_le p) as H2.
  assert (E : Z.pos (2 ^ Pos.size p) = 2 ^ Z.pos (Pos.size p)) by (apply Pos2Z.inj_pow).
  split.
  - assert (2 * 2 ^ (Z.pos (Pos.size p) - 1) = 2 ^ Z.pos (Pos.size p)).
    { rewrite <- Z.pow_succ_r by lia. f_equal. lia. }
    lia.
  - lia.
Qed.

Lemma loc_of_shr_record_of_loc m l :
  loc_of_shr_record (shr_record_of_loc m l) = l.
Proof. destruct l as [|[]]; reflexivity. Qed.

Lemma shr_m_shr_record_of_loc m l : shr_m (shr_record_of_loc m l) = m.
Proof. destruct l as [|[]]; reflexivity. Qed.

(** Rounding a mantissa that has exactly 53 digits and no remainder. *)
Lemma binary_round_aux_exact s m e :
  2 ^ 52 <= Z.pos m < 2 ^ 53 -> -1074 <= e <= 971 ->
  binary_round_aux 53 1024 s (Z.pos m) e loc_Exact = S754_finite s m e.
Proof.
  intros Hm He. pose proof (digits2_pos_spec m 53 Hm) as Hd.
  unfold binary_round_aux, shr_fexp. cbn [Zdigits2]. rewrite Hd.
  replace (fexp 53 1024 (53 + e) - e) with 0 by (unfold fexp, emin; lia).
  cbn [shr shr_record_of_loc shr_m loc_of_shr_record round_nearest_even Zdigits2].
  rewrite Hd.
  replace (fexp 53 1024 (53 + e) - e) with 0 by (unfold fexp, emin; lia).
  cbn [shr shr_record_of_loc shr_m].
  destruct (Z.leb_spec e (1024 - 53)); [reflexivity|lia].
Qed.

Lemma binary_round_aux_unfold s m e l :
  binary_round_aux 53 1024 s m e l
  = let '(mrs, e') := shr_fexp 53 1024 m e l in
    renormalize s (round_nearest_even (shr_m mrs) (loc_of_shr_record mrs)) e'.
Proof. reflexivity. Qed.

Lemma renormalize_carry s m e :
  2 ^ 52 <= Z.pos m <= 2 ^ 53 -> -1074 <= e <= 970 ->
  exists M E,
    renormalize s (Z.pos m) e = S754_finite s M E /\
    (E = e \/ E = e + 1) /\ Z.pos M * 2 ^ (E - e) = Z.pos m.
Proof.
  intros Hm He. unfold renormalize, shr_fexp.
  destruct (Z.eq_dec (Z.pos m) (2 ^ 53)) as [E|N].
  - exists 4503599627370496%positive, (e + 1).
    assert (m = 9007199254740992%positive) as -> by lia.
    split; [|split; [right; reflexivity|]].
    + change (Zdigits2 (Z.pos 9007199254740992)) with 54.
      replace (fexp 53 1024 (54 + e) - e) with 1 by (unfold fexp, emin; lia).
      cbv [shr iter_pos shr_1 shr_record_of_loc shr_m orb].
      destruct (Z.leb_spec (e + 1) (1024 - 53)); [reflexivity|lia].
    + replace (e + 1 - e) with 1 by lia. reflexivity.
  - exists m, e.
    pose proof (digits2_pos_spec m 53 ltac:(lia)) as Hd.
    cbn [Zdigits2]. rewrite Hd.
    replace (fexp 53 1024 (53 + e) - e) with 0 by (unfold fexp, emin; lia).
    cbn [shr shr_record_of_loc shr_m].
    destruct (Z.leb_spec e (1024 - 53)); [|lia].
    split; [reflexivity|]. split; [left; reflexivity|].
    rewrite Z.sub_diag. lia.
Qed.

Lemma round_nearest_even_cases m l :
  round_nearest_even m l = m \/ round_nearest_even m l = m + 1.
Proof. destruct l as [|[]]; cbn; try destruct (Z.even m); auto. Qed.

(** Rounding a quotient of 53 or 54 digits: the result is a finite number
    that lies between the quotient made even and its successor. *)
Lemma binary_round_aux_bounds q e l :
  2 ^ 52 <= q < 2 ^ 54 -> -1074 <= e <= 960 ->
  exists M E,
    binary_round_aux 53 1024 false q e l = S754_finite false M E /\
    e <= E <= e + 2 /\
    q - q mod 2 <= Z.pos M * 2 ^ (E - e) <= q + 1.
Proof.
  intros Hq He. destruct q as [|p|p]; try lia.
  rewrite binary_round_aux_unfold. unfold shr_fexp.
  destruct (Z_lt_le_dec (Z.pos p) (2 ^ 53)) as [Hlt|Hge].
  - pose proof (digits2_pos_spec p 53 ltac:(lia)) as Hd.
    cbn [Zdigits2]. rewrite Hd.
    replace (fexp 53 1024 (53 + e) - e) with 0 by (unfold fexp, emin; lia).
    cbn [shr]. rewrite loc_of_shr_record_of_loc, shr_m_shr_record_of_loc.
    pose proof (Z.mod_pos_bound (Z.pos p) 2 ltac:(lia)) as Hmod.
    destruct (round_nearest_even_cases (Z.pos p) l) as [-> | ->].
    + destruct (renormalize_carry false p e ltac:(lia) ltac:(lia))
        as (M & E & H1 & H2 & H3).
      exists M, E. split; [exact H1|]. split; [lia|]. lia.
    + change (Z.pos p + 1) with (Z.pos (p + 1)).
      destruct (renormalize_carry false (p + 1) e ltac:(lia) ltac:(lia))
        as (M & E & H1 & H2 & H3).
      exists M, E. split; [exact H1|]. split; [lia|]. lia.
  - pose proof (digits2_pos_spec p 54 ltac:(lia)) as Hd.
    cbn [Zdigits2]. rewrite Hd.
    replace (fexp 53 1024 (54 + e) - e) with 1 by (unfold fexp, emin; lia).
    cbn [shr iter_pos].
    assert (Hcase :
      exists p' (b : bool),
        Z.pos p = 2 * Z.pos p' + (if b then 1 else 0) /\
        (shr_m (shr_1 (shr_record_of_loc (Z.pos p) l)) = Z.pos p') /\
        (b = false ->
         round_nearest_even (Z.pos p')
           (loc_of_shr_record (shr_1 (shr_record_of_loc (Z.pos p) l)))
         = Z.pos p')).
    { destruct p as [p'|p'|]; [exists p', true|exists p', false|lia];
        (split; [lia|]); (split; [destruct l as [|[]]; reflexivity|]);
        intros Hb; [discriminate|]; destruct l as [|[]]; reflexivity. }
    destruct Hcase as (p' & b & Hp & Hm & Hev). rewrite Hm.
    assert (Hmod : Z.pos p mod 2 = if b then 1 else 0).
    { rewrite Hp. rewrite Z.add_comm, Z.mul_comm, Z.mod_add by lia.
      destruct b; reflexivity. }
    rewrite Hmod.
    assert (Hb : 0 <= (if b then 1 else 0) <= 1) by (destruct b; lia).
    destruct (round_nearest_even_cases (Z.pos p')
                (loc_of_shr_record (shr_1 (shr_record_of_loc (Z.pos p) l))))
      as [Hr|Hr].
    + rewrite Hr.
      destruct (renormalize_carry false p' (e + 1) ltac:(lia) ltac:(lia))
        as (M & E & H1 & H2 & H3).
      exists M, E. split; [exact H1|]. split; [lia|].
      destruct H2 as [-> | ->].
      * replace (e + 1 - e) with 1 by lia.
        replace (e + 1 - (e + 1)) with 0 in H3 by lia.
        change (2 ^ 1) with 2. change (2 ^ 0) with 1 in H3.
        destruct b; lia.
      * replace (e + 1 + 1 - e) with 2 by lia.
        replace (e + 1 + 1 - (e + 1)) with 1 in H3 by lia.
        change (2 ^ 2) with 4. change (2 ^ 1) with 2 in H3.
        destruct b; lia.
    + destruct b.
      2:{ rewrite (Hev eq_refl) in Hr. lia. }
      rewrite Hr. change (Z.pos p' + 1) with (Z.pos (p' + 1)).
      destruct (renormalize_carry false (p' + 1) (e + 1) ltac:(lia) ltac:(lia))
        as (M & E & H1 & H2 & H3).
      exists M, E. split; [exact H1|]. split; [lia|].
      destruct H2 as [-> | ->].
      * replace (e + 1 - e) with 1 by lia.
        replace (e + 1 - (e + 1)) with 0 in H3 by lia.
        change (2 ^ 1) with 2. change (2 ^ 0) with 1 in H3. lia.
      * replace (e + 1 + 1 - e) with 2 by lia.
        replace (e + 1 + 1 - (e + 1)) with 1 in H3 by lia.
        change (2 ^ 2) with 4. change (2 ^ 1) with 2 in H3. lia.
Qed.

Lemma iter_xO_pow p k : Z.pos (Pos.iter xO p k) = Z.pos p * 2 ^ Z.pos k.
Proof.
  induction k as [|k IH] using Pos.peano_ind.
  - cbn [Pos.iter]. lia.
  - rewrite Pos.iter_succ, Pos2Z.inj_xO, IH, Pos2Z.inj_succ, Z.pow_succ_r by lia.
    lia.
Qed.

(** An integer below [2 ^ 53] is converted without rounding. *)
Lemma f64_of_Z_pos p :
  Z.pos p < 2 ^ 53 ->
  exists mx,
    f64_of_Z (Z.pos p) = S754_finite false mx (Z.pos (digits2_pos p) - 53) /\
    Z.pos mx = Z.pos p * 2 ^ (53 - Z.pos (digits2_pos p)) /\
    2 ^ 52 <= Z.pos mx < 2 ^ 53.
Proof.
  intros Hp. pose proof (digits2_pos_bounds p) as Hd.
  set (d := Z.pos (digits2_pos p)) in *.
  assert (Hd1 : 1 <= d <= 53).
  { split; [subst d; lia|].
    destruct (Z_lt_le_dec 53 d) as [H|H]; [|exact H]. exfalso.
    assert (2 ^ 53 <= 2 ^ (d - 1)) by (apply Z.pow_le_mono_r; lia). lia. }
  assert (Hpow : 2 ^ (d - 1) * 2 ^ (53 - d) = 2 ^ 52).
  { rewrite <- Z.pow_add_r by lia. f_equal. lia. }
  assert (Hpow' : 2 ^ d * 2 ^ (53 - d) = 2 ^ 53).
  { rewrite <- Z.pow_add_r by lia. f_equal. lia. }
  assert (HA : 0 < 2 ^ (53 - d)) by (apply Z.pow_pos_nonneg; lia).
  assert (Hb : 2 ^ 52 <= Z.pos p * 2 ^ (53 - d) < 2 ^ 53).
  { rewrite <- Hpow, <- Hpow'. split.
    - apply Z.mul_le_mono_nonneg_r; lia.
    - apply Z.mul_lt_mono_pos_r; lia. }
  unfold f64_of_Z, binary_normalize, binary_round, shl_align.
  fold d. replace (fexp 53 1024 (d + 0) - 0) with (d - 53)
    by (unfold fexp, emin; lia).
  replace (fexp 53 1024 (d + 0)) with (d - 53) by (unfold fexp, emin; lia).
  destruct (d - 53) as [|k|k] eqn:E; [| lia |].
  - exists p. replace (53 - d) with 0 in * by lia. rewrite Z.mul_1_r in Hb.
    split; [apply binary_round_aux_exact; lia|]. split; [cbn; lia | exact Hb].
  - assert (Ek : Z.pos k = 53 - d) by lia.
    exists (Pos.iter xO p k).
    split; [|rewrite iter_xO_pow, Ek; split; [reflexivity|exact Hb]].
    apply binary_round_aux_exact; [rewrite iter_xO_pow, Ek; exact Hb|lia].
Qed.

(** Division of two positive numbers whose mantissas have 53 digits. *)
Lemma f64_div_normal mx ex my ey :
  2 ^ 52 <= Z.pos mx < 2 ^ 53 -> 2 ^ 52 <= Z.pos my < 2 ^ 53 ->
  -1074 <= ex - ey - 53 ->
  f64_div (S754_finite false mx ex) (S754_finite false my ey)
  = binary_round_aux 53 1024 false
      (Z.pos mx * 2 ^ 53 / Z.pos my) (ex - ey - 53)
      (new_location (Z.pos my) (Z.pos mx * 2 ^ 53 mod Z.pos my)).
Proof.
  intros Hx Hy He.
  unfold f64_div, SFdiv, SFdiv_core_binary. cbn [Zdigits2 xorb].
  rewrite (digits2_pos_spec mx 53 Hx), (digits2_pos_spec my 53 Hy).
  replace (Z.min (fexp 53 1024 (53 + ex - (53 + ey))) (ex - ey))
    with (ex - ey - 53) by (unfold fexp, emin; lia).
  replace (ex - ey - (ex - ey - 53)) with 53 by lia.
  rewrite Z.shiftl_mul_pow2 by lia.
  unfold Z.div, Z.modulo.
  destruct (Z.div_eucl (Z.pos mx * 2 ^ 53) (Z.pos my)) as [q r].
  reflexivity.
Qed.

(** [int(m / 1000.0)] is the integer quotient, for [m] an unsigned 32-bit
    number: the rounding of the division never reaches the next integer. *)
Lemma py_int_secs m :
  0 <= m < 2 ^ 32 ->
  py_int (f64_div (f64_of_Z m) (f64_of_Z 1000)) = Ok (m / 1000).
Proof.
  intros Hm. destruct m as [|p|p]; [reflexivity| |lia].
  destruct (f64_of_Z_pos p ltac:(lia)) as (mx & -> & Hmx & Hmxb).
  pose proof (digits2_pos_bounds p) as Hd.
  set (d := Z.pos (digits2_pos p)) in *.
  assert (Hd1 : 1 <= d <= 32).
  { split; [subst d; lia|].
    destruct (Z_lt_le_dec 32 d) as [H|H]; [|exact H]. exfalso.
    assert (2 ^ 32 <= 2 ^ (d - 1)) by (apply Z.pow_le_mono_r; lia). lia. }
  change (f64_of_Z 1000) with (S754_finite false (1000 * 2 ^ 43) (-43)).
  rewrite f64_div_normal; [| exact Hmxb | cbn; lia | lia].
  set (my := Z.pos (1000 * 2 ^ 43)).
  set (q := Z.pos mx * 2 ^ 53 / my).
  set (l := new_location my (Z.pos mx * 2 ^ 53 mod my)).
  assert (Hmy : my = 1000 * 2 ^ 43) by reflexivity.
  pose proof (Z.div_mod (Z.pos mx * 2 ^ 53) my ltac:(lia)) as Hdm.
  pose proof (Z.mod_pos_bound (Z.pos mx * 2 ^ 53) my ltac:(lia)) as Hr.
  fold q in Hdm. set (r := Z.pos mx * 2 ^ 53 mod my) in *.
  (* T = 2 ^ (63 - d), the weight of a unit in the quotient *)
  set (T := 2 ^ (63 - d)).
  assert (HT : T = 2 ^ (53 - d) * 2 ^ 10).
  { unfold T. rewrite <- Z.pow_add_r by lia. f_equal. lia. }
  assert (HT31 : 2 ^ 31 <= T) by (apply Z.pow_le_mono_r; lia).
  set (X := Z.pos p * T).
  assert (HX : Z.pos mx * 2 ^ 53 = X * 2 ^ 43).
  { unfold X. rewrite Hmx, HT. change (2 ^ 53) with (2 ^ 10 * 2 ^ 43). ring. }
  assert (Hq1 : 1000 * q <= X < 1000 * (q + 1)) by lia.
  set (k := Z.pos p / 1000).
  pose proof (Z.div_mod (Z.pos p) 1000 ltac:(lia)) as Hk.
  pose proof (Z.mod_pos_bound (Z.pos p) 1000 ltac:(lia)) as Hrho.
  fold k in Hk. set (rho := Z.pos p mod 1000) in *.
  assert (Hk0 : 0 <= k) by (apply Z.div_pos; lia).
  assert (HW : 0 <= rho * T <= 999 * T) by nia.
  assert (HXY : X = 1000 * (k * T) + rho * T) by (unfold X; rewrite Hk at 1; ring).
  assert (Hqb : 2 ^ 52 <= q < 2 ^ 54) by lia.
  destruct (binary_round_aux_bounds q (d - 53 - -43 - 53) l Hqb ltac:(lia))
    as (M & E & -> & HE & HM).
  cbn [py_int cond_Zopp]. f_equal.
  pose proof (Z.mod_pos_bound q 2 ltac:(lia)) as Hq2.
  pose proof (Z.div_mod q 2 ltac:(lia)) as Hq3.
  (* k * T is even *)
  assert (HT2 : T = 2 * 2 ^ (62 - d)).
  { unfold T. rewrite <- Z.pow_succ_r by lia. f_equal. lia. }
  assert (HY : k * T = 2 * (k * 2 ^ (62 - d))) by (rewrite HT2; ring).
  assert (Hlow : k * T <= q - q mod 2) by lia.
  assert (Hhigh : q + 1 < k * T + T) by lia.
  set (j := E - (d - 53 - -43 - 53)) in *.
  assert (Hj : 0 <= j <= 2) by lia.
  assert (HE' : - E = 63 - d - j) by lia.
  replace E with (- (- E)) by lia. rewrite Z.shiftl_opp_r.
  rewrite Z.shiftr_div_pow2 by lia. rewrite HE'.
  assert (HTj : T = 2 ^ j * 2 ^ (63 - d - j)).
  { unfold T. rewrite <- Z.pow_add_r by lia. f_equal. lia. }
  set (T' := 2 ^ (63 - d - j)) in *.
  assert (HT' : 0 < T') by (apply Z.pow_pos_nonneg; lia).
  symmetry. apply (Z.div_unique _ _ _ (Z.pos M - T' * k)); [|ring].
  left.
  assert (Hj3 : j = 0 \/ j = 1 \/ j = 2) by lia.
  destruct Hj3 as [Ej|[Ej|Ej]]; rewrite Ej in *;
    [change (2 ^ 0) with 1 in * | change (2 ^ 1) with 2 in *
     | change (2 ^ 2) with 4 in *]; nia.
Qed.

Lemma combine_map_r {A B C} (f : B -> C) (l : list A) (l' : list B) :
  combine l (map f l') = map (fun p => (fst p, f (snd p))) (combine l l').
Proof.
  revert l'. induction l as [|a l IH]; intros [|b l']; cbn [combine map];
    try reflexivity. f_equal. apply IH.
Qed.

(** C7 (amended): the start time is the epoch plus [days[0] - 1] days plus
    the whole seconds of [collect_ms[0] / 1000]; the fraction of a second
    is left out of it and stays in the per-ray offsets, which are
    [secs - floor(secs[0]) + (days - days[0]) * 86400] computed in float64,
    with [secs = collect_ms / 1000.0]: the division, the subtraction and the
    addition each round to the nearest float64. *)
Theorem get_times_start_whole_seconds d scans days ms days0 ms0 :
  _radial_array d (scans_or_all d scans) "collect_date" = Ok (days0 :: days) ->
  _radial_array d (scans_or_all d scans) "collect_ms" = Ok (ms0 :: ms) ->
  0 <= ms0 < 2 ^ 32 ->
  get_times d scans
  = Ok (timedelta (days0 - 1) (ms0 / 1000),
        map (fun dm =>
               f64_add (f64_sub (f64_div (f64_of_Z (snd dm)) (f64_of_Z 1000))
                                (f64_of_Z (ms0 / 1000)))
                       (f64_of_Z ((fst dm - days0) * 86400)))
            (combine (days0 :: days) (ms0 :: ms))).
Proof.
  intros Hd Hm H0. unfold get_times. rewrite Hd, Hm. cbn [rbind map].
  rewrite !py_getitem_0. cbn [rbind]. rewrite (py_int_secs ms0 H0).
  cbn [rbind]. f_equal. f_equal.
  change (f64_div (f64_of_Z ms0) (f64_of_Z 1000)
          :: map (fun m => f64_div (f64_of_Z m) (f64_of_Z 1000)) ms)
    with (map (fun m => f64_div (f64_of_Z m) (f64_of_Z 1000)) (ms0 :: ms)).
  rewrite combine_map_r, map_map. reflexivity.
Qed.

(** C7, witness: two rays collected 1.5 s and 2.5 s after midnight; the
    offsets are the float64 numbers 0.5 and 1.5. *)
Lemma get_times_start_whole_seconds_witness :
  exists d ev,
    decode_pass false RMAll None ref_in_second_ray = Ok (Finished d ev) /\
    get_times d None
    = Ok (1000000, [S754_finite false (2 ^ 52) (-53);
                    S754_finite false (3 * 2 ^ 51) (-52)]).
Proof.
  destruct (decode_pass false RMAll None ref_in_second_ray) as [[d ev|]|e] eqn:Hp;
    try (vm_compute in Hp; discriminate Hp).
  exists d, ev. split; [reflexivity|].
  vm_compute in Hp. injection Hp as <- _.
  refine (get_times_start_whole_seconds _ None [1] [2500] 1 1500 _ _ _).
  - vm_compute. reflexivity.
  - vm_compute. reflexivity.
  - lia.
Defined.

(** C7, counterexample: the first ray was collected 1.5 s after midnight
    of day 1, and the start time is 1 s after the epoch, not 1.5 s. *)
Lemma get_times_start_drops_fraction :
  exists d ev times,
    decode_pass false RMAll None ref_in_second_ray = Ok (Finished d ev) /\
    _radial_array d (scans_or_all d None) "collect_date" = Ok [1; 1] /\
    _radial_array d (scans_or_all d None) "collect_ms" = Ok [1500; 2500] /\
    get_times d None = Ok (1000000, times) /\
    spec_time_start 1 1500 = 1500000 /\
    1000000 <> spec_time_start 1 1500.
Proof.
  eexists _, _, _. split; [vm_compute; reflexivity|].
  split; [vm_compute; reflexivity|]. split; [vm_compute; reflexivity|].
  split; [vm_compute; reflexivity|]. split; [reflexivity|].
  vm_compute. discriminate.
Qed.

(** The offsets are float64 numbers, not the rationals of the formula: for
    a ray collected 1234567.295 s after midnight, [secs - int(secs)] is
    0.2949999999254942 ([5314247558955008 * 2 ** -54]), not 0.295. *)
Example get_times_offset_is_rounded :
  f64_sub (f64_div (f64_of_Z 1234567295) (f64_of_Z 1000)) (f64_of_Z 1234567)
  = S754_finite false 5314247558955008 (-54).
Proof. vm_compute. reflexivity. Qed.

(** C6: one scan of two rays of which only the second has a REF block.
    The loop that looks for scale and offset reads the first ray of each
    scan only, finds nothing, and [get_data] returns the integers
    themselves, unscaled, with the gates of the second ray unmasked. *)
Theorem get_data_unscaled_when_first_ray_lacks_moment :
  exists d ev r0 r1,
    decode_pass false RMAll None ref_in_second_ray = Ok (Finished d ev) /\
    radial_records d = [r0; r1] /\ scan_msgs d = [[0; 1]] /\
    dict_has r0 "REF" = false /\ dict_has r1 "REF" = true /\
    get_data d "REF" 2 None false
    = ([], Ok (MaskedData U1 [[1; 1]; [5; 6]]
                          [[true; true]; [false; false]])).
Proof.
  eexists _, _, _, _. split; [vm_compute; reflexivity|].
  split; [reflexivity|]. split; [reflexivity|].
  split; [vm_compute; reflexivity|]. split; [vm_compute; reflexivity|].
  vm_compute. reflexivity.
Qed.

Lemma fill_rows_absent d moment max_ngates msg_nums :
  Forall (ray_lacks d moment) msg_nums ->
  forall set_datatype dt rows_done rows,
    length rows = length msg_nums ->
    fill_rows d moment max_ngates msg_nums set_datatype dt rows_done rows
    = ([], Ok (dt, rows_done ++ rows)).
Proof.
  induction 1 as [|i msg_nums [msg [Hg Hl]] _ IH];
    intros set_datatype dt rows_done rows Hlen.
  - destruct rows; [reflexivity|discriminate Hlen].
  - destruct rows as [|row rows]; [discriminate Hlen|].
    cbn [fill_rows]. rewrite Hg. cbn [lift bind app]. rewrite Hl. cbn [negb].
    rewrite IH by (cbn [length] in Hlen; lia).
    rewrite <- app_assoc. reflexivity.
Qed.

Lemma find_scale_offset_absent d moment scans :
  Forall (fun scan => exists msgs msg_num,
            py_getitem (scan_msgs d) scan = Ok msgs /\
            py_getitem msgs 0 = Ok msg_num /\
            ray_lacks d moment msg_num) scans ->
  find_scale_offset d moment scans = Ok None.
Proof.
  induction 1 as [|scan scans (msgs & i & H1 & H2 & msg & H3 & H4) _ IH];
    cbn [find_scale_offset]; [reflexivity|].
  rewrite H1. cbn [rbind]. rewrite H2. cbn [rbind]. rewrite H3. cbn [rbind].
  rewrite H4. exact IH.
Qed.

(** X23: when no requested ray has the moment, [get_data] returns rows of
    ones that are masked everywhere. *)
Lemma get_data_absent_fully_masked d moment max_ngates scans msg_nums :
  _msg_nums d scans = Ok msg_nums ->
  Forall (ray_lacks d moment) msg_nums ->
  Forall (fun scan => exists msgs msg_num,
            py_getitem (scan_msgs d) scan = Ok msgs /\
            py_getitem msgs 0 = Ok msg_num /\
            ray_lacks d moment msg_num) scans ->
  0 <= max_ngates ->
  get_data d moment max_ngates (Some scans) false
  = ([], Ok (MaskedData U1
               (repeat (repeat 1 (Z.to_nat max_ngates)) (length msg_nums))
               (repeat (repeat true (Z.to_nat max_ngates)) (length msg_nums)))).
Proof.
  intros Hm Hr Hs H0. unfold get_data. cbn [scans_or_all]. rewrite Hm.
  cbn [lift bind app]. destruct (Z.ltb_spec max_ngates 0); [lia|].
  rewrite (fill_rows_absent d moment max_ngates msg_nums Hr)
    by apply repeat_length.
  cbn [bind app fst snd]. rewrite (find_scale_offset_absent _ _ _ Hs).
  cbn [lift bind ret app]. do 3 f_equal.
  rewrite map_repeat. f_equal. rewrite map_repeat. reflexivity.
Qed.



(** * Further properties of the decoder *)

(** ** Structure codec *)

Lemma unpack_fields_length fs : forall s, length (unpack_fields fs s) = length fs.
Proof. induction fs as [|f fs IH]; intros s; cbn [unpack_fields length]; auto. Qed.

Lemma slice_length_nonneg {A} (b : list A) i n :
  0 <= i -> 0 <= n ->
  len (slice b i (i + n)) = Z.max 0 (Z.min n (len b - i)).
Proof.
  intros Hi Hn. rewrite slice_nonneg by lia. unfold len.
  rewrite length_firstn, length_skipn. lia.
Qed.

Lemma structure_size_pos n : 0 < _structure_size n.
Proof. destruct n; reflexivity. Qed.

(** X1: with a non-negative position, a structure is unpacked exactly when
    the buffer holds all its bytes from that position on, and the map then
    has the fields of the schema, in order; a buffer that ends earlier
    gives [struct.error]. *)
Theorem unpack_from_buf_bounds buf pos n :
  0 <= pos ->
  (pos + _structure_size n <= len buf ->
   exists d, unpack_from_buf buf pos n = Ok d /\
             map fst d = _structure_content n) /\
  (len buf < pos + _structure_size n ->
   unpack_from_buf buf pos n = Raise StructError).
Proof.
  intros Hpos.
  assert (Hsz : 0 <= _structure_size n) by (unfold _structure_size; lia).
  assert (Hsz' : 0 < _structure_size n) by (destruct n; reflexivity).
  pose proof (slice_length_nonneg buf pos (_structure_size n) Hpos Hsz) as Hl.
  unfold unpack_from_buf, _unpack_structure, struct_unpack.
  set (s := slice buf pos (pos + _structure_size n)) in *.
  unfold len in Hl. unfold _structure_size in Hl, Hsz' |- *. clearbody s.
  split; intros H.
  - assert (E : length s = calcsize (_structure_format n))
      by (unfold len, _structure_size in H; lia).
    rewrite E, Nat.eqb_refl. cbn [rbind]. eexists. split; [reflexivity|].
    unfold _structure_content, _structure_format.
    generalize (structure n) as sch. intros sch. generalize s as t.
    induction sch as [|[k f] sch IH]; intros t; cbn [map unpack_fields combine fst snd];
      [reflexivity|]. f_equal. apply IH.
  - destruct (Nat.eqb_spec (length s) (calcsize (_structure_format n))) as [E|E];
      [|reflexivity].
    unfold len, _structure_size in H. lia.
Qed.

(** X1, witness: the MSG_HEADER at the start of the type-31 test record. *)
Lemma unpack_from_buf_bounds_witness :
  exists d, unpack_from_buf msg31_record_bytes 0 SMSG_HEADER = Ok d /\
            map fst d = _structure_content SMSG_HEADER.
Proof.
  refine (proj1 (unpack_from_buf_bounds msg31_record_bytes 0 SMSG_HEADER _) _).
  - lia.
  - vm_compute. discriminate.
Defined.

Lemma be_uint_app bs : forall acc,
  fold_left (fun a b => a * 256 + byte_val b) bs acc
  = acc * 256 ^ Z.of_nat (length bs) + be_uint bs.
Proof.
  unfold be_uint. induction bs as [|b bs IH]; intros acc.
  - cbn. lia.
  - cbn [fold_left length]. rewrite IH, (IH (0 * 256 + byte_val b)).
    rewrite Nat2Z.inj_succ, Z.pow_succ_r by lia. ring.
Qed.

Lemma byte_val_bound b : 0 <= byte_val b < 256.
Proof. unfold byte_val. destruct b; vm_compute; split; congruence. Qed.

Lemma be_uint_bound bs : 0 <= be_uint bs < 256 ^ Z.of_nat (length bs).
Proof.
  induction bs as [|b bs IH].
  - cbn. lia.
  - unfold be_uint. cbn [fold_left length]. rewrite be_uint_app.
    pose proof (byte_val_bound b).
    rewrite Nat2Z.inj_succ, Z.pow_succ_r by lia.
    assert (0 < 256 ^ Z.of_nat (length bs)) by (apply Z.pow_pos_nonneg; lia).
    nia.
Qed.

Lemma to_signed_range k u :
  (0 < k)%nat -> 0 <= u < 256 ^ Z.of_nat k ->
  - (256 ^ Z.of_nat k / 2) <= to_signed k u < 256 ^ Z.of_nat k / 2.
Proof.
  intros Hk Hu. unfold to_signed.
  replace (2 ^ (8 * Z.of_nat k)) with (256 ^ Z.of_nat k)
    by (rewrite Z.pow_mul_r by lia; reflexivity).
  assert (E : 256 ^ Z.of_nat k = 2 * (256 ^ Z.of_nat k / 2)).
  { destruct k as [|k]; [lia|]. rewrite Nat2Z.inj_succ, Z.pow_succ_r by lia.
    replace (256 * 256 ^ Z.of_nat k) with (128 * 256 ^ Z.of_nat k * 2) by ring.
    rewrite Z.div_mul by lia. ring. }
  destruct (Z.ltb_spec u (256 ^ Z.of_nat k / 2)); lia.
Qed.

Lemma unpack_field_range f bs z :
  length bs = fmt_size f -> unpack_field f bs = PInt z -> int_range f z.
Proof.
  intros Hl Hu. pose proof (be_uint_bound bs) as Hb. rewrite Hl in Hb.
  destruct f; cbn [unpack_field] in Hu; try discriminate; injection Hu as <-;
    cbn [int_range fmt_size] in *;
    try exact Hb;
    match goal with
    | |- context [to_signed ?k _] =>
        exact (to_signed_range k (be_uint bs) ltac:(lia) Hb)
    end.
Qed.

Lemma dict_get_unpacked sch : forall s key v,
  length s = calcsize (map snd sch) ->
  dict_get (combine (map fst sch) (unpack_fields (map snd sch) s)) key = Some v ->
  exists f bs, In (key, f) sch /\ v = unpack_field f bs /\ length bs = fmt_size f.
Proof.
  induction sch as [|[k f] sch IH]; intros s key v Hl;
    cbn [map fst snd unpack_fields combine dict_get calcsize fold_right] in *;
    [discriminate|].
  destruct (String.eqb k key) eqn:E.
  - intros [= <-]. apply String.eqb_eq in E. subst k.
    exists f, (firstn (fmt_size f) s). split; [left; reflexivity|].
    split; [reflexivity|]. rewrite length_firstn.
    fold (calcsize (map snd sch)) in Hl. lia.
  - intros H. destruct (IH (skipn (fmt_size f) s) key v) as (f' & bs & Hin & Hv & Hb).
    + rewrite length_skipn. fold (calcsize (map snd sch)) in Hl. lia.
    + exact H.
    + exists f', bs. split; [right; exact Hin|]. split; assumption.
Qed.

Lemma unpacked_field_lookup buf pos n d key v :
  unpack_from_buf buf pos n = Ok d ->
  dict_get d key = Some v ->
  exists f bs, In (key, f) (structure n) /\ v = unpack_field f bs /\
               length bs = fmt_size f.
Proof.
  unfold unpack_from_buf, _unpack_structure, struct_unpack.
  set (s := slice buf pos (pos + _structure_size n)).
  destruct (Nat.eqb_spec (length s) (calcsize (_structure_format n))) as [E|E];
    [|discriminate].
  cbn [rbind]. intros [= <-] Hg.
  unfold _structure_content, _structure_format in *.
  exact (dict_get_unpacked (structure n) s key v E Hg).
Qed.

(** X2: every integer that [_unpack_from_buf] puts in an attribute map
    lies in the range of the format code that the schema gives to its
    field: an unsigned field of [k] bytes in [0, 256^k), a signed one in
    [-256^k/2, 256^k/2). *)
Theorem unpacked_int_in_range buf pos n d key z :
  unpack_from_buf buf pos n = Ok d ->
  dict_get d key = Some (PInt z) ->
  exists f, In (key, f) (structure n) /\ int_range f z.
Proof.
  intros Hu Hg.
  destruct (unpacked_field_lookup buf pos n d key (PInt z) Hu Hg)
    as (f & bs & Hin & Hv & Hb).
  exists f. split; [exact Hin|].
  apply (unpack_field_range f bs z Hb). symmetry. exact Hv.
Qed.

(** X2, witness: the [size] field of a message header. *)
Lemma unpacked_int_in_range_witness :
  exists f, In ("size"%string, f) (structure SMSG_HEADER) /\ int_range f 53.
Proof.
  destruct (unpack_from_buf msg31_record_bytes 0 SMSG_HEADER) as [d|e] eqn:H;
    [|vm_compute in H; discriminate H].
  apply (unpacked_int_in_range msg31_record_bytes 0 SMSG_HEADER d "size" 53 H).
  vm_compute in H. injection H as <-. reflexivity.
Defined.

(** ** The structure cache over a sequence of calls *)

Lemma after_calls_consistent rqs : forall σ,
  Cache.consistent σ -> Cache.consistent (after_calls rqs σ).
Proof.
  induction rqs as [|rq rqs IH]; intros σ Hc; [exact Hc|].
  unfold after_calls. cbn [fold_left]. apply IH.
  pose proof (unpack_from_buf_contents (rq_buf rq) (rq_pos rq) (rq_name rq)
                (rq_product rq) σ Hc) as H.
  destruct (Cache._unpack_from_buf (rq_buf rq) (rq_pos rq) (rq_name rq)
              (rq_product rq) σ) as [[l|e] σ']; cbn [snd].
  - destruct H as (d & _ & _ & H). exact H.
  - destruct H as [_ ->]. exact Hc.
Qed.

(** X3: the memoisation of [_unpack_from_buf] does not show in what it
    returns.  After any sequence of calls from the state in which the
    module is loaded, a call returns an object whose contents are the
    decoding of the requested slice, and it raises exactly when that
    decoding raises, with the same exception. *)
Theorem unpack_from_buf_memo_transparent rqs buf pos n product :
  match Cache._unpack_from_buf buf pos n product
          (after_calls rqs Cache.initial) with
  | (Ok l, σ') =>
      exists d, Cache.heap σ' !! l = Some d /\ unpack_from_buf buf pos n = Ok d
  | (Raise e, _) => unpack_from_buf buf pos n = Raise e
  end.
Proof.
  pose proof (unpack_from_buf_contents buf pos n product _
                (after_calls_consistent rqs _ initial_consistent)) as H.
  destruct (Cache._unpack_from_buf buf pos n product
              (after_calls rqs Cache.initial)) as [[l|e] σ'].
  - destruct H as (d & H1 & H2 & _). exists d. split; assumption.
  - destruct H as [H _]. exact H.
Qed.

(** ** The pre-scan of a gzip file *)

Lemma StronglySorted_snoc l i :
  StronglySorted Z.lt l -> Forall (fun j => j < i) l ->
  StronglySorted Z.lt (l ++ [i]).
Proof.
  induction 1 as [|a l Hs IH Ha]; intros Hl; cbn [app].
  - constructor; constructor.
  - inversion Hl; subst. constructor; [apply IH; assumption|].
    apply Forall_app. split; [exact Ha|]. constructor; [assumption|constructor].
Qed.

Lemma index_loop_invariant buf : forall fuel i indices,
  len buf - i <= Z.of_nat fuel -> 0 <= i ->
  StronglySorted Z.lt indices ->
  Forall (fun j => 0 <= j < i /\ j < len buf /\ radial_header_at buf j) indices ->
  exists r, index_loop fuel buf i indices = Some r /\
    forall l, r = Ok l ->
      StronglySorted Z.lt l /\
      Forall (fun j => 0 <= j < len buf /\ radial_header_at buf j) l.
Proof.
  induction fuel as [|fuel IH]; intros i indices Hf Hi Hs Hall;
    cbn [index_loop]; destruct (Z.ltb_spec i (len buf)) as [Hlt|Hge];
    try lia;
    try (eexists; split; [reflexivity|]; intros l [= <-]; split; [exact Hs|];
         eapply Forall_impl; [|exact Hall]; cbn; intros j (H1 & H2 & H3);
         split; [lia|exact H3]).
  destruct (index_step buf i) as [[add size]|e] eqn:Hstep.
  - destruct (index_step_advance buf i add size Hstep)
      as (Hsz & header & type & msg_size & segs & segn & Hh & Ht & _ & _ & _ & _ & Hadd).
    apply IH; [lia|lia| |].
    + destruct add; [|exact Hs]. apply StronglySorted_snoc; [exact Hs|].
      eapply Forall_impl; [|exact Hall]. cbn. intros j (H1 & _). lia.
    + assert (Hall' : Forall (fun j => 0 <= j < i + size /\ j < len buf /\
                                       radial_header_at buf j) indices).
      { eapply Forall_impl; [|exact Hall]. cbn. intros j (H1 & H2 & H3).
        repeat split; try lia. exact H3. }
      destruct add; [|exact Hall'].
      apply Forall_app. split; [exact Hall'|]. constructor; [|constructor].
      repeat split; try lia. exists header, type. split; [exact Hh|].
      split; [exact Ht|]. symmetry in Hadd. apply orb_true_iff in Hadd.
      destruct Hadd as [H|H]; apply Z.eqb_eq in H; auto.
  - eexists. split; [reflexivity|]. intros l [=].
Qed.

(** X4: the loop of [decode_file] that indexes a gzip file for "min-meta"
    comes to an end within [len(buf)] iterations, by an exception or with
    [self.indices]; the offsets it has collected are then strictly
    increasing, lie inside the buffer, and each of them is the offset of a
    message header of type 31 or 1. *)
Theorem gzip_prescan_indices buf fuel :
  len buf <= Z.of_nat fuel ->
  exists r, index_loop fuel buf 0 [] = Some r /\
    forall l, r = Ok l ->
      StronglySorted Z.lt l /\
      Forall (fun j => 0 <= j < len buf /\ radial_header_at buf j) l.
Proof.
  intros Hf. apply index_loop_invariant; [lia|lia|constructor|constructor].
Qed.

(** X4, witness: a buffer of two type-31 rays. *)
Lemma gzip_prescan_indices_witness :
  exists r, index_loop 176 (ray_bytes 0 1 1 1 ++ ray_bytes 0 1 2 1) 0 [] = Some r /\
    forall l, r = Ok l ->
      StronglySorted Z.lt l /\
      Forall (fun j => 0 <= j < len (ray_bytes 0 1 1 1 ++ ray_bytes 0 1 2 1) /\
                       radial_header_at (ray_bytes 0 1 1 1 ++ ray_bytes 0 1 2 1) j) l.
Proof.
  apply (gzip_prescan_indices (ray_bytes 0 1 1 1 ++ ray_bytes 0 1 2 1) 176).
  vm_compute. discriminate.
Defined.

(** ** The moment filter of type-31 records *)

Lemma bind_lift_Ok_inv {A B} (r : result A) (k : A -> M B) w b :
  bind (lift r) k = (w, Ok b) -> exists a, r = Ok a /\ k a = (w, Ok b).
Proof.
  unfold bind, lift. destruct r as [a|e]; [|discriminate].
  destruct (k a) as [w' r'] eqn:E. cbn [app]. intros [= <- <-]. eauto.
Qed.

Lemma moment_name_cases k :
  In k moment_names ->
  k <> "VOL"%string /\ k <> "ELV"%string /\ k <> "RAD"%string /\
  k <> "None"%string /\ k <> "msg_header"%string /\ k <> "header"%string.
Proof.
  unfold moment_names. cbn [In].
  intros [<-|[<-|[<-|[<-|[<-|[<-|[<-|[]]]]]]]]; repeat split; discriminate.
Qed.

Lemma data_block_name_not_filtered buf ptr moments w name d k :
  _get_msg31_data_block buf ptr moments = (w, Ok (name, d)) ->
  In k moment_names ->
  moments_truthy moments = true -> in_moments k moments = false ->
  name <> k.
Proof.
  intros H Hk Ht Hin. destruct (moment_name_cases k Hk) as (N1 & N2 & N3 & N4 & _).
  unfold _get_msg31_data_block in H.
  apply bind_lift_Ok_inv in H. destruct H as (bn & _ & H).
  destruct (String.eqb_spec bn "VOL") as [E|_].
  { subst bn. apply bind_lift_Ok_inv in H. destruct H as (? & _ & [= _ <- _]). congruence. }
  destruct (String.eqb_spec bn "ELV") as [E|_].
  { subst bn. apply bind_lift_Ok_inv in H. destruct H as (? & _ & [= _ <- _]). congruence. }
  destruct (String.eqb_spec bn "RAD") as [E|_].
  { subst bn. apply bind_lift_Ok_inv in H. destruct H as (? & _ & [= _ <- _]). congruence. }
  destruct (existsb (String.eqb bn) moment_names) eqn:Hm.
  - destruct (moments_truthy moments && negb (in_moments bn moments)) eqn:Hf.
    + injection H as _ <- _. congruence.
    + apply bind_lift_Ok_inv in H. destruct H as (dic & _ & H).
      apply bind_lift_Ok_inv in H. destruct H as (ngates & _ & H).
      apply bind_lift_Ok_inv in H. destruct H as (ws & _ & H).
      apply bind_Ok_inv in H. destruct H as (w1 & data & w2 & _ & H & _).
      injection H as _ <- _. intros ->.
      rewrite Ht, Hin in Hf. discriminate.
  - injection H as _ <- _. intros ->.
    rewrite (proj2 (existsb_exists (String.eqb k) moment_names)) in Hm;
      [discriminate|].
    exists k. split; [exact Hk|apply String.eqb_refl].
Qed.

Lemma msg31_blocks_keeps_absent mbuf hdr moments k :
  In k moment_names ->
  moments_truthy moments = true -> in_moments k moments = false ->
  forall ps dic w dic',
    msg31_blocks mbuf hdr moments ps dic = (w, Ok dic') ->
    dict_has dic k = false -> dict_has dic' k = false.
Proof.
  intros Hk Ht Hin. induction ps as [|p ps IH]; intros dic w dic' H Hd;
    cbn [msg31_blocks] in H.
  - injection H as _ <-. exact Hd.
  - apply bind_lift_Ok_inv in H. destruct H as (v & _ & H).
    destruct (0 <? v).
    + apply bind_Ok_inv in H. destruct H as (w1 & [name d] & w2 & Hb & H & _).
      apply (IH _ _ _ H). cbn [fst snd]. rewrite dict_has_set, Hd, orb_false_r.
      apply String.eqb_neq.
      apply (data_block_name_not_filtered _ _ _ _ _ _ _ Hb Hk Ht Hin).
    + apply (IH _ _ _ H Hd).
Qed.

(** X5: the moment filter of a type-31 record.  When [moments] is given
    (and not empty), a moment that it does not name never becomes a key of
    the record that [_get_record_from_buf] returns. *)
Theorem filtered_moment_absent_from_ray buf pos moments header w new_pos dic k :
  unpack_from_buf buf pos SMSG_HEADER = Ok header ->
  get_int header "type" = Ok 31 ->
  _get_record_from_buf buf pos moments = (w, Ok (new_pos, dic)) ->
  In k moment_names ->
  moments_truthy moments = true -> in_moments k moments = false ->
  dict_has dic k = false.
Proof.
  intros Hh Ht H Hk Hm Hin.
  destruct (moment_name_cases k Hk) as (_ & _ & _ & _ & N5 & N6).
  unfold _get_record_from_buf in H. rewrite Hh in H.
  apply bind_lift_Ok_inv in H. destruct H as (h & [= <-] & H).
  rewrite Ht in H. apply bind_lift_Ok_inv in H. destruct H as (t & [= <-] & H).
  change (31 =? 31) with true in H. cbv iota in H.
  unfold _get_msg31_from_buf in H.
  apply bind_lift_Ok_inv in H. destruct H as (h' & _ & H).
  apply bind_lift_Ok_inv in H. destruct H as (size & _ & H).
  apply bind_lift_Ok_inv in H. destruct H as (h31 & _ & H).
  apply bind_Ok_inv in H. destruct H as (w1 & dic1 & w2 & Hb & H & _).
  injection H as _ _ <-.
  rewrite dict_has_set.
  rewrite (msg31_blocks_keeps_absent _ _ _ _ Hk Hm Hin _ _ _ _ Hb).
  - rewrite orb_false_r. apply String.eqb_neq. congruence.
  - unfold dict_has. cbn [dict_get].
    destruct (String.eqb_spec "header" k) as [E|_]; [congruence|reflexivity].
Qed.

(** X5, witness: the test record with one SW block, read with
    [moments = ["REF"]]. *)
Lemma filtered_moment_absent_from_ray_witness :
  exists w new_pos dic,
    _get_record_from_buf msg31_record_bytes 0 (MomList ["REF"%string])
    = (w, Ok (new_pos, dic)) /\
    dict_has dic "SW" = false.
Proof.
  destruct (_get_record_from_buf msg31_record_bytes 0 (MomList ["REF"%string]))
    as [w [[np dic]|e]] eqn:H; [|vm_compute in H; discriminate H].
  exists w, np, dic. split; [reflexivity|].
  destruct (unpack_from_buf msg31_record_bytes 0 SMSG_HEADER) as [h|e] eqn:Hh;
    [|vm_compute in Hh; discriminate Hh].
  apply (filtered_moment_absent_from_ray msg31_record_bytes 0
           (MomList ["REF"%string]) h w np dic "SW" Hh).
  - vm_compute in Hh. injection Hh as <-. reflexivity.
  - exact H.
  - vm_compute. tauto.
  - reflexivity.
  - reflexivity.
Defined.

(** ** The payload of a generic moment block *)

Lemma slice_length_le {A} (b : list A) i j :
  i <= j -> len (slice b i j) <= j - i.
Proof.
  intros Hij. unfold slice, slice_bound, len. cbv zeta.
  rewrite length_firstn, length_skipn.
  destruct (Z.ltb_spec i 0), (Z.ltb_spec j 0); cbv iota; lia.
Qed.

Lemma pairs_ind {A} (P : list A -> Prop) :
  P [] -> (forall a, P [a]) -> (forall a b l, P l -> P (a :: b :: l)) ->
  forall l, P l.
Proof.
  intros H0 H1 H2. fix IH 1. intros [|a [|b l]]; [exact H0|apply H1|].
  apply H2. apply IH.
Qed.

Lemma be_words_length bs : (length (be_words bs) = Nat.div2 (length bs))%nat.
Proof.
  induction bs as [|a|a b bs IH] using pairs_ind; try reflexivity.
  cbn [be_words length Nat.div2]. f_equal. exact IH.
Qed.

Lemma be_words_range bs : Forall (fun v => 0 <= v < 2 ^ 16) (be_words bs).
Proof.
  induction bs as [|a|a b bs IH] using pairs_ind; try constructor.
  - pose proof (byte_val_bound a). pose proof (byte_val_bound b).
    change (2 ^ 16) with 65536. lia.
  - exact IH.
Qed.

Lemma div2_le_Z (n : nat) (g : Z) :
  Z.of_nat n <= g * 2 -> Z.of_nat (Nat.div2 n) <= g.
Proof.
  intros H. pose proof (Nat.div2_odd n) as E.
  destruct (Nat.odd n); cbn [Nat.b2n] in E; lia.
Qed.

(** X6: the payload of a moment block of a type-31 record.  When
    [_get_msg31_data_block] returns a block under a moment name, the word
    size is 8 or 16, [data] is an array of the matching unsigned type with
    at most [ngates] elements, each of them below [2 ** word_size]; and
    when the buffer holds the whole payload, [data] has exactly [ngates]
    elements. *)
Theorem generic_block_payload buf ptr moments w name dic :
  _get_msg31_data_block buf ptr moments = (w, Ok (name, dic)) ->
  In name moment_names ->
  exists ngates word_size dt data,
    get_int dic "ngates" = Ok ngates /\
    get_int dic "word_size" = Ok word_size /\
    (word_size = 8 /\ dt = U1 \/ word_size = 16 /\ dt = U2) /\
    dict_get dic "data" = Some (PArr dt data) /\
    len data <= ngates /\
    Forall (fun v => 0 <= v < 2 ^ word_size) data /\
    (0 <= ptr ->
     ptr + _structure_size SGENERIC_DATA_BLOCK + ngates * itemsize dt <= len buf ->
     len data = ngates).
Proof.
  intros H Hn. destruct (moment_name_cases name Hn) as (N1 & N2 & N3 & N4 & _).
  unfold _get_msg31_data_block in H.
  apply bind_lift_Ok_inv in H. destruct H as (bn & _ & H).
  destruct (String.eqb_spec bn "VOL") as [E|_].
  { subst bn. apply bind_lift_Ok_inv in H. destruct H as (? & _ & [= _ E _]).
    congruence. }
  destruct (String.eqb_spec bn "ELV") as [E|_].
  { subst bn. apply bind_lift_Ok_inv in H. destruct H as (? & _ & [= _ E _]).
    congruence. }
  destruct (String.eqb_spec bn "RAD") as [E|_].
  { subst bn. apply bind_lift_Ok_inv in H. destruct H as (? & _ & [= _ E _]).
    congruence. }
  destruct (existsb (String.eqb bn) moment_names) eqn:Hm.
  2:{ injection H as _ E _. subst bn.
      rewrite (proj2 (existsb_exists (String.eqb name) moment_names)) in Hm;
        [discriminate|].
      exists name. split; [exact Hn|apply String.eqb_refl]. }
  destruct (moments_truthy moments && negb (in_moments bn moments)).
  { injection H as _ E _. congruence. }
  apply bind_lift_Ok_inv in H. destruct H as (d0 & Hd0 & H).
  apply bind_lift_Ok_inv in H. destruct H as (ngates & Hg & H).
  apply bind_lift_Ok_inv in H. destruct H as (ws & Hw & H).
  apply bind_Ok_inv in H. destruct H as (w1 & data & w2 & Hdata & H & _).
  injection H as _ _ <-.
  assert (Hg' : get_int (dict_set d0 "data" data) "ngates" = Ok ngates)
    by (unfold get_int in *; rewrite dict_get_set; exact Hg).
  assert (Hw' : get_int (dict_set d0 "data" data) "word_size" = Ok ws)
    by (unfold get_int in *; rewrite dict_get_set; exact Hw).
  assert (Hng : 0 <= ngates).
  { unfold get_int in Hg. destruct (dict_get d0 "ngates") as [[z| | | |]|] eqn:Eg;
      try discriminate. injection Hg as ->.
    destruct (unpacked_field_lookup buf ptr SGENERIC_DATA_BLOCK d0 "ngates"
                (PInt ngates) Hd0 Eg) as (f & bs & Hin & Hv & Hb).
    pose proof (unpack_field_range f bs ngates Hb (eq_sym Hv)) as Hr.
    cbn [structure GENERIC_DATA_BLOCK In] in Hin.
    repeat (destruct Hin as [Hin|Hin]; [try discriminate Hin|]);
      [injection Hin as <-; cbn [int_range INT2] in Hr; lia|destruct Hin]. }
  set (ptr2 := ptr + _structure_size SGENERIC_DATA_BLOCK) in *.
  destruct (Z.eqb_spec ws 16) as [->|N16].
  - unfold np_frombuffer in Hdata.
    destruct (Nat.even (length (slice buf ptr2 (ptr2 + ngates * 2)))) eqn:Ev;
      [|discriminate].
    injection Hdata as _ <-.
    exists ngates, 16, U2, (be_words (slice buf ptr2 (ptr2 + ngates * 2))).
    split; [exact Hg'|]. split; [exact Hw'|]. split; [auto|].
    split; [rewrite dict_get_set; reflexivity|].
    pose proof (slice_length_le buf ptr2 (ptr2 + ngates * 2) ltac:(lia)) as Hle.
    unfold len in *. rewrite be_words_length.
    split; [|split; [apply be_words_range|]].
    + apply div2_le_Z. lia.
    + intros Hp Hb. cbn [itemsize] in Hb.
      assert (El : length (slice buf ptr2 (ptr2 + ngates * 2)) = Z.to_nat (ngates * 2))
        by (apply slice_length_full; unfold len, ptr2 in *;
            pose proof (structure_size_pos SGENERIC_DATA_BLOCK); lia).
      rewrite El. replace (Z.to_nat (ngates * 2)) with (2 * Z.to_nat ngates)%nat by lia.
      rewrite Nat.div2_double. lia.
  - destruct (Z.eqb_spec ws 8) as [->|N8].
    + unfold np_frombuffer in Hdata. injection Hdata as _ <-.
      exists ngates, 8, U1, (map byte_val (slice buf ptr2 (ptr2 + ngates))).
      split; [exact Hg'|]. split; [exact Hw'|]. split; [auto|].
      split; [rewrite dict_get_set; reflexivity|].
      pose proof (slice_length_le buf ptr2 (ptr2 + ngates) ltac:(lia)) as Hle.
      unfold len in *. rewrite length_map.
      split; [lia|]. split.
      * apply Forall_map. apply Forall_forall. intros b _.
        pose proof (byte_val_bound b). change (2 ^ 8) with 256. lia.
      * intros Hp Hb. cbn [itemsize] in Hb.
        rewrite slice_length_full; unfold len, ptr2 in *;
          pose proof (structure_size_pos SGENERIC_DATA_BLOCK); lia.
    + unfold warnings_warn, bind, raise in Hdata. discriminate Hdata.
Qed.

(** X6, witness: a REF block of two 8-bit gates. *)
Lemma generic_block_payload_witness :
  exists w dic,
    _get_msg31_data_block (mk_generic_block "REF" 2 8 [x05; x06]) 0 MomNone
    = (w, Ok ("REF"%string, dic)) /\
    exists ngates word_size dt data,
      get_int dic "ngates" = Ok ngates /\
      get_int dic "word_size" = Ok word_size /\
      (word_size = 8 /\ dt = U1 \/ word_size = 16 /\ dt = U2) /\
      dict_get dic "data" = Some (PArr dt data) /\
      len data <= ngates /\
      Forall (fun v => 0 <= v < 2 ^ word_size) data /\
      (0 <= 0 ->
       0 + _structure_size SGENERIC_DATA_BLOCK + ngates * itemsize dt
       <= len (mk_generic_block "REF" 2 8 [x05; x06]) ->
       len data = ngates).
Proof.
  destruct (_get_msg31_data_block (mk_generic_block "REF" 2 8 [x05; x06]) 0 MomNone)
    as [w [[name dic]|e]] eqn:H; [|vm_compute in H; discriminate H].
  assert (E : name = "REF"%string) by (vm_compute in H; congruence).
  subst name. exists w, dic. split; [reflexivity|].
  apply (generic_block_payload _ 0 MomNone w "REF" dic H).
  vm_compute. tauto.
Defined.

(** ** The elevation cuts of a type-5 record *)




(** ** Shape and range of the arrays of [get_data] *)

Lemma wrap_fits dt v : fits dt (wrap dt v).
Proof.
  unfold fits, wrap. apply Z.mod_pos_bound. destruct dt; reflexivity.
Qed.

Lemma one_fits dt : fits dt 1.
Proof. unfold fits. destruct dt; cbn; lia. Qed.

Lemma Forall_skipn_list {A} (P : A -> Prop) n l : Forall P l -> Forall P (skipn n l).
Proof.
  intros H. rewrite <- (firstn_skipn n l) in H. apply Forall_app in H. apply H.
Qed.

Lemma fill_rows_invariant d moment max_ngates : forall msg_nums rows sd dt rows_done w dt' out,
  fill_rows d moment max_ngates msg_nums sd dt rows_done rows = (w, Ok (dt', out)) ->
  length rows = length msg_nums ->
  Forall (fun row => len row = max_ngates) (rows_done ++ rows) ->
  Forall (Forall (fun v => v = 1 \/ sd = true /\ fits dt v)) rows_done ->
  Forall (Forall (fun v => v = 1)) rows ->
  length out = (length rows_done + length rows)%nat /\
  Forall (fun row => len row = max_ngates) out /\
  Forall (Forall (fits dt')) out.
Proof.
  induction msg_nums as [|msg_num msg_nums IH];
    intros rows sd dt rows_done w dt' out H Hlen Hsh Hdone Hones.
  - destruct rows; [|discriminate Hlen]. cbn [fill_rows] in H.
    injection H as _ <- <-. rewrite app_nil_r in *. cbn [length].
    split; [lia|]. split; [exact Hsh|].
    eapply Forall_impl; [|exact Hdone]. intros row Hrow.
    eapply Forall_impl; [|exact Hrow]. cbn beta.
    intros v [->|[_ Hv]]; [apply one_fits|exact Hv].
  - destruct rows as [|row rows]; [discriminate Hlen|]. cbn [fill_rows] in H.
    apply bind_lift_Ok_inv in H. destruct H as (msg & _ & H).
    apply Forall_app in Hsh. destruct Hsh as [Hsh1 Hsh2].
    pose proof (Forall_inv Hsh2) as Hrow. pose proof (Forall_inv_tail Hsh2) as Hsh2'.
    pose proof (Forall_inv Hones) as Hrow1.
    pose proof (Forall_inv_tail Hones) as Hones'. cbn beta in Hrow.
    cbn [length] in Hlen.
    destruct (negb (dict_has msg moment)).
    + apply IH in H; [|lia| | |exact Hones'].
      * rewrite length_app in H. cbn [length] in *. destruct H as (H1 & H2 & H3).
        split; [lia|]. split; assumption.
      * rewrite <- app_assoc. apply Forall_app. split; [exact Hsh1|exact Hsh2].
      * apply Forall_app. split; [exact Hdone|]. constructor; [|constructor].
        eapply Forall_impl; [|exact Hrow1]. cbn beta. intros v ->. left. reflexivity.
    + apply bind_Ok_inv in H. destruct H as (w1 & dt1 & w2 & Hdt & H & _).
      apply bind_lift_Ok_inv in H. destruct H as (blk & _ & H).
      apply bind_lift_Ok_inv in H. destruct H as (n & _ & H).
      apply bind_lift_Ok_inv in H. destruct H as (data_m & _ & H).
      set (ngates := Z.to_nat (min3 n max_ngates (len data_m))) in *.
      assert (Hng : (ngates <= length data_m)%nat /\ (ngates <= length row)%nat).
      { unfold ngates, min3, len in *. lia. }
      apply IH in H; [|lia| | |exact Hones'].
      * rewrite length_app in H. cbn [length] in *. destruct H as (H1 & H2 & H3).
        split; [lia|]. split; assumption.
      * rewrite <- app_assoc. apply Forall_app. split; [exact Hsh1|].
        constructor; [|exact Hsh2']. unfold len in *.
        rewrite length_app, length_map, length_firstn, length_skipn. lia.
      * apply Forall_app. split.
        -- eapply Forall_impl; [|exact Hdone]. intros r Hr.
           eapply Forall_impl; [|exact Hr]. cbn beta.
           intros v [->|[Hsd Hv]]; [left; reflexivity|right].
           split; [reflexivity|]. subst sd. injection Hdt as _ <-. exact Hv.
        -- constructor; [|constructor]. apply Forall_app. split.
           ++ apply Forall_map. apply Forall_forall. intros v _. right.
              split; [reflexivity|apply wrap_fits].
           ++ eapply Forall_impl; [|apply Forall_skipn_list; exact Hrow1].
              cbn beta. intros v ->. left. reflexivity.
Qed.

(** X9: the arrays that [get_data] returns have one row per requested ray
    and [max_ngates] columns, the mask included; the integers of the raw
    and of the unscaled result are values of the returned unsigned type,
    and the mask of the unscaled result marks exactly the values 0 and 1. *)
Theorem get_data_shape d moment max_ngates scans raw_data w r msg_nums :
  _msg_nums d (scans_or_all d scans) = Ok msg_nums ->
  get_data d moment max_ngates scans raw_data = (w, Ok r) ->
  match r with
  | RawData dt rows =>
      has_shape (length msg_nums) max_ngates rows /\ Forall (Forall (fits dt)) rows
  | ScaledData rows mask =>
      has_shape (length msg_nums) max_ngates rows /\
      has_shape (length msg_nums) max_ngates mask
  | MaskedData dt rows mask =>
      has_shape (length msg_nums) max_ngates rows /\
      Forall (Forall (fits dt)) rows /\
      mask = map (map (fun v => v <=? 1)) rows
  end.
Proof.
  intros Hm H. unfold get_data in H. rewrite Hm in H.
  apply bind_lift_Ok_inv in H. destruct H as (mn & [= <-] & H).
  destruct (Z.ltb_spec max_ngates 0) as [|Hmax]; [discriminate H|].
  apply bind_Ok_inv in H. destruct H as (w1 & [dt data] & w2 & Hfill & H & _).
  cbn [fst snd] in H.
  apply fill_rows_invariant in Hfill.
  2:{ apply repeat_length. }
  2:{ cbn [app]. apply Forall_forall. intros row Hrow.
      apply repeat_spec in Hrow. subst row. unfold len. rewrite repeat_length. lia. }
  2:{ constructor. }
  2:{ apply Forall_forall. intros row Hrow. apply repeat_spec in Hrow. subst row.
      apply Forall_forall. intros v Hv. apply repeat_spec in Hv. exact Hv. }
  rewrite repeat_length in Hfill. cbn [length Nat.add] in Hfill.
  destruct Hfill as (Hl & Hsh & Hfit).
  assert (Hshape : has_shape (length msg_nums) max_ngates data) by (split; assumption).
  assert (Hmap : forall {B} (f : Z -> B),
             has_shape (length msg_nums) max_ngates (map (map f) data)).
  { intros B f. split; [rewrite length_map; exact Hl|].
    apply Forall_map. eapply Forall_impl; [|exact Hsh]. cbn beta.
    intros row Hrow. unfold len in *. rewrite length_map. exact Hrow. }
  destruct raw_data.
  - injection H as _ <-. split; assumption.
  - apply bind_lift_Ok_inv in H. destruct H as (so & _ & H).
    destruct so as [[offset scale]|]; injection H as _ <-.
    + split; apply Hmap.
    + split; [exact Hshape|]. split; [exact Hfit|reflexivity].
Qed.

(** X9, witness: the REF data of a scan of two rays, two gates each. *)
Lemma get_data_shape_witness :
  exists d ev r,
    decode_pass false RMAll None ref_in_second_ray = Ok (Finished d ev) /\
    get_data d "REF" 2 None true = ([], Ok r) /\
    match r with
    | RawData dt rows => has_shape 2 2 rows /\ Forall (Forall (fits dt)) rows
    | _ => False
    end.
Proof.
  destruct (decode_pass false RMAll None ref_in_second_ray) as [[d ev|]|e] eqn:Hp;
    try (vm_compute in Hp; discriminate Hp).
  assert (Hm : _msg_nums d (scans_or_all d None) = Ok [0; 1])
    by (vm_compute in Hp; injection Hp as <- _; vm_compute; reflexivity).
  destruct (get_data d "REF" 2 None true) as [w [r|e]] eqn:Hg;
    [|exfalso; vm_compute in Hp; injection Hp as <- _; vm_compute in Hg;
      discriminate Hg].
  assert (Hw : w = [] /\ exists dt rows, r = RawData dt rows).
  { vm_compute in Hp. injection Hp as <- _. vm_compute in Hg.
    injection Hg as <- <-. split; [reflexivity|]. eexists _, _. reflexivity. }
  destruct Hw as (-> & dt & rows & ->).
  exists d, ev, (RawData dt rows). split; [reflexivity|]. split; [exact Hg|].
  exact (get_data_shape d "REF" 2 None true [] (RawData dt rows) [0; 1] Hm Hg).
Defined.

(** ** The grouping of the radial records into scans *)

Lemma np_where_eq_from l x : forall a,
  let r := map (fun ix : nat * Z => Z.of_nat (fst ix))
               (filter (fun ix => snd ix =? x) (combine (seq a (length l)) l)) in
  StronglySorted Z.lt r /\
  forall j, In j r <->
            Z.of_nat a <= j /\ nth_error l (Z.to_nat j - a) = Some x.
Proof.
  induction l as [|y l IH]; intros a; cbn zeta.
  - cbn. split; [constructor|]. intros j. split; [tauto|].
    intros [_ H]. destruct (Z.to_nat j - a)%nat; discriminate.
  - cbn [length seq combine filter snd]. destruct (IH (S a)) as [Hs Hin].
    cbn zeta in Hs, Hin.
    assert (Hshift : forall j, Z.of_nat (S a) <= j ->
              nth_error (y :: l) (Z.to_nat j - a) = nth_error l (Z.to_nat j - S a)).
    { intros j Hj. replace (Z.to_nat j - a)%nat with (S (Z.to_nat j - S a)) by lia.
      reflexivity. }
    destruct (Z.eqb_spec y x) as [->|Hne].
    + cbn [map fst]. split.
      * constructor; [exact Hs|]. apply Forall_forall. intros j Hj.
        apply Hin in Hj. lia.
      * intros j. cbn [In]. rewrite Hin. split.
        -- intros [<-|[Hj Hn]].
           ++ split; [lia|]. rewrite Nat2Z.id, Nat.sub_diag. reflexivity.
           ++ split; [lia|]. rewrite Hshift by lia. exact Hn.
        -- intros [Hj Hn]. destruct (Z.eq_dec j (Z.of_nat a)) as [->|Hja];
             [left; reflexivity|right].
           split; [lia|]. rewrite <- Hshift by lia. exact Hn.
    + split; [exact Hs|]. intros j. rewrite Hin. split.
      * intros [Hj Hn]. split; [lia|]. rewrite Hshift by lia. exact Hn.
      * intros [Hj Hn]. destruct (Z.eq_dec j (Z.of_nat a)) as [->|Hja].
        -- rewrite Nat2Z.id, Nat.sub_diag in Hn. cbn in Hn. congruence.
        -- split; [lia|]. rewrite <- Hshift by lia. exact Hn.
Qed.

Lemma np_where_eq_spec l x :
  StronglySorted Z.lt (np_where_eq l x) /\
  forall j, In j (np_where_eq l x) <->
            0 <= j /\ nth_error l (Z.to_nat j) = Some x.
Proof.
  destruct (np_where_eq_from l x 0) as [Hs Hin]. cbn zeta in Hs, Hin.
  split; [exact Hs|]. intros j. unfold np_where_eq, enumerate. rewrite Hin.
  rewrite Nat.sub_0_r. reflexivity.
Qed.

Lemma list_min_le l : forall x, list_min x l <= x /\ Forall (fun y => list_min x l <= y) l.
Proof.
  unfold list_min. induction l as [|y l IH]; intros x; cbn [fold_left].
  - split; [lia|constructor].
  - destruct (IH (Z.min x y)) as [H1 H2]. split; [lia|].
    constructor; [lia|exact H2].
Qed.

Lemma list_max_ge l : forall x, x <= list_max x l /\ Forall (fun y => y <= list_max x l) l.
Proof.
  unfold list_max. induction l as [|y l IH]; intros x; cbn [fold_left].
  - split; [lia|constructor].
  - destruct (IH (Z.max x y)) as [H1 H2]. split; [lia|].
    constructor; [lia|exact H2].
Qed.

Lemma py_range_spec a b :
  StronglySorted Z.lt (py_range a b) /\
  forall e, In e (py_range a b) <-> a <= e < b.
Proof.
  unfold py_range.
  assert (H : forall n s,
    StronglySorted Z.lt (map (fun k => a + Z.of_nat k) (seq s n)) /\
    forall e, In e (map (fun k => a + Z.of_nat k) (seq s n)) <->
              a + Z.of_nat s <= e < a + Z.of_nat s + Z.of_nat n).
  { induction n as [|n IH]; intros s; cbn [seq map].
    - split; [constructor|]. intros e. cbn [In]. lia.
    - destruct (IH (S s)) as [Hs Hin]. split.
      + constructor; [exact Hs|]. apply Forall_forall. intros e He.
        apply Hin in He. lia.
      + intros e. cbn [In]. rewrite Hin. lia. }
  destruct (H (Z.to_nat (b - a)) 0%nat) as [Hs Hin]. split; [exact Hs|].
  intros e. rewrite Hin. lia.
Qed.

Lemma decode_pass_finished bzip2 rm vcp0 rs d ev :
  decode_pass bzip2 rm vcp0 rs = Ok (Finished d ev) ->
  exists msg_types starts,
    mapM record_type (_records rs) = Ok msg_types /\
    radial_records d <> [] /\
    group_and_locate bzip2 rm vcp0 rs msg_types (choose_msg_type msg_types)
                     (radial_records d) starts = Ok (Finished d ev).
Proof.
  unfold decode_pass. intros H. rbind_inv H.
  destruct (len (fst a0) =? 0) eqn:El; [discriminate H|].
  destruct (group_and_locate_finished _ _ _ _ _ _ _ _ _ _ H) as (_ & Hr & _).
  exists a, (snd a0). split; [reflexivity|]. rewrite Hr. split; [|exact H].
  intros Hn. apply len_zero_nil in Hn. congruence.
Qed.

Lemma scans_of_elev_nums elev_nums :
  exists es,
    filter (fun j => negb (len j =? 0)) (group_scans elev_nums)
    = map (np_where_eq elev_nums) es /\
    StronglySorted Z.lt es /\
    (forall e, In e es <-> In e elev_nums).
Proof.
  destruct elev_nums as [|e0 rest].
  - exists []. split; [reflexivity|]. split; [constructor|]. tauto.
  - unfold group_scans. set (elev_nums := e0 :: rest).
    assert (Heq : elev_nums = e0 :: rest) by reflexivity. clearbody elev_nums.
    set (R := py_range (list_min e0 rest) (list_max e0 rest + 1)).
    exists (filter (fun e => negb (len (np_where_eq elev_nums e) =? 0)) R).
    split;
      [exact (filter_map_swap (np_where_eq elev_nums)
                (fun j => negb (len j =? 0)) R)|].
    destruct (py_range_spec (list_min e0 rest) (list_max e0 rest + 1)) as [Hs Hin].
    fold R in Hs, Hin.
    split; [apply StronglySorted_filter_Z; exact Hs|].
    intros e. rewrite filter_In, Hin, negb_true_iff.
    destruct (np_where_eq_spec elev_nums e) as [_ Hw].
    split.
    + intros [_ Hne]. destruct (np_where_eq elev_nums e) as [|j l] eqn:Ew.
      * cbn in Hne. discriminate.
      * destruct (proj1 (Hw j) (or_introl eq_refl)) as [_ Hn].
        eapply nth_error_In. exact Hn.
    + intros He. split.
      * destruct (list_min_le rest e0) as [H1 H2].
        destruct (list_max_ge rest e0) as [H3 H4].
        rewrite Heq in He. destruct He as [<-|He]; [lia|].
        pose proof (proj1 (Forall_forall _ _) H2 e He).
        pose proof (proj1 (Forall_forall _ _) H4 e He). cbn beta in *. lia.
      * apply In_nth_error in He. destruct He as [n Hn].
        assert (Hj : In (Z.of_nat n) (np_where_eq elev_nums e)).
        { apply Hw. split; [lia|]. rewrite Nat2Z.id. exact Hn. }
        destruct (np_where_eq elev_nums e); [destruct Hj|].
        unfold len. cbn [length]. apply Z.eqb_neq. lia.
Qed.

(** X10: the scans of a finished pass are the classes of the radial
    records by elevation number.  There is one scan for each elevation
    number that occurs, in increasing order of that number, and a scan lists,
    in increasing order, the indices of exactly the radial records that
    carry its number: every radial record is in one scan and one only, and
    no scan is empty. *)
Theorem scans_group_by_elevation bzip2 rm vcp0 rs d ev :
  decode_pass bzip2 rm vcp0 rs = Ok (Finished d ev) ->
  exists elev_nums es,
    mapM (msg_header_field "elevation_number") (radial_records d) = Ok elev_nums /\
    length elev_nums = length (radial_records d) /\
    StronglySorted Z.lt es /\
    (forall e, In e es <-> In e elev_nums) /\
    length (scan_msgs d) = length es /\
    nscans d = len es /\
    forall k s e,
      nth_error (scan_msgs d) k = Some s -> nth_error es k = Some e ->
      s <> [] /\ StronglySorted Z.lt s /\
      forall j, In j s <->
                0 <= j /\ nth_error elev_nums (Z.to_nat j) = Some e.
Proof.
  intros H. destruct (decode_pass_finished _ _ _ _ _ _ H) as (ts & starts & _ & _ & Hg).
  destruct (group_and_locate_finished _ _ _ _ _ _ _ _ _ _ Hg)
    as (_ & _ & elev_nums & Hm & Hs & Hn & _).
  destruct (scans_of_elev_nums elev_nums) as (es & Hes & Hsort & Hin).
  rewrite Hes in Hs. exists elev_nums, es.
  split; [exact Hm|]. split.
  { clear - Hm. revert elev_nums Hm.
    induction (radial_records d) as [|r l IH]; intros en Hm; cbn [mapM] in Hm.
    - injection Hm as <-. reflexivity.
    - rbind_inv Hm. injection Hm as <-. cbn [length]. f_equal. apply IH. reflexivity. }
  split; [exact Hsort|]. split; [exact Hin|].
  split; [rewrite Hs; apply length_map|].
  split; [rewrite Hn, Hs; unfold len; rewrite length_map; reflexivity|].
  intros k s e Hk He. rewrite Hs, nth_error_map, He in Hk. cbn [option_map] in Hk.
  injection Hk as <-. destruct (np_where_eq_spec elev_nums e) as [Hso Hw].
  split; [|split; [exact Hso|exact Hw]].
  assert (Hie : In e elev_nums) by (apply Hin; eapply nth_error_In; exact He).
  apply In_nth_error in Hie. destruct Hie as [n Hn'].
  intros Hnil. assert (Hj : In (Z.of_nat n) (np_where_eq elev_nums e)).
  { apply Hw. split; [lia|]. rewrite Nat2Z.id. exact Hn'. }
  rewrite Hnil in Hj. destruct Hj.
Qed.

(** X10, witness: four rays with the elevation numbers 1, 2, 1, 2. *)
Lemma scans_group_by_elevation_witness :
  exists d ev elev_nums es,
    decode_pass false RMAllMeta None dual_volume = Ok (Finished d ev) /\
    mapM (msg_header_field "elevation_number") (radial_records d) = Ok elev_nums /\
    StronglySorted Z.lt es /\
    (forall e, In e es <-> In e elev_nums) /\
    nscans d = len es.
Proof.
  destruct (decode_pass false RMAllMeta None dual_volume) as [[d ev|]|e] eqn:Hp;
    try (vm_compute in Hp; discriminate Hp).
  destruct (scans_group_by_elevation false RMAllMeta None dual_volume d ev Hp)
    as (elev_nums & es & H1 & _ & H2 & H3 & _ & H4 & _).
  exists d, ev, elev_nums, es. repeat split; try assumption; apply H3.
Defined.

(** ** What a "min-meta" pass accepts *)

Lemma anyM_false {A} (f : A -> result bool) l :
  anyM f l = Ok false -> Forall (fun x => f x = Ok false) l.
Proof.
  induction l as [|x l IH]; cbn [anyM]; intros H; [constructor|].
  destruct (f x) as [[|]|] eqn:E; cbn [rbind] in H; try discriminate H.
  constructor; [exact E|apply IH; exact H].
Qed.

Lemma py_getitem_nonneg {A} (l : list A) j :
  0 <= j ->
  py_getitem l j = match nth_error l (Z.to_nat j) with
                   | Some a => Ok a
                   | None => Raise IndexError
                   end.
Proof.
  intros Hj. unfold py_getitem.
  assert (E1 : (j <? 0) = false) by (apply Z.ltb_ge; lia).
  cbv zeta. rewrite E1. cbv iota. rewrite E1. cbn [orb].
  destruct (Z.leb_spec (len l) j) as [Hge|Hlt]; [|reflexivity].
  assert (Hnone : nth_error l (Z.to_nat j) = None)
    by (apply nth_error_None; unfold len in Hge; lia).
  rewrite Hnone. reflexivity.
Qed.

Lemma py_getitem_nth {A} (l : list A) j a :
  0 <= j -> nth_error l (Z.to_nat j) = Some a -> py_getitem l j = Ok a.
Proof. intros Hj Hn. rewrite py_getitem_nonneg by exact Hj. rewrite Hn. reflexivity. Qed.

Lemma py_getitem_Ok_nth {A} (l : list A) j a :
  0 <= j -> py_getitem l j = Ok a -> nth_error l (Z.to_nat j) = Some a.
Proof.
  intros Hj. rewrite py_getitem_nonneg by exact Hj.
  destruct (nth_error l (Z.to_nat j)); [|discriminate]. congruence.
Qed.

(** X11: what a "min-meta" pass accepts.  When the pass finishes instead
    of decoding again, the records hold one radial format only.  For a
    bzip2 file every scan then consists of one sampled ray, and that ray
    has no block of zero gates; for a gzip file two successive sampled rays
    whose azimuth numbers increase are exactly 30 apart. *)
Theorem min_meta_pass_accepts bzip2 vcp0 rs d ev :
  decode_pass bzip2 RMMinMeta vcp0 rs = Ok (Finished d ev) ->
  exists msg_types,
    mapM record_type (_records rs) = Ok msg_types /\
    (count_of 1 msg_types = 0 \/ count_of 31 msg_types = 0) /\
    if bzip2 then
      Forall (fun s => exists j r,
                s = [j] /\ py_getitem (radial_records d) j = Ok r /\
                any_zero_ngates r = Ok false) (scan_msgs d)
    else
      exists azi_numbers,
        mapM (msg_header_field "azimuth_number") (radial_records d)
        = Ok azi_numbers /\
        forall i a b,
          nth_error azi_numbers i = Some a ->
          nth_error azi_numbers (S i) = Some b ->
          a < b -> b - a = gzip_indices_step.
Proof.
  intros H. destruct (decode_pass_finished _ _ _ _ _ _ H) as (ts & starts & Hts & _ & Hg).
  exists ts. split; [exact Hts|].
  destruct (group_and_locate_finished _ _ _ _ _ _ _ _ _ _ Hg)
    as (_ & _ & en & Hen & Hsm & _).
  unfold group_and_locate in Hg. rewrite Hen in Hg. cbn [rbind] in Hg.
  destruct (mapM (msg_header_field "azimuth_number") (radial_records d))
    as [azis|] eqn:Ha; [|discriminate Hg].
  cbn [rbind is_min_meta andb] in Hg.
  destruct (if negb bzip2 then any_wrong_step azis gzip_indices_step else Ok false)
    as [wrong|] eqn:Hw; [|discriminate Hg]. cbn [rbind] in Hg.
  destruct (min_meta_invalid bzip2 ts wrong (radial_records d) (group_scans en))
    as [invalid|] eqn:Hi; [|discriminate Hg]. cbn [rbind] in Hg.
  destruct invalid; [discriminate Hg|]. clear Hg.
  unfold min_meta_invalid in Hi.
  destruct (Z.ltb_spec 0 (Z.min (count_of 1 ts) (count_of 31 ts))) as [|Hc];
    [discriminate Hi|].
  split.
  { unfold count_of in *. pose proof (len_nonneg (filter (Z.eqb 1) ts)).
    pose proof (len_nonneg (filter (Z.eqb 31) ts)). lia. }
  destruct wrong; [discriminate Hi|].
  destruct bzip2; cbn [negb] in Hw.
  - destruct (existsb (fun j => negb (len j =? 1)) (group_scans en)) eqn:Hex;
      [discriminate Hi|].
    apply anyM_false in Hi.
    assert (Hall : forall s, In s (group_scans en) -> len s = 1).
    { intros s Hs. destruct (Z.eqb_spec (len s) 1) as [E|E]; [exact E|].
      assert (existsb (fun j => negb (len j =? 1)) (group_scans en) = true).
      { apply existsb_exists. exists s. split; [exact Hs|].
        apply negb_true_iff. apply Z.eqb_neq. exact E. }
      congruence. }
    rewrite Hsm. apply Forall_forall. intros s Hs. apply filter_In in Hs.
    destruct Hs as [Hs _]. pose proof (Hall s Hs) as Hl.
    pose proof (proj1 (Forall_forall _ _) Hi s Hs) as Hz. cbn beta in Hz.
    destruct s as [|j [|j' s']]; unfold len in Hl; cbn [length] in Hl; try lia.
    rewrite py_getitem_0 in Hz. cbn [rbind] in Hz.
    destruct (py_getitem (radial_records d) j) as [r|] eqn:Hr; [|discriminate Hz].
    cbn [rbind] in Hz. exists j, r. auto.
  - exists azis. split; [reflexivity|]. intros i a b Hia Hib Hab.
    unfold any_wrong_step in Hw. apply anyM_false in Hw.
    assert (Hin : In (S i, b) (enumerate azis)) by (apply enumerate_In; exact Hib).
    pose proof (proj1 (Forall_forall _ _) Hw _ Hin) as Hf. cbn beta in Hf.
    cbn [fst snd] in Hf.
    rewrite (py_getitem_nth azis (Z.of_nat (S i) - 1) a) in Hf;
      [|lia|replace (Z.to_nat (Z.of_nat (S i) - 1)) with i by lia; exact Hia].
    cbn [rbind] in Hf. injection Hf as Hf.
    destruct (Z.ltb_spec 0 (b - a)); [|lia]. cbn [andb] in Hf.
    apply negb_false_iff in Hf. apply Z.eqb_eq in Hf. exact Hf.
Qed.

(** X11, witness: a gzip file of which the first and the thirty-first ray
    of the only scan were sampled. *)
Lemma min_meta_pass_accepts_witness :
  exists d ev msg_types azi_numbers,
    decode_pass false RMMinMeta None sampled_gzip = Ok (Finished d ev) /\
    mapM record_type (_records sampled_gzip) = Ok msg_types /\
    (count_of 1 msg_types = 0 \/ count_of 31 msg_types = 0) /\
    mapM (msg_header_field "azimuth_number") (radial_records d) = Ok azi_numbers.
Proof.
  destruct (decode_pass false RMMinMeta None sampled_gzip) as [[d ev|]|e] eqn:Hp;
    try (vm_compute in Hp; discriminate Hp).
  destruct (min_meta_pass_accepts false None sampled_gzip d ev Hp)
    as (ts & H1 & H2 & azis & H3 & _).
  exists d, ev, ts, azis. auto.
Defined.

(** ** The byte ranges of the scans *)

Lemma walk_back_incl r : forall p x, In x (walk_back p r) -> In x r.
Proof.
  induction r as [|y r IH]; intros p x; cbn [walk_back]; [tauto|].
  destruct (p - y =? 1); [|intros []].
  intros [<-|H]; [left; reflexivity|right; eapply IH; exact H].
Qed.

Lemma trailing_run_incl s x : In x (trailing_run s) -> In x s.
Proof.
  unfold trailing_run. destruct (rev s) as [|last r] eqn:E; [intros []|].
  intros H. apply (proj2 (in_rev _ _)) in H. apply (proj2 (in_rev s x)).
  rewrite E. destruct H as [<-|H]; [left; reflexivity|right].
  eapply walk_back_incl. exact H.
Qed.

Lemma mapM_nth {A B} (f : A -> result B) l : forall r,
  mapM f l = Ok r ->
  length r = length l /\
  forall i x, nth_error l i = Some x ->
              exists y, f x = Ok y /\ nth_error r i = Some y.
Proof.
  induction l as [|a l IH]; intros r H; cbn [mapM] in H.
  - injection H as <-. split; [reflexivity|]. intros [|i] x; discriminate.
  - rbind_inv H. injection H as <-. destruct (IH _ eq_refl) as [Hl Hn].
    cbn [length]. split; [lia|]. intros [|i] x Hx; cbn [nth_error] in *.
    + injection Hx as <-. eauto.
    + apply Hn. exact Hx.
Qed.

Lemma py_range_0_nth n i :
  (i < Z.to_nat n)%nat -> nth_error (py_range 0 n) i = Some (Z.of_nat i).
Proof.
  intros Hi. unfold py_range. rewrite nth_error_map, Z.sub_0_r.
  rewrite (nth_error_nth' _ 0%nat) by (rewrite length_seq; exact Hi).
  rewrite seq_nth by exact Hi. reflexivity.
Qed.

Lemma py_range_0_length n : length (py_range 0 n) = Z.to_nat n.
Proof. unfold py_range. rewrite length_map, length_seq, Z.sub_0_r. reflexivity. Qed.

Lemma first_msg_of_cases {sm} i j :
  first_msg_of sm i j =
  if (0 <=? j) && (j <? len sm) then first_msg_of sm j j else first_msg_of sm i i.
Proof.
  unfold first_msg_of. destruct ((0 <=? j) && (j <? len sm)) eqn:E; [reflexivity|].
  destruct ((0 <=? i) && (i <? len sm)); reflexivity.
Qed.

Lemma StronglySorted_nth_lt l : StronglySorted Z.lt l ->
  forall i j a b, (i < j)%nat -> nth_error l i = Some a -> nth_error l j = Some b ->
                  a < b.
Proof.
  induction 1 as [|x l Hs IH Hx]; intros i j a b Hij Ha Hb.
  - destruct i; discriminate.
  - destruct j as [|j]; [lia|]. cbn [nth_error] in Hb. destruct i as [|i].
    + injection Ha as <-. apply (proj1 (Forall_forall _ _) Hx).
      eapply nth_error_In. exact Hb.
    + cbn [nth_error] in Ha. apply (IH i j); [lia|assumption|assumption].
Qed.

Lemma first_msg_elevation en es k f :
  0 <= k ->
  first_msg_of (map trailing_run (map (np_where_eq en) es)) k k = Ok f ->
  exists e, nth_error es (Z.to_nat k) = Some e /\
            nth_error en (Z.to_nat f) = Some e.
Proof.
  intros Hk H. unfold first_msg_of in H.
  destruct ((0 <=? k) && (k <? len (map trailing_run (map (np_where_eq en) es))));
    (destruct (py_getitem (map trailing_run (map (np_where_eq en) es)) k)
       as [m|] eqn:Hm; [|discriminate H]); cbn [rbind] in H;
    (apply py_getitem_Ok_nth in Hm; [|exact Hk]);
    rewrite !nth_error_map in Hm;
    (destruct (nth_error es (Z.to_nat k)) as [e|]; [|discriminate Hm]);
    cbn [option_map] in Hm; injection Hm as <-;
    exists e; (split; [reflexivity|]);
    (apply py_getitem_Ok_nth in H; [|lia]);
    apply nth_error_In in H; apply trailing_run_incl in H;
    apply (proj2 (np_where_eq_spec en e)) in H; apply H.
Qed.

Lemma scan_startend_chain bzip2 rm rs rr starts rep i s e s' e' :
  is_min_meta rm && negb bzip2 = false ->
  0 <= i -> i + 1 < len rep ->
  scan_startend bzip2 rm rs rr starts rep i = Ok (s, e) ->
  scan_startend bzip2 rm rs rr starts rep (i + 1) = Ok (s', e') ->
  (forall fi fj, first_msg_of rep i i = Ok fi ->
                 first_msg_of rep (i + 1) (i + 1) = Ok fj -> fi <> fj) ->
  e = Some s'.
Proof.
  intros Hmode Hi Hn H1 H2 Hneq. unfold scan_startend in H1, H2.
  replace (i + 1 - 1) with i in H2 by lia.
  rewrite (first_msg_of_cases i (i + 1)) in H1.
  rewrite (first_msg_of_cases (i + 1) i) in H2.
  replace ((0 <=? i + 1) && (i + 1 <? len rep)) with true in H1 by lia.
  replace ((0 <=? i) && (i <? len rep)) with true in H2 by lia.
  destruct (first_msg_of rep i i) as [fi|] eqn:Fi.
  2:{ destruct (first_msg_of rep i (i - 1)); discriminate H1. }
  destruct (first_msg_of rep (i + 1) (i + 1)) as [fj|] eqn:Fj;
    [|discriminate H2].
  specialize (Hneq fi fj eq_refl eq_refl).
  destruct (first_msg_of rep i (i - 1)) as [fm|]; [|discriminate H1].
  destruct (first_msg_of rep (i + 1) (i + 1 + 1)) as [fk|]; [|discriminate H2].
  cbn [rbind] in H1, H2.
  destruct (py_getitem starts fm) as [pm|]; [|discriminate H1].
  destruct (py_getitem starts fi) as [p_i|]; [|discriminate H1].
  destruct (py_getitem starts fj) as [pj|]; [|discriminate H1].
  destruct (py_getitem starts fk) as [pk|]; [|discriminate H2].
  cbn [rbind] in H1, H2.
  assert (E1 : (fi =? fj) = false) by (apply Z.eqb_neq; exact Hneq).
  assert (E2 : (fj =? fi) = false) by (apply Z.eqb_neq; congruence).
  rewrite E1 in H1. rewrite E2 in H2. cbn [negb] in H1, H2.
  destruct bzip2.
  - destruct (is_min_meta rm).
    + destruct (py_getitem (_bzip2_start_pos rs) (p_i + 1)) as [x|];
        [|destruct (py_getitem (_bzip2_start_pos rs) (pm + 1));
          destruct (py_getitem (_bzip2_start_pos rs) 1);
          destruct (negb (fi =? fm)); discriminate H1].
      cbn [rbind] in H2.
      assert (s' = x).
      { destruct (negb (fj =? fk));
          [destruct (py_getitem (_bzip2_start_pos rs) (pj + 1))|];
          cbn [rbind] in H2; congruence. }
      subst s'.
      destruct (negb (fi =? fm));
        [destruct (py_getitem (_bzip2_start_pos rs) (pm + 1))
        |destruct (py_getitem (_bzip2_start_pos rs) 1)];
        cbn [rbind] in H1; congruence.
    + destruct (py_getitem (_bzip2_start_pos rs) pj) as [x|];
        [|destruct (py_getitem (_bzip2_start_pos rs) p_i); discriminate H1].
      cbn [rbind] in H2.
      assert (s' = x).
      { destruct (negb (fj =? fk));
          [destruct (py_getitem (_bzip2_start_pos rs) pk)|];
          cbn [rbind] in H2; congruence. }
      subst s'.
      destruct (py_getitem (_bzip2_start_pos rs) p_i); cbn [rbind] in H1;
        congruence.
  - destruct (is_min_meta rm); [discriminate Hmode|]. congruence.
Qed.

Lemma scan_startend_last bzip2 rm rs rr starts rep i s e :
  0 <= i -> i + 1 = len rep ->
  scan_startend bzip2 rm rs rr starts rep i = Ok (s, e) ->
  e = None.
Proof.
  intros Hi Hn H. unfold scan_startend in H.
  rewrite (first_msg_of_cases i (i + 1)) in H.
  replace ((0 <=? i + 1) && (i + 1 <? len rep)) with false in H by lia.
  destruct (first_msg_of rep i i) as [fi|] eqn:Fi.
  2:{ destruct (first_msg_of rep i (i - 1)); discriminate H. }
  destruct (first_msg_of rep i (i - 1)) as [fm|]; [|discriminate H].
  cbn [rbind] in H.
  destruct (py_getitem starts fm) as [pm|]; [|discriminate H].
  destruct (py_getitem starts fi) as [p_i|]; [|discriminate H].
  cbn [rbind] in H. rewrite Z.eqb_refl in H. cbn [negb] in H.
  destruct bzip2, (is_min_meta rm); rbind_inv H; congruence.
Qed.

(** X12: the byte ranges of [scan_startend_pos] follow one another.
    Except for a gzip file read in "min-meta" mode, the end of the range of
    a scan is the start of the range of the next scan, and the range of the
    last scan is open-ended ([None]); there is one range per scan. *)
Theorem scan_ranges_chain bzip2 rm vcp0 rs d ev se :
  decode_pass bzip2 rm vcp0 rs = Ok (Finished d ev) ->
  scan_startend_pos d = Some se ->
  is_min_meta rm && negb bzip2 = false ->
  length se = length (scan_msgs d) /\
  forall i s e,
    nth_error se i = Some (s, e) ->
    match nth_error se (S i) with
    | Some (s', _) => e = Some s'
    | None => e = None
    end.
Proof.
  intros H Hse Hmode.
  destruct (decode_pass_finished _ _ _ _ _ _ H) as (ts & starts & _ & _ & Hg).
  destruct (group_and_locate_finished _ _ _ _ _ _ _ _ _ _ Hg)
    as (_ & _ & en & _ & Hsm & _ & Hmeta).
  destruct (decode_meta rm); [|rewrite Hmeta in Hse; discriminate Hse].
  destruct Hmeta as (rep & se0 & Hrep & Hmap & Hse0).
  rewrite Hse0 in Hse. injection Hse as ->.
  destruct (scans_of_elev_nums en) as (es & Hes & Hsort & _).
  rewrite Hes in Hsm.
  assert (Hr : rep = map trailing_run (scan_msgs d)).
  { rewrite mapM_repair_scan in Hrep; [congruence|].
    rewrite Hsm. apply Forall_forall. intros s Hs.
    apply in_map_iff in Hs. destruct Hs as (e & <- & He).
    assert (Hin : In (np_where_eq en e)
                     (filter (fun j => negb (len j =? 0)) (group_scans en)))
      by (rewrite Hes; apply in_map; exact He).
    apply filter_In in Hin. destruct Hin as [_ Hne]. intros Hnil.
    rewrite Hnil in Hne. discriminate Hne. }
  rewrite Hsm in Hr. subst rep.
  set (rep := map trailing_run (map (np_where_eq en) es)) in *.
  assert (Hlen : length rep = length (scan_msgs d))
    by (unfold rep; rewrite Hsm, !length_map; reflexivity).
  destruct (mapM_nth _ _ _ Hmap) as [Hl Hnth].
  rewrite py_range_0_length in Hl. unfold len in Hl. rewrite Nat2Z.id in Hl.
  split; [congruence|].
  intros i s e Hi.
  assert (Hlt : (i < length rep)%nat) by (rewrite <- Hl; apply nth_error_Some; congruence).
  destruct (Hnth i (Z.of_nat i)) as (y & Hy & Hyi).
  { apply py_range_0_nth. unfold len. lia. }
  rewrite Hi in Hyi. injection Hyi as <-.
  destruct (nth_error se (S i)) as [[s' e']|] eqn:Hsi.
  - assert (Hlt' : (S i < length rep)%nat)
      by (rewrite <- Hl; apply nth_error_Some; congruence).
    destruct (Hnth (S i) (Z.of_nat (S i))) as (y' & Hy' & Hyi').
    { apply py_range_0_nth. unfold len. lia. }
    rewrite Hsi in Hyi'. injection Hyi' as <-.
    replace (Z.of_nat (S i)) with (Z.of_nat i + 1) in Hy' by lia.
    apply (scan_startend_chain bzip2 rm rs (radial_records d) starts rep
             (Z.of_nat i) s e s' e' Hmode);
      [lia|unfold len; lia|exact Hy|exact Hy'|].
    intros fi fj Fi Fj.
    destruct (first_msg_elevation en es (Z.of_nat i) fi ltac:(lia) Fi)
      as (ei & Hei & Hfi).
    destruct (first_msg_elevation en es (Z.of_nat i + 1) fj ltac:(lia) Fj)
      as (ej & Hej & Hfj).
    rewrite Nat2Z.id in Hei.
    replace (Z.to_nat (Z.of_nat i + 1)) with (S i) in Hej by lia.
    pose proof (StronglySorted_nth_lt es Hsort i (S i) ei ej ltac:(lia) Hei Hej).
    intros ->. rewrite Hfi in Hfj. injection Hfj as ->. lia.
  - apply nth_error_None in Hsi.
    apply (scan_startend_last bzip2 rm rs (radial_records d) starts rep
             (Z.of_nat i) s e); [lia|unfold len; lia|exact Hy].
Qed.

(** X12, witness: the two scans of the file made of two volumes. *)
Lemma scan_ranges_chain_witness :
  exists d ev se,
    decode_pass false RMAllMeta None dual_volume = Ok (Finished d ev) /\
    scan_startend_pos d = Some se /\
    length se = length (scan_msgs d).
Proof.
  destruct (decode_pass false RMAllMeta None dual_volume) as [[d ev|]|e] eqn:Hp;
    try (vm_compute in Hp; discriminate Hp).
  destruct (scan_startend_pos d) as [se|] eqn:Hse;
    [|exfalso; vm_compute in Hp; injection Hp as <- _; discriminate Hse].
  exists d, ev, se. split; [reflexivity|]. split; [exact Hse|].
  apply (scan_ranges_chain false RMAllMeta None dual_volume d ev se Hp Hse eq_refl).
Defined.

(** ** The header of a parsed record *)

Lemma string_of_list_byte_length l :
  String.length (string_of_list_byte l) = length l.
Proof. induction l as [|b l IH]; cbn; [reflexivity|]. f_equal. exact IH. Qed.

Lemma lstrip_length bs : (length (lstrip bs) <= length bs)%nat.
Proof.
  induction bs as [|b bs IH]; cbn [lstrip length]; [lia|].
  destruct (is_space b); cbn [length]; lia.
Qed.

Lemma decode_ascii_strip_length bs s :
  decode_ascii_strip bs = Ok s -> (String.length s <= length bs)%nat.
Proof.
  unfold decode_ascii_strip. destruct (forallb _ bs); [|discriminate].
  intros [= <-]. rewrite string_of_list_byte_length, length_rev.
  pose proof (lstrip_length (rev (lstrip bs))). rewrite length_rev in H.
  pose proof (lstrip_length bs). lia.
Qed.

Lemma data_block_name_length buf ptr moments w name d :
  _get_msg31_data_block buf ptr moments = (w, Ok (name, d)) ->
  (String.length name <= 4)%nat.
Proof.
  intros H. unfold _get_msg31_data_block in H.
  apply bind_lift_Ok_inv in H. destruct H as (bn & Hbn & H).
  apply decode_ascii_strip_length in Hbn.
  pose proof (slice_length_le buf (ptr + 1) (ptr + 4) ltac:(lia)) as Hl.
  unfold len in Hl.
  assert (Hb : (String.length bn <= 4)%nat) by lia.
  destruct (String.eqb bn "VOL").
  { apply bind_lift_Ok_inv in H. destruct H as (? & _ & [= _ <- _]). exact Hb. }
  destruct (String.eqb bn "ELV").
  { apply bind_lift_Ok_inv in H. destruct H as (? & _ & [= _ <- _]). exact Hb. }
  destruct (String.eqb bn "RAD").
  { apply bind_lift_Ok_inv in H. destruct H as (? & _ & [= _ <- _]). exact Hb. }
  destruct (existsb (String.eqb bn) moment_names).
  - destruct (moments_truthy moments && negb (in_moments bn moments)).
    + injection H as _ <- _. cbn. lia.
    + apply bind_lift_Ok_inv in H. destruct H as (dic & _ & H).
      apply bind_lift_Ok_inv in H. destruct H as (ngates & _ & H).
      apply bind_lift_Ok_inv in H. destruct H as (ws & _ & H).
      apply bind_Ok_inv in H. destruct H as (w1 & data & w2 & _ & H & _).
      injection H as _ <- _. exact Hb.
  - injection H as _ <- _. exact Hb.
Qed.

Lemma dict_get_set_other {V} (d : list (string * V)) k v k' :
  k <> k' -> dict_get (dict_set d k v) k' = dict_get d k'.
Proof.
  intros Hne. rewrite dict_get_set. destruct (String.eqb_spec k k'); [contradiction|].
  reflexivity.
Qed.

Lemma msg31_blocks_keeps_header mbuf hdr moments : forall ps dic w dic',
  msg31_blocks mbuf hdr moments ps dic = (w, Ok dic') ->
  dict_get dic' "header" = dict_get dic "header".
Proof.
  induction ps as [|p ps IH]; intros dic w dic' H; cbn [msg31_blocks] in H.
  - injection H as _ <-. reflexivity.
  - apply bind_lift_Ok_inv in H. destruct H as (v & _ & H).
    destruct (0 <? v).
    + apply bind_Ok_inv in H. destruct H as (w1 & [name d] & w2 & Hb & H & _).
      rewrite (IH _ _ _ H). cbn [fst snd]. apply dict_get_set_other.
      apply data_block_name_length in Hb. intros ->. cbn in Hb. lia.
    + apply (IH _ _ _ H).
Qed.

Lemma msg1_keeps_header buf pos dic moments new_pos dic' :
  _get_msg1_from_buf buf pos dic moments = Ok (new_pos, dic') ->
  dict_get dic' "header" = dict_get dic "header".
Proof.
  unfold _get_msg1_from_buf. intros H. rbind_inv H. injection H as _ <-.
  repeat match goal with
         | E : (if ?c then _ else _) = Ok _ |- _ =>
             destruct c; [rbind_inv E|]; injection E as <-
         end;
    repeat (rewrite dict_get_set_other by discriminate); reflexivity.
Qed.

Lemma msg5_keeps_header buf pos dic dic' r :
  _get_msg5_from_buf buf pos dic = (dic', r) ->
  dict_get dic' "header" = dict_get dic "header".
Proof.
  unfold _get_msg5_from_buf.
  destruct (unpack_from_buf buf (pos + _structure_size SMSG_HEADER) SMSG_5) as [h|];
    [|intros [= <- _]; reflexivity].
  destruct (get_int h "num_cuts") as [n|].
  - destruct (msg5_cuts _ _ _ _) as [cuts r']. intros [= <- _].
    rewrite !dict_get_set_other by discriminate. reflexivity.
  - intros [= <- _]. rewrite !dict_get_set_other by discriminate. reflexivity.
Qed.

(** A record that the parser returns keeps, under ["header"], the message
    header that was unpacked at its start. *)
Lemma parsed_record_header buf pos moments w new_pos dic :
  _get_record_from_buf buf pos moments = (w, Ok (new_pos, dic)) ->
  exists header,
    unpack_from_buf buf pos SMSG_HEADER = Ok header /\
    dict_get dic "header" = Some (EAttrs header).
Proof.
  intros H. unfold _get_record_from_buf in H.
  apply bind_lift_Ok_inv in H. destruct H as (header & Hh & H).
  exists header. split; [exact Hh|].
  apply bind_lift_Ok_inv in H. destruct H as (t & _ & H).
  destruct (t =? 31).
  { unfold _get_msg31_from_buf in H.
    apply bind_lift_Ok_inv in H. destruct H as (h' & _ & H).
    apply bind_lift_Ok_inv in H. destruct H as (size & _ & H).
    apply bind_lift_Ok_inv in H. destruct H as (h31 & _ & H).
    apply bind_Ok_inv in H. destruct H as (w1 & dic1 & w2 & Hb & H & _).
    injection H as _ _ <-. rewrite dict_get_set_other by discriminate.
    rewrite (msg31_blocks_keeps_header _ _ _ _ _ _ _ Hb). cbn.
    reflexivity. }
  destruct (t =? 5).
  { destruct (_get_msg5_from_buf buf pos [("header"%string, EAttrs header)])
      as [dic' r] eqn:H5.
    apply msg5_keeps_header in H5.
    destruct r as [np|[]]; try discriminate H.
    - injection H as _ _ <-. exact H5.
    - apply bind_Ok_inv in H. destruct H as (w1 & [] & w2 & _ & H & _).
      injection H as _ _ <-. exact H5. }
  destruct (t =? 29).
  { apply bind_lift_Ok_inv in H. destruct H as (np & _ & H).
    apply bind_Ok_inv in H. destruct H as (w1 & [] & w2 & _ & H & _).
    injection H as _ _ <-. reflexivity. }
  destruct (t =? 1).
  { apply lift_Ok_inv in H. destruct H as [H _].
    apply msg1_keeps_header in H. exact H. }
  injection H as _ _ <-. reflexivity.
Qed.

Lemma parsed_record_type buf pos moments w new_pos dic :
  _get_record_from_buf buf pos moments = (w, Ok (new_pos, dic)) ->
  exists t, record_type dic = Ok t.
Proof.
  intros H. destruct (parsed_record_header _ _ _ _ _ _ H) as (header & Hu & Hd).
  destruct (unpack_msg_header_shape _ _ _ Hu)
    as (size & channels & type & seq_id & date & ms & segments & seg_num & ->).
  exists type. unfold record_type, get_attrs. rewrite Hd. reflexivity.
Qed.

(** ** [_read_records] *)

Lemma with_warnings_Some {A} w (m : option (M A)) w' r :
  with_warnings w m = Some (w', r) ->
  exists w2, m = Some (w2, r) /\ w' = w ++ w2.
Proof.
  unfold with_warnings. destruct m as [[w2 r2]|]; [|discriminate].
  cbn [option_map fst snd]. intros [= <- <-]. eauto.
Qed.

Lemma with_warnings_None {A} w (m : option (M A)) :
  with_warnings w m = None -> m = None.
Proof. destruct m; [discriminate|reflexivity]. Qed.

Section ReadRecordsFacts.

Variable bz2_decompress : bytes -> Z -> option bytes.
Variable bzip2 meta : bool.
Variable moments : moments_arg.
Variable cbuf : bytes.
Variable bzip2_start_pos : list Z.

Local Abbreviation rescan := (rescan_for_rad moments).
Local Abbreviation rbuffer :=
  (read_buffer bz2_decompress bzip2 meta moments cbuf bzip2_start_pos).
Local Abbreviation rbuffers :=
  (read_buffers bz2_decompress bzip2 meta moments cbuf bzip2_start_pos).

Lemma rescan_terminates b : forall fuel pos dic,
  len b - pos <= Z.of_nat fuel -> rescan fuel b pos dic <> None.
Proof.
  induction fuel as [|fuel IH]; intros pos dic Hf; cbn [rescan_for_rad];
    destruct (Z.ltb_spec pos (len b)); try discriminate; try lia.
  destruct (_get_record_from_buf b pos moments) as [w [[pos' dic']|e]] eqn:Hr;
    [|discriminate].
  destruct (dict_has dic' "RAD"); [discriminate|].
  pose proof (record_cursor_strictly_advances _ _ _ _ _ _ Hr).
  intros Hn. apply with_warnings_None in Hn. revert Hn. apply IH. lia.
Qed.

Lemma read_buffer_terminates i b : forall fuel pos st,
  len b - pos <= Z.of_nat fuel -> rbuffer fuel i b pos st <> None.
Proof.
  induction fuel as [|fuel IH]; intros pos st Hf; cbn [read_buffer];
    destruct (Z.ltb_spec pos (len b)); try discriminate; try lia.
  destruct (_get_record_from_buf b pos moments) as [w [[pos' dic]|e]] eqn:Hr;
    [|discriminate].
  pose proof (record_cursor_strictly_advances _ _ _ _ _ _ Hr).
  destruct (bzip2 && meta && (0 <? i) && negb (dict_has dic "RAD")).
  - destruct (rbind _ _) as [b2|]; [|discriminate].
    intros Hn. apply with_warnings_None in Hn.
    destruct (rescan_for_rad moments (length b2) b2 COMPRESSION_RECORD_SIZE dic)
      as [[w2 [dic2|e]]|] eqn:Hs; try discriminate Hn.
    revert Hs. apply rescan_terminates. unfold len, COMPRESSION_RECORD_SIZE. lia.
  - destruct (if bzip2 && meta && (i =? 0) then not_radial_or_vcp dic else Ok false)
      as [[|]|]; try discriminate.
    + intros Hn. apply with_warnings_None in Hn. revert Hn. apply IH. lia.
    + destruct (bzip2 && meta); [discriminate|].
      intros Hn. apply with_warnings_None in Hn. revert Hn. apply IH. lia.
Qed.

Lemma read_buffers_terminates bufs : forall i st, rbuffers i bufs st <> None.
Proof.
  induction bufs as [|b bufs IH]; intros i st; cbn [read_buffers]; [discriminate|].
  destruct (len b =? 0); [apply IH|].
  destruct (rbuffer (length b) i b (if bzip2 then COMPRESSION_RECORD_SIZE else 0) st)
    as [[w [st'|e]]|] eqn:Hb; try discriminate.
  - intros Hn. apply with_warnings_None in Hn. revert Hn. apply IH.
  - intros _. revert Hb. apply read_buffer_terminates.
    unfold len, COMPRESSION_RECORD_SIZE. destruct bzip2; lia.
Qed.

(** X13: [_read_records] comes to an end on every list of buffers: each
    of its loops stops within as many iterations as the buffer has bytes,
    because every record that is parsed moves the cursor forward. *)
Theorem read_records_returns bufs :
  exists m,
    _read_records bz2_decompress bzip2 meta moments cbuf bzip2_start_pos bufs
    = Some m.
Proof.
  unfold _read_records.
  destruct (rbuffers 0 bufs ([], [])) as [m|] eqn:H; [eauto|].
  exfalso. revert H. apply read_buffers_terminates.
Qed.

Lemma rescan_parsed b : forall fuel pos dic w dic2,
  rescan fuel b pos dic = Some (w, Ok dic2) ->
  parsed moments dic -> parsed moments dic2.
Proof.
  induction fuel as [|fuel IH]; intros pos dic w dic2 H Hd; cbn [rescan_for_rad] in H;
    destruct (pos <? len b); try discriminate H;
    try (injection H as _ <-; exact Hd).
  destruct (_get_record_from_buf b pos moments) as [w1 [[pos' dic']|e]] eqn:Hr;
    [|discriminate H].
  assert (Ht : parsed moments dic') by (exists b, pos, w1, pos'; exact Hr).
  destruct (dict_has dic' "RAD").
  - injection H as _ <-. exact Ht.
  - apply with_warnings_Some in H. destruct H as (w2 & H & _).
    apply (IH _ _ _ _ H Ht).
Qed.

Lemma read_buffer_invariant i b : forall fuel pos st w st',
  rbuffer fuel i b pos st = Some (w, Ok st') ->
  Forall (stored moments) (fst st) ->
  Forall (stored moments) (fst st') /\
  (if bzip2 && meta
   then (length (fst st') <= length (fst st) + 1)%nat
   else exists rs ss, fst st' = fst st ++ rs /\ snd st' = snd st ++ ss /\
                      tiles b moments pos rs ss).
Proof.
  induction fuel as [|fuel IH]; intros pos st w st' H Hty; cbn [read_buffer] in H;
    destruct (Z.ltb_spec pos (len b)) as [Hlt|Hge]; try discriminate H;
    try (injection H as _ <-; split; [exact Hty|];
         destruct (bzip2 && meta); [lia|];
         exists [], []; rewrite !app_nil_r; cbn [tiles]; auto).
  destruct (_get_record_from_buf b pos moments) as [w1 [[pos' dic]|e]] eqn:Hr;
    [|discriminate H].
  assert (Hp : parsed moments dic) by (exists b, pos, w1, pos'; exact Hr).
  assert (Ht : stored moments dic) by (right; exact Hp).
  destruct (bzip2 && meta) eqn:Hbm; cbn [andb] in H.
  - destruct ((0 <? i) && negb (dict_has dic "RAD")).
    + destruct (rbind _ _) as [b2|]; [|discriminate H].
      apply with_warnings_Some in H. destruct H as (w2 & H & _).
      destruct (rescan_for_rad moments (length b2) b2 COMPRESSION_RECORD_SIZE dic)
        as [[w3 [dic2|e]]|] eqn:Hs; try discriminate H.
      injection H as _ <-. cbn [fst snd]. split.
      * apply Forall_app. split; [exact Hty|]. constructor; [|constructor].
        right. apply (rescan_parsed _ _ _ _ _ _ Hs Hp).
      * rewrite length_app. cbn [length]. lia.
    + destruct (if i =? 0 then not_radial_or_vcp dic else Ok false) as [[|]|];
        try discriminate H.
      * apply with_warnings_Some in H. destruct H as (w2 & H & _).
        apply IH in H; [|exact Hty]. cbn [fst snd] in H. exact H.
      * injection H as _ <-. cbn [fst snd]. split.
        -- apply Forall_app. split; [exact Hty|]. constructor; [exact Ht|constructor].
        -- rewrite length_app. cbn [length]. lia.
  - apply with_warnings_Some in H. destruct H as (w2 & H & _).
    apply IH in H.
    2:{ cbn [fst]. apply Forall_app. split; [exact Hty|].
        constructor; [exact Ht|constructor]. }
    cbn [fst snd] in H. destruct H as (H1 & rs & ss & H2 & H3 & H4).
    split; [exact H1|]. exists (dic :: rs), (pos :: ss).
    rewrite H2, H3, <- !app_assoc. cbn [app tiles].
    split; [reflexivity|]. split; [reflexivity|].
    split; [reflexivity|]. split; [exact Hlt|]. eauto.
Qed.

Lemma read_buffers_invariant : forall bufs i st w st',
  rbuffers i bufs st = Some (w, Ok st') ->
  Forall (stored moments) (fst st) ->
  Forall (stored moments) (fst st') /\
  (if bzip2 && meta
   then (length (fst st') <= length (fst st) + length bufs)%nat
   else length (fst st) = length (snd st) -> length (fst st') = length (snd st')).
Proof.
  induction bufs as [|b bufs IH]; intros i st w st' H Hty; cbn [read_buffers] in H.
  - injection H as _ <-. split; [exact Hty|].
    destruct (bzip2 && meta); [cbn [length]; lia|auto].
  - destruct (len b =? 0).
    + apply IH in H.
      2:{ cbn [fst]. apply Forall_app. split; [exact Hty|].
          constructor; [left; reflexivity|constructor]. }
      cbn [fst snd] in H. destruct H as [H1 H2]. split; [exact H1|].
      destruct (bzip2 && meta).
      * rewrite length_app in H2. cbn [length] in *. lia.
      * intros E. apply H2. rewrite !length_app. cbn [length]. lia.
    + destruct (rbuffer (length b) i b (if bzip2 then COMPRESSION_RECORD_SIZE else 0) st)
        as [[w1 [st1|e]]|] eqn:Hb; try discriminate H.
      apply with_warnings_Some in H. destruct H as (w2 & H & _).
      apply read_buffer_invariant in Hb; [|exact Hty]. destruct Hb as [Hb1 Hb2].
      apply IH in H; [|exact Hb1]. destruct H as [H1 H2]. split; [exact H1|].
      destruct (bzip2 && meta).
      * cbn [length]. lia.
      * intros E. apply H2. destruct Hb2 as (rs & ss & -> & -> & Ht).
        rewrite !length_app. f_equal; [exact E|].
        clear - Ht. revert Ht. generalize (if bzip2 then COMPRESSION_RECORD_SIZE else 0).
        revert ss. induction rs as [|r rs IHr]; intros [|p ss] pos Ht;
          cbn [tiles] in Ht; try contradiction; [reflexivity|].
        destruct Ht as (_ & _ & w' & q & _ & Ht). cbn [length]. f_equal.
        apply (IHr _ _ Ht).
Qed.

Lemma stored_record_type r :
  stored moments r -> exists t, record_type r = Ok t.
Proof.
  intros [->|(b & pos & w & q & H)]; [exists 0; reflexivity|].
  eapply parsed_record_type. exact H.
Qed.

(** X14: what [_read_records] leaves on the decoder.  Every record of
    [self._records] is the placeholder of an empty buffer or a record that
    the parser returned, and it has a header with an integer type, so that
    the census of message types in [decode_file] cannot fail.  Unless a
    bzip2 file is read for metadata, [self._records_start_pos] has one
    entry per record; when a bzip2 file is read for metadata, no buffer
    gives more than one record. *)
Theorem read_records_typed_and_aligned bufs w records starts :
  _read_records bz2_decompress bzip2 meta moments cbuf bzip2_start_pos bufs
  = Some (w, Ok (records, starts)) ->
  Forall (stored moments) records /\
  (exists msg_types, mapM record_type records = Ok msg_types) /\
  (if bzip2 && meta
   then (length records <= length bufs)%nat
   else length records = length starts).
Proof.
  unfold _read_records. intros H.
  apply read_buffers_invariant in H; [|constructor]. cbn [fst snd length] in H.
  destruct H as [H1 H2]. split; [exact H1|]. split.
  - clear - H1. induction H1 as [|r l Hr _ [ts IH]]; [exists []; reflexivity|].
    destruct (stored_record_type r Hr) as [t Ht].
    exists (t :: ts). cbn [mapM]. rewrite Ht, IH. reflexivity.
  - destruct (bzip2 && meta); [exact H2|]. apply H2. reflexivity.
Qed.

Lemma tiles_spec b : forall rs ss pos,
  tiles b moments pos rs ss ->
  StronglySorted Z.lt ss /\ Forall (fun p => pos <= p) ss /\
  hd_error ss = (if pos <? len b then Some pos else None) /\
  forall k r p,
    nth_error rs k = Some r -> nth_error ss k = Some p ->
    pos <= p < len b /\
    exists w' q,
      _get_record_from_buf b p moments = (w', Ok (q, r)) /\
      match nth_error ss (S k) with
      | Some p' => p' = q
      | None => len b <= q
      end.
Proof.
  induction rs as [|r rs IH]; intros [|p ss] pos Ht; cbn [tiles] in Ht;
    try contradiction.
  - split; [constructor|]. split; [constructor|]. split.
    + cbn [hd_error]. destruct (Z.ltb_spec pos (len b)); [lia|reflexivity].
    + intros [|k]; discriminate.
  - destruct Ht as (-> & Hlt & w' & q & Hr & Ht).
    pose proof (record_cursor_strictly_advances _ _ _ _ _ _ Hr) as Hadv.
    destruct (IH _ _ Ht) as (Hs & Hge & Hhd & Hn).
    split; [|split; [|split]].
    + constructor; [exact Hs|]. eapply Forall_impl; [|exact Hge].
      cbn beta. intros. lia.
    + constructor; [lia|]. eapply Forall_impl; [|exact Hge]. cbn beta. intros. lia.
    + cbn [hd_error]. destruct (Z.ltb_spec pos (len b)); [reflexivity|lia].
    + intros [|k] r' p' Hr' Hp'; cbn [nth_error] in *.
      * injection Hr' as <-. injection Hp' as <-. split; [lia|].
        exists w', q. split; [exact Hr|].
        destruct ss as [|p1 ss]; cbn [hd_error] in Hhd.
        -- destruct (Z.ltb_spec q (len b)); [discriminate Hhd|exact H].
        -- destruct (q <? len b); [congruence|discriminate Hhd].
      * destruct (Hn k r' p' Hr' Hp') as (Hb & Hex). split; [lia|exact Hex].
Qed.

(** X15: the records of one buffer follow one another.  Unless a bzip2
    file is read for metadata, the start offsets that [_read_records]
    collects from a non-empty buffer are strictly increasing and begin at
    the first cursor position (12 for bzip2, else 0); the record stored
    for an offset is the one that the parser returns there, and the cursor
    that the parser returns is the next offset, or lies at or beyond the end
    of the buffer for the last record. *)
Theorem read_records_tile_buffer b w records starts :
  bzip2 && meta = false ->
  len b <> 0 ->
  _read_records bz2_decompress bzip2 meta moments cbuf bzip2_start_pos [b]
  = Some (w, Ok (records, starts)) ->
  let pos0 := if bzip2 then COMPRESSION_RECORD_SIZE else 0 in
  StronglySorted Z.lt starts /\
  hd_error starts = (if pos0 <? len b then Some pos0 else None) /\
  forall k r p,
    nth_error records k = Some r -> nth_error starts k = Some p ->
    pos0 <= p < len b /\
    exists w' q,
      _get_record_from_buf b p moments = (w', Ok (q, r)) /\
      match nth_error starts (S k) with
      | Some p' => p' = q
      | None => len b <= q
      end.
Proof.
  intros Hbm Hb H. unfold _read_records in H. cbn [read_buffers] in H.
  destruct (Z.eqb_spec (len b) 0) as [|_]; [contradiction|].
  destruct (rbuffer (length b) 0 b (if bzip2 then COMPRESSION_RECORD_SIZE else 0)
              ([], [])) as [[w1 [st1|e]]|] eqn:Hrb; try discriminate H.
  apply with_warnings_Some in H. destruct H as (w2 & H & _).
  injection H as _ ->.
  apply read_buffer_invariant in Hrb; [|constructor].
  rewrite Hbm in Hrb. cbn [fst snd app] in Hrb.
  destruct Hrb as (_ & rs & ss & -> & -> & Ht).
  destruct (tiles_spec _ _ _ _ Ht) as (Hs & _ & Hhd & Hn).
  cbn zeta. split; [exact Hs|]. split; [exact Hhd|exact Hn].
Qed.

End ReadRecordsFacts.

(** X14, witness: a gzip buffer of two rays. *)
Lemma read_records_typed_and_aligned_witness :
  exists w records starts,
    _read_records (fun _ _ => None) false false MomNone [] []
                  [ray_bytes 0 1 1 1 ++ ray_bytes 0 1 2 1]
    = Some (w, Ok (records, starts)) /\
    Forall (stored MomNone) records /\
    (exists msg_types, mapM record_type records = Ok msg_types) /\
    length records = length starts.
Proof.
  destruct (_read_records (fun _ _ => None) false false MomNone [] []
              [ray_bytes 0 1 1 1 ++ ray_bytes 0 1 2 1])
    as [[w [[records starts]|e]]|] eqn:H;
    try (vm_compute in H; discriminate H).
  exists w, records, starts. split; [reflexivity|].
  apply (read_records_typed_and_aligned (fun _ _ => None) false false MomNone
           [] [] _ w records starts H).
Defined.

(** X15, witness: the same buffer. *)
Lemma read_records_tile_buffer_witness :
  exists w records starts,
    _read_records (fun _ _ => None) false false MomNone [] []
                  [ray_bytes 0 1 1 1 ++ ray_bytes 0 1 2 1]
    = Some (w, Ok (records, starts)) /\
    StronglySorted Z.lt starts /\
    hd_error starts = Some 0.
Proof.
  destruct (_read_records (fun _ _ => None) false false MomNone [] []
              [ray_bytes 0 1 1 1 ++ ray_bytes 0 1 2 1])
    as [[w [[records starts]|e]]|] eqn:H;
    try (vm_compute in H; discriminate H).
  exists w, records, starts. split; [reflexivity|].
  assert (Hb : len (ray_bytes 0 1 1 1 ++ ray_bytes 0 1 2 1) <> 0)
    by (vm_compute; discriminate).
  destruct (read_records_tile_buffer (fun _ _ => None) false false MomNone
              [] [] (ray_bytes 0 1 1 1 ++ ray_bytes 0 1 2 1) w records starts
              eq_refl Hb H) as (H1 & H2 & _).
  split; [exact H1|exact H2].
Defined.

(** ** [_decompress_records_meta] *)

Lemma py_getitem_in_range {A} (l : list A) i :
  - len l <= i < len l -> exists a, py_getitem l i = Ok a.
Proof.
  intros Hi. unfold py_getitem. cbv zeta.
  set (j := if i <? 0 then len l + i else i).
  assert (Hj : 0 <= j < len l) by (unfold j; destruct (Z.ltb_spec i 0); lia).
  destruct (Z.ltb_spec j 0); [lia|]. destruct (Z.leb_spec (len l) j); [lia|].
  cbn [orb]. destruct (nth_error l (Z.to_nat j)) as [a|] eqn:E; [eauto|].
  apply nth_error_None in E. unfold len in Hj. lia.
Qed.

Lemma py_getitem_out_of_range {A} (l : list A) i :
  ~ (- len l <= i < len l) -> py_getitem l i = Raise IndexError.
Proof.
  intros Hi. unfold py_getitem. cbv zeta.
  set (j := if i <? 0 then len l + i else i).
  assert (Hj : j < 0 \/ len l <= j) by (unfold j; destruct (Z.ltb_spec i 0); lia).
  destruct (Z.ltb_spec j 0); [reflexivity|].
  destruct (Z.leb_spec (len l) j); [reflexivity|lia].
Qed.

Lemma py_getitem_raises {A} (l : list A) i e :
  py_getitem l i = Raise e -> e = IndexError.
Proof.
  unfold py_getitem. cbv zeta.
  destruct ((_ <? 0) || (len l <=? _)); [congruence|].
  destruct (nth_error l _); [discriminate|congruence].
Qed.

Lemma stream_end_in_range starts i :
  - len starts <= i < len starts -> exists i2, stream_end starts i = Ok i2.
Proof.
  intros Hi. unfold stream_end. destruct (Z.ltb_spec (i + 1) (len starts)); [|eauto].
  destruct (py_getitem_in_range starts (i + 1)) as [p ->]; [lia|].
  cbn [rbind]. eauto.
Qed.

Lemma decompress_each_spec bz2_decompress cbuf starts max_length ixs :
  (Forall (fun i => - len starts <= i < len starts) ixs ->
   exists bufs failed,
     decompress_each bz2_decompress cbuf starts max_length ixs = Ok (bufs, failed) /\
     length bufs = length ixs /\ incl failed ixs) /\
  (Exists (fun i => ~ (- len starts <= i < len starts)) ixs ->
   decompress_each bz2_decompress cbuf starts max_length ixs = Raise IndexError).
Proof.
  split.
  - induction 1 as [|i ixs Hi _ IH]; cbn [decompress_each].
    + exists [], []. split; [reflexivity|]. split; [reflexivity|]. intros x [].
    + destruct (py_getitem_in_range starts i Hi) as [i1 ->].
      destruct (stream_end_in_range starts i Hi) as [i2 ->].
      cbn [rbind].
      destruct IH as (bufs & failed & -> & Hl & Hf). cbn [rbind fst snd].
      destruct (bz2_decompress _ _); eexists _, _; (split; [reflexivity|]);
        cbn [length]; (split; [lia|]).
      * intros x Hx. right. apply Hf. exact Hx.
      * intros x [<-|Hx]; [left; reflexivity|right; apply Hf; exact Hx].
  - induction ixs as [|i ixs IH]; intros Hex; [inversion Hex|].
    cbn [decompress_each].
    destruct (py_getitem starts i) as [i1|e] eqn:E1.
    2:{ cbn [rbind]. f_equal. apply (py_getitem_raises _ _ _ E1). }
    cbn [rbind].
    assert (Hin : - len starts <= i < len starts).
    { destruct (Z_lt_dec i (len starts)) as [H1|H1],
               (Z_le_dec (- len starts) i) as [H2|H2];
        try lia; rewrite py_getitem_out_of_range in E1 by lia;
        discriminate E1. }
    destruct (stream_end_in_range starts i Hin) as [i2 ->]. cbn [rbind].
    rewrite IH; [reflexivity|]. inversion Hex; subst; [contradiction|assumption].
Qed.

(** X16: [_decompress_records_meta] returns one buffer per requested
    stream index, whatever the decompressor does with the streams, provided
    that every index designates an entry of [bzip2_start_pos] (negative
    indices counting from the end); an index that does not makes it raise
    [IndexError].  With ['all'] it always returns one buffer per stream. *)
Theorem decompress_records_meta_buffers bz2_decompress cbuf bzip2_start_pos
  max_length :
  (forall ixs,
     Forall (fun i => - len bzip2_start_pos <= i < len bzip2_start_pos) ixs ->
     exists bufs failed,
       _decompress_records_meta bz2_decompress cbuf bzip2_start_pos
                                (Some ixs) max_length = Ok (bufs, failed) /\
       length bufs = length ixs /\ incl failed ixs) /\
  (forall ixs,
     Exists (fun i => ~ (- len bzip2_start_pos <= i < len bzip2_start_pos)) ixs ->
     _decompress_records_meta bz2_decompress cbuf bzip2_start_pos
                              (Some ixs) max_length = Raise IndexError) /\
  (exists bufs failed,
     _decompress_records_meta bz2_decompress cbuf bzip2_start_pos
                              None max_length = Ok (bufs, failed) /\
     length bufs = length bzip2_start_pos).
Proof.
  unfold _decompress_records_meta. cbv zeta.
  split; [|split].
  - intros ixs H. apply (proj1 (decompress_each_spec _ _ _ _ _) H).
  - intros ixs H. apply (proj2 (decompress_each_spec _ _ _ _ _) H).
  - destruct (proj1 (decompress_each_spec bz2_decompress cbuf bzip2_start_pos
                       max_length (py_range 0 (len bzip2_start_pos))))
      as (bufs & failed & H & Hl & _).
    + apply Forall_forall. intros i Hi. apply py_range_spec in Hi. lia.
    + exists bufs, failed. split; [exact H|].
      rewrite Hl, py_range_0_length. unfold len. apply Nat2Z.id.
Qed.

(** X16, witness: two streams, requested as [[1, -1]], with a decompressor
    that always fails. *)
Lemma decompress_records_meta_buffers_witness :
  exists bufs failed,
    _decompress_records_meta (fun _ _ => None) [] [0; 2000] (Some [1; -1]) 300
    = Ok (bufs, failed) /\
    length bufs = 2%nat.
Proof.
  destruct (proj1 (decompress_records_meta_buffers (fun _ _ => None) []
                     [0; 2000] 300) [1; -1])
    as (bufs & failed & H & Hl & _).
  - repeat constructor; unfold len; cbn [length]; lia.
  - exists bufs, failed. split; [exact H|exact Hl].
Defined.

(** ** [_read_gzip] *)

Lemma slice_prefix {A} (P R : list A) a e :
  0 <= a -> 0 <= e -> e <= len P -> slice (P ++ R) a e = slice P a e.
Proof.
  intros Ha He Hl. unfold slice, slice_bound, len in *. cbv zeta.
  rewrite length_app.
  assert (E1 : (a <? 0) = false) by (apply Z.ltb_ge; lia).
  assert (E2 : (e <? 0) = false) by (apply Z.ltb_ge; lia).
  rewrite E1, E2.
  destruct (Z_le_dec a (Z.of_nat (length P))) as [Hle|Hgt].
  - replace (Z.min a (Z.of_nat (length P + length R))) with a by lia.
    replace (Z.min a (Z.of_nat (length P))) with a by lia.
    replace (Z.min e (Z.of_nat (length P + length R))) with e by lia.
    replace (Z.min e (Z.of_nat (length P))) with e by lia.
    rewrite skipn_app, firstn_app, length_skipn.
    replace (Z.to_nat (e - a) - (length P - Z.to_nat a))%nat with 0%nat by lia.
    rewrite firstn_O, app_nil_r. reflexivity.
  - replace (Z.to_nat (Z.min e (Z.of_nat (length P + length R))
                       - Z.min a (Z.of_nat (length P + length R)))) with 0%nat by lia.
    replace (Z.to_nat (Z.min e (Z.of_nat (length P))
                       - Z.min a (Z.of_nat (length P)))) with 0%nat by lia.
    reflexivity.
Qed.

(** X17: [_read_gzip] hides its buffering.  Whatever part of the stream
    earlier calls have already pulled into [self._buf], a call with a
    range [[a, b]] of non-negative bounds ([b] may be [None]) returns the
    bytes [a..b] of the whole decompressed stream, and a call without a
    range returns the whole stream; the buffer stays a prefix of the
    stream, followed by what the file object has yet to deliver. *)
Theorem read_gzip_transparent startend_pos st :
  match startend_pos with
  | Some (a, b) => 0 <= a /\ match b with Some e => 0 <= e | None => True end
  | None => True
  end ->
  let stream := _buf st ++ fh_rest st in
  fst (_read_gzip startend_pos st)
  = match startend_pos with
    | Some (a, b) => slice_to stream a b
    | None => stream
    end /\
  _buf (snd (_read_gzip startend_pos st)) ++ fh_rest (snd (_read_gzip startend_pos st))
  = stream.
Proof.
  intros Hpre. cbv zeta. destruct startend_pos as [[a b]|]; cbn [_read_gzip fst snd].
  2:{ unfold buf_extend, fh_read. cbn [_buf fh_rest]. rewrite app_nil_r. auto. }
  destruct Hpre as [Ha Hb]. cbv zeta.
  destruct (falsy_end b) eqn:Hf.
  { unfold buf_extend, fh_read. cbn [_buf fh_rest]. rewrite app_nil_r.
    split; [|reflexivity]. destruct b as [e|]; [|reflexivity].
    cbn [falsy_end] in Hf. apply Z.eqb_eq in Hf. subst e. reflexivity. }
  destruct b as [e|]; [|discriminate Hf]. cbn [slice_to].
  destruct (Z.ltb_spec (len (_buf st)) e) as [Hlt|Hge].
  - unfold buf_extend, fh_read. destruct (Z.ltb_spec (e - len (_buf st)) 0); [lia|].
    cbn [_buf fh_rest]. rewrite <- app_assoc, firstn_skipn.
    split; [|reflexivity].
    rewrite <- (firstn_skipn (Z.to_nat (e - len (_buf st))) (fh_rest st)) at 2.
    rewrite app_assoc.
    destruct (Z_le_dec e (len (_buf st ++ firstn (Z.to_nat (e - len (_buf st)))
                                                 (fh_rest st)))) as [Hle|Hgt].
    + symmetry. apply slice_prefix; assumption.
    + unfold len in *. rewrite length_app, length_firstn in Hgt.
      rewrite (skipn_all2 (fh_rest st)) by lia. rewrite app_nil_r. reflexivity.
  - split; [|reflexivity]. symmetry. apply slice_prefix; assumption.
Qed.

(** X17, witness: bytes 2..4 of a stream of which three bytes are
    buffered. *)
Lemma read_gzip_transparent_witness :
  fst (_read_gzip (Some (2, Some 4))
         {| fh_rest := [x03; x04; x05]; _buf := [x00; x01; x02] |})
  = [x02; x03].
Proof.
  apply (read_gzip_transparent (Some (2, Some 4))
           {| fh_rest := [x03; x04; x05]; _buf := [x00; x01; x02] |}).
  split; lia.
Defined.

(** ** The volume coverage pattern of a type-5 record *)

Lemma unpack_from_buf_short buf pos n :
  0 <= pos -> len buf < pos + _structure_size n ->
  unpack_from_buf buf pos n = Raise StructError.
Proof.
  intros Hpos H. pose proof (structure_size_pos n) as Hsz.
  pose proof (slice_length_nonneg buf pos (_structure_size n) Hpos
                ltac:(lia)) as Hl.
  unfold unpack_from_buf, _unpack_structure, struct_unpack.
  destruct (Nat.eqb_spec (length (slice buf pos (pos + _structure_size n)))
                         (calcsize (_structure_format n))) as [E|E];
    [|reflexivity].
  unfold len, _structure_size in *. lia.
Qed.

Lemma unpack_from_buf_long buf pos n :
  0 <= pos -> pos + _structure_size n <= len buf ->
  exists d, unpack_from_buf buf pos n = Ok d.
Proof.
  intros Hpos H. pose proof (structure_size_pos n) as Hsz.
  pose proof (slice_length_nonneg buf pos (_structure_size n) Hpos
                ltac:(lia)) as Hl.
  unfold unpack_from_buf, _unpack_structure, struct_unpack.
  destruct (Nat.eqb_spec (length (slice buf pos (pos + _structure_size n)))
                         (calcsize (_structure_format n))) as [E|E];
    [cbn [rbind]; eauto|].
  unfold len, _structure_size in *. lia.
Qed.

(** X18: the pattern number of a type-5 record.  A type-5 message is always
    turned into a record, with the cursor one record further.  When the
    buffer ends inside the MSG_5 header, the record has the message header
    only, a warning is logged, and [get_vcp_pattern] on a decoder whose
    [vcp] is that record raises [KeyError]; otherwise the record has the
    MSG_5 header and [get_vcp_pattern] returns its pattern number, an
    unsigned 16-bit integer. *)
Theorem vcp_pattern_of_msg5 buf pos moments header :
  0 <= pos ->
  unpack_from_buf buf pos SMSG_HEADER = Ok header ->
  get_int header "type" = Ok 5 ->
  exists w r,
    _get_record_from_buf buf pos moments = (w, Ok (pos + RECORD_SIZE, r)) /\
    forall d, vcp d = r ->
      if len buf <? pos + _structure_size SMSG_HEADER + _structure_size SMSG_5
      then w = [WIncompleteMsg5] /\ r = [("header"%string, EAttrs header)] /\
           get_vcp_pattern d = Raise KeyError
      else exists p, get_vcp_pattern d = Ok (Some (PInt p)) /\ 0 <= p < 2 ^ 16.
Proof.
  intros Hpos Hh Ht. unfold _get_record_from_buf. rewrite Hh.
  cbn [lift bind]. rewrite Ht. cbn [lift bind]. change (5 =? 31) with false.
  change (5 =? 5) with true. cbv iota.
  unfold _get_msg5_from_buf.
  destruct (Z.ltb_spec (len buf) (pos + _structure_size SMSG_HEADER
                                  + _structure_size SMSG_5)) as [Hs|Hl].
  - rewrite (unpack_from_buf_short buf (pos + _structure_size SMSG_HEADER) SMSG_5)
      by (pose proof (structure_size_pos SMSG_HEADER); lia).
    cbn. eexists _, _. split; [reflexivity|]. intros d Hd.
    split; [reflexivity|]. split; [reflexivity|].
    unfold get_vcp_pattern. rewrite Hd. reflexivity.
  - destruct (unpack_from_buf_long buf (pos + _structure_size SMSG_HEADER) SMSG_5)
      as [h5 Hu]; [pose proof (structure_size_pos SMSG_HEADER); lia|lia|].
    rewrite Hu. destruct (unpack_msg5_num_cuts _ _ _ Hu) as (n & Hn). rewrite Hn.
    destruct (msg5_cuts buf _ (seq 0 (Z.to_nat n)) []) as [cuts r] eqn:Hc.
    assert (Hp : exists p, dict_get h5 "pattern_number" = Some (PInt p) /\
                           0 <= p < 2 ^ 16).
    { assert (Hex : exists p, dict_get h5 "pattern_number" = Some (PInt p)).
      { pose proof (unpack_shape _ _ _ _ Hu) as Hsh.
        cbn [_structure_content _structure_format structure MSG_5 map fst snd
             combine unpack_fields unpack_field] in Hsh.
        rewrite Hsh. cbn [dict_get String.eqb Ascii.eqb Bool.eqb].
        eexists. reflexivity. }
      destruct Hex as (p & Hp). exists p. split; [exact Hp|].
      destruct (unpacked_field_lookup _ _ _ _ _ _ Hu Hp) as (f & bs & Hin & Hv & Hb).
      pose proof (unpack_field_range f bs p Hb (eq_sym Hv)) as Hr.
      cbn [structure MSG_5 In] in Hin.
      repeat (destruct Hin as [Hin|Hin]; [try discriminate Hin|]);
        [injection Hin as <-; exact Hr|destruct Hin]. }
    destruct Hp as (p & Hp & Hr).
    assert (Hv : forall d r0,
      vcp d = dict_set (dict_set [("header"%string, EAttrs header)]
                                 "msg5_header" (EAttrs h5))
                       "cut_parameters" r0 ->
      exists p, get_vcp_pattern d = Ok (Some (PInt p)) /\ 0 <= p < 2 ^ 16).
    { intros d r0 Hd. exists p. split; [|exact Hr].
      unfold get_vcp_pattern. rewrite Hd. cbn. rewrite Hp. reflexivity. }
    destruct r as [[]|e].
    + cbn. eexists _, _. split; [reflexivity|]. intros d Hd. eapply Hv. exact Hd.
    + pose proof (msg5_cuts_raises _ _ _ _ _ _ Hc) as ->.
      cbn. eexists _, _. split; [reflexivity|]. intros d Hd. eapply Hv. exact Hd.
Qed.

(** X18, witness: a type-5 message of which the buffer holds the message
    header only. *)
Lemma vcp_pattern_of_msg5_witness :
  exists r,
    _get_record_from_buf (mk_msg_header 10 5 0 0) 0 MomNone
    = ([WIncompleteMsg5], Ok (0 + RECORD_SIZE, r)) /\
    forall d, vcp d = r -> get_vcp_pattern d = Raise KeyError.
Proof.
  destruct (unpack_from_buf (mk_msg_header 10 5 0 0) 0 SMSG_HEADER)
    as [header|e] eqn:Hh; [|vm_compute in Hh; discriminate Hh].
  assert (Ht : get_int header "type" = Ok 5)
    by (vm_compute in Hh; injection Hh as <-; reflexivity).
  destruct (vcp_pattern_of_msg5 (mk_msg_header 10 5 0 0) 0 MomNone header
              ltac:(lia) Hh Ht) as (w & r & H & Hd).
  replace (len (mk_msg_header 10 5 0 0)
           <? 0 + _structure_size SMSG_HEADER + _structure_size SMSG_5)
    with true in Hd by reflexivity.
  exists r.
  destruct (Hd {| _msg_type := 0; radial_records := []; scan_msgs := [];
                  nscans := 0; scan_startend_pos := None; vcp := r |} eq_refl)
    as (-> & _ & _).
  split; [exact H|]. intros d Hv. apply (Hd d Hv).
Defined.

(** ** The streams of a "min-meta" pass over a bzip2 file *)

Lemma expected_indices_spec n : forall cuts acc l,
  expected_indices n acc cuts = Ok l ->
  StronglySorted Z.lt l /\ Forall (fun i => acc < i < n) l.
Proof.
  induction cuts as [|scan cuts IH]; intros acc l H; cbn [expected_indices] in H.
  - injection H as <-. split; constructor.
  - rbind_inv H. injection H as <-.
    set (acc' := acc + (3 + 3 * (if a then 1 else 0))) in *.
    assert (Hacc : acc < acc') by (unfold acc'; destruct a; lia).
    destruct (IH _ _ E0) as [Hs Hf].
    assert (Hf' : Forall (fun i => acc < i < n) a0)
      by (eapply Forall_impl; [|exact Hf]; cbn beta; intros; lia).
    destruct (Z.ltb_spec acc' n); [|split; assumption].
    split.
    + constructor; [exact Hs|]. eapply Forall_impl; [|exact Hf].
      cbn beta. intros. lia.
    + constructor; [lia|exact Hf'].
Qed.

Lemma py_range_step_spec a b s :
  0 < s ->
  StronglySorted Z.lt (py_range_step a b s) /\
  Forall (fun i => a <= i < b) (py_range_step a b s).
Proof.
  intros Hs. unfold py_range_step.
  set (m := Z.to_nat ((b - a + s - 1) / s)).
  assert (Hm : forall k : nat, (k < m)%nat -> a + s * Z.of_nat k < b).
  { intros k Hk. unfold m in Hk.
    assert (Z.of_nat k + 1 <= (b - a + s - 1) / s) by lia.
    assert (s * ((b - a + s - 1) / s) <= b - a + s - 1)
      by (apply Z.mul_div_le; lia).
    nia. }
  clearbody m.
  assert (H : forall n st, (st + n <= m)%nat ->
    StronglySorted Z.lt (map (fun k => a + s * Z.of_nat k) (seq st n)) /\
    Forall (fun i => a + s * Z.of_nat st <= i < b)
           (map (fun k => a + s * Z.of_nat k) (seq st n))).
  { induction n as [|n IH]; intros st Hst; cbn [seq map].
    - split; constructor.
    - destruct (IH (S st) ltac:(lia)) as [H1 H2]. split.
      + constructor; [exact H1|]. eapply Forall_impl; [|exact H2].
        cbn beta. intros. nia.
      + constructor; [split; [lia|apply Hm; lia]|].
        eapply Forall_impl; [|exact H2]. cbn beta. intros. nia. }
  destruct (H m 0%nat ltac:(lia)) as [H1 H2]. split; [exact H1|].
  eapply Forall_impl; [|exact H2]. cbn beta. intros. lia.
Qed.

Lemma py_getitem_last_inv {A} (l : list A) x :
  py_getitem l (-1) = Ok x -> exists pre, l = pre ++ [x].
Proof.
  destruct l as [|a l] using rev_ind; [discriminate|].
  rewrite py_getitem_last. intros [= <-]. eauto.
Qed.

Lemma StronglySorted_last_max l x :
  StronglySorted Z.lt (l ++ [x]) -> Forall (fun i => i < x) l.
Proof.
  induction l as [|a l IH]; cbn [app]; intros H; [constructor|].
  inversion H as [|? ? Hs Ha]; subst. constructor; [|apply IH; exact Hs].
  apply Forall_app in Ha. destruct Ha as [_ Ha]. inversion Ha; assumption.
Qed.

(** X19: the streams that a "min-meta" pass over a bzip2 file reads.
    When the file has at least one stream and the list of stream indices
    can be built, the indices are strictly increasing, each designates a
    stream, and the last stream is always among them; with VCP data the
    first stream is too.  Without VCP data and with fewer than three
    streams the computation raises [IndexError]. *)
Theorem min_meta_read_indices_spec vcp n :
  (forall ixs printed,
     1 <= n ->
     min_meta_read_indices vcp n = Ok (ixs, printed) ->
     StronglySorted Z.lt ixs /\
     Forall (fun i => 0 <= i < n) ixs /\
     py_getitem ixs (-1) = Ok (n - 1) /\
     (vcp <> [] -> hd_error ixs = Some 0)) /\
  (vcp = [] -> n <= 2 -> min_meta_read_indices vcp n = Raise IndexError).
Proof.
  split.
  - intros ixs printed Hn H. unfold min_meta_read_indices in H.
    destruct (match vcp with
              | [] => Ok (py_range_step 2 n 3)
              | _ => _
              end) as [l|] eqn:El; [|discriminate H].
    cbn [rbind] in H.
    assert (Hl : StronglySorted Z.lt l /\ Forall (fun i => 0 <= i < n) l /\
                 (vcp <> [] -> hd_error l = Some 0)).
    { destruct vcp as [|kv vcp'].
      - injection El as <-. destruct (py_range_step_spec 2 n 3 ltac:(lia)) as [H1 H2].
        split; [exact H1|]. split; [|congruence].
        eapply Forall_impl; [|exact H2]. cbn beta. intros. lia.
      - rbind_inv El. injection El as <-.
        destruct (expected_indices_spec _ _ _ _ E0) as [H1 H2]. split; [|split].
        + constructor; [exact H1|]. eapply Forall_impl; [|exact H2].
          cbn beta. intros. lia.
        + constructor; [lia|]. eapply Forall_impl; [|exact H2].
          cbn beta. intros. lia.
        + reflexivity. }
    destruct Hl as (Hs & Hf & Hhd).
    destruct (py_getitem l (-1)) as [last|] eqn:Elast; [|discriminate H].
    cbn [rbind] in H. destruct (py_getitem_last_inv _ _ Elast) as [pre ->].
    assert (Hlast : 0 <= last < n).
    { apply Forall_app in Hf. destruct Hf as [_ Hf]. inversion Hf; assumption. }
    destruct (Z.eqb_spec (last + 1) n) as [E|E]; cbn [negb] in H;
      injection H as <- <-.
    + split; [exact Hs|]. split; [exact Hf|]. split; [|exact Hhd].
      rewrite py_getitem_last. f_equal. lia.
    + split; [|split; [|split]].
      * apply StronglySorted_snoc; [exact Hs|].
        apply Forall_app. split.
        -- eapply Forall_impl; [|apply (StronglySorted_last_max _ _ Hs)].
           cbn beta. intros. lia.
        -- constructor; [lia|constructor].
      * apply Forall_app. split; [exact Hf|]. constructor; [lia|constructor].
      * apply py_getitem_last.
      * intros Hv. specialize (Hhd Hv). destruct pre; cbn in *; exact Hhd.
  - intros -> Hn. unfold min_meta_read_indices.
    assert (E : py_range_step 2 n 3 = []).
    { unfold py_range_step.
      replace (Z.to_nat ((n - 2 + 3 - 1) / 3)) with 0%nat; [reflexivity|].
      assert ((n - 2 + 3 - 1) / 3 < 1); [|lia].
      apply Z.div_lt_upper_bound; lia. }
    rewrite E. reflexivity.
Qed.

(** X19, witness: no VCP data and seven streams. *)
Lemma min_meta_read_indices_spec_witness :
  exists ixs printed,
    min_meta_read_indices [] 7 = Ok (ixs, printed) /\
    StronglySorted Z.lt ixs /\
    py_getitem ixs (-1) = Ok (7 - 1).
Proof.
  destruct (min_meta_read_indices [] 7) as [[ixs printed]|e] eqn:H;
    [|vm_compute in H; discriminate H].
  exists ixs, printed. split; [reflexivity|].
  destruct (proj1 (min_meta_read_indices_spec [] 7) ixs printed ltac:(lia) H)
    as (H1 & _ & H2 & _).
  split; [exact H1|exact H2].
Defined.

(** ** Decoding what [_read_records] has read *)

Lemma unpack_msg31_numbers buf pos h :
  unpack_from_buf buf pos SMSG_31 = Ok h ->
  exists e a, get_int h "elevation_number" = Ok e /\
              get_int h "azimuth_number" = Ok a.
Proof.
  intros H. apply unpack_shape in H. subst h.
  generalize (slice buf pos (pos + _structure_size SMSG_31)). intros s.
  cbv [_structure_content _structure_format structure MSG_31 map fst snd
       INT1 INT2 INT4 SINT1 REAL4 CODE1 CODE2 unpack_fields unpack_field combine].
  repeat eexists.
Qed.

Lemma unpack_msg1_numbers buf pos h :
  unpack_from_buf buf pos SMSG_1 = Ok h ->
  exists e a, get_int h "elevation_number" = Ok e /\
              get_int h "azimuth_number" = Ok a.
Proof.
  intros H. apply unpack_shape in H. subst h.
  generalize (slice buf pos (pos + _structure_size SMSG_1)). intros s.
  cbv [_structure_content _structure_format structure MSG_1 map fst snd
       INT1 INT2 INT4 SINT2 REAL4 CODE1 CODE2 unpack_fields unpack_field combine].
  repeat eexists.
Qed.

Lemma msg1_sets_msg_header buf pos dic moments new_pos dic' :
  _get_msg1_from_buf buf pos dic moments = Ok (new_pos, dic') ->
  exists h1,
    unpack_from_buf buf (pos + _structure_size SMSG_HEADER) SMSG_1 = Ok h1 /\
    dict_get dic' "msg_header" = Some (EAttrs h1).
Proof.
  unfold _get_msg1_from_buf. intros H.
  destruct (unpack_from_buf buf (pos + _structure_size SMSG_HEADER) SMSG_1)
    as [h1|] eqn:Hu; [|discriminate H].
  cbn [rbind] in H. exists h1. split; [reflexivity|].
  rbind_inv H. injection H as _ <-.
  repeat match goal with
         | E : (if ?c then _ else _) = Ok _ |- _ =>
             destruct c; [rbind_inv E|]; injection E as <-
         end;
    repeat (rewrite dict_get_set_other by discriminate);
    rewrite dict_get_set; reflexivity.
Qed.

(** A parsed record of type 31 or 1 has a message header with its
    elevation and azimuth numbers. *)
Lemma parsed_radial_numbers moments r t :
  parsed moments r -> record_type r = Ok t -> t = 31 \/ t = 1 ->
  exists e a, msg_header_field "elevation_number" r = Ok e /\
              msg_header_field "azimuth_number" r = Ok a.
Proof.
  intros (b & pos & w & q & H) Ht Hcase.
  destruct (parsed_record_header _ _ _ _ _ _ H) as (header & Hu & Hd).
  assert (Hty : get_int header "type" = Ok t).
  { unfold record_type, get_attrs in Ht. rewrite Hd in Ht. exact Ht. }
  unfold _get_record_from_buf in H. rewrite Hu in H. cbn [lift bind] in H.
  rewrite Hty in H. cbn [lift bind] in H.
  assert (Hh : forall h,
             dict_get r "msg_header" = Some (EAttrs h) ->
             (exists e a, get_int h "elevation_number" = Ok e /\
                          get_int h "azimuth_number" = Ok a) ->
             exists e a, msg_header_field "elevation_number" r = Ok e /\
                         msg_header_field "azimuth_number" r = Ok a).
  { intros h Hg (e & a & He & Ha). exists e, a.
    unfold msg_header_field, get_attrs. rewrite Hg. cbn [rbind]. auto. }
  destruct Hcase as [-> | ->].
  - change (31 =? 31) with true in H. cbv iota in H.
    unfold _get_msg31_from_buf in H.
    destruct (bind (lift (get_attrs [("header"%string, EAttrs header)] "header")) _)
      as [w' [[q' r']|]] eqn:E; try discriminate H.
    cbn [app] in H. injection H as _ _ <-.
    apply bind_lift_Ok_inv in E. destruct E as (h' & _ & E).
    apply bind_lift_Ok_inv in E. destruct E as (size & _ & E).
    apply bind_lift_Ok_inv in E. destruct E as (h31 & Hu31 & E).
    apply bind_Ok_inv in E. destruct E as (w1 & dic1 & w2 & _ & E & _).
    injection E as _ _ <-.
    apply (Hh h31); [rewrite dict_get_set; reflexivity|].
    apply (unpack_msg31_numbers _ _ _ Hu31).
  - change (1 =? 31) with false in H. change (1 =? 5) with false in H.
    change (1 =? 29) with false in H. change (1 =? 1) with true in H.
    cbv iota in H.
    destruct (_get_msg1_from_buf b pos [("header"%string, EAttrs header)] MomNone)
      as [[q' r']|] eqn:E; try discriminate H.
    cbn in H. injection H as _ _ <-.
    destruct (msg1_sets_msg_header _ _ _ _ _ _ E) as (h1 & Hu1 & Hg).
    apply (Hh h1 Hg). apply (unpack_msg1_numbers _ _ _ Hu1).
Qed.

Lemma mapM_Forall_ok {A B} (f : A -> result B) l :
  Forall (fun x => exists y, f x = Ok y) l -> exists ys, mapM f l = Ok ys.
Proof.
  induction 1 as [|x l [y Hy] _ [ys IH]]; [exists []; reflexivity|].
  exists (y :: ys). cbn [mapM]. rewrite Hy, IH. reflexivity.
Qed.

Lemma mapM_combine_In {A B} (f : A -> result B) l : forall ys x y,
  mapM f l = Ok ys -> In (x, y) (combine l ys) -> f x = Ok y.
Proof.
  induction l as [|a l IH]; intros ys x y H Hin; cbn [mapM] in H.
  - injection H as <-. destruct Hin.
  - rbind_inv H. injection H as <-. cbn [combine In] in Hin.
    destruct Hin as [[= <- <-]|Hin]; [assumption|]. eapply IH; [reflexivity|exact Hin].
Qed.

Lemma collect_radials_ok t sl : forall irs : list (nat * (record * Z)),
  Forall (fun x => (fst x < length sl)%nat) irs ->
  exists rp, collect_radials t sl irs = Ok rp.
Proof.
  induction 1 as [|[i [r ty]] irs Hi _ [rp IH]]; cbn [collect_radials];
    [eauto|].
  destruct (ty =? t); [|eauto].
  cbn [fst] in Hi.
  rewrite (py_getitem_nonneg sl (Z.of_nat i)) by lia. rewrite Nat2Z.id.
  destruct (nth_error sl i) as [p|] eqn:E;
    [|apply nth_error_None in E; lia].
  cbn [rbind]. rewrite IH. cbn [rbind]. eauto.
Qed.

(** X20: decoding what [_read_records] has read.  Outside the metadata
    modes, a pass over records that [_read_records] stored, with one start
    position per record, either finishes or reports that there is no radial
    record: the census of types, the selection of the radial records and
    the grouping by elevation number raise nothing. *)
Theorem decode_pass_of_stored_records moments bzip2 rm vcp0 rs :
  decode_meta rm = false ->
  Forall (stored moments) (_records rs) ->
  length (_records rs) = length (_records_start_pos rs) ->
  decode_pass bzip2 rm vcp0 rs = Raise NoRadialsFound \/
  exists d ev, decode_pass bzip2 rm vcp0 rs = Ok (Finished d ev).
Proof.
  intros Hmeta Hst Hlen. unfold decode_pass.
  destruct (mapM_Forall_ok record_type (_records rs)) as [ts Hts].
  { eapply Forall_impl; [|exact Hst]. intros r Hr.
    destruct Hr as [->|(b & pos & w & q & H)]; [exists 0; reflexivity|].
    eapply parsed_record_type. exact H. }
  rewrite Hts. cbn [rbind]. rewrite Hmeta. cbn [andb].
  set (t := choose_msg_type ts).
  destruct (collect_radials_ok t (_records_start_pos rs)
              (enumerate (combine (_records rs) ts))) as [rp Hrp].
  { apply Forall_forall. intros [i x] Hin. apply enumerate_In in Hin.
    cbn [fst]. assert (Hi : (i < length (combine (_records rs) ts))%nat)
      by (apply nth_error_Some; congruence).
    rewrite length_combine in Hi. lia. }
  pose proof (collect_radials_enumerate t (_records_start_pos rs) (_records rs) ts)
    as Hspec.
  rewrite Hrp in Hspec |- *. cbn [rbind].
  destruct (len (fst rp) =? 0); [left; reflexivity|right].
  assert (Hrad : Forall (fun r => exists e a,
                           msg_header_field "elevation_number" r = Ok e /\
                           msg_header_field "azimuth_number" r = Ok a) (fst rp)).
  { rewrite Hspec. unfold records_of_type. apply Forall_forall. intros r Hr.
    apply in_map_iff in Hr. destruct Hr as ([r' ty] & <- & Hin).
    apply filter_In in Hin. destruct Hin as [Hin Hty]. cbn [fst snd] in *.
    apply Z.eqb_eq in Hty. subst ty.
    pose proof (mapM_combine_In _ _ _ _ _ Hts Hin) as Hrt.
    assert (Hr' : In r' (_records rs)) by (eapply in_combine_l; exact Hin).
    assert (Ht : t = 31 \/ t = 1)
      by (unfold t, choose_msg_type; destruct (_ <? _); auto).
    pose proof (proj1 (Forall_forall _ _) Hst r' Hr') as [->|Hp].
    - cbn in Hrt. injection Hrt as Hrt. lia.
    - apply (parsed_radial_numbers moments r' t Hp Hrt Ht). }
  unfold group_and_locate.
  destruct (mapM_Forall_ok (msg_header_field "elevation_number") (fst rp))
    as [en Hen].
  { eapply Forall_impl; [|exact Hrad]. cbn beta. intros r (e & a & He & _). eauto. }
  destruct (mapM_Forall_ok (msg_header_field "azimuth_number") (fst rp))
    as [an Han].
  { eapply Forall_impl; [|exact Hrad]. cbn beta. intros r (e & a & _ & Ha). eauto. }
  rewrite Hen, Han. cbn [rbind].
  assert (Hmm : is_min_meta rm = false) by (destruct rm; try reflexivity; discriminate Hmeta).
  rewrite Hmm, Hmeta. cbn [andb rbind]. eexists _, _. reflexivity.
Qed.

(** X20, witness: the records read from a gzip buffer of two rays. *)
Lemma decode_pass_of_stored_records_witness :
  exists w records starts,
    _read_records (fun _ _ => None) false false MomNone [] []
                  [ray_bytes 0 1 1 1 ++ ray_bytes 0 1 2 1]
    = Some (w, Ok (records, starts)) /\
    (decode_pass false RMAll None (read_stage_of records starts)
     = Raise NoRadialsFound \/
     exists d ev,
       decode_pass false RMAll None (read_stage_of records starts)
       = Ok (Finished d ev)).
Proof.
  destruct (_read_records (fun _ _ => None) false false MomNone [] []
              [ray_bytes 0 1 1 1 ++ ray_bytes 0 1 2 1])
    as [[w [[records starts]|e]]|] eqn:H;
    try (vm_compute in H; discriminate H).
  exists w, records, starts. split; [reflexivity|].
  destruct (read_buffers_invariant (fun _ _ => None) false false MomNone [] []
              _ _ _ _ _ H ltac:(constructor)) as [H1 H2].
  cbn [andb fst snd] in H1, H2.
  apply (decode_pass_of_stored_records MomNone false RMAll None
           (read_stage_of records starts) eq_refl H1 (H2 eq_refl)).
Defined.

(** ** The rows of [get_data] *)

Lemma skipn_repeat_ones {A} (x : A) k n : skipn k (repeat x n) = repeat x (n - k).
Proof.
  revert k. induction n as [|n IH]; intros [|k]; cbn [repeat skipn Nat.sub];
    try reflexivity. apply IH.
Qed.

Lemma fill_rows_dtype_fixed d moment max_ngates : forall msg_nums rows dt done w dt' out,
  fill_rows d moment max_ngates msg_nums true dt done rows = (w, Ok (dt', out)) ->
  dt' = dt.
Proof.
  induction msg_nums as [|m msg_nums IH]; intros rows dt done w dt' out H;
    cbn [fill_rows] in H.
  - injection H as _ <- _. reflexivity.
  - destruct rows as [|row rows]; [injection H as _ <- _; reflexivity|].
    apply bind_lift_Ok_inv in H. destruct H as (msg & _ & H).
    destruct (negb (dict_has msg moment)); [apply (IH _ _ _ _ _ _ H)|].
    apply bind_Ok_inv in H. destruct H as (w1 & dt1 & w2 & Hdt & H & _).
    injection Hdt as _ <-.
    apply bind_lift_Ok_inv in H. destruct H as (blk & _ & H).
    apply bind_lift_Ok_inv in H. destruct H as (n & _ & H).
    apply bind_lift_Ok_inv in H. destruct H as (data_m & _ & H).
    apply (IH _ _ _ _ _ _ H).
Qed.

Lemma fill_rows_rows d moment max_ngates : forall msg_nums sd dt done w dt' out,
  fill_rows d moment max_ngates msg_nums sd dt done
            (repeat (repeat 1 (Z.to_nat max_ngates)) (length msg_nums))
  = (w, Ok (dt', out)) ->
  exists new, out = done ++ new /\
              Forall2 (ray_row d moment max_ngates dt') msg_nums new.
Proof.
  induction msg_nums as [|m msg_nums IH]; intros sd dt done w dt' out H;
    cbn [length repeat fill_rows] in H.
  - injection H as _ _ <-. exists []. split; [reflexivity|constructor].
  - apply bind_lift_Ok_inv in H. destruct H as (msg & Hmsg & H).
    destruct (dict_has msg moment) eqn:Hhas; cbn [negb] in H.
    + apply bind_Ok_inv in H. destruct H as (w1 & dt1 & w2 & Hdt & H & _).
      apply bind_lift_Ok_inv in H. destruct H as (blk & Hblk & H).
      apply bind_lift_Ok_inv in H. destruct H as (n & Hn & H).
      apply bind_lift_Ok_inv in H. destruct H as (data_m & Hdata & H).
      pose proof (fill_rows_dtype_fixed _ _ _ _ _ _ _ _ _ _ H) as ->.
      destruct (IH _ _ _ _ _ _ H) as (new & -> & Hnew).
      eexists (_ :: new). rewrite <- app_assoc. split; [reflexivity|].
      constructor; [|exact Hnew].
      exists msg. split; [exact Hmsg|]. rewrite Hhas.
      exists blk, n, data_m. split; [exact Hblk|]. split; [exact Hn|].
      split; [exact Hdata|]. cbv zeta. rewrite skipn_repeat_ones. reflexivity.
    + destruct (IH _ _ _ _ _ _ H) as (new & -> & Hnew).
      eexists (_ :: new). rewrite <- app_assoc. split; [reflexivity|].
      constructor; [|exact Hnew].
      exists msg. split; [exact Hmsg|]. rewrite Hhas. reflexivity.
Qed.

(** X21: the contents of the raw array of [get_data].  The row of a ray
    that lacks the moment holds ones; the row of a ray that has it holds
    the first [min(ngates, max_ngates, len(data))] values of the ray's
    data, reduced to the returned unsigned type, followed by ones.  The
    rows come in the order of the requested rays. *)
Theorem get_data_raw_rows d moment max_ngates scans w dt rows msg_nums :
  _msg_nums d (scans_or_all d scans) = Ok msg_nums ->
  get_data d moment max_ngates scans true = (w, Ok (RawData dt rows)) ->
  Forall2 (ray_row d moment max_ngates dt) msg_nums rows.
Proof.
  intros Hm H. unfold get_data in H. rewrite Hm in H.
  apply bind_lift_Ok_inv in H. destruct H as (mn & [= <-] & H).
  destruct (max_ngates <? 0); [discriminate H|].
  apply bind_Ok_inv in H. destruct H as (w1 & [dt1 data] & w2 & Hfill & H & _).
  cbn [fst snd] in H. injection H as _ <- <-.
  destruct (fill_rows_rows _ _ _ _ _ _ _ _ _ _ Hfill) as (new & -> & Hnew).
  exact Hnew.
Qed.

(** X21, witness: the REF data of two rays of which the second has two
    gates, 5 and 6. *)
Lemma get_data_raw_rows_witness :
  exists d ev dt rows,
    decode_pass false RMAll None ref_in_second_ray = Ok (Finished d ev) /\
    get_data d "REF" 2 None true = ([], Ok (RawData dt rows)) /\
    Forall2 (ray_row d "REF" 2 dt) [0; 1] rows.
Proof.
  destruct (decode_pass false RMAll None ref_in_second_ray) as [[d ev|]|e] eqn:Hp;
    try (vm_compute in Hp; discriminate Hp).
  assert (Hm : _msg_nums d (scans_or_all d None) = Ok [0; 1])
    by (vm_compute in Hp; injection Hp as <- _; vm_compute; reflexivity).
  assert (Hg : exists dt rows,
             get_data d "REF" 2 None true = ([], Ok (RawData dt rows))).
  { vm_compute in Hp. injection Hp as <- _. eexists _, _. vm_compute. reflexivity. }
  destruct Hg as (dt & rows & Hg).
  exists d, ev, dt, rows. split; [reflexivity|]. split; [exact Hg|].
  exact (get_data_raw_rows d "REF" 2 None [] dt rows [0; 1] Hm Hg).
Defined.

(** X23, witness: the VEL data of two rays that have no VEL block. *)
Lemma get_data_absent_fully_masked_witness :
  exists d ev,
    decode_pass false RMAll None ref_in_second_ray = Ok (Finished d ev) /\
    get_data d "VEL" 2 (Some [0]) false
    = ([], Ok (MaskedData U1 [[1; 1]; [1; 1]] [[true; true]; [true; true]])).
Proof.
  destruct (decode_pass false RMAll None ref_in_second_ray) as [[d ev|]|e] eqn:Hp;
    try (vm_compute in Hp; discriminate Hp).
  exists d, ev. split; [reflexivity|].
  assert (Hm : _msg_nums d [0] = Ok [0; 1])
    by (vm_compute in Hp; injection Hp as <- _; vm_compute; reflexivity).
  assert (Hl : Forall (ray_lacks d "VEL") [0; 1]).
  { vm_compute in Hp. injection Hp as <- _.
    repeat constructor; eexists; (split; [vm_compute; reflexivity|reflexivity]). }
  assert (Hs : Forall (fun scan => exists msgs msg_num,
                         py_getitem (scan_msgs d) scan = Ok msgs /\
                         py_getitem msgs 0 = Ok msg_num /\
                         ray_lacks d "VEL" msg_num) [0]).
  { constructor; [|constructor]. exists [0; 1], 0.
    split; [vm_compute in Hp; injection Hp as <- _; vm_compute; reflexivity|].
    split; [reflexivity|]. inversion Hl; assumption. }
  exact (get_data_absent_fully_masked d "VEL" 2 [0] [0; 1] Hm Hl Hs ltac:(lia)).
Defined.

(** ** The first gate of the Doppler moments of a type-1 record *)

(** X24: the range to the first Doppler gate of a type-1 record.  The
    VEL and SW blocks that [_get_msg1_from_buf] attaches carry, as
    [first_gate], the unsigned 16-bit field [doppler_range_first] read as a
    signed number, except that the value 32768 stays positive: the result
    lies in (-32768, 32768]. *)
Theorem msg1_doppler_first_gate buf pos dic moments new_pos dic' k blk :
  _get_msg1_from_buf buf pos dic moments = Ok (new_pos, dic') ->
  dict_has dic k = false ->
  k = "VEL"%string \/ k = "SW"%string ->
  dict_get dic' k = Some (EAttrs blk) ->
  exists h1 raw,
    unpack_from_buf buf (pos + _structure_size SMSG_HEADER) SMSG_1 = Ok h1 /\
    get_int h1 "doppler_range_first" = Ok raw /\
    0 <= raw < 2 ^ 16 /\
    get_int blk "first_gate"
    = Ok (if raw <=? 2 ^ 15 then raw else raw - 2 ^ 16) /\
    forall g, get_int blk "first_gate" = Ok g -> - 2 ^ 15 < g <= 2 ^ 15.
Proof.
  unfold _get_msg1_from_buf. intros H Hk Hcase Hg.
  destruct (unpack_from_buf buf (pos + _structure_size SMSG_HEADER) SMSG_1)
    as [h1|] eqn:Hu; [|discriminate H].
  cbn [rbind] in H.
  destruct (unpack_msg1_ints _ _ _ Hu)
    as (sn & dn & ss & ds & sf & df & sp & vp & wp & dr &
        H1 & H2 & H3 & H4 & H5 & H6 & H7 & H8 & H9 & H10).
  rewrite H1, H2, H3, H4, H5, H6, H7, H8, H9, H10 in H. cbn [rbind] in H.
  assert (Hraw : 0 <= df < 2 ^ 16).
  { unfold get_int in H6.
    destruct (dict_get h1 "doppler_range_first") as [[z| | | |]|] eqn:Eg;
      try discriminate. injection H6 as ->.
    destruct (unpacked_field_lookup _ _ _ _ _ _ Hu Eg) as (f & bs & Hin & Hv & Hb).
    pose proof (unpack_field_range f bs df Hb (eq_sym Hv)) as Hr.
    cbn [structure MSG_1 In] in Hin.
    repeat (destruct Hin as [Hin|Hin]; [try discriminate Hin|]);
      [injection Hin as <-; exact Hr|destruct Hin]. }
  exists h1, df. split; [reflexivity|]. split; [exact H6|]. split; [exact Hraw|].
  set (g := if 2 ^ 15 <? df then df - 2 ^ 16 else df) in *.
  assert (Eg : (if df <=? 2 ^ 15 then df else df - 2 ^ 16) = g).
  { unfold g. destruct (Z.leb_spec df (2 ^ 15)), (Z.ltb_spec (2 ^ 15) df);
      try reflexivity; lia. }
  assert (Hgr : - 2 ^ 15 < g <= 2 ^ 15).
  { unfold g. destruct (Z.ltb_spec (2 ^ 15) df); lia. }
  rewrite Eg.
  assert (Hfg : get_int blk "first_gate" = Ok g).
  { unfold dict_has in Hk.
    repeat (match type of H with
            | rbind (if ?c then _ else _) _ = Ok _ => destruct c
            end; cbn [np_frombuffer rbind] in H);
      injection H as _ <-;
      destruct Hcase as [-> | ->];
      repeat (rewrite dict_get_set in Hg; cbn [String.eqb Ascii.eqb Bool.eqb] in Hg);
      try (injection Hg as <-; reflexivity);
      destruct (dict_get dic _); discriminate. }
  split; [exact Hfg|]. intros g' Hg'. rewrite Hfg in Hg'. injection Hg' as <-.
  exact Hgr.
Qed.

(** X24, witness: a type-1 record whose velocity pointer is set. *)
Lemma msg1_doppler_first_gate_witness :
  exists new_pos dic' blk g,
    _get_msg1_from_buf (mk_msg_header 10 1 0 0 ++ mk_msg1 0 100 0) 0 [] MomNone
    = Ok (new_pos, dic') /\
    dict_get dic' "VEL" = Some (EAttrs blk) /\
    get_int blk "first_gate" = Ok g /\ - 2 ^ 15 < g <= 2 ^ 15.
Proof.
  destruct (_get_msg1_from_buf (mk_msg_header 10 1 0 0 ++ mk_msg1 0 100 0) 0 []
              MomNone) as [[new_pos dic']|e] eqn:H;
    [|vm_compute in H; discriminate H].
  destruct (dict_get dic' "VEL") as [[blk|]|] eqn:Hg;
    try (exfalso; vm_compute in H; injection H as _ <-; discriminate Hg).
  destruct (msg1_doppler_first_gate _ 0 [] MomNone new_pos dic' "VEL" blk H
              eq_refl (or_introl eq_refl) Hg)
    as (h1 & raw & _ & _ & _ & Hfg & Hr).
  exists new_pos, dic', blk, (if raw <=? 2 ^ 15 then raw else raw - 2 ^ 16).
  split; [reflexivity|]. split; [exact Hg|]. split; [exact Hfg|].
  apply Hr. exact Hfg.
Defined.

(** ** [scan_info] on decoded records *)

Lemma not_moment_name k :
  k = "header"%string \/ k = "msg_header"%string \/ k = "msg5_header"%string \/
  k = "cut_parameters"%string ->
  ~ In k moment_names.
Proof.
  intros H Hin. destruct (moment_name_cases k Hin) as (_ & _ & _ & _ & N5 & N6).
  unfold moment_names in Hin. cbn [In] in Hin.
  destruct H as [-> | [-> | [-> | ->]]];
    repeat (destruct Hin as [Hin|Hin]; [discriminate Hin|]); destruct Hin.
Qed.

Lemma moment_blocks_ok_set r k e :
  moment_blocks_ok r ->
  (In k moment_names ->
   match e with EAttrs a => has_gate_fields a | ECuts _ => False end) ->
  moment_blocks_ok (dict_set r k e).
Proof.
  intros Hr He k' Hk'. rewrite dict_get_set.
  destruct (String.eqb_spec k k') as [->|_]; [|apply Hr; exact Hk'].
  specialize (He Hk'). destruct e; exact He.
Qed.

Lemma unpack_generic_keys buf pos h :
  unpack_from_buf buf pos SGENERIC_DATA_BLOCK = Ok h -> has_gate_fields h.
Proof.
  intros H. apply unpack_shape in H. subst h.
  generalize (slice buf pos (pos + _structure_size SGENERIC_DATA_BLOCK)). intros s.
  cbv [_structure_content _structure_format structure GENERIC_DATA_BLOCK map fst snd
       INT1 INT2 INT4 SINT2 REAL4 CODE1 CODE2 unpack_fields unpack_field combine].
  unfold has_gate_fields. repeat eexists.
Qed.

Lemma data_block_gate_fields buf ptr moments w name d :
  _get_msg31_data_block buf ptr moments = (w, Ok (name, d)) ->
  In name moment_names -> has_gate_fields d.
Proof.
  intros H Hn. destruct (moment_name_cases name Hn) as (N1 & N2 & N3 & N4 & _).
  unfold _get_msg31_data_block in H.
  apply bind_lift_Ok_inv in H. destruct H as (bn & _ & H).
  destruct (String.eqb_spec bn "VOL") as [E|_].
  { subst bn. apply bind_lift_Ok_inv in H. destruct H as (? & _ & [= _ E _]).
    congruence. }
  destruct (String.eqb_spec bn "ELV") as [E|_].
  { subst bn. apply bind_lift_Ok_inv in H. destruct H as (? & _ & [= _ E _]).
    congruence. }
  destruct (String.eqb_spec bn "RAD") as [E|_].
  { subst bn. apply bind_lift_Ok_inv in H. destruct H as (? & _ & [= _ E _]).
    congruence. }
  destruct (existsb (String.eqb bn) moment_names) eqn:Hm.
  2:{ injection H as _ E _. subst bn.
      rewrite (proj2 (existsb_exists (String.eqb name) moment_names)) in Hm;
        [discriminate|].
      exists name. split; [exact Hn|apply String.eqb_refl]. }
  destruct (moments_truthy moments && negb (in_moments bn moments)).
  { injection H as _ E _. congruence. }
  apply bind_lift_Ok_inv in H. destruct H as (d0 & Hd0 & H).
  apply bind_lift_Ok_inv in H. destruct H as (ngates & _ & H).
  apply bind_lift_Ok_inv in H. destruct H as (ws & _ & H).
  apply bind_Ok_inv in H. destruct H as (w1 & data & w2 & _ & H & _).
  injection H as _ _ <-.
  destruct (unpack_generic_keys _ _ _ Hd0) as (n & s & f & H1 & H2 & H3).
  exists n, s, f. rewrite !dict_get_set_other by discriminate. auto.
Qed.

Lemma msg31_blocks_moment_ok mbuf hdr moments : forall ps dic w dic',
  msg31_blocks mbuf hdr moments ps dic = (w, Ok dic') ->
  moment_blocks_ok dic -> moment_blocks_ok dic'.
Proof.
  induction ps as [|p ps IH]; intros dic w dic' H Hd; cbn [msg31_blocks] in H.
  - injection H as _ <-. exact Hd.
  - apply bind_lift_Ok_inv in H. destruct H as (v & _ & H).
    destruct (0 <? v).
    + apply bind_Ok_inv in H. destruct H as (w1 & [name d] & w2 & Hb & H & _).
      apply (IH _ _ _ H). cbn [fst snd]. apply moment_blocks_ok_set; [exact Hd|].
      intros Hn. apply (data_block_gate_fields _ _ _ _ _ _ Hb Hn).
    + apply (IH _ _ _ H Hd).
Qed.

Lemma msg1_moment_ok buf pos dic moments new_pos dic' :
  _get_msg1_from_buf buf pos dic moments = Ok (new_pos, dic') ->
  moment_blocks_ok dic -> moment_blocks_ok dic'.
Proof.
  unfold _get_msg1_from_buf. intros H Hd. rbind_inv H. injection H as _ <-.
  assert (H0 : moment_blocks_ok (dict_set dic "msg_header" (EAttrs a))).
  { apply moment_blocks_ok_set; [exact Hd|]. intros Hin. exfalso.
    revert Hin. apply not_moment_name. auto. }
  repeat match goal with
         | E : (if ?c then _ else _) = Ok _ |- _ =>
             destruct c; [rbind_inv E|]; injection E as <-
         end;
    repeat (apply moment_blocks_ok_set;
            [|solve [intros _; unfold has_gate_fields; eexists _, _, _;
                     repeat split; reflexivity]]);
    exact H0.
Qed.

Lemma msg5_moment_ok buf pos dic dic' r :
  _get_msg5_from_buf buf pos dic = (dic', r) ->
  moment_blocks_ok dic -> moment_blocks_ok dic'.
Proof.
  unfold _get_msg5_from_buf. intros H Hd.
  assert (Hset : forall d k e,
             k = "msg5_header"%string \/ k = "cut_parameters"%string ->
             moment_blocks_ok d -> moment_blocks_ok (dict_set d k e)).
  { intros d k e Hk Hok. apply moment_blocks_ok_set; [exact Hok|].
    intros Hin. exfalso. revert Hin. apply not_moment_name. tauto. }
  destruct (unpack_from_buf buf (pos + _structure_size SMSG_HEADER) SMSG_5) as [h|];
    [|injection H as <- _; exact Hd].
  destruct (get_int h "num_cuts") as [n|].
  - destruct (msg5_cuts _ _ _ _) as [cuts r']. injection H as <- _.
    apply Hset; [auto|]. apply Hset; [auto|exact Hd].
  - injection H as <- _. apply Hset; [auto|]. apply Hset; [auto|exact Hd].
Qed.

Lemma stored_moment_blocks moments r : stored moments r -> moment_blocks_ok r.
Proof.
  assert (Hinit : forall header,
             moment_blocks_ok [("header"%string, EAttrs header)]).
  { intros header k Hk. cbn [dict_get].
    destruct (String.eqb_spec "header" k) as [<-|_]; [|exact I].
    exfalso. revert Hk. apply not_moment_name. auto. }
  intros [->|(b & pos & w & q & H)]; [apply Hinit|].
  unfold _get_record_from_buf in H.
  apply bind_lift_Ok_inv in H. destruct H as (header & Hh & H).
  apply bind_lift_Ok_inv in H. destruct H as (t & _ & H).
  destruct (t =? 31).
  { unfold _get_msg31_from_buf in H.
    apply bind_lift_Ok_inv in H. destruct H as (h' & _ & H).
    apply bind_lift_Ok_inv in H. destruct H as (size & _ & H).
    apply bind_lift_Ok_inv in H. destruct H as (h31 & _ & H).
    apply bind_Ok_inv in H. destruct H as (w1 & dic1 & w2 & Hb & H & _).
    injection H as _ _ <-. apply moment_blocks_ok_set.
    - apply (msg31_blocks_moment_ok _ _ _ _ _ _ _ Hb). apply Hinit.
    - intros Hin. exfalso. revert Hin. apply not_moment_name. auto. }
  destruct (t =? 5).
  { destruct (_get_msg5_from_buf b pos [("header"%string, EAttrs header)])
      as [dic' r'] eqn:H5.
    apply msg5_moment_ok in H5; [|apply Hinit].
    destruct r' as [np|[]]; try discriminate H.
    - injection H as _ _ <-. exact H5.
    - apply bind_Ok_inv in H. destruct H as (w1 & [] & w2 & _ & H & _).
      injection H as _ _ <-. exact H5. }
  destruct (t =? 29).
  { apply bind_lift_Ok_inv in H. destruct H as (np & _ & H).
    apply bind_Ok_inv in H. destruct H as (w1 & [] & w2 & _ & H & _).
    injection H as _ _ <-. apply Hinit. }
  destruct (t =? 1).
  { apply lift_Ok_inv in H. destruct H as [H _].
    apply msg1_moment_ok in H; [exact H|apply Hinit]. }
  injection H as _ _ <-. apply Hinit.
Qed.

Lemma decode_pass_radials bzip2 rm vcp0 rs d ev :
  decode_pass bzip2 rm vcp0 rs = Ok (Finished d ev) ->
  exists ts,
    mapM record_type (_records rs) = Ok ts /\
    radial_records d = records_of_type (choose_msg_type ts) (_records rs) ts.
Proof.
  unfold decode_pass. intros H.
  destruct (mapM record_type (_records rs)) as [ts|] eqn:Hts; [|discriminate H].
  cbn [rbind] in H. exists ts. split; [reflexivity|].
  pose proof (collect_radials_enumerate (choose_msg_type ts)
                (if decode_meta rm && bzip2 then _bzip2_read_indices rs
                 else _records_start_pos rs) (_records rs) ts) as Hspec.
  destruct (collect_radials _ _ _) as [rp|]; [|discriminate H].
  cbn [rbind] in H. destruct (len (fst rp) =? 0); [discriminate H|].
  destruct (group_and_locate_finished _ _ _ _ _ _ _ _ _ _ H) as (_ & -> & _).
  exact Hspec.
Qed.

Lemma mapM_Forall_post {A B} (f : A -> result B) (P : B -> Prop) l :
  Forall (fun x => exists y, f x = Ok y /\ P y) l ->
  exists ys, mapM f l = Ok ys /\ Forall P ys /\ length ys = length l.
Proof.
  induction 1 as [|x l (y & Hy & Hp) _ (ys & IH & Hps & Hl)].
  - exists []. split; [reflexivity|]. split; [constructor|reflexivity].
  - exists (y :: ys). cbn [mapM]. rewrite Hy, IH. cbn [rbind length].
    split; [reflexivity|]. split; [constructor; assumption|lia].
Qed.

Lemma block_field_ok msg key f :
  moment_blocks_ok msg -> In f moment_names -> dict_has msg f = true ->
  key = "ngates"%string \/ key = "gate_spacing"%string \/ key = "first_gate"%string ->
  exists v, block_field msg key f = Ok v.
Proof.
  intros Hok Hf Hhas Hkey. specialize (Hok f Hf). unfold dict_has in Hhas.
  unfold block_field. destruct (dict_get msg f) as [[a|]|]; try discriminate;
    [|contradiction].
  destruct Hok as (n & s & g & H1 & H2 & H3).
  destruct Hkey as [-> | [-> | ->]];
    [rewrite H1|rewrite H2|rewrite H3]; eauto.
Qed.

(** X25: [scan_info] on a decoded file.  When the records come from
    [_read_records], [scan_info()] of a finished pass raises nothing: it
    returns one entry per scan, and in every entry the lists of gate
    counts, gate spacings and first gates have one element per listed
    moment, the moments being among the seven moment names. *)
Theorem scan_info_total moments bzip2 rm vcp0 rs d ev :
  Forall (stored moments) (_records rs) ->
  decode_pass bzip2 rm vcp0 rs = Ok (Finished d ev) ->
  exists infos,
    scan_info d None = Ok infos /\
    len infos = nscans d /\
    Forall (fun i =>
              length (si_ngates i) = length (si_moments i) /\
              length (si_gate_spacing i) = length (si_moments i) /\
              length (si_first_gate i) = length (si_moments i) /\
              incl (si_moments i) moment_names) infos.
Proof.
  intros Hst H.
  destruct (decode_pass_radials _ _ _ _ _ _ H) as (ts & Hts & Hrr).
  assert (Hok : Forall moment_blocks_ok (radial_records d)).
  { rewrite Hrr. unfold records_of_type. apply Forall_forall. intros r Hr.
    apply in_map_iff in Hr. destruct Hr as ([r' ty] & <- & Hin).
    apply filter_In in Hin. destruct Hin as [Hin _]. cbn [fst].
    apply in_combine_l in Hin.
    apply (stored_moment_blocks moments).
    apply (proj1 (Forall_forall _ _) Hst). exact Hin. }
  destruct (decode_pass_finished _ _ _ _ _ _ H) as (ts' & starts & _ & _ & Hg).
  destruct (group_and_locate_finished _ _ _ _ _ _ _ _ _ _ Hg)
    as (_ & _ & en & Hen & Hsm & Hn & _).
  destruct (mapM_nth _ _ _ Hen) as [Hlen _].
  destruct (scans_of_elev_nums en) as (es & Hes & _ & _).
  unfold scan_info, scans_or_all.
  destruct (mapM_Forall_post (scan_info_of d)
              (fun i => length (si_ngates i) = length (si_moments i) /\
                        length (si_gate_spacing i) = length (si_moments i) /\
                        length (si_first_gate i) = length (si_moments i) /\
                        incl (si_moments i) moment_names)
              (py_range 0 (nscans d))) as (infos & Hi & Hp & Hl).
  2:{ exists infos. split; [exact Hi|]. split; [|exact Hp].
      unfold len. rewrite Hl, py_range_0_length.
      rewrite Hn. unfold len. lia. }
  apply Forall_forall. intros i Hi. apply py_range_spec in Hi.
  rewrite Hn in Hi. unfold scan_info_of.
  rewrite (py_getitem_nonneg (scan_msgs d) i) by lia.
  destruct (nth_error (scan_msgs d) (Z.to_nat i)) as [s|] eqn:Es;
    [|apply nth_error_None in Es; unfold len in Hi; lia].
  cbn [rbind].
  assert (Hin : In s (filter (fun j => negb (len j =? 0)) (group_scans en)))
    by (rewrite <- Hsm; eapply nth_error_In; exact Es).
  apply filter_In in Hin. destruct Hin as [_ Hne].
  rewrite Hes in Hsm.
  assert (Hs : exists e, s = np_where_eq en e).
  { rewrite Hsm in Es. rewrite nth_error_map in Es.
    destruct (nth_error es (Z.to_nat i)) as [e|]; [|discriminate Es].
    injection Es as <-. eauto. }
  destruct Hs as [e ->].
  destruct (np_where_eq en e) as [|j0 rest] eqn:Ew; [discriminate Hne|].
  rewrite py_getitem_0. cbn [rbind].
  assert (Hj : 0 <= j0 /\ nth_error en (Z.to_nat j0) = Some e).
  { apply (proj2 (np_where_eq_spec en e)). rewrite Ew. left. reflexivity. }
  destruct Hj as [Hj0 Hj1].
  rewrite (py_getitem_nonneg (radial_records d) j0) by exact Hj0.
  destruct (nth_error (radial_records d) (Z.to_nat j0)) as [msg|] eqn:Em.
  2:{ apply nth_error_None in Em.
      assert ((Z.to_nat j0 < length en)%nat) by (apply nth_error_Some; congruence).
      lia. }
  cbn [rbind].
  assert (Hmsg : moment_blocks_ok msg).
  { apply (proj1 (Forall_forall _ _) Hok). eapply nth_error_In. exact Em. }
  set (ms := filter (fun f => dict_has msg f) moment_names).
  assert (Hms : forall key,
             key = "ngates"%string \/ key = "gate_spacing"%string \/
             key = "first_gate"%string ->
             exists vs, mapM (block_field msg key) ms = Ok vs /\
                        length vs = length ms).
  { intros key Hkey.
    destruct (mapM_Forall_ok (block_field msg key) ms) as [vs Hvs].
    - apply Forall_forall. intros f Hf. apply filter_In in Hf.
      destruct Hf as [Hf Hhas]. apply (block_field_ok msg key f Hmsg Hf Hhas Hkey).
    - exists vs. split; [exact Hvs|]. apply (proj1 (mapM_nth _ _ _ Hvs)). }
  destruct (Hms "ngates"%string) as (v1 & -> & L1); [auto|].
  destruct (Hms "gate_spacing"%string) as (v2 & -> & L2); [auto|].
  destruct (Hms "first_gate"%string) as (v3 & -> & L3); [auto|].
  cbn [rbind]. eexists. split; [reflexivity|].
  cbn [si_ngates si_gate_spacing si_first_gate si_moments].
  repeat split; try assumption.
  intros f Hf. apply filter_In in Hf. apply Hf.
Qed.

(** X25, witness: the file with one scan of two rays. *)
Lemma scan_info_total_witness :
  exists d ev infos,
    decode_pass false RMAll None ref_in_first_ray = Ok (Finished d ev) /\
    scan_info d None = Ok infos /\ len infos = nscans d.
Proof.
  destruct (decode_pass false RMAll None ref_in_first_ray) as [[d ev|]|e] eqn:Hp;
    try (vm_compute in Hp; discriminate Hp).
  destruct (scan_info_total MomNone false RMAll None ref_in_first_ray d ev)
    as (infos & H1 & H2 & _).
  - constructor; [|constructor; [|constructor]]; right; unfold parsed, parse_record.
    + exists (ray_with_ref_bytes 1500 1 1 1), 0.
      destruct (_get_record_from_buf (ray_with_ref_bytes 1500 1 1 1) 0 MomNone)
        as [w [[q r]|e]] eqn:E;
        [exists w, q; reflexivity|exfalso; vm_compute in E; discriminate E].
    + exists (ray_bytes 2500 1 2 1), 0.
      destruct (_get_record_from_buf (ray_bytes 2500 1 2 1) 0 MomNone)
        as [w [[q r]|e]] eqn:E;
        [exists w, q; reflexivity|exfalso; vm_compute in E; discriminate E].
  - exact Hp.
  - exists d, ev, infos. split; [reflexivity|]. split; assumption.
Defined.

(** ** [get_data] on decoded records *)

Lemma moments_ready_set t r k e :
  moments_ready t r ->
  (In k moment_names ->
   match e with EAttrs a => block_ready t a | ECuts _ => False end) ->
  moments_ready t (dict_set r k e).
Proof.
  intros Hr He k' Hk'. rewrite dict_get_set.
  destruct (String.eqb_spec k k') as [->|_]; [|apply Hr; exact Hk'].
  specialize (He Hk'). destruct e; exact He.
Qed.

Lemma moments_ready_header t header :
  moments_ready t [("header"%string, EAttrs header)].
Proof.
  intros k Hk. cbn [dict_get].
  destruct (String.eqb_spec "header" k) as [<-|_]; [|exact I].
  exfalso. revert Hk. apply not_moment_name. auto.
Qed.

Lemma unpack_generic_ready buf pos h :
  unpack_from_buf buf pos SGENERIC_DATA_BLOCK = Ok h ->
  exists n o s,
    dict_get h "ngates" = Some (PInt n) /\
    dict_get h "offset" = Some (PFloat o) /\
    dict_get h "scale" = Some (PFloat s).
Proof.
  intros H. apply unpack_shape in H. subst h.
  generalize (slice buf pos (pos + _structure_size SGENERIC_DATA_BLOCK)). intros s.
  cbv [_structure_content _structure_format structure GENERIC_DATA_BLOCK map fst snd
       INT1 INT2 INT4 SINT2 REAL4 CODE1 CODE2 unpack_fields unpack_field combine].
  repeat eexists.
Qed.

Lemma data_block_ready buf ptr moments w name d :
  _get_msg31_data_block buf ptr moments = (w, Ok (name, d)) ->
  In name moment_names -> block_ready 31 d.
Proof.
  intros H Hn. destruct (moment_name_cases name Hn) as (N1 & N2 & N3 & N4 & _).
  unfold _get_msg31_data_block in H.
  apply bind_lift_Ok_inv in H. destruct H as (bn & _ & H).
  destruct (String.eqb_spec bn "VOL") as [E|_].
  { subst bn. apply bind_lift_Ok_inv in H. destruct H as (? & _ & [= _ E _]).
    congruence. }
  destruct (String.eqb_spec bn "ELV") as [E|_].
  { subst bn. apply bind_lift_Ok_inv in H. destruct H as (? & _ & [= _ E _]).
    congruence. }
  destruct (String.eqb_spec bn "RAD") as [E|_].
  { subst bn. apply bind_lift_Ok_inv in H. destruct H as (? & _ & [= _ E _]).
    congruence. }
  destruct (existsb (String.eqb bn) moment_names) eqn:Hm.
  2:{ injection H as _ E _. subst bn.
      rewrite (proj2 (existsb_exists (String.eqb name) moment_names)) in Hm;
        [discriminate|].
      exists name. split; [exact Hn|apply String.eqb_refl]. }
  destruct (moments_truthy moments && negb (in_moments bn moments)).
  { injection H as _ E _. congruence. }
  apply bind_lift_Ok_inv in H. destruct H as (d0 & Hd0 & H).
  apply bind_lift_Ok_inv in H. destruct H as (ngates & _ & H).
  apply bind_lift_Ok_inv in H. destruct H as (ws & Hw & H).
  apply bind_Ok_inv in H. destruct H as (w1 & data & w2 & Hdata & H & _).
  injection H as _ _ <-.
  destruct (unpack_generic_ready _ _ _ Hd0) as (n & o & s & H1 & H2 & H3).
  assert (Hd : exists dt l, data = PArr dt l /\ (ws = 8 \/ ws = 16)).
  { destruct (Z.eqb_spec ws 16) as [->|N16].
    - unfold np_frombuffer in Hdata. destruct (Nat.even _); [|discriminate Hdata].
      injection Hdata as _ <-. eauto.
    - destruct (Z.eqb_spec ws 8) as [->|N8].
      + unfold np_frombuffer in Hdata. injection Hdata as _ <-. eauto.
      + unfold warnings_warn, bind, raise in Hdata. discriminate Hdata. }
  destruct Hd as (dt & l & -> & Hws).
  exists n, dt, l, (FCast32 o), (FCast32 s).
  split; [rewrite dict_get_set_other by discriminate; exact H1|].
  split; [rewrite dict_get_set; reflexivity|].
  split; [unfold get_float32; rewrite dict_get_set_other by discriminate;
          rewrite H2; reflexivity|].
  split; [unfold get_float32; rewrite dict_get_set_other by discriminate;
          rewrite H3; reflexivity|].
  intros _. exists ws. split; [|exact Hws].
  unfold get_int in *. rewrite dict_get_set_other by discriminate. exact Hw.
Qed.

Lemma msg31_blocks_ready mbuf hdr moments : forall ps dic w dic',
  msg31_blocks mbuf hdr moments ps dic = (w, Ok dic') ->
  moments_ready 31 dic -> moments_ready 31 dic'.
Proof.
  induction ps as [|p ps IH]; intros dic w dic' H Hd; cbn [msg31_blocks] in H.
  - injection H as _ <-. exact Hd.
  - apply bind_lift_Ok_inv in H. destruct H as (v & _ & H).
    destruct (0 <? v).
    + apply bind_Ok_inv in H. destruct H as (w1 & [name d] & w2 & Hb & H & _).
      apply (IH _ _ _ H). cbn [fst snd]. apply moments_ready_set; [exact Hd|].
      intros Hn. apply (data_block_ready _ _ _ _ _ _ Hb Hn).
    + apply (IH _ _ _ H Hd).
Qed.

Lemma msg1_ready buf pos dic moments new_pos dic' :
  _get_msg1_from_buf buf pos dic moments = Ok (new_pos, dic') ->
  moments_ready 1 dic -> moments_ready 1 dic'.
Proof.
  unfold _get_msg1_from_buf. intros H Hd. rbind_inv H. injection H as _ <-.
  assert (H0 : moments_ready 1 (dict_set dic "msg_header" (EAttrs a))).
  { apply moments_ready_set; [exact Hd|]. intros Hin. exfalso.
    revert Hin. apply not_moment_name. auto. }
  repeat match goal with
         | E : (if ?c then _ else _) = Ok _ |- _ =>
             destruct c; [rbind_inv E|]; injection E as <-
         end;
    repeat match goal with
           | E : np_frombuffer _ U1 = Ok _ |- _ =>
               cbn [np_frombuffer] in E; injection E as <-
           end;
    repeat (apply moments_ready_set;
            [|solve [intros _; unfold block_ready; eexists _, _, _, _, _;
                     repeat split; try reflexivity; discriminate]]);
    exact H0.
Qed.

Lemma parsed_ready moments r t :
  parsed moments r -> record_type r = Ok t -> t = 31 \/ t = 1 ->
  moments_ready t r.
Proof.
  intros (b & pos & w & q & H) Ht Hcase.
  destruct (parsed_record_header _ _ _ _ _ _ H) as (header & Hu & Hd).
  assert (Hty : get_int header "type" = Ok t).
  { unfold record_type, get_attrs in Ht. rewrite Hd in Ht. exact Ht. }
  unfold _get_record_from_buf in H. rewrite Hu in H. cbn [lift bind] in H.
  rewrite Hty in H. cbn [lift bind] in H.
  destruct Hcase as [-> | ->].
  - change (31 =? 31) with true in H. cbv iota in H.
    unfold _get_msg31_from_buf in H.
    destruct (bind (lift (get_attrs [("header"%string, EAttrs header)] "header")) _)
      as [w' [[q' r']|]] eqn:E; try discriminate H.
    cbn [app] in H. injection H as _ _ <-.
    apply bind_lift_Ok_inv in E. destruct E as (h' & _ & E).
    apply bind_lift_Ok_inv in E. destruct E as (size & _ & E).
    apply bind_lift_Ok_inv in E. destruct E as (h31 & Hu31 & E).
    apply bind_Ok_inv in E. destruct E as (w1 & dic1 & w2 & Hb & E & _).
    injection E as _ _ <-. apply moments_ready_set.
    + apply (msg31_blocks_ready _ _ _ _ _ _ _ Hb). apply moments_ready_header.
    + intros Hin. exfalso. revert Hin. apply not_moment_name. auto.
  - change (1 =? 31) with false in H. change (1 =? 5) with false in H.
    change (1 =? 29) with false in H. change (1 =? 1) with true in H.
    cbv iota in H.
    destruct (_get_msg1_from_buf b pos [("header"%string, EAttrs header)] MomNone)
      as [[q' r']|] eqn:E; try discriminate H.
    cbn in H. injection H as _ _ <-.
    apply (msg1_ready _ _ _ _ _ _ E). apply moments_ready_header.
Qed.

Lemma ready_block msg moment t :
  moments_ready t msg -> In moment moment_names -> dict_has msg moment = true ->
  exists a, get_attrs msg moment = Ok a /\ block_ready t a.
Proof.
  intros Hr Hm Hhas. specialize (Hr moment Hm). unfold dict_has in Hhas.
  unfold get_attrs. destruct (dict_get msg moment) as [[a|]|];
    try discriminate; [eauto|contradiction].
Qed.

Lemma bits_to_code_ok msg moment t a :
  record_type msg = Ok t -> t = 31 \/ t = 1 ->
  get_attrs msg moment = Ok a -> block_ready t a ->
  exists dt, _bits_to_code msg moment = ([], Ok dt).
Proof.
  intros Ht Hcase Ha (n & dt & data & o & s & _ & Hd & _ & _ & Hws).
  unfold _bits_to_code. rewrite Ht, Ha. cbn [lift bind app].
  destruct Hcase as [-> | ->].
  - change (31 =? 1) with false. change (31 =? 31) with true. cbv iota.
    destruct (Hws eq_refl) as (ws & -> & [-> | ->]); cbn; eauto.
  - change (1 =? 1) with true. cbv iota. rewrite Hd. destruct dt; cbn; eauto.
Qed.

Lemma fill_rows_total d moment max_ngates t :
  In moment moment_names -> t = 31 \/ t = 1 ->
  forall msg_nums, Forall (ready_ray d t) msg_nums ->
  forall sd dt done rows,
    length rows = length msg_nums ->
    exists dt' out,
      fill_rows d moment max_ngates msg_nums sd dt done rows = ([], Ok (dt', out)).
Proof.
  intros Hm Hcase. induction 1 as [|i msg_nums (msg & Hg & Ht & Hr) _ IH];
    intros sd dt done rows Hlen.
  - destruct rows; [|discriminate Hlen]. cbn. eauto.
  - destruct rows as [|row rows]; [discriminate Hlen|]. cbn [length] in Hlen.
    cbn [fill_rows]. rewrite Hg. cbn [lift bind app].
    destruct (dict_has msg moment) eqn:Hhas; cbn [negb].
    + destruct (ready_block _ _ _ Hr Hm Hhas) as (a & Ha & Hb).
      destruct (bits_to_code_ok _ _ _ _ Ht Hcase Ha Hb) as (dtc & Hc).
      assert (Hdt : exists dt1, (if sd then ret dt else _bits_to_code msg moment)
                                = ([], Ok dt1))
        by (destruct sd; [exists dt; reflexivity|exists dtc; exact Hc]).
      destruct Hdt as (dt1 & ->). cbn [bind app]. rewrite Ha. cbn [lift bind app].
      destruct Hb as (n & dt0 & data & o & s & Hn & Hd & _).
      unfold get_int. rewrite Hn. cbn [lift bind app].
      unfold block_data. rewrite Hd. cbn [lift bind app].
      destruct (IH true dt1
                  (done ++ [map (wrap dt1)
                                (firstn (Z.to_nat (min3 n max_ngates (len data))) data)
                            ++ skipn (Z.to_nat (min3 n max_ngates (len data))) row])
                  rows ltac:(lia)) as (dt' & out & ->).
      eauto.
    + destruct (IH sd dt (done ++ [row]) rows ltac:(lia)) as (dt' & out & ->).
      eauto.
Qed.

Lemma find_scale_offset_total d moment t :
  In moment moment_names ->
  forall scans,
    Forall (fun scan => exists msgs n,
              py_getitem (scan_msgs d) scan = Ok msgs /\
              py_getitem msgs 0 = Ok n /\ ready_ray d t n) scans ->
    exists so, find_scale_offset d moment scans = Ok so.
Proof.
  intros Hm. induction 1 as [|scan scans (msgs & n & H1 & H2 & msg & H3 & _ & Hr) _ IH];
    cbn [find_scale_offset]; [eauto|].
  rewrite H1. cbn [rbind]. rewrite H2. cbn [rbind]. rewrite H3. cbn [rbind].
  destruct (dict_has msg moment) eqn:Hhas; [|exact IH].
  destruct (ready_block _ _ _ Hr Hm Hhas) as (a & Ha & Hb).
  rewrite Ha. cbn [rbind].
  destruct Hb as (n' & dt0 & data & o & s & _ & _ & -> & -> & _). cbn [rbind]. eauto.
Qed.

Lemma finished_decoder_ready moments bzip2 rm vcp0 rs d ev :
  Forall (stored moments) (_records rs) ->
  decode_pass bzip2 rm vcp0 rs = Ok (Finished d ev) ->
  exists t,
    (t = 31 \/ t = 1) /\
    scan_msgs d <> [] /\ nscans d = len (scan_msgs d) /\
    Forall (fun s => s <> [] /\ Forall (ready_ray d t) s) (scan_msgs d).
Proof.
  intros Hst H.
  destruct (decode_pass_radials _ _ _ _ _ _ H) as (ts & Hts & Hrr).
  set (t := choose_msg_type ts) in *.
  assert (Ht : t = 31 \/ t = 1)
    by (unfold t, choose_msg_type; destruct (_ <? _); auto).
  exists t. split; [exact Ht|].
  assert (Hok : Forall (fun msg => record_type msg = Ok t /\ moments_ready t msg)
                       (radial_records d)).
  { rewrite Hrr. unfold records_of_type. apply Forall_forall. intros r Hr.
    apply in_map_iff in Hr. destruct Hr as ([r' ty] & <- & Hin).
    apply filter_In in Hin. destruct Hin as [Hin Hty]. cbn [fst snd] in *.
    apply Z.eqb_eq in Hty. subst ty.
    pose proof (mapM_combine_In _ _ _ _ _ Hts Hin) as Hrt.
    split; [exact Hrt|].
    apply in_combine_l in Hin.
    pose proof (proj1 (Forall_forall _ _) Hst r' Hin) as [->|Hp].
    - cbn in Hrt. injection Hrt as Hrt. lia.
    - apply (parsed_ready moments r' t Hp Hrt Ht). }
  destruct (decode_pass_finished _ _ _ _ _ _ H) as (ts' & starts & _ & Hne & Hg).
  destruct (group_and_locate_finished _ _ _ _ _ _ _ _ _ _ Hg)
    as (_ & _ & en & Hen & Hsm & Hn & _).
  destruct (mapM_nth _ _ _ Hen) as [Hlen _].
  destruct (scans_of_elev_nums en) as (es & Hes & _ & Hin).
  rewrite Hes in Hsm.
  split; [|split; [exact Hn|]].
  - destruct en as [|e0 en']; [destruct (radial_records d); [congruence|discriminate Hlen]|].
    assert (He : In e0 es) by (apply Hin; left; reflexivity).
    rewrite Hsm. destruct es; [destruct He|discriminate].
  - rewrite Hsm. apply Forall_forall. intros s Hs.
    apply in_map_iff in Hs. destruct Hs as (e & <- & He).
    destruct (np_where_eq_spec en e) as [_ Hw]. split.
    + apply Hin in He. apply In_nth_error in He. destruct He as [n Hn'].
      intros Hnil. assert (Hj : In (Z.of_nat n) (np_where_eq en e)).
      { apply Hw. split; [lia|]. rewrite Nat2Z.id. exact Hn'. }
      rewrite Hnil in Hj. destruct Hj.
    + apply Forall_forall. intros j Hj. apply Hw in Hj. destruct Hj as [Hj0 Hj1].
      assert (Hlt : (Z.to_nat j < length en)%nat) by (apply nth_error_Some; congruence).
      rewrite Hlen in Hlt.
      destruct (nth_error (radial_records d) (Z.to_nat j)) as [msg|] eqn:Em;
        [|apply nth_error_None in Em; lia].
      exists msg. split; [apply py_getitem_nth; assumption|].
      apply (proj1 (Forall_forall _ _) Hok). eapply nth_error_In. exact Em.
Qed.

Lemma ufunc_warnings_runtime u ops :
  Forall (fun x => exists e, x = WRuntime e u) (ufunc_warnings u ops).
Proof.
  unfold ufunc_warnings. apply Forall_forall. intros x Hx.
  apply in_map_iff in Hx. destruct Hx as (e & <- & _). exists e. reflexivity.
Qed.

(** X26: [get_data] on a decoded file.  When the records come from
    [_read_records], [get_data] for one of the seven moments, a
    non-negative [max_ngates] and all scans of a finished pass returns an
    array: it raises nothing, and the module issues no warning of its own.
    The only warnings are those of numpy for the floating-point errors of
    [data - offset] and of the division by [scale], when the data is
    scaled; with [raw_data=True], and when no first ray of a scan has the
    moment, there is none. *)
Theorem get_data_total moments bzip2 rm vcp0 rs d ev moment max_ngates raw_data :
  Forall (stored moments) (_records rs) ->
  decode_pass bzip2 rm vcp0 rs = Ok (Finished d ev) ->
  In moment moment_names ->
  0 <= max_ngates ->
  exists w r,
    get_data d moment max_ngates None raw_data = (w, Ok r) /\
    Forall (fun x => exists e u, x = WRuntime e u) w /\
    match r with
    | ScaledData _ _ => raw_data = false
    | _ => w = []
    end.
Proof.
  intros Hst H Hm Hmax.
  destruct (finished_decoder_ready _ _ _ _ _ _ _ Hst H)
    as (t & Ht & Hne & Hn & Hsc).
  unfold get_data, scans_or_all, _msg_nums.
  assert (Hscans : Forall (fun scan => exists msgs,
                     py_getitem (scan_msgs d) scan = Ok msgs /\
                     (fun s => s <> [] /\ Forall (ready_ray d t) s) msgs)
                   (py_range 0 (nscans d))).
  { apply Forall_forall. intros i Hi. apply py_range_spec in Hi. rewrite Hn in Hi.
    rewrite (py_getitem_nonneg (scan_msgs d) i) by lia.
    destruct (nth_error (scan_msgs d) (Z.to_nat i)) as [s|] eqn:Es;
      [|apply nth_error_None in Es; unfold len in Hi; lia].
    exists s. split; [reflexivity|].
    apply (proj1 (Forall_forall _ _) Hsc). eapply nth_error_In. exact Es. }
  destruct (mapM_Forall_post _ _ _ Hscans) as (arrs & Harrs & Hp & Hl).
  rewrite Harrs. cbn [rbind].
  assert (Harr : arrs <> []).
  { intros ->. cbn [length] in Hl. rewrite py_range_0_length, Hn in Hl.
    destruct (scan_msgs d); [congruence|]. unfold len in Hl. cbn [length] in Hl. lia. }
  destruct arrs as [|a0 arrs']; [congruence|].
  cbn [lift bind app]. destruct (Z.ltb_spec max_ngates 0); [lia|].
  set (msg_nums := List.concat (a0 :: arrs')).
  assert (Hrays : Forall (ready_ray d t) msg_nums).
  { unfold msg_nums. apply Forall_concat. eapply Forall_impl; [|exact Hp].
    cbn beta. intros s [_ Hs]. exact Hs. }
  destruct (fill_rows_total d moment max_ngates t Hm Ht msg_nums Hrays false U1 []
              (repeat (repeat 1 (Z.to_nat max_ngates)) (length msg_nums))
              ltac:(apply repeat_length)) as (dt' & out & ->).
  cbn [bind app fst snd].
  destruct raw_data; [eexists _, _; cbn [ret]; repeat split; constructor|].
  destruct (find_scale_offset_total d moment t Hm (py_range 0 (nscans d)))
    as (so & ->).
  { eapply Forall_impl; [|exact Hscans]. cbn beta.
    intros scan (msgs & Hg & Hne' & Hr). destruct msgs as [|j0 rest]; [congruence|].
    exists (j0 :: rest), j0. split; [exact Hg|]. split; [apply py_getitem_0|].
    inversion Hr; assumption. }
  cbn [lift bind app].
  destruct so as [[o s]|];
    [|eexists _, _; cbn [ret]; repeat split; constructor].
  unfold np_warn. cbn [bind ret app].
  eexists _, _. split; [reflexivity|]. split; [|reflexivity].
  rewrite app_nil_r. apply Forall_app. split.
  - eapply Forall_impl; [|apply ufunc_warnings_runtime]. cbn beta.
    intros x [e ->]. eauto.
  - eapply Forall_impl; [|apply ufunc_warnings_runtime]. cbn beta.
    intros x [e ->]. eauto.
Qed.

(** X26, witness: the REF data of the file with one scan of two rays.  The
    scale of its REF block is 0.0, and numpy warns of the division by
    zero. *)
Lemma get_data_total_witness :
  exists d ev r,
    decode_pass false RMAll None ref_in_first_ray = Ok (Finished d ev) /\
    get_data d "REF" 2 None false = ([WRuntime FpDivideByZero UfDivide], Ok r).
Proof.
  destruct (decode_pass false RMAll None ref_in_first_ray) as [[d ev|]|e] eqn:Hp;
    try (vm_compute in Hp; discriminate Hp).
  destruct (get_data_total MomNone false RMAll None ref_in_first_ray d ev
              "REF" 2 false) as (w & r & Hr & _).
  - constructor; [|constructor; [|constructor]]; right; unfold parsed, parse_record.
    + exists (ray_with_ref_bytes 1500 1 1 1), 0.
      destruct (_get_record_from_buf (ray_with_ref_bytes 1500 1 1 1) 0 MomNone)
        as [w [[q r]|e]] eqn:E;
        [exists w, q; reflexivity|exfalso; vm_compute in E; discriminate E].
    + exists (ray_bytes 2500 1 2 1), 0.
      destruct (_get_record_from_buf (ray_bytes 2500 1 2 1) 0 MomNone)
        as [w [[q r]|e]] eqn:E;
        [exists w, q; reflexivity|exfalso; vm_compute in E; discriminate E].
  - exact Hp.
  - left. reflexivity.
  - lia.
  - exists d, ev, r. split; [reflexivity|].
    rewrite Hr. f_equal.
    vm_compute in Hp. injection Hp as <- _.
    vm_compute in Hr. injection Hr as <- _. reflexivity.
Defined.


(** ** Collection times *)

(** Both radial headers carry the collection date, an unsigned 16-bit
    number, and the collection time in milliseconds, an unsigned 32-bit
    number. *)
Lemma radial_header_times b pos n h :
  n = SMSG_31 \/ n = SMSG_1 ->
  unpack_from_buf b pos n = Ok h ->
  exists day ms,
    get_int h "collect_date" = Ok day /\ get_int h "collect_ms" = Ok ms /\
    0 <= day < 2 ^ 16 /\ 0 <= ms < 2 ^ 32.
Proof.
  intros Hn Hu.
  assert (Hex : exists day ms, dict_get h "collect_date" = Some (PInt day) /\
                               dict_get h "collect_ms" = Some (PInt ms)).
  { pose proof (unpack_shape _ _ _ _ Hu) as Hsh. rewrite Hsh.
    generalize (slice b pos (pos + _structure_size n)). intros s.
    destruct Hn as [-> | ->];
      cbv [_structure_content _structure_format structure MSG_31 MSG_1 map fst snd
           INT1 INT2 INT4 SINT1 SINT2 REAL4 CODE1 CODE2 unpack_fields unpack_field
           combine];
      cbn [dict_get String.eqb Ascii.eqb Bool.eqb]; eexists _, _; split; reflexivity. }
  destruct Hex as (day & ms & Hd & Hm). exists day, ms.
  unfold get_int. rewrite Hd, Hm. split; [reflexivity|]. split; [reflexivity|].
  destruct (unpacked_field_lookup _ _ _ _ _ _ Hu Hd) as (f & bs & Hin & Hv & Hb).
  pose proof (unpack_field_range f bs day Hb (eq_sym Hv)) as Hr.
  destruct (unpacked_field_lookup _ _ _ _ _ _ Hu Hm) as (f' & bs' & Hin' & Hv' & Hb').
  pose proof (unpack_field_range f' bs' ms Hb' (eq_sym Hv')) as Hr'.
  destruct Hn as [-> | ->]; cbn [structure MSG_31 MSG_1 In] in Hin, Hin'.
  all: repeat (destruct Hin as [Hin|Hin]; [try discriminate Hin|]);
    [injection Hin as <-|destruct Hin].
  all: repeat (destruct Hin' as [Hin'|Hin']; [try discriminate Hin'|]);
    [injection Hin' as <-|destruct Hin'].
  all: split; [exact Hr|exact Hr'].
Qed.

Lemma parsed_radial_times moments r t :
  parsed moments r -> record_type r = Ok t -> t = 31 \/ t = 1 -> has_times r.
Proof.
  intros (b & pos & w & q & H) Ht Hcase.
  destruct (parsed_record_header _ _ _ _ _ _ H) as (header & Hu & Hd).
  assert (Hty : get_int header "type" = Ok t).
  { unfold record_type, get_attrs in Ht. rewrite Hd in Ht. exact Ht. }
  unfold _get_record_from_buf in H. rewrite Hu in H. cbn [lift bind] in H.
  rewrite Hty in H. cbn [lift bind] in H.
  assert (Hh : forall b' pos' n h,
             n = SMSG_31 \/ n = SMSG_1 ->
             unpack_from_buf b' pos' n = Ok h ->
             dict_get r "msg_header" = Some (EAttrs h) -> has_times r).
  { intros b' pos' n h Hn Hu' Hg.
    destruct (radial_header_times _ _ _ _ Hn Hu') as (day & ms & H1 & H2 & H3).
    exists day, ms. unfold msg_header_field, get_attrs. rewrite Hg. cbn [rbind].
    auto. }
  destruct Hcase as [-> | ->].
  - change (31 =? 31) with true in H. cbv iota in H.
    unfold _get_msg31_from_buf in H.
    destruct (bind (lift (get_attrs [("header"%string, EAttrs header)] "header")) _)
      as [w' [[q' r']|]] eqn:E; try discriminate H.
    cbn [app] in H. injection H as _ _ <-.
    apply bind_lift_Ok_inv in E. destruct E as (h' & _ & E).
    apply bind_lift_Ok_inv in E. destruct E as (size & _ & E).
    apply bind_lift_Ok_inv in E. destruct E as (h31 & Hu31 & E).
    apply bind_Ok_inv in E. destruct E as (w1 & dic1 & w2 & _ & E & _).
    injection E as _ _ <-.
    apply (Hh _ _ SMSG_31 h31 (or_introl eq_refl) Hu31).
    rewrite dict_get_set. reflexivity.
  - change (1 =? 31) with false in H. change (1 =? 5) with false in H.
    change (1 =? 29) with false in H. change (1 =? 1) with true in H.
    cbv iota in H.
    destruct (_get_msg1_from_buf b pos [("header"%string, EAttrs header)] MomNone)
      as [[q' r']|] eqn:E; try discriminate H.
    cbn in H. injection H as _ _ <-.
    destruct (msg1_sets_msg_header _ _ _ _ _ _ E) as (h1 & Hu1 & Hg).
    apply (Hh _ _ SMSG_1 h1 (or_intror eq_refl) Hu1 Hg).
Qed.

(** The radial records of a finished pass over stored records. *)
Lemma finished_radials_times moments bzip2 rm vcp0 rs d ev :
  Forall (stored moments) (_records rs) ->
  decode_pass bzip2 rm vcp0 rs = Ok (Finished d ev) ->
  Forall has_times (radial_records d).
Proof.
  intros Hst H.
  destruct (decode_pass_radials _ _ _ _ _ _ H) as (ts & Hts & Hrr).
  set (t := choose_msg_type ts) in *.
  assert (Ht : t = 31 \/ t = 1)
    by (unfold t, choose_msg_type; destruct (_ <? _); auto).
  rewrite Hrr. unfold records_of_type. apply Forall_forall. intros r Hr.
  apply in_map_iff in Hr. destruct Hr as ([r' ty] & <- & Hin).
  apply filter_In in Hin. destruct Hin as [Hin Hty]. cbn [fst snd] in *.
  apply Z.eqb_eq in Hty. subst ty.
  pose proof (mapM_combine_In _ _ _ _ _ Hts Hin) as Hrt.
  apply in_combine_l in Hin.
  pose proof (proj1 (Forall_forall _ _) Hst r' Hin) as [->|Hp].
  - cbn in Hrt. injection Hrt as Hrt. lia.
  - apply (parsed_radial_times moments r' t Hp Hrt Ht).
Qed.

(** The message numbers of all scans of a finished pass: there is at least
    one, and each of them is the index of a radial record. *)
Lemma finished_msg_nums moments bzip2 rm vcp0 rs d ev :
  Forall (stored moments) (_records rs) ->
  decode_pass bzip2 rm vcp0 rs = Ok (Finished d ev) ->
  exists msg_nums,
    _msg_nums d (scans_or_all d None) = Ok msg_nums /\
    msg_nums <> [] /\
    Forall (fun n => exists msg, py_getitem (radial_records d) n = Ok msg /\
                                 In msg (radial_records d)) msg_nums.
Proof.
  intros Hst H.
  destruct (finished_decoder_ready _ _ _ _ _ _ _ Hst H)
    as (t & Ht & Hne & Hn & Hsc).
  unfold scans_or_all, _msg_nums.
  assert (Hscans : Forall (fun scan => exists msgs,
                     py_getitem (scan_msgs d) scan = Ok msgs /\
                     (fun s => s <> [] /\ Forall (ready_ray d t) s) msgs)
                   (py_range 0 (nscans d))).
  { apply Forall_forall. intros i Hi. apply py_range_spec in Hi. rewrite Hn in Hi.
    rewrite (py_getitem_nonneg (scan_msgs d) i) by lia.
    destruct (nth_error (scan_msgs d) (Z.to_nat i)) as [s|] eqn:Es;
      [|apply nth_error_None in Es; unfold len in Hi; lia].
    exists s. split; [reflexivity|].
    apply (proj1 (Forall_forall _ _) Hsc). eapply nth_error_In. exact Es. }
  destruct (mapM_Forall_post _ _ _ Hscans) as (arrs & Harrs & Hp & Hl).
  rewrite Harrs. cbn [rbind].
  assert (Harr : arrs <> []).
  { intros ->. cbn [length] in Hl. rewrite py_range_0_length, Hn in Hl.
    destruct (scan_msgs d); [congruence|]. unfold len in Hl. cbn [length] in Hl. lia. }
  destruct arrs as [|a0 arrs']; [congruence|].
  exists (List.concat (a0 :: arrs')). split; [reflexivity|]. split.
  - inversion Hp as [|? ? [Ha0 _] _]; subst.
    destruct a0 as [|n a0']; [congruence|]. cbn [List.concat app]. discriminate.
  - apply Forall_concat. eapply Forall_impl; [|exact Hp].
    cbn beta. intros s [_ Hs]. eapply Forall_impl; [|exact Hs].
    cbn beta. intros n (msg & Hg & _). exists msg. split; [exact Hg|].
    revert Hg. unfold py_getitem. cbv zeta.
    destruct ((_ <? 0) || (_ <=? _))%bool; [discriminate|].
    destruct (nth_error _ _) as [x|] eqn:E; [|discriminate].
    intros [= <-]. eapply nth_error_In. exact E.
Qed.

(** X8: [get_times] on a decoded file.  When the records come from
    [_read_records], [get_times()] of a finished pass raises nothing: both
    radial headers carry [collect_date], an unsigned 16-bit number, and
    [collect_ms], an unsigned 32-bit number, for which [int(secs[0])] is
    defined.  It returns the start time, at a whole second, and one float64
    offset per ray of the scans. *)
Theorem get_times_total moments bzip2 rm vcp0 rs d ev :
  Forall (stored moments) (_records rs) ->
  decode_pass bzip2 rm vcp0 rs = Ok (Finished d ev) ->
  exists msg_nums days ms day0 ms0 times,
    _msg_nums d (scans_or_all d None) = Ok msg_nums /\
    _radial_array d (scans_or_all d None) "collect_date" = Ok days /\
    _radial_array d (scans_or_all d None) "collect_ms" = Ok ms /\
    Forall (fun x => 0 <= x < 2 ^ 16) days /\
    Forall (fun x => 0 <= x < 2 ^ 32) ms /\
    hd_error days = Some day0 /\ hd_error ms = Some ms0 /\
    get_times d None = Ok (timedelta (day0 - 1) (ms0 / 1000), times) /\
    length times = length msg_nums.
Proof.
  intros Hst H.
  pose proof (finished_radials_times _ _ _ _ _ _ _ Hst H) as Hrr.
  destruct (finished_msg_nums _ _ _ _ _ _ _ Hst H) as (msg_nums & Hmn & Hne & Hin).
  assert (Hfield : forall key (P : Z -> Prop),
    (forall r, has_times r -> exists z, msg_header_field key r = Ok z /\ P z) ->
    exists zs,
      _radial_array d (scans_or_all d None) key = Ok zs /\
      Forall P zs /\ length zs = length msg_nums).
  { intros key P HP. unfold _radial_array. rewrite Hmn. cbn [rbind].
    apply mapM_Forall_post. eapply Forall_impl; [|exact Hin].
    cbn beta. intros n (msg & Hg & Hi). rewrite Hg. cbn [rbind].
    apply HP. apply (proj1 (Forall_forall _ _) Hrr msg Hi). }
  destruct (Hfield "collect_date"%string (fun x => 0 <= x < 2 ^ 16))
    as (days & Hd & Hdr & Hdl).
  { intros r (day & ms & H1 & _ & H3 & _). eauto. }
  destruct (Hfield "collect_ms"%string (fun x => 0 <= x < 2 ^ 32))
    as (ms & Hm & Hmr & Hml).
  { intros r (day & ms & _ & H2 & _ & H4). eauto. }
  destruct msg_nums as [|n0 msg_nums']; [congruence|].
  destruct days as [|day0 days']; [discriminate Hdl|].
  destruct ms as [|ms0 ms']; [discriminate Hml|].
  exists (n0 :: msg_nums'), (day0 :: days'), (ms0 :: ms'), day0, ms0.
  eexists. split; [exact Hmn|]. split; [exact Hd|]. split; [exact Hm|].
  split; [exact Hdr|]. split; [exact Hmr|]. split; [reflexivity|].
  split; [reflexivity|].
  unfold get_times. rewrite Hd, Hm. cbn [rbind map].
  rewrite !py_getitem_0. cbn [rbind].
  rewrite (py_int_secs ms0 (Forall_inv Hmr)). cbn [rbind].
  split; [reflexivity|].
  rewrite length_map.
  change (f64_div (f64_of_Z ms0) (f64_of_Z 1000)
          :: map (fun m => f64_div (f64_of_Z m) (f64_of_Z 1000)) ms')
    with (map (fun m => f64_div (f64_of_Z m) (f64_of_Z 1000)) (ms0 :: ms')).
  rewrite length_combine, length_map, Hdl, Hml. apply Nat.min_id.
Qed.

(** X8, witness: the file with one scan of two rays, collected 1.5 s and
    2.5 s after midnight of day 1. *)
Lemma get_times_total_witness :
  exists d ev times,
    decode_pass false RMAll None ref_in_first_ray = Ok (Finished d ev) /\
    get_times d None = Ok (1000000, times) /\ length times = 2%nat.
Proof.
  destruct (decode_pass false RMAll None ref_in_first_ray) as [[d ev|]|e] eqn:Hp;
    try (vm_compute in Hp; discriminate Hp).
  destruct (get_times_total MomNone false RMAll None ref_in_first_ray d ev)
    as (mn & days & ms & day0 & ms0 & times & Hmn & Hd & Hm & _ & _ & Hd0 & Hm0
        & Hg & Hl).
  - constructor; [|constructor; [|constructor]]; right; unfold parsed, parse_record.
    + exists (ray_with_ref_bytes 1500 1 1 1), 0.
      destruct (_get_record_from_buf (ray_with_ref_bytes 1500 1 1 1) 0 MomNone)
        as [w [[q r]|e]] eqn:E;
        [exists w, q; reflexivity|exfalso; vm_compute in E; discriminate E].
    + exists (ray_bytes 2500 1 2 1), 0.
      destruct (_get_record_from_buf (ray_bytes 2500 1 2 1) 0 MomNone)
        as [w [[q r]|e]] eqn:E;
        [exists w, q; reflexivity|exfalso; vm_compute in E; discriminate E].
  - exact Hp.
  - exists d, ev, times. split; [reflexivity|].
    assert (E : mn = [0; 1] /\ day0 = 1 /\ ms0 = 1500).
    { vm_compute in Hp. injection Hp as <- _.
      vm_compute in Hmn. injection Hmn as <-.
      vm_compute in Hd. injection Hd as <-.
      vm_compute in Hm. injection Hm as <-.
      injection Hd0 as <-. injection Hm0 as <-. auto. }
    destruct E as (-> & -> & ->). split; [exact Hg|exact Hl].
Defined.
